(** * x2node-validators: record validation and normalization

  A shallow embedding of the traversal engine ([lib/record-normalizer.js]),
  the validation context ([lib/validation-context.js]), the errors object
  ([lib/validation-errors.js]), the message resolver
  ([lib/message-resolver.js]) and the standard rules the specification
  talks about ([lib/standard.js]: [isEmpty], [required], [empty],
  [rangeDef]).

  The record is a graph of JavaScript objects: it is modelled as a store of
  objects addressed by references, so that a write through one reference is
  seen through every other one and [===] on objects is identity.  Numbers
  are IEEE 754 binary64 values, strings are byte strings. *)

From Stdlib Require Import ZArith List Ascii String PrimFloat Bool Lia.
From stdpp Require Import gmap strings list fin_maps pretty.

Set Warnings "-register-all".
Open Scope string_scope.
Open Scope list_scope.

(* ===================================================================== *)
(** ** JavaScript values and objects *)
(* ===================================================================== *)

Module Js.

(** References to objects of the store. *)
Abbreviation loc := positive.

Inductive value : Type :=
| VUndefined
| VNull
| VBool (b : bool)
| VNumber (x : float)
| VString (s : string)
| VObject (l : loc).

(** An object is its own enumerable properties, in the enumeration order of
    [Object.keys] and [for ... in]; an array is an object whose elements sit
    under the decimal index keys and which carries its [length]. *)
Record JsObject : Type := mkObject {
  arrayLength : option nat;
  ownProps : list (string * value)
}.

Abbreviation heap := (gmap loc JsObject).

Inductive JsType : Type :=
| TyUndefined | TyObject | TyBoolean | TyNumber | TyString.

(** [typeof v]; [typeof null] is ['object']. *)
Definition typeof (v : value) : JsType :=
  match v with
  | VUndefined => TyUndefined
  | VNull => TyObject
  | VBool _ => TyBoolean
  | VNumber _ => TyNumber
  | VString _ => TyString
  | VObject _ => TyObject
  end.

Definition isTyObject (t : JsType) : bool :=
  match t with TyObject => true | _ => false end.

Definition isTyString (t : JsType) : bool :=
  match t with TyString => true | _ => false end.

(** [a === b]: numbers compare as IEEE values (a NaN differs from itself,
    the two zeros are equal), objects by reference. *)
Definition strictEq (a b : value) : bool :=
  match a, b with
  | VUndefined, VUndefined => true
  | VNull, VNull => true
  | VBool x, VBool y => Bool.eqb x y
  | VNumber x, VNumber y => PrimFloat.eqb x y
  | VString s, VString t => String.eqb s t
  | VObject l, VObject l' => Pos.eqb l l'
  | _, _ => false
  end.

(** [a !== b] *)
Definition strictNeq (a b : value) : bool := negb (strictEq a b).

(** [(v === undefined) || (v === null)] *)
Definition isNullish (v : value) : bool :=
  match v with VUndefined | VNull => true | _ => false end.

Fixpoint assoc {A : Type} (key : string) (l : list (string * A)) : option A :=
  match l with
  | [] => None
  | (k, x) :: r => if String.eqb k key then Some x else assoc key r
  end.

Fixpoint assocSet {A : Type} (key : string) (x : A) (l : list (string * A))
  : list (string * A) :=
  match l with
  | [] => [(key, x)]
  | (k, y) :: r =>
      if String.eqb k key then (k, x) :: r else (k, y) :: assocSet key x r
  end.

(** [obj[key]] on a reference: an absent property reads [undefined]. *)
Definition getProp (h : heap) (l : loc) (key : string) : value :=
  match h !! l with
  | Some o => match assoc key (ownProps o) with
              | Some v => v
              | None => VUndefined
              end
  | None => VUndefined
  end.

(** [obj[key] = v] *)
Definition setProp (h : heap) (l : loc) (key : string) (v : value) : heap :=
  match h !! l with
  | Some o => <[l := mkObject (arrayLength o) (assocSet key v (ownProps o))]> h
  | None => h
  end.

(** [Array.isArray(v)] *)
Definition isArray (h : heap) (v : value) : bool :=
  match v with
  | VObject l => match h !! l with
                 | Some o => match arrayLength o with Some _ => true | None => false end
                 | None => false
                 end
  | _ => false
  end.

(** [arr.length] of an array reference. *)
Definition lengthOf (h : heap) (l : loc) : nat :=
  match h !! l with
  | Some o => match arrayLength o with Some n => n | None => 0 end
  | None => 0
  end.

(** [Object.keys(obj)] *)
Definition keysOf (h : heap) (l : loc) : list string :=
  match h !! l with
  | Some o => map fst (ownProps o)
  | None => []
  end.

(** [String(i)] for an array index. *)
Definition indexKey (i : nat) : string := pretty i.

(** An array literal [[v0, v1, ...]] as an object. *)
Definition arrayOf (vs : list value) : JsObject :=
  mkObject (Some (length vs))
           (imap (fun i v => (indexKey i, v)) vs).

(** An object literal. *)
Definition objectOf (props : list (string * value)) : JsObject :=
  mkObject None props.

End Js.
Export Js.

(* ===================================================================== *)
(** ** String operations of the host language *)
(* ===================================================================== *)

Module JsString.

(** [\s] on byte strings: tab, line feed, vertical tab, form feed, carriage
    return and space. *)
Definition isSpace (c : ascii) : bool :=
  match nat_of_ascii c with
  | 9 | 10 | 11 | 12 | 13 | 32 => true
  | _ => false
  end.

(** The line terminators the pattern [.] does not match. *)
Definition isLineTerminator (c : ascii) : bool :=
  match nat_of_ascii c with
  | 10 | 13 => true
  | _ => false
  end.

Definition isEmptyString (s : string) : bool :=
  match s with EmptyString => true | _ => false end.

Fixpoint trimStart (s : string) : string :=
  match s with
  | EmptyString => EmptyString
  | String c r => if isSpace c then trimStart r else s
  end.

Fixpoint trimEnd (s : string) : string :=
  match s with
  | EmptyString => EmptyString
  | String c r =>
      let r' := trimEnd r in
      if isSpace c && isEmptyString r' then EmptyString else String c r'
  end.

(** [s.trim()], also [s.replace(/^\s+|\s+$/g, '')] *)
Definition trim (s : string) : string := trimEnd (trimStart s).

Definition isComma (c : ascii) : bool := Ascii.eqb c ","%char.

(** [s.split(/\s*,\s*/)]: the first piece and the following ones.  A
    separator is a comma with the white space around it; white space that
    no comma follows stays in its piece. *)
Fixpoint splitCommaAux (s : string) : string * list string :=
  match s with
  | EmptyString => (EmptyString, [])
  | String c r =>
      let '(p, ps) := splitCommaAux r in
      if isComma c then (EmptyString, trimStart p :: ps)
      else if isSpace c && isEmptyString p && negb (match ps with [] => true | _ => false end)
           then (EmptyString, ps)
           else (String c p, ps)
  end.

Definition splitComma (s : string) : list string :=
  let '(p, ps) := splitCommaAux s in p :: ps.

(** [s.startsWith(p)] *)
Definition startsWith (p s : string) : bool := String.prefix p s.

(** [s.substring(n)] *)
Definition substringFrom (n : nat) (s : string) : string :=
  String.substring n (String.length s - n) s.

Definition lowerChar (c : ascii) : ascii :=
  let n := nat_of_ascii c in
  if (65 <=? n)%nat && (n <=? 90)%nat then ascii_of_nat (n + 32) else c.

Definition upperChar (c : ascii) : ascii :=
  let n := nat_of_ascii c in
  if (97 <=? n)%nat && (n <=? 122)%nat then ascii_of_nat (n - 32) else c.

Fixpoint mapString (f : ascii -> ascii) (s : string) : string :=
  match s with
  | EmptyString => EmptyString
  | String c r => String (f c) (mapString f r)
  end.

(** [s.toLowerCase()] on the ASCII letters. *)
Definition toLowerCase (s : string) : string := mapString lowerChar s.

(** [s.charAt(0).toUpperCase() + s.substring(1)] *)
Definition capitalize (s : string) : string :=
  match s with
  | EmptyString => EmptyString
  | String c r => String (upperChar c) r
  end.

Fixpoint existsChar (f : ascii -> bool) (s : string) : bool :=
  match s with
  | EmptyString => false
  | String c r => f c || existsChar f r
  end.

(** The first occurrence of [pat] in [s]: what precedes it and what
    follows it. *)
Fixpoint splitAtFirst (pat s : string) : option (string * string) :=
  if String.prefix pat s
  then Some (EmptyString, substringFrom (String.length pat) s)
  else match s with
       | EmptyString => None
       | String c r =>
           match splitAtFirst pat r with
           | Some (pre, post) => Some (String c pre, post)
           | None => None
           end
       end.

End JsString.
Export JsString.

(* ===================================================================== *)
(** ** [Number(s)] on the literals a weight can be written with *)
(* ===================================================================== *)

Module JsNumber.

Definition digitOf (c : ascii) : option nat :=
  let n := nat_of_ascii c in
  if (48 <=? n)%nat && (n <=? 57)%nat then Some (n - 48) else None.

(** The longest prefix of decimal digits, and the rest. *)
Fixpoint takeDigits (s : string) : list nat * string :=
  match s with
  | EmptyString => ([], EmptyString)
  | String c r =>
      match digitOf c with
      | Some d => let '(ds, rest) := takeDigits r in (d :: ds, rest)
      | None => ([], s)
      end
  end.

Definition floatOfDigit (d : nat) : float :=
  match d with
  | 0 => 0 | 1 => 1 | 2 => 2 | 3 => 3 | 4 => 4
  | 5 => 5 | 6 => 6 | 7 => 7 | 8 => 8 | _ => 9
  end%float.

(** The digits read in base ten, in binary64 arithmetic: exact up to 2^53. *)
Definition floatOfDigits (ds : list nat) : float :=
  fold_left (fun acc d => (acc * 10 + floatOfDigit d)%float) ds 0%float.

Definition natOfDigits (ds : list nat) : nat :=
  fold_left (fun acc d => (acc * 10 + d)%nat) ds 0%nat.

Fixpoint pow10 (n : nat) : float :=
  match n with
  | O => 1%float
  | S k => (10 * pow10 k)%float
  end.

(** [m * 10^(e - f)], with one rounding for a short mantissa and a small
    exponent. *)
Definition scale10 (m : float) (e : Z) : float :=
  if (0 <=? e)%Z then (m * pow10 (Z.to_nat e))%float
  else (m / pow10 (Z.to_nat (- e)))%float.

(** The optional exponent part [e[+-]digits]; [None] when what follows the
    mantissa is not one. *)
Definition parseExponent (s : string) : option Z :=
  match s with
  | EmptyString => Some 0%Z
  | String c r =>
      if Ascii.eqb c "e"%char || Ascii.eqb c "E"%char then
        let '(neg, r1) :=
          match r with
          | String "+"%char r' => (false, r')
          | String "-"%char r' => (true, r')
          | _ => (false, r)
          end in
        match takeDigits r1 with
        | (d :: ds, EmptyString) =>
            let n := Z.of_nat (natOfDigits (d :: ds)) in
            Some (if neg then (- n)%Z else n)
        | _ => None
        end
      else None
  end.

(** An unsigned decimal literal: [digits], [digits.], [digits.digits],
    [.digits], each with an optional exponent, or [Infinity]. *)
Definition parseUnsigned (s : string) : float :=
  if String.eqb s "Infinity" then infinity
  else
    let '(ints, r1) := takeDigits s in
    let '(fracs, r2) :=
      match r1 with
      | String "."%char r' => takeDigits r'
      | _ => ([], r1)
      end in
    match ints, fracs with
    | [], [] => nan
    | _, _ =>
        match parseExponent r2 with
        | Some e => scale10 (floatOfDigits (ints ++ fracs))
                            (e - Z.of_nat (length fracs))
        | None => nan
        end
    end.

(** [Number(s)] for a decimal literal with an optional sign, surrounded by
    optional white space; the empty string is [0], anything else is [NaN].
    (Literals in another radix, [0x..], [0o..], [0b..], are not weights
    anybody writes and read as [NaN] here.) *)
Definition Number (s : string) : float :=
  match trim s with
  | EmptyString => 0%float
  | String "+"%char r => parseUnsigned r
  | String "-"%char r => (- parseUnsigned r)%float
  | t => parseUnsigned t
  end.

End JsNumber.

(* ===================================================================== *)
(** ** lib/message-resolver.js *)
(* ===================================================================== *)

(** A message template, or a title: a string, or an object of templates by
    language code.  Such an object has at least one entry. *)
Inductive MessageTemplates : Type :=
| TmplString (s : string)
| TmplByLang (first : string * string) (others : list (string * string)).

(** A messages store: templates by message id.  Every store inherits the
    entry ['*'] of the standard messages. *)
Record MessagesStore : Type := mkMessagesStore {
  messagesById : list (string * MessageTemplates);
  messagesWildcard : MessageTemplates
}.

(** Message parameters: the values already as [String(...)] renders them. *)
Definition MessageParams : Type := list (string * string).

Module MessageResolver.

Record LangPref : Type := mkLangPref { lang : string; qvalue : float }.

(** The [l.match(...)] of the constructor, a lazy group for the tag and an
    optional group for the weight after [;q=]: the tag is what precedes the
    first [;q=], the weight what follows it.  The dot matches no line
    terminator, so on a piece that holds one the match is [null]. *)
Definition parseLang (l : string) : option LangPref :=
  if existsChar isLineTerminator l then None
  else match splitAtFirst ";q=" l with
       | Some (tag, q) => Some (mkLangPref tag (JsNumber.Number q))
       | None => Some (mkLangPref l 1%float)
       end.

(** [.map(l => ...)] with a callback that may raise. *)
Fixpoint parseLangs (ls : list string) : option (list LangPref) :=
  match ls with
  | [] => Some []
  | l :: r =>
      match parseLang l, parseLangs r with
      | Some x, Some xs => Some (x :: xs)
      | _, _ => None
      end
  end.

(** The comparison function given to [.sort]. *)
Definition compareQvalue (l1 l2 : LangPref) : Z :=
  if (qvalue l1 <? qvalue l2)%float then (-1)%Z
  else if (qvalue l2 <? qvalue l1)%float then 1%Z
  else 0%Z.

Fixpoint insertSorted {A : Type} (cmp : A -> A -> Z) (x : A) (l : list A) : list A :=
  match l with
  | [] => [x]
  | y :: r => if (cmp x y <=? 0)%Z then x :: l else y :: insertSorted cmp x r
  end.

(** [Array.prototype.sort], which is stable. *)
Definition sortBy {A : Type} (cmp : A -> A -> Z) (l : list A) : list A :=
  fold_right (insertSorted cmp) [] l.

(** The filter of the constructor: not the wildcard, weight above zero. *)
Definition keepLang (l : LangPref) : bool :=
  negb (String.eqb (lang l) "*") && (0 <? qvalue l)%float.

(** [new MessageResolver(lang)]: the list [_langs], or [None] when the
    constructor raises. *)
Definition create (langSpec : string) : option (list string) :=
  match parseLangs (splitComma (trim langSpec)) with
  | Some prefs =>
      Some (map (fun l => toLowerCase (lang l))
                (sortBy compareQvalue (List.filter keepLang prefs)))
  | None => None
  end.

Definition templatesOf (t : string * string) (ts : list (string * string))
  : list (string * string) := t :: ts.

(** The first loop of [_findMessageTemplate]. *)
Fixpoint findByLangs (langs : list string) (tmpls : list (string * string))
  : option string :=
  match langs with
  | [] => None
  | l :: r =>
      match assoc l tmpls with
      | Some t => if isEmptyString t then findByLangs r tmpls else Some t
      | None => findByLangs r tmpls
      end
  end.

Definition _findMessageTemplate (langs : list string)
  (first : string * string) (others : list (string * string)) : string :=
  match findByLangs langs (first :: others) with
  | Some t => t
  | None => snd first
  end.

(** [params[name]] rendered by [String]. *)
Definition paramString (params : MessageParams) (name : string) : string :=
  match assoc name params with
  | Some v => v
  | None => "undefined"
  end.

(** The name of a placeholder whose ["${"] has just been read: the
    characters up to the first ["}"], at least one, and what follows. *)
Fixpoint placeholderName (s : string) : option (string * string) :=
  match s with
  | EmptyString => None
  | String c r =>
      if Ascii.eqb c "}"%char then Some (EmptyString, r)
      else match placeholderName r with
           | Some (n, rest) => Some (String c n, rest)
           | None => None
           end
  end.

(** [_replaceParams]: every placeholder, a dollar sign and a non-empty name
    in braces, replaced by its parameter.  [fuel] bounds the number of
    characters looked at. *)
Fixpoint replaceParamsFuel (fuel : nat) (params : MessageParams) (s : string)
  : string :=
  match fuel with
  | O => s
  | S fuel' =>
      match s with
      | EmptyString => EmptyString
      | String c r =>
          match (if String.prefix "${" s then placeholderName (substringFrom 2 s)
                 else None) with
          | Some (String n0 ns, rest) =>
              paramString params (String n0 ns)
                +:+ replaceParamsFuel fuel' params rest
          | _ => String c (replaceParamsFuel fuel' params r)
          end
      end
  end.

Definition _replaceParams (messageTmpl : string) (params : MessageParams)
  : string :=
  replaceParamsFuel (String.length messageTmpl) params messageTmpl.

(** [renderMessage(messageTmpls, params)] *)
Definition renderMessage (langs : list string) (messageTmpls : MessageTemplates)
  (params : option MessageParams) : string :=
  let messageTmpl :=
    match messageTmpls with
    | TmplString s => s
    | TmplByLang first others => _findMessageTemplate langs first others
    end in
  match params with
  | Some ps => _replaceParams messageTmpl ps
  | None => messageTmpl
  end.

(** The test of [getMessage] for a message id: an opening brace, at least
    one character other than a line terminator, a closing brace. *)
Definition isMessageId (message : string) : bool :=
  match message with
  | String "{"%char r =>
      (2 <=? String.length r)%nat
      && String.eqb (substringFrom (String.length r - 1) r) "}"
      && negb (existsChar isLineTerminator
                 (String.substring 0 (String.length r - 1) r))
  | _ => false
  end.

(** A template that JavaScript takes for false in [a || b]. *)
Definition isFalsyTemplate (t : MessageTemplates) : bool :=
  match t with
  | TmplString s => isEmptyString s
  | TmplByLang _ _ => false
  end.

(** [messagesStore[id] || messagesStore['*']] *)
Definition lookupMessage (store : MessagesStore) (id : string) : MessageTemplates :=
  match assoc id (messagesById store) with
  | Some t => if isFalsyTemplate t then messagesWildcard store else t
  | None => messagesWildcard store
  end.

(** [getMessage(messagesStore, message, params)] *)
Definition getMessage (langs : list string) (store : MessagesStore)
  (message : string) (params : option MessageParams) : string :=
  let messageTmpls :=
    if isMessageId message
    then lookupMessage store
           (String.substring 1 (String.length message - 2) message)
    else TmplString message in
  renderMessage langs messageTmpls params.

End MessageResolver.


(* ===================================================================== *)
(** ** Descriptors of x2node-records, as far as the module reads them *)
(* ===================================================================== *)

(** [isScalar()], [isArray()], [isMap()]: exactly one of them holds. *)
Inductive Structure : Type := ScalarProp | ArrayProp | MapProp.

(** A properties container: a record type, or the nested properties of an
    object property.  [properties] lists, for each name of
    [allPropertyNames] in definition order, what [getPropertyDesc] gives. *)
Record PropertiesContainer (P : Type) : Type := mkContainer {
  isPolymorphObject : bool;
  typePropertyName : string;
  properties : list P
}.
Arguments mkContainer {P}.
Arguments isPolymorphObject {P}.
Arguments typePropertyName {P}.
Arguments properties {P}.

(** What [index.js] adds to a record type or property descriptor: the title,
    the messages, and the rule functions by validation set ([null] when the
    subject has none).  [V] is the type of a rule function. *)
Record WithValidators (V : Type) : Type := mkWithValidators {
  title : MessageTemplates;
  validationErrorMessages : MessagesStore;
  validators : option (list (string * list V))
}.
Arguments mkWithValidators {V}.
Arguments title {V}.
Arguments validationErrorMessages {V}.
Arguments validators {V}.

(** A property descriptor.  A property that holds no nested object has an
    empty container of nested properties. *)
Inductive PropertyDescriptor (V : Type) : Type := mkPropertyDescriptor {
  name : string;
  isView : bool;
  isSubtype : bool;
  structure : Structure;
  scalarValueType : string;
  subject : WithValidators V;
  nestedProperties : PropertiesContainer (PropertyDescriptor V)
}.
Arguments mkPropertyDescriptor {V}.
Arguments name {V}.
Arguments isView {V}.
Arguments isSubtype {V}.
Arguments structure {V}.
Arguments scalarValueType {V}.
Arguments subject {V}.
Arguments nestedProperties {V}.

Record RecordTypeDescriptor (V : Type) : Type := mkRecordTypeDescriptor {
  recordProperties : PropertiesContainer (PropertyDescriptor V);
  recordSubject : WithValidators V
}.
Arguments mkRecordTypeDescriptor {V}.
Arguments recordProperties {V}.
Arguments recordSubject {V}.

Definition isArrayProp {V} (p : PropertyDescriptor V) : bool :=
  match structure p with ArrayProp => true | _ => false end.

Definition isMapProp {V} (p : PropertyDescriptor V) : bool :=
  match structure p with MapProp => true | _ => false end.

Definition isScalarProp {V} (p : PropertyDescriptor V) : bool :=
  match structure p with ScalarProp => true | _ => false end.

(** [container.getPropertyDesc(propName)], when the container has it. *)
Definition getPropertyDesc {V} (c : PropertiesContainer (PropertyDescriptor V))
  (propName : string) : option (PropertyDescriptor V) :=
  List.find (fun p => String.eqb (name p) propName) (properties c).

(** [container.hasProperty(propName)] *)
Definition hasProperty {V} (c : PropertiesContainer (PropertyDescriptor V))
  (propName : string) : bool :=
  match getPropertyDesc c propName with Some _ => true | None => false end.

(** The descriptors as a rule function sees them through the context: the
    same tree without the rule functions. *)
Definition forgetSubject {V} (s : WithValidators V) : WithValidators unit :=
  mkWithValidators (title s) (validationErrorMessages s)
    (match validators s with
     | Some sets => Some (map (fun e => (fst e, map (fun _ => tt) (snd e))) sets)
     | None => None
     end).

Fixpoint forgetProperty {V} (p : PropertyDescriptor V) : PropertyDescriptor unit :=
  mkPropertyDescriptor (name p) (isView p) (isSubtype p) (structure p)
    (scalarValueType p) (forgetSubject (subject p))
    (mkContainer (isPolymorphObject (nestedProperties p))
                 (typePropertyName (nestedProperties p))
                 (map forgetProperty (properties (nestedProperties p)))).

Definition forgetContainer {V} (c : PropertiesContainer (PropertyDescriptor V))
  : PropertiesContainer (PropertyDescriptor unit) :=
  mkContainer (isPolymorphObject c) (typePropertyName c)
              (map forgetProperty (properties c)).

Definition forgetRecordType {V} (d : RecordTypeDescriptor V)
  : RecordTypeDescriptor unit :=
  mkRecordTypeDescriptor (forgetContainer (recordProperties d))
                         (forgetSubject (recordSubject d)).

(* ===================================================================== *)
(** ** Record element pointers (x2node-pointers) *)
(* ===================================================================== *)

Module Pointers.

(** Modelled from the spec: x2node-pointers is another package.  A pointer
    is the path of its tokens from the record, the descriptor of the
    property it leads to ([null] for the record) and whether it points at an
    element of a collection.  The package raises on a token that names no
    property; the traversal only descends with names it took from the
    descriptors, and here such a pointer is left without a descriptor. *)
Record RecordElementPointer : Type := mkPointer {
  ptrRecordType : RecordTypeDescriptor unit;
  ptrTokens : list string;
  propDesc : option (PropertyDescriptor unit);
  collectionElement : bool
}.

(** [ptr.toString()]: every token after a slash, nothing for the record. *)
Fixpoint joinTokens (tokens : list string) : string :=
  match tokens with
  | [] => EmptyString
  | t :: r => "/" +:+ t +:+ joinTokens r
  end.

Definition toString (p : RecordElementPointer) : string :=
  joinTokens (ptrTokens p).

(** The property a child token names in a container: the property of that
    name, or for a token [Subtype:name] the property [name] of the subtype. *)
Definition childDesc (c : PropertiesContainer (PropertyDescriptor unit))
  (token : string) : option (PropertyDescriptor unit) :=
  match getPropertyDesc c token with
  | Some p => Some p
  | None =>
      match splitAtFirst ":" token with
      | Some (sub, prop) =>
          match getPropertyDesc c sub with
          | Some sp => if isSubtype sp
                       then getPropertyDesc (nestedProperties sp) prop
                       else None
          | None => None
          end
      | None => None
      end
  end.

(** [ptr.createChildPointer(token)] *)
Definition createChildPointer (p : RecordElementPointer) (token : string)
  : RecordElementPointer :=
  match propDesc p with
  | Some pd =>
      if negb (isScalarProp pd) && negb (collectionElement p)
      then mkPointer (ptrRecordType p) (ptrTokens p ++ [token]) (Some pd) true
      else mkPointer (ptrRecordType p) (ptrTokens p ++ [token])
                     (childDesc (nestedProperties pd) token) false
  | None =>
      mkPointer (ptrRecordType p) (ptrTokens p ++ [token])
                (childDesc (recordProperties (ptrRecordType p)) token) false
  end.

(** The pieces of a string between slashes. *)
Fixpoint splitSlash (s : string) : string * list string :=
  match s with
  | EmptyString => (EmptyString, [])
  | String c r =>
      let '(p, ps) := splitSlash r in
      if Ascii.eqb c "/"%char then (EmptyString, p :: ps) else (String c p, ps)
  end.

Definition rootPointer (recordTypeDesc : RecordTypeDescriptor unit)
  : RecordElementPointer :=
  mkPointer recordTypeDesc [] None false.

(** [pointers.parse(recordTypeDesc, str)]: the tokens after each slash,
    resolved from the record type. *)
Definition parse (recordTypeDesc : RecordTypeDescriptor unit) (str : string)
  : RecordElementPointer :=
  fold_left createChildPointer (snd (splitSlash str)) (rootPointer recordTypeDesc).

End Pointers.
Export Pointers.

(* ===================================================================== *)
(** ** lib/validation-errors.js *)
(* ===================================================================== *)

Module ValidationErrors.

(** The errors object: its own properties are the pointers, the values the
    arrays of messages. *)
Abbreviation t := (gmap string (list string)).

Definition empty : t := ∅.

(** [addError(ptr, message)], on the string of the pointer. *)
Definition addError (errs : t) (errorKey : string) (message : string) : t :=
  match errs !! errorKey with
  | Some errors => <[errorKey := errors ++ [message]]> errs
  | None => <[errorKey := [message]]> errs
  end.

(** [hasErrors(ptr)] *)
Definition hasErrors (errs : t) (errorKey : string) : bool :=
  match errs !! errorKey with
  | Some errors => (0 <? length errors)%nat
  | None => false
  end.

(** [isEmpty()] *)
Definition isEmpty (errs : t) : bool := (size errs =? 0)%nat.

End ValidationErrors.

(* ===================================================================== *)
(** ** lib/validation-context.js *)
(* ===================================================================== *)

(** A pointer argument of the context's methods: a JSON pointer string or a
    pointer object. *)
Inductive PointerArg : Type :=
| PtrString (s : string)
| PtrObject (p : RecordElementPointer).

Definition pointerArgString (ptr : PointerArg) : string :=
  match ptr with
  | PtrString s => s
  | PtrObject p => toString p
  end.

Record ValidationContext : Type := mkContext {
  _recordTypes : string -> option (RecordTypeDescriptor unit);
  _recordTypeDesc : RecordTypeDescriptor unit;
  _messageResolver : list string;
  _validationSets : gset string;
  _curPointer : RecordElementPointer;
  _pointerStack : list RecordElementPointer;
  _containersChain : list value;
  _result : gmap string (list string)
}.

Module Context.

(** [new ValidationContext(recordTypes, recordTypeDesc, messageResolver,
    validationSets)] *)
Definition create (recordTypes : string -> option (RecordTypeDescriptor unit))
  (recordTypeDesc : RecordTypeDescriptor unit) (messageResolver : list string)
  (validationSets : gset string) : ValidationContext :=
  mkContext recordTypes recordTypeDesc messageResolver validationSets
            (parse recordTypeDesc "") [] [] ValidationErrors.empty.

Definition setPosition (ctx : ValidationContext) (cur : RecordElementPointer)
  (stack : list RecordElementPointer) (chain : list value) : ValidationContext :=
  mkContext (_recordTypes ctx) (_recordTypeDesc ctx) (_messageResolver ctx)
            (_validationSets ctx) cur stack chain (_result ctx).

Definition setResult (ctx : ValidationContext) (errs : gmap string (list string))
  : ValidationContext :=
  mkContext (_recordTypes ctx) (_recordTypeDesc ctx) (_messageResolver ctx)
            (_validationSets ctx) (_curPointer ctx) (_pointerStack ctx)
            (_containersChain ctx) errs.

(** [descend(pointerToken, containerObj)] *)
Definition descend (ctx : ValidationContext) (pointerToken : string)
  (containerObj : value) : ValidationContext :=
  setPosition ctx
    (createChildPointer (_curPointer ctx) pointerToken)
    (_pointerStack ctx ++ [_curPointer ctx])
    (_containersChain ctx ++ [containerObj]).

(** [ascend()].  On an empty stack [pop] gives [undefined]; the traversal
    never ascends there, and the pointer is left as it is. *)
Definition ascend (ctx : ValidationContext) : ValidationContext :=
  setPosition ctx
    (List.last (_pointerStack ctx) (_curPointer ctx))
    (removelast (_pointerStack ctx))
    (removelast (_containersChain ctx)).

(** [isValidationSet(setId)] *)
Definition isValidationSet (ctx : ValidationContext) (setId : string) : bool :=
  bool_decide (setId ∈ _validationSets ctx).

Definition currentPointer (ctx : ValidationContext) : RecordElementPointer :=
  _curPointer ctx.

Definition currentPropDesc (ctx : ValidationContext)
  : option (PropertyDescriptor unit) :=
  propDesc (_curPointer ctx).

Definition containersChain (ctx : ValidationContext) : list value :=
  _containersChain ctx.

Definition recordTypeDesc (ctx : ValidationContext) : RecordTypeDescriptor unit :=
  _recordTypeDesc ctx.

(** The descriptor a pointer argument is about: the property's, or the
    record type's when the pointer has no property. *)
Definition subjectAt (ctx : ValidationContext) (ptr : PointerArg)
  : WithValidators unit :=
  let propPtr :=
    match ptr with
    | PtrString s => parse (_recordTypeDesc ctx) s
    | PtrObject p => p
    end in
  match propDesc propPtr with
  | None => recordSubject (_recordTypeDesc ctx)
  | Some pd => subject pd
  end.

(** [getElementTitle(ptr)] *)
Definition getElementTitle (ctx : ValidationContext) (ptr : PointerArg) : string :=
  MessageResolver.renderMessage (_messageResolver ctx)
    (title (subjectAt ctx ptr)) None.

(** The message [addErrorFor] hands to the errors object. *)
Definition errorMessage (ctx : ValidationContext) (ptr : PointerArg)
  (message : string) (params : option MessageParams) : string :=
  let subjDesc := subjectAt ctx ptr in
  let title := MessageResolver.renderMessage (_messageResolver ctx)
                 (title subjDesc) None in
  let paramsWithTitle :=
    ("field", title) :: ("Field", capitalize title)
      :: match params with Some ps => ps | None => [] end in
  MessageResolver.getMessage (_messageResolver ctx)
    (validationErrorMessages subjDesc) message (Some paramsWithTitle).

(** [addErrorFor(ptr, message, params)] *)
Definition addErrorFor (ctx : ValidationContext) (ptr : PointerArg)
  (message : string) (params : option MessageParams) : ValidationContext :=
  setResult ctx
    (ValidationErrors.addError (_result ctx) (pointerArgString ptr)
       (errorMessage ctx ptr message params)).

(** [addError(message, params)] *)
Definition addError (ctx : ValidationContext) (message : string)
  (params : option MessageParams) : ValidationContext :=
  addErrorFor ctx (PtrObject (_curPointer ctx)) message params.

(** [hasErrorsFor(ptr)] *)
Definition hasErrorsFor (ctx : ValidationContext) (ptr : PointerArg) : bool :=
  ValidationErrors.hasErrors (_result ctx) (pointerArgString ptr).

(** [isEmpty(val)] *)
Definition isEmpty (val : value) : bool :=
  match val with
  | VUndefined => true
  | VNull => true
  | _ => false
  end.

(** [getResult()]: the errors, or [null] if none. *)
Definition getResult (ctx : ValidationContext) : option (gmap string (list string)) :=
  if ValidationErrors.isEmpty (_result ctx) then None else Some (_result ctx).

End Context.

(* ===================================================================== *)
(** ** Rule functions *)
(* ===================================================================== *)

(** A curried validator [(ctx, value) => value]: it reads the record and the
    context, reports errors through the context, and returns the value or a
    normalized one. *)
Inductive Rule : Type :=
| Return (v : value)
| Observe (k : heap -> ValidationContext -> Rule)
| AddErrorFor (ptr : PointerArg) (message : string)
              (params : option MessageParams) (k : Rule).

Definition curriedValidator : Type := value -> Rule.

(** [ctx.addError(message, params)] followed by [k]. *)
Definition AddError (message : string) (params : option MessageParams) (k : Rule)
  : Rule :=
  Observe (fun _ ctx => AddErrorFor (PtrObject (Context.currentPointer ctx))
                                    message params k).

(* ===================================================================== *)
(** ** The run of the engine, with what it did *)
(* ===================================================================== *)

Inductive ChainKind : Type :=
| RecordChain | SubtypeChain | PropertyChain | ElementChain.

(** What happened, in order: a rule function called at a pointer, an error
    handed to the errors object, a property or an element assigned. *)
Inductive Event : Type :=
| EvCall (kind : ChainKind) (ptr : string) (arg : value)
| EvError (errorKey : string) (message : string)
| EvAssign (target : loc) (key : string) (v : value).

Record State : Type := mkState {
  heapOf : heap;
  ctxOf : ValidationContext;
  traceOf : list Event
}.

Definition withCtx (st : State) (ctx : ValidationContext) : State :=
  mkState (heapOf st) ctx (traceOf st).

Definition logEvent (e : Event) (st : State) : State :=
  mkState (heapOf st) (ctxOf st) (traceOf st ++ [e]).

(** [ctx.addErrorFor(ptr, message, params)] in a run. *)
Definition addErrorForSt (ptr : PointerArg) (message : string)
  (params : option MessageParams) (st : State) : State :=
  logEvent (EvError (pointerArgString ptr)
                    (Context.errorMessage (ctxOf st) ptr message params))
           (withCtx st (Context.addErrorFor (ctxOf st) ptr message params)).

(** [containerObj[key] = v] in a run. *)
Definition assignSt (target : loc) (key : string) (v : value) (st : State) : State :=
  logEvent (EvAssign target key v)
           (mkState (setProp (heapOf st) target key v) (ctxOf st) (traceOf st)).

Definition descendSt (pointerToken : string) (containerObj : value) (st : State)
  : State :=
  withCtx st (Context.descend (ctxOf st) pointerToken containerObj).

Definition ascendSt (st : State) : State :=
  withCtx st (Context.ascend (ctxOf st)).

(** The call of a rule function. *)
Fixpoint runRule (r : Rule) (st : State) : value * State :=
  match r with
  | Return v => (v, st)
  | Observe k => runRule (k (heapOf st) (ctxOf st)) st
  | AddErrorFor ptr message params k =>
      runRule k (addErrorForSt ptr message params st)
  end.

Definition callValidator (kind : ChainKind) (validator : curriedValidator)
  (v : value) (st : State) : value * State :=
  runRule (validator v)
          (logEvent (EvCall kind (toString (Context.currentPointer (ctxOf st))) v) st).

(** [for (let validator of validators) value = validator(ctx, value);] *)
Definition runChain (kind : ChainKind) (chain : list curriedValidator)
  (v : value) (st : State) : value * State :=
  fold_left (fun acc validator => callValidator kind validator (fst acc) (snd acc))
            chain (v, st).

(** [for (let validator of validators) validator(ctx, obj);] *)
Definition runChainOn (kind : ChainKind) (chain : list curriedValidator)
  (obj : value) (st : State) : State :=
  fold_left (fun acc validator => snd (callValidator kind validator obj acc))
            chain st.

(* ===================================================================== *)
(** ** lib/record-normalizer.js *)
(* ===================================================================== *)

Module RecordNormalizer.

(** [getValidators(subjDesc, element, validationSets)]; ['element:'.length]
    is 8. *)
Definition getValidators {V : Type} (subjDesc : WithValidators V) (element : bool)
  (validationSets : gset string) : option (list V) :=
  match validators subjDesc with
  | None => None
  | Some sets =>
      let allValidators :=
        fold_left
          (fun all entry =>
             let set := fst entry in
             if element && negb (startsWith "element:" set) then all
             else if bool_decide
                       ((if element then substringFrom 8 set else set)
                          ∈ validationSets)
                  then fold_left (fun a validator => a ++ [validator])
                                 (snd entry) all
                  else all)
          sets [] in
      if (0 <? length allValidators)%nat then Some allValidators else None
  end.

(** [(typeof subtype) !== 'string' || !container.hasProperty(subtype)] *)
Definition invalidSubtype {V : Type}
  (container : PropertiesContainer (PropertyDescriptor V)) (subtype : value) : bool :=
  match subtype with
  | VString s => negb (hasProperty container s)
  | _ => true
  end.

(** [(subtypeName ? subtypeName + ':' + propName : propName)] *)
Definition childToken (subtypeName : option string) (propName : string) : string :=
  match subtypeName with
  | Some s => if isEmptyString s then propName else s +:+ ":" +:+ propName
  | None => propName
  end.

(** The string in a value that is one. *)
Definition asString (v : value) : option string :=
  match v with VString s => Some s | _ => None end.

(** The body of the loops over the elements of an array or a map of nested
    objects: [children] is the recursive call on the element. *)
Definition normalizeObjectElement (children : loc -> State -> State)
  (elementValidators : option (list curriedValidator))
  (collection : loc) (key : string) (st : State) : State :=
  let originalElementValue := getProp (heapOf st) collection key in
  let st1 := descendSt key (VObject collection) st in
  let st2 :=
    match originalElementValue with
    | VObject l => children l st1
    | _ => st1
    end in
  let st3 :=
    match elementValidators with
    | Some chain =>
        let '(elementValue, st') :=
          runChain ElementChain chain originalElementValue st2 in
        if strictNeq elementValue originalElementValue
        then assignSt collection key elementValue st'
        else st'
    | None => st2
    end in
  ascendSt st3.

(** The body of the loops over the elements of the other collections. *)
Definition normalizeSimpleElement (chain : list curriedValidator)
  (collection : loc) (key : string) (st : State) : State :=
  let originalElementValue := getProp (heapOf st) collection key in
  let st1 := descendSt key (VObject collection) st in
  let '(elementValue, st2) :=
    runChain ElementChain chain originalElementValue st1 in
  let st3 :=
    if strictNeq elementValue originalElementValue
    then assignSt collection key elementValue st2
    else st2 in
  ascendSt st3.

(** The two loops over the keys of a collection. *)
Definition normalizeElements (children : loc -> State -> State)
  (objectElements : bool) (elementValidators : option (list curriedValidator))
  (collection : loc) (keys : list string) (st : State) : State :=
  if objectElements
  then fold_left
         (fun acc key =>
            normalizeObjectElement children elementValidators collection key acc)
         keys st
  else match elementValidators with
       | Some chain =>
           fold_left
             (fun acc key => normalizeSimpleElement chain collection key acc)
             keys st
       | None => st
       end.

(** [normalizeChildren], given what to do with one property. *)
Definition normalizeChildrenWith
  (normalizeProperty :
     PropertyDescriptor curriedValidator -> option string -> value -> loc ->
     State -> State)
  (container : PropertiesContainer (PropertyDescriptor curriedValidator))
  (subtypeName : option string) (containerObj : loc) (st : State) : State :=
  let subtype :=
    if isPolymorphObject container
    then getProp (heapOf st) containerObj (typePropertyName container)
    else VUndefined in
  if isPolymorphObject container && invalidSubtype container subtype
  then addErrorForSt
         (PtrString (toString (Context.currentPointer (ctxOf st))
                       +:+ "/" +:+ typePropertyName container))
         "{invalidType}" None st
  else fold_left
         (fun acc propDesc =>
            normalizeProperty propDesc subtypeName subtype containerObj acc)
         (properties container) st.

(** "validate property's nested elements if any": the elements of an array
    or a map, or the properties of a nested object; [children] is the
    recursive call on a nested object. *)
Definition normalizeNested (children : loc -> State -> State)
  (validationSets : gset string) (propDesc : PropertyDescriptor curriedValidator)
  (originalValue : value) (st : State) : State :=
  let objectElements := String.eqb (scalarValueType propDesc) "object" in
  match structure propDesc with
  | ArrayProp =>
      match originalValue with
      | VObject arr =>
          if isArray (heapOf st) originalValue
             && (0 <? lengthOf (heapOf st) arr)%nat
          then normalizeElements children objectElements
                 (getValidators (subject propDesc) true validationSets)
                 arr (map indexKey (seq 0 (lengthOf (heapOf st) arr))) st
          else st
      | _ => st
      end
  | MapProp =>
      match originalValue with
      | VObject obj =>
          normalizeElements children objectElements
            (getValidators (subject propDesc) true validationSets)
            obj (keysOf (heapOf st) obj) st
      | _ => st
      end
  | ScalarProp =>
      match originalValue with
      | VObject obj => if objectElements then children obj st else st
      | _ => st
      end
  end.

(** "run property validators" and "replace original value in the record if
    was normalized". *)
Definition validateProperty (validationSets : gset string)
  (propDesc : PropertyDescriptor curriedValidator) (containerObj : loc)
  (originalValue : value) (st : State) : State :=
  let '(value, st') :=
    match getValidators (subject propDesc) false validationSets with
    | Some chain => runChain PropertyChain chain originalValue st
    | None => (originalValue, st)
    end in
  if strictNeq value originalValue
  then assignSt containerObj (name propDesc) value st'
  else st'.

(** The body of the loop of [normalizeChildren] over the properties. *)
Fixpoint normalizeProperty (validationSets : gset string)
  (propDesc : PropertyDescriptor curriedValidator)
  (subtypeName : option string) (subtype : value) (containerObj : loc)
  (st : State) {struct propDesc} : State :=
  if isView propDesc then st
  else if isSubtype propDesc then
    if strictEq (VString (name propDesc)) subtype then
      let st1 :=
        normalizeChildrenWith (normalizeProperty validationSets)
          (nestedProperties propDesc) (asString subtype) containerObj st in
      match getValidators (subject propDesc) false validationSets with
      | Some chain => runChainOn SubtypeChain chain (VObject containerObj) st1
      | None => st1
      end
    else st
  else
    let originalValue := getProp (heapOf st) containerObj (name propDesc) in
    let st1 :=
      descendSt (childToken subtypeName (name propDesc)) (VObject containerObj) st in
    let st2 :=
      normalizeNested
        (normalizeChildrenWith (normalizeProperty validationSets)
           (nestedProperties propDesc) None)
        validationSets propDesc originalValue st1 in
    ascendSt (validateProperty validationSets propDesc containerObj originalValue st2).

(** [normalizeChildren(ctx, container, subtypeName, containerObj,
    validationSets)] *)
Definition normalizeChildren (validationSets : gset string)
  (container : PropertiesContainer (PropertyDescriptor curriedValidator))
  (subtypeName : option string) (containerObj : loc) (st : State) : State :=
  normalizeChildrenWith (normalizeProperty validationSets)
    container subtypeName containerObj st.

Inductive Fault : Type :=
| X2UsageError (message : string)
| TypeError.

(** How a call of [normalize] ends: it raises, or it returns the errors or
    [null], leaving the record and the context as [final] has them. *)
Inductive Outcome : Type :=
| Throws (e : Fault)
| Returns (result : option (gmap string (list string))) (final : State).

(** [new Set((validationSets ? validationSets.trim() + ',*' : '*').split(...))] *)
Definition activeSets (validationSets : option string) : gset string :=
  list_to_set
    (splitComma
       (match validationSets with
        | Some s => if isEmptyString s then "*" else trim s +:+ ",*"
        | None => "*"
        end)).

(** [lang || '*'] *)
Definition langOrDefault (lang : option string) : string :=
  match lang with
  | Some s => if isEmptyString s then "*" else s
  | None => "*"
  end.

(** [(record === null) || ((typeof record) !== 'object')] *)
Definition recordMissing (record : value) : bool :=
  strictEq record VNull || negb (isTyObject (typeof record)).

(** The context [normalize] creates. *)
Definition initialContext
  (recordTypes : string -> option (RecordTypeDescriptor curriedValidator))
  (recordTypeDesc : RecordTypeDescriptor curriedValidator)
  (messageResolver : list string) (sets : gset string) : ValidationContext :=
  Context.create (fun n => option_map forgetRecordType (recordTypes n))
                 (forgetRecordType recordTypeDesc) messageResolver sets.

(** The record-level step of [normalize]: the rules of the record type on
    the record as a whole. *)
Definition normalizeWhole (recordTypeDesc : RecordTypeDescriptor curriedValidator)
  (sets : gset string) (record : value) (st : State) : State :=
  match getValidators (recordSubject recordTypeDesc) false sets with
  | Some recordValidators => runChainOn RecordChain recordValidators record st
  | None => st
  end.

(** [normalize(recordTypes, recordTypeName, record, lang, validationSets)],
    on the store [h] the record lives in.  [recordTypes] is
    [getRecordTypeDesc] of the record types library, which raises the usage
    fault on a name it does not know; the text of that fault is the
    library's, and the one written here stands for it. *)
Definition normalize
  (recordTypes : string -> option (RecordTypeDescriptor curriedValidator))
  (recordTypeName : string) (record : value) (lang : option string)
  (validationSets : option string) (h : heap) : Outcome :=
  if recordMissing record
  then Throws (X2UsageError "Record object was not provided.")
  else
    match record with
    | VObject recordObj =>
        match recordTypes recordTypeName with
        | None => Throws (X2UsageError "Unknown record type.")
        | Some recordTypeDesc =>
            let sets := activeSets validationSets in
            match MessageResolver.create (langOrDefault lang) with
            | None => Throws TypeError
            | Some messageResolver =>
                let ctx :=
                  initialContext recordTypes recordTypeDesc messageResolver sets in
                let st1 :=
                  normalizeChildren sets (recordProperties recordTypeDesc) None
                    recordObj (mkState h ctx []) in
                let st2 := normalizeWhole recordTypeDesc sets record st1 in
                Returns (Context.getResult (ctxOf st2)) st2
            end
        end
    | _ => Throws (X2UsageError "Record object was not provided.")
    end.

End RecordNormalizer.

(* ===================================================================== *)
(** ** lib/standard.js: the rules the specification names *)
(* ===================================================================== *)

(** Operations of the host language on the values of a record, which
    convert their operands and may read the store: the relational operators
    [>] and [>=], and the conversion [String(v)] that a template literal
    applies.  Whenever [a > b] holds, [a >= b] holds; a string converts to
    itself. *)
Class HostOps : Type := mkHostOps {
  jsGt : heap -> value -> value -> bool;
  jsGe : heap -> value -> value -> bool;
  jsString : heap -> value -> string;
  jsGt_jsGe : forall h a b, jsGt h a b = true -> jsGe h a b = true;
  jsString_VString : forall h s, jsString h (VString s) = s
}.

Module Standard.

(** [isEmpty(ptr, propDesc, value)] *)
Definition isEmpty (h : heap) (ptr : RecordElementPointer)
  (propDesc : PropertyDescriptor unit) (v : value) : bool :=
  if isNullish v then true
  else if isArrayProp propDesc && negb (collectionElement ptr) && isArray h v
  then match v with
       | VObject l => (lengthOf h l =? 0)%nat
       | _ => false
       end
  else if isMapProp propDesc && negb (collectionElement ptr)
          && isTyObject (typeof v)
  then match v with
       | VObject l => (length (keysOf h l) =? 0)%nat
       | _ => false
       end
  else if (isScalarProp propDesc || collectionElement ptr)
          && String.eqb (scalarValueType propDesc) "string"
          && isTyString (typeof v)
  then match v with
       | VString s => (String.length s =? 0)%nat
       | _ => false
       end
  else false.

(** ['required'].  The rule stands on properties; on the record itself there
    is no property descriptor to ask and nothing is reported. *)
Definition required (v : value) : Rule :=
  Observe (fun h ctx =>
    match Context.currentPropDesc ctx with
    | Some propDesc =>
        if isEmpty h (Context.currentPointer ctx) propDesc v
        then AddError "{missing}" None (Return v)
        else Return v
    | None => Return v
    end).

(** ['empty'] *)
Definition empty (v : value) : Rule :=
  Observe (fun h ctx =>
    match Context.currentPropDesc ctx with
    | Some propDesc =>
        if negb (isEmpty h (Context.currentPointer ctx) propDesc v)
        then AddError "{notEmpty}" None (Return v)
        else Return v
    | None => Return v
    end).

Definition isWordChar (c : ascii) : bool :=
  let n := nat_of_ascii c in
  ((48 <=? n) && (n <=? 57) || (65 <=? n) && (n <=? 90)
   || (97 <=? n) && (n <=? 122) || (n =? 95))%nat.

(** A match of the word [w] between two word boundaries. *)
Fixpoint hasWordFrom (afterWordChar : bool) (w s : string) : bool :=
  match s with
  | EmptyString => false
  | String c r =>
      (negb afterWordChar && String.prefix w s
       && match String.get (String.length w) s with
          | Some c' => negb (isWordChar c')
          | None => true
          end)
      || hasWordFrom (isWordChar c) w r
  end.

(** The test of [rangeDef] for the option [nonZero] in [params[2]], which is
    a string or not given. *)
Definition hasNonZero (options : option string) : bool :=
  match options with
  | Some s => hasWordFrom false "nonZero" s
  | None => false
  end.

(** The container whose properties [rangeDef] compares: the nested
    properties of the current property, or the record type. *)
Definition rangeContainer (ctx : ValidationContext)
  : PropertiesContainer (PropertyDescriptor unit) :=
  match Context.currentPropDesc ctx with
  | Some pd => nestedProperties pd
  | None => recordProperties (Context.recordTypeDesc ctx)
  end.

(** The pointer string of a compared property: [`${curPtr}/${prop}`], or
    [`${curPtr}/${subtype}:${prop}`] in a polymorphic object. *)
Definition rangePointer `{HostOps} (h : heap) (ctx : ValidationContext) (obj : loc)
  (prop : string) : string :=
  let curPtr := toString (Context.currentPointer ctx) in
  let containerDesc := rangeContainer ctx in
  if isPolymorphObject containerDesc
  then curPtr +:+ "/"
         +:+ jsString h (getProp h obj (typePropertyName containerDesc))
         +:+ ":" +:+ prop
  else curPtr +:+ "/" +:+ prop.

(** ['rangeDef'] with the parameters [[propLo, propHi, options]] *)
Definition rangeDef `{HostOps} (propLo propHi : string)
  (options : option string) (v : value) : Rule :=
  match v with
  | VObject obj =>
      Observe (fun h ctx =>
        let curPtr := toString (Context.currentPointer ctx) in
        let containerDesc := rangeContainer ctx in
        if isPolymorphObject containerDesc
           && Context.hasErrorsFor ctx
                (PtrString (curPtr +:+ "/" +:+ typePropertyName containerDesc))
        then Return v
        else
          let propLoPtr := rangePointer h ctx obj propLo in
          let propHiPtr := rangePointer h ctx obj propHi in
          if Context.hasErrorsFor ctx (PtrString propLoPtr)
             || Context.hasErrorsFor ctx (PtrString propHiPtr)
          then Return v
          else
            let propLoVal := getProp h obj propLo in
            let propHiVal := getProp h obj propHi in
            if isNullish propLoVal || isNullish propHiVal then Return v
            else
              let nonZero := hasNonZero options in
              if nonZero && jsGe h propLoVal propHiVal
                 || negb nonZero && jsGt h propLoVal propHiVal
              then
                let propLoTitle :=
                  Context.getElementTitle ctx (PtrString propLoPtr) in
                AddErrorFor (PtrString propHiPtr) "{invalidRangeDef}"
                  (Some [("rangeLoName", propLoTitle);
                         ("rangeLoNameCaps", capitalize propLoTitle)])
                  (Return v)
              else Return v)
  | _ => Return v
  end.

End Standard.

(* ===================================================================== *)
(** ** The resolved chains, as the specification words them *)
(* ===================================================================== *)

Module ChainSpec.

(** Whether a declared set takes part: for a whole-value chain its name is
    active; for an element chain it has the prefix and its name stripped of
    the prefix is active. *)
Definition takesPart (element : bool) (active : gset string) (set : string) : bool :=
  if element
  then startsWith "element:" set && bool_decide (substringFrom 8 set ∈ active)
  else bool_decide (set ∈ active).

(** The concatenation, in declaration order, of the rule lists of the sets
    that take part. *)
Definition resolvedChain {V : Type} (element : bool)
  (sets : list (string * list V)) (active : gset string) : list V :=
  concat (map snd (List.filter (fun e => takesPart element active (fst e)) sets)).

(** A subject without the sets declared for elements. *)
Definition withoutElementSets {V : Type} (s : WithValidators V) : WithValidators V :=
  mkWithValidators (title s) (validationErrorMessages s)
    (match validators s with
     | Some sets =>
         Some (List.filter (fun e => negb (startsWith "element:" (fst e))) sets)
     | None => None
     end).

End ChainSpec.

(* ===================================================================== *)
(** ** Reading a trace *)
(* ===================================================================== *)

Module Trace.

(** The errors object after the errors of a trace went into it. *)
Definition replayErrors (tr : list Event) (errs : gmap string (list string))
  : gmap string (list string) :=
  fold_left
    (fun acc e =>
       match e with
       | EvError errorKey message => ValidationErrors.addError acc errorKey message
       | _ => acc
       end)
    tr errs.

(** The store after the assignments of a trace. *)
Definition replayAssigns (tr : list Event) (h : heap) : heap :=
  fold_left
    (fun acc e =>
       match e with
       | EvAssign target key v => setProp acc target key v
       | _ => acc
       end)
    tr h.

Definition isError (e : Event) : bool :=
  match e with EvError _ _ => true | _ => false end.

Definition isAssign (e : Event) : bool :=
  match e with EvAssign _ _ _ => true | _ => false end.

Definition isCall (e : Event) : bool :=
  match e with EvCall _ _ _ => true | _ => false end.

Definition isCallOf (kind : ChainKind) (e : Event) : bool :=
  match e, kind with
  | EvCall RecordChain _ _, RecordChain => true
  | EvCall SubtypeChain _ _, SubtypeChain => true
  | EvCall PropertyChain _ _, PropertyChain => true
  | EvCall ElementChain _ _, ElementChain => true
  | _, _ => false
  end.

(** The pointers of the calls of one kind of chain, in order. *)
Definition callPointers (kind : ChainKind) (tr : list Event) : list string :=
  flat_map (fun e => match e with
                     | EvCall _ ptr _ => if isCallOf kind e then [ptr] else []
                     | _ => []
                     end) tr.

(** The pointers errors were reported at, in order. *)
Definition errorKeys (tr : list Event) : list string :=
  flat_map (fun e => match e with EvError k _ => [k] | _ => [] end) tr.

(** The messages reported at one pointer, in order. *)
Definition messagesAt (errorKey : string) (tr : list Event) : list string :=
  flat_map (fun e => match e with
                     | EvError k m => if String.eqb k errorKey then [m] else []
                     | _ => []
                     end) tr.

(** A run from [st] to [st'] that did [tr]: the trace grew by [tr], the
    context is where it was with the errors of [tr] added, the store is the
    old one with the assignments of [tr] made. *)
Definition Extends (st : State) (tr : list Event) (st' : State) : Prop :=
  traceOf st' = traceOf st ++ tr
  /\ ctxOf st' = Context.setResult (ctxOf st)
                   (replayErrors tr (_result (ctxOf st)))
  /\ heapOf st' = replayAssigns tr (heapOf st).

End Trace.

(** An event of the traversal below the record: not a call of the record
    type's own chain. *)
Definition childEvent (e : Event) : bool := negb (Trace.isCallOf RecordChain e).

(** A step of the engine that leaves the position of the context in place,
    reports and assigns what its trace says, and calls no rule of the record
    type's own chain. *)
Definition Framed (f : State -> State) : Prop :=
  forall st, exists tr, Trace.Extends st tr (f st) /\ forallb childEvent tr = true.

(** The events of a chain: the calls of its rule functions, all at the
    pointer the chain started at, and the errors they report. *)
Definition chainEvent (kind : ChainKind) (ptr : string) (e : Event) : bool :=
  match e with
  | EvCall k p _ => Trace.isCallOf kind e && String.eqb p ptr
  | EvError _ _ => true
  | EvAssign _ _ _ => false
  end.

(* ===================================================================== *)
(** ** A library of record types and some records, for the examples *)
(* ===================================================================== *)

Module Examples.

Import RecordNormalizer.

Definition floatGt (x y : float) : bool :=
  match PrimFloat.compare x y with FGt => true | _ => false end.

Definition floatGe (x y : float) : bool :=
  match PrimFloat.compare x y with FGt | FEq => true | _ => false end.

Definition stringGt (s t : string) : bool :=
  match String.compare s t with Gt => true | _ => false end.

Definition stringGe (s t : string) : bool :=
  match String.compare s t with Lt => false | _ => true end.

(** [a > b] on two numbers or two strings. *)
Definition primGt (h : heap) (a b : value) : bool :=
  match a, b with
  | VNumber x, VNumber y => floatGt x y
  | VString s, VString t => stringGt s t
  | _, _ => false
  end.

(** [a >= b] on two numbers or two strings. *)
Definition primGe (h : heap) (a b : value) : bool :=
  match a, b with
  | VNumber x, VNumber y => floatGe x y
  | VString s, VString t => stringGe s t
  | _, _ => false
  end.

(** [String(v)], given how a number is written. *)
Definition primString (numberText : float -> string) (h : heap) (v : value) : string :=
  match v with
  | VString s => s
  | VUndefined => "undefined"
  | VNull => "null"
  | VBool true => "true"
  | VBool false => "false"
  | VNumber x => numberText x
  | VObject _ => "[object Object]"
  end.

(** The host operations on the values the examples compare: two numbers or
    two strings. *)
#[export] Instance primitiveOps (numberText : float -> string) : HostOps.
Proof.
  refine (mkHostOps primGt primGe (primString numberText) _ _).
  - intros h a b. destruct a, b; simpl; try discriminate.
    + unfold floatGt, floatGe. destruct (PrimFloat.compare x x0); congruence.
    + unfold stringGt, stringGe. destruct (String.compare s s0); congruence.
  - reflexivity.
Defined.

Definition hostOps : HostOps := primitiveOps (fun _ => "NaN").

(** Some of the standard messages. *)
Definition standardMessages : MessagesStore :=
  mkMessagesStore
    [("missing", TmplByLang ("en-US", "Missing value.") []);
     ("invalidType", TmplByLang ("en-US", "Missing or invalid type.") []);
     ("tooSmall", TmplByLang ("en-US", "Too small.") []);
     ("invalidRangeDef",
      TmplByLang ("en-US", "Must be greater than ${rangeLoName}.") [])]
    (TmplByLang ("en-US", "Invalid.") []).

Definition noProperties {V : Type} : PropertiesContainer (PropertyDescriptor V) :=
  mkContainer false "" [].

Definition titled {V : Type} (t : string) (rules : option (list (string * list V)))
  : WithValidators V :=
  mkWithValidators (TmplString t) standardMessages rules.

(** A rule that reports a number below zero. *)
Definition notNegative : curriedValidator := fun v =>
  match v with
  | VNumber x =>
      if (x <? 0)%float then AddError "{tooSmall}" None (Return v) else Return v
  | _ => Return v
  end.

(** A rule that does nothing. *)
Definition accept : curriedValidator := fun v => Return v.

(** A record-level rule that reports when a pointer already has errors. *)
Definition whenInvalid (ptr : string) : curriedValidator := fun v =>
  Observe (fun _ ctx =>
    if Context.hasErrorsFor ctx (PtrString ptr)
    then AddError "Has an invalid part." None (Return v)
    else Return v).

Definition scoresProp : PropertyDescriptor curriedValidator :=
  mkPropertyDescriptor "scores" false false ArrayProp "number"
    (titled "scores"
       (Some [("*", [Standard.required]); ("element:*", [notNegative])]))
    noProperties.

Definition nameProp : PropertyDescriptor curriedValidator :=
  mkPropertyDescriptor "name" false false ScalarProp "string"
    (titled "name" (Some [("*", [Standard.required])])) noProperties.

Definition typeProp : PropertyDescriptor curriedValidator :=
  mkPropertyDescriptor "type" false false ScalarProp "string"
    (titled "type" None) noProperties.

Definition dogProp : PropertyDescriptor curriedValidator :=
  mkPropertyDescriptor "Dog" false true ScalarProp "object"
    (titled "Dog" None) (mkContainer false "" [nameProp]).

Definition catProp : PropertyDescriptor curriedValidator :=
  mkPropertyDescriptor "Cat" false true ScalarProp "object"
    (titled "Cat" None) noProperties.

Definition petContainer : PropertiesContainer (PropertyDescriptor curriedValidator) :=
  mkContainer true "type" [typeProp; dogProp; catProp].

Definition petProp : PropertyDescriptor curriedValidator :=
  mkPropertyDescriptor "pet" false false ScalarProp "object"
    (titled "pet" (Some [("*", [Standard.required])])) petContainer.

(** A record type with an array of numbers and a polymorphic nested object,
    and a rule of its own that looks at the third score. *)
Definition ownerType : RecordTypeDescriptor curriedValidator :=
  mkRecordTypeDescriptor (mkContainer false "" [scoresProp; petProp])
    (titled "Owner" (Some [("*", [whenInvalid "/scores/2"])])).

Definition timeFromProp : PropertyDescriptor curriedValidator :=
  mkPropertyDescriptor "timeFrom" false false ScalarProp "string"
    (titled "start time" (Some [("*", [Standard.required])])) noProperties.

Definition timeToProp : PropertyDescriptor curriedValidator :=
  mkPropertyDescriptor "timeTo" false false ScalarProp "string"
    (titled "end time" (Some [("*", [Standard.required])])) noProperties.

(** A record type with the rule ['rangeDef'] on its two times. *)
Definition calendarType : RecordTypeDescriptor curriedValidator :=
  mkRecordTypeDescriptor (mkContainer false "" [timeFromProp; timeToProp])
    (titled "CalendarEntry"
       (Some [("*", [Standard.rangeDef (H := hostOps) "timeFrom" "timeTo" None])])).

Definition dayProp : PropertyDescriptor curriedValidator :=
  mkPropertyDescriptor "Day" false true ScalarProp "object"
    (titled "Day" None) (mkContainer false "" [timeFromProp; timeToProp]).

(** A polymorphic nested object with the rule ['rangeDef'] on it. *)
Definition shiftProp : PropertyDescriptor curriedValidator :=
  mkPropertyDescriptor "shift" false false ScalarProp "object"
    (titled "shift"
       (Some [("*", [Standard.rangeDef (H := hostOps) "timeFrom" "timeTo" None])]))
    (mkContainer true "type" [typeProp; dayProp]).

Definition rosterType : RecordTypeDescriptor curriedValidator :=
  mkRecordTypeDescriptor (mkContainer false "" [shiftProp]) (titled "Roster" None).

Definition library (n : string) : option (RecordTypeDescriptor curriedValidator) :=
  if String.eqb n "Owner" then Some ownerType
  else if String.eqb n "CalendarEntry" then Some calendarType
  else if String.eqb n "Roster" then Some rosterType
  else None.

(** The record [{timeFrom: '10:00', timeTo: '09:00'}]. *)
Definition calendarStore : heap :=
  <[1%positive := objectOf [("timeFrom", VString "10:00");
                            ("timeTo", VString "09:00")]]> ∅.

(** The record [{shift: {type: 'Night', timeFrom: '10:00', timeTo: '09:00'}}],
    of a type [Night] the shift does not declare. *)
Definition rosterStore : heap :=
  <[1%positive := objectOf [("shift", VObject 2)]]>
    (<[2%positive := objectOf [("type", VString "Night");
                               ("timeFrom", VString "10:00");
                               ("timeTo", VString "09:00")]]> ∅).

(** The record [{x: NaN}] and a record type whose property [x] has no rule. *)
Definition nanStore : heap :=
  <[1%positive := objectOf [("x", VNumber nan)]]> ∅.

Definition xProp : PropertyDescriptor curriedValidator :=
  mkPropertyDescriptor "x" false false ScalarProp "number"
    (titled "x" None) noProperties.

Definition plainType : RecordTypeDescriptor curriedValidator :=
  mkRecordTypeDescriptor (mkContainer false "" [xProp]) (titled "Plain" None).

Definition plainLibrary (n : string)
  : option (RecordTypeDescriptor curriedValidator) :=
  if String.eqb n "Plain" then Some plainType else None.

(** The record [{scores: [1, 2, -3], pet: {type: 'Dog'}}]. *)
Definition ownerStore : heap :=
  <[1%positive := objectOf [("scores", VObject 2); ("pet", VObject 3)]]>
    (<[2%positive := arrayOf [VNumber 1; VNumber 2; VNumber (-3)]]>
       (<[3%positive := objectOf [("type", VString "Dog")]]> ∅)).

(** The same with [pet: {type: 'type'}]: the name of the type property, which
    is no subtype. *)
Definition strayTypeStore : heap :=
  <[3%positive := objectOf [("type", VString "type")]]> ownerStore.

End Examples.

(** Whether ['rangeDef'] leaves the comparison out: the type of a
    polymorphic object has errors, one of the two properties has errors, or
    one of the two values is [undefined] or [null]. *)
Definition rangeSkipped `{HostOps} (propLo propHi : string) (obj : loc) (st : State) : bool :=
  let h := heapOf st in
  let ctx := ctxOf st in
  let containerDesc := Standard.rangeContainer ctx in
  isPolymorphObject containerDesc
  && Context.hasErrorsFor ctx
       (PtrString (toString (Context.currentPointer ctx) +:+ "/"
                     +:+ typePropertyName containerDesc))
  || Context.hasErrorsFor ctx (PtrString (Standard.rangePointer h ctx obj propLo))
  || Context.hasErrorsFor ctx (PtrString (Standard.rangePointer h ctx obj propHi))
  || isNullish (getProp h obj propLo)
  || isNullish (getProp h obj propHi).

(* ===================================================================== *)
(** ** Rule functions that change nothing *)
(* ===================================================================== *)

(** A rule function that returns its argument, whatever the record and the
    context. *)
Definition returnsArgument (f : curriedValidator) : Prop :=
  forall v st, fst (runRule (f v) st) = v.

(** Every rule function declared on a subject has a property. *)
Definition subjectRules {V : Type} (P : V -> Prop) (s : WithValidators V) : Prop :=
  match validators s with
  | Some sets => Forall (fun e => Forall P (snd e)) sets
  | None => True
  end.

(** Every rule function declared on a property or below it has a property. *)
Fixpoint everyRule {V : Type} (P : V -> Prop) (p : PropertyDescriptor V) : Prop :=
  subjectRules P (subject p)
  /\ fold_right (fun q acc => everyRule P q /\ acc) True
       (properties (nestedProperties p)).

(** Every rule function of a record type has a property. *)
Definition everyRuleOfType {V : Type} (P : V -> Prop) (d : RecordTypeDescriptor V)
  : Prop :=
  subjectRules P (recordSubject d)
  /\ Forall (everyRule P) (properties (recordProperties d)).

(** An assignment that puts back, into a slot of the store [h], the value
    the slot holds, a value that differs from itself. *)
Definition reassigns (h : heap) (e : Event) : Prop :=
  match e with
  | EvAssign target key v => getProp h target key = v /\ strictEq v v = false
  | _ => True
  end.

(** A step of the engine whose assignments all put back what is there. *)
Definition Quiet (f : State -> State) : Prop :=
  forall st, exists tr, Trace.Extends st tr (f st) /\ Forall (reassigns (heapOf st)) tr.

(* ===================================================================== *)
(** ** What the traversal goes into *)
(* ===================================================================== *)

(** Whether the traversal goes below a property for the value it holds: a
    non-empty array for an array property, an object for a map property, an
    object for a nested object property. *)
Definition hasNestedElements (h : heap) (propDesc : PropertyDescriptor curriedValidator)
  (v : value) : bool :=
  match structure propDesc, v with
  | ArrayProp, VObject arr => isArray h v && (0 <? lengthOf h arr)%nat
  | MapProp, VObject _ => true
  | ScalarProp, VObject _ => String.eqb (scalarValueType propDesc) "object"
  | _, _ => false
  end.

(** Whether the loop of [normalizeChildren] does anything for a property:
    it is no view, and if it is a subtype it is the one the type value
    names. *)
Definition isVisited (subtype : value) (propDesc : PropertyDescriptor curriedValidator)
  : bool :=
  negb (isView propDesc)
  && (negb (isSubtype propDesc) || strictEq (VString (name propDesc)) subtype).

Module MoreExamples.

Import RecordNormalizer Examples.

(** A map of numbers with a rule on its elements. *)
Definition limitsProp : PropertyDescriptor curriedValidator :=
  mkPropertyDescriptor "limits" false false MapProp "number"
    (titled "limits" (Some [("element:*", [notNegative])])) noProperties.

Definition planType : RecordTypeDescriptor curriedValidator :=
  mkRecordTypeDescriptor (mkContainer false "" [limitsProp; scoresProp])
    (titled "Plan" None).

(** The record [{limits: {cpu: 1, ram: -2}, scores: 'none'}]. *)
Definition planStore : heap :=
  <[1%positive := objectOf [("limits", VObject 2); ("scores", VString "none")]]>
    (<[2%positive := objectOf [("cpu", VNumber 1); ("ram", VNumber (-2))]]> ∅).

Definition planStart : State :=
  mkState planStore
    (initialContext (fun _ => Some planType) planType [] (activeSets None)) [].

End MoreExamples.

(* ===================================================================== *)
(** ** The errors object on its own *)
(* ===================================================================== *)

(** A key of the errors object as its documentation asks for: a JSON
    pointer, the empty string or a string that starts with a slash.  (Under
    such a key [this[errorKey]] never finds a method of the class.) *)
Definition isPointerKey (errorKey : string) : bool :=
  isEmptyString errorKey || startsWith "/" errorKey.

(** [errs.addError(k1, m1); errs.addError(k2, m2); ...] *)
Definition addErrors (adds : list (string * string)) (errs : ValidationErrors.t)
  : ValidationErrors.t :=
  fold_left (fun acc a => ValidationErrors.addError acc (fst a) (snd a)) adds errs.

(** The messages added under a key, in order. *)
Definition addedAt (errorKey : string) (adds : list (string * string)) : list string :=
  map snd (List.filter (fun a => String.eqb (fst a) errorKey) adds).

(* ===================================================================== *)
(** ** Characters of a message template *)
(* ===================================================================== *)

Definition isDollar (c : ascii) : bool := Ascii.eqb c "$"%char.

Definition isClosingBrace (c : ascii) : bool := Ascii.eqb c "}"%char.

(** The last character of a string. *)
Definition lastChar (s : string) : option ascii :=
  String.get (String.length s - 1) s.

(* ===================================================================== *)
(** ** lib/standard.js: more of the standard rules *)
(* ===================================================================== *)

Module StandardRules.

(** The string [typeof v] gives. *)
Definition typeName (t : JsType) : string :=
  match t with
  | TyUndefined => "undefined"
  | TyObject => "object"
  | TyBoolean => "boolean"
  | TyNumber => "number"
  | TyString => "string"
  end.

(** [(typeof a) === (typeof b)] *)
Definition sameType (a b : value) : bool :=
  String.eqb (typeName (typeof a)) (typeName (typeof b)).

(** ['string'] *)
Definition stringRule (v : value) : Rule :=
  if isNullish v then Return v
  else
    let actual := typeof v in
    if negb (isTyString actual)
    then AddError "{invalidValueType}"
           (Some [("expected", "string"); ("actual", typeName actual)]) (Return v)
    else Return v.

(** ['trim'] *)
Definition trimRule (v : value) : Rule :=
  match v with
  | VString s => Return (VString (trim s))
  | _ => Return v
  end.

(** The elements of an array, as [value[0]], ..., [value[len - 1]] read
    them. *)
Definition elementsOf (h : heap) (l : loc) : list value :=
  map (fun i => getProp h l (indexKey i)) (seq 0 (lengthOf h l)).

(** The two loops of ['noDupes']: for each element but the last, whether
    one of the elements after it is [===] to it. *)
Fixpoint hasDuplicate (vs : list value) : bool :=
  match vs with
  | [] => false
  | el :: rest => existsb (fun later => strictEq later el) rest || hasDuplicate rest
  end.

(** ['noDupes'] *)
Definition noDupes (v : value) : Rule :=
  Observe (fun h _ =>
    match v with
    | VObject l =>
        if isArray h v && hasDuplicate (elementsOf h l)
        then AddError "{duplicates}" None (Return v)
        else Return v
    | _ => Return v
    end).

Definition isDigit (c : ascii) : bool :=
  match JsNumber.digitOf c with Some _ => true | None => false end.

Fixpoint forallChar (f : ascii -> bool) (s : string) : bool :=
  match s with
  | EmptyString => true
  | String c r => f c && forallChar f r
  end.

(** The test of a string against a pattern of [n] digits from start to end. *)
Definition isDigits (n : nat) (s : string) : bool :=
  forallChar isDigit s && (String.length s =? n)%nat.

(** [Number(value.charAt(i))] on a string of digits. *)
Definition digitAt (i : nat) (s : string) : nat :=
  match String.get i s with
  | Some c => match JsNumber.digitOf c with Some d => d | None => 0 end
  | None => 0
  end.

(** The sum ['bankRoutingNumber'] takes of the first eight digits. *)
Definition routingSum (s : string) : nat :=
  7 * (digitAt 0 s + digitAt 3 s + digitAt 6 s)
  + 3 * (digitAt 1 s + digitAt 4 s + digitAt 7 s)
  + 9 * (digitAt 2 s + digitAt 5 s).

(** ['bankRoutingNumber'] *)
Definition bankRoutingNumber (v : value) : Rule :=
  match v with
  | VString s =>
      if negb (isDigits 9 s)
      then AddError "{invalidBankRoutingNumber}" None (Return v)
      else if negb (routingSum s mod 10 =? digitAt 8 s)%nat
           then AddError "{invalidBankRoutingNumber}" None (Return v)
           else Return v
  | _ => Return v
  end.

(** The characters ['loc_US:phone10'] takes out: white space, parentheses
    and the hyphen. *)
Definition isPhonePunctuation (c : ascii) : bool :=
  isSpace c || Ascii.eqb c "("%char || Ascii.eqb c ")"%char || Ascii.eqb c "-"%char.

(** [s.replace(re, '')] for a pattern [re], with the flag [g], of one
    character out of a class. *)
Fixpoint removeChars (drop : ascii -> bool) (s : string) : string :=
  match s with
  | EmptyString => EmptyString
  | String c r => if drop c then removeChars drop r else String c (removeChars drop r)
  end.

(** ['loc_US:phone10'] *)
Definition loc_US_phone10 (v : value) : Rule :=
  match v with
  | VString s =>
      let normValue := removeChars isPhonePunctuation s in
      if isDigits 10 normValue then Return (VString normValue)
      else AddError "{invalidUSPhone}" None (Return v)
  | _ => Return v
  end.

(** [s.toUpperCase()] on the ASCII letters. *)
Definition toUpperCase (s : string) : string := mapString upperChar s.

(** The test of a string against a pattern of alternatives in upper case,
    from start to end, with the flag [i]. *)
Definition isOneOfIgnoringCase (alternatives : list string) (s : string) : bool :=
  existsb (String.eqb (toUpperCase s)) alternatives.

(** The three rules that take one of a list of codes, in either case, and
    give it in upper case. *)
Definition codeRule (alternatives : list string) (message : string) (v : value)
  : Rule :=
  match v with
  | VString s =>
      if isOneOfIgnoringCase alternatives s then Return (VString (toUpperCase s))
      else AddError message None (Return v)
  | _ => Return v
  end.

Definition weekdays2 : list string := ["MO"; "TU"; "WE"; "TH"; "FR"; "SA"; "SU"].

Definition weekdays3 : list string :=
  ["MON"; "TUE"; "WED"; "THU"; "FRI"; "SAT"; "SUN"].

Definition usStates : list string :=
  ["AL"; "AK"; "AS"; "AZ"; "AR"; "CA"; "CO"; "CT"; "DE"; "DC"; "FL"; "GA"; "GU";
   "HI"; "ID"; "IL"; "IN"; "IA"; "KS"; "KY"; "LA"; "ME"; "MD"; "MH"; "MA"; "MI";
   "FM"; "MN"; "MS"; "MO"; "MT"; "NE"; "NV"; "NH"; "NJ"; "NM"; "NY"; "NC"; "ND";
   "MP"; "OH"; "OK"; "OR"; "PW"; "PA"; "PR"; "RI"; "SC"; "SD"; "TN"; "TX"; "UT";
   "VT"; "VA"; "VI"; "WA"; "WV"; "WI"; "WY"].

(** ['weekday2'] *)
Definition weekday2 : curriedValidator := codeRule weekdays2 "{invalidWeekday}".

(** ['weekday3'] *)
Definition weekday3 : curriedValidator := codeRule weekdays3 "{invalidWeekday}".

(** ['loc_US:state2'] *)
Definition loc_US_state2 : curriedValidator := codeRule usStates "{invalidUSState}".

End StandardRules.

(* ===================================================================== *)
(** ** lib/standard.js: rules with parameters *)
(* ===================================================================== *)

Module ParameterRules.

Import StandardRules.

(** ['max'] with the parameter [maxVal] *)
Definition maxRule `{HostOps} (maxVal : value) (v : value) : Rule :=
  if isNullish v then Return v
  else
    Observe (fun h _ =>
      if sameType v maxVal && jsGt h v maxVal
      then AddError "{tooLarge}" (Some [("max", jsString h maxVal)]) (Return v)
      else Return v).

(** ['min'] with the parameter [minVal]; [value < minVal] is
    [minVal > value]. *)
Definition minRule `{HostOps} (minVal : value) (v : value) : Rule :=
  if isNullish v then Return v
  else
    Observe (fun h _ =>
      if sameType v minVal && jsGt h minVal v
      then AddError "{tooSmall}" (Some [("min", jsString h minVal)]) (Return v)
      else Return v).

(** ['range'] with the parameters [[minVal, maxVal]] *)
Definition rangeRule `{HostOps} (minVal maxVal : value) (v : value) : Rule :=
  if isNullish v then Return v
  else
    Observe (fun h _ =>
      if sameType v minVal && sameType v maxVal
         && (jsGt h minVal v || jsGt h v maxVal)
      then AddError "{outOfRange}"
             (Some [("min", jsString h minVal); ("max", jsString h maxVal)])
             (Return v)
      else Return v).

(** A character between two characters, as a class [[a-b]] takes it. *)
Definition isBetween (lo hi c : ascii) : bool :=
  (nat_of_ascii lo <=? nat_of_ascii c)%nat && (nat_of_ascii c <=? nat_of_ascii hi)%nat.

(** The hours of a time, two characters: a character from 0 to 1 and a
    digit, or 2 and a character from 0 to 3. *)
Definition isHours (h1 h2 : ascii) : bool :=
  isBetween "0" "1" h1 && isBetween "0" "9" h2
  || Ascii.eqb h1 "2"%char && isBetween "0" "3" h2.

(** The minutes of a time: a character from 0 to 5 and a digit. *)
Definition isMinutes (m1 m2 : ascii) : bool :=
  isBetween "0" "5" m1 && isBetween "0" "9" m2.

(** The test against the pattern of a time from start to end: hours, a
    colon, minutes. *)
Definition isTimeText (s : string) : bool :=
  match s with
  | String h1 (String h2 (String c (String m1 (String m2 EmptyString)))) =>
      isHours h1 h2 && Ascii.eqb c ":"%char && isMinutes m1 m2
  | _ => false
  end.

(** The test against the pattern of a time that is only bound to the end of
    the string. *)
Definition endsWithTime (s : string) : bool :=
  (5 <=? String.length s)%nat && isTimeText (substringFrom (String.length s - 5) s).

(** The two patterns of ['time'].  In the one for the option [allow24] the
    alternation is outermost: the text [24:00] bound to the start of the
    string, or a time bound to its end. *)
Definition timeFormat (allow24 : bool) (s : string) : bool :=
  if allow24 then startsWith "24:00" s || endsWithTime s else isTimeText s.

(** [(typeof p === 'string') && p], when it is taken for true. *)
Definition nonEmptyString (p : value) : option string :=
  match p with
  | VString s => if isEmptyString s then None else Some s
  | _ => None
  end.

(** The options of ['time']: the first parameter if it is a string, or else
    the second. *)
Definition timeOptions (param1 param2 : value) : option string :=
  match nonEmptyString param1 with
  | Some s => Some s
  | None => nonEmptyString param2
  end.

(** ['time'] with the parameters [[param1, param2]].  [misaligned param1 s]
    stands for the arithmetic of the granularity: [param1] is an integer
    other than zero and [Number(s.substring(3)) % param1 !== 0]. *)
Definition timeRule `{HostOps} (misaligned : value -> string -> bool)
  (param1 param2 : value) (v : value) : Rule :=
  match v with
  | VString s =>
      Observe (fun h _ =>
        let allow24 :=
          match timeOptions param1 param2 with
          | Some options => Standard.hasWordFrom false "allow24" options
          | None => false
          end in
        if negb (timeFormat allow24 s)
        then AddError "{invalidTime}" None (Return v)
        else if misaligned param1 s
             then AddError "{invalidTimeGranularity}"
                    (Some [("granularity", jsString h param1)]) (Return v)
             else Return v)
  | _ => Return v
  end.

(** The two decimal digits of a number below 100. *)
Definition twoDigits (n : nat) : string :=
  String (ascii_of_nat (48 + n / 10)) (String (ascii_of_nat (48 + n mod 10)) EmptyString).

(** The time [hh:mm] written out. *)
Definition timeText (hh mm : nat) : string :=
  twoDigits hh +:+ ":" +:+ twoDigits mm.

End ParameterRules.

(* ===================================================================== *)
(** ** index.js: the validators of a record type or property *)
(* ===================================================================== *)

Module Extension.

Import RecordNormalizer.

(** A validator specification, as a definition or a list of default
    validators gives it: a validator id, an array of an id followed by
    parameters (with no parameter when the id stands alone in it), or
    something else, such as an empty array. *)
Inductive ValidatorSpec (P : Type) : Type :=
| SpecId (id : string)
| SpecArray (id : string) (params : list P)
| SpecOther.
Arguments SpecId {P}.
Arguments SpecArray {P}.
Arguments SpecOther {P}.

(** The attribute [validators] or [elementValidators] of a definition: not
    given, an array of specifications, an object of them by validation sets
    (each value an array, or not), or something else. *)
Inductive ValidatorsDef (P : Type) : Type :=
| DefAbsent
| DefArray (specs : list (ValidatorSpec P))
| DefObject (bySets : list (string * option (list (ValidatorSpec P))))
| DefOther.
Arguments DefAbsent {P}.
Arguments DefArray {P}.
Arguments DefObject {P}.
Arguments DefOther {P}.

(** A validator function with its parameters bound:
    [validatorFunc.bind(undefined, params)]. *)
Definition Bound (F P : Type) : Type := (F * option (list P))%type.

(** What [createValidators] leaves under a validation set: the bound
    functions, or the specifications as they were when none of them gave a
    function. *)
Inductive SetEntry (F P : Type) : Type :=
| Resolved (funcs : list (Bound F P))
| Raw (specs : list (ValidatorSpec P)).
Arguments Resolved {F P}.
Arguments Raw {F P}.

(** The double quote character. *)
Definition dquote : string := String (ascii_of_nat 34) EmptyString.

Definition invalidSpecification (subjDescription detail : string) : Fault :=
  X2UsageError ("Invalid validators specification on " +:+ subjDescription +:+ detail).

(** [s.split(',')]: the pieces between the commas. *)
Fixpoint splitAtCommas (s : string) : string * list string :=
  match s with
  | EmptyString => (EmptyString, [])
  | String c r =>
      let '(p, ps) := splitAtCommas r in
      if isComma c then (EmptyString, p :: ps) else (String c p, ps)
  end.

Definition splitCommas (s : string) : list string :=
  let '(p, ps) := splitAtCommas s in p :: ps.

Section CreateValidators.

Context {F P : Type}.

(** The validator functions known where the subject is defined, by id. *)
Variable validatorFuncs : string -> option F.

Variable subjDescription : string.

(** The loop over the specifications of one validation set, with the
    validators collected so far (each with its id). *)
Fixpoint resolveSpecs (specs : list (ValidatorSpec P))
  (validators : list (string * Bound F P)) : Fault + list (string * Bound F P) :=
  match specs with
  | [] => inr validators
  | validatorSpec :: rest =>
      match validatorSpec with
      | SpecId id =>
          if startsWith "-" id
          then
            let validatorId := substringFrom 1 id in
            resolveSpecs rest
              (List.filter (fun v => negb (String.eqb (fst v) validatorId)) validators)
          else
            match validatorFuncs id with
            | None =>
                inl (invalidSpecification subjDescription
                       (": unknown validator " +:+ dquote +:+ id +:+ dquote +:+ "."))
            | Some validatorFunc =>
                resolveSpecs rest (validators ++ [(id, (validatorFunc, None))])
            end
      | SpecArray id params =>
          match validatorFuncs id with
          | None =>
              inl (invalidSpecification subjDescription
                     (": unknown validator " +:+ dquote +:+ id +:+ dquote +:+ "."))
          | Some validatorFunc =>
              resolveSpecs rest
                (validators
                   ++ [(id, (validatorFunc,
                             match params with [] => None | _ => Some params end))])
          end
      | SpecOther =>
          inl (invalidSpecification subjDescription
                 ": each validator must be either a string or a non-empty array.")
      end
  end.

(** A specification the loop raises on: one that is neither an id nor an
    array starting with one, or one that names, other than to take it out, a
    validator that is not known. *)
Definition raisesOn (validatorSpec : ValidatorSpec P) : bool :=
  match validatorSpec with
  | SpecId id =>
      negb (startsWith "-" id)
      && match validatorFuncs id with Some _ => false | None => true end
  | SpecArray id _ => match validatorFuncs id with Some _ => false | None => true end
  | SpecOther => true
  end.

(** [sets[setId]] extended with specifications, or set to them when there
    is no such set yet. *)
Definition addToSet (setId : string) (specs : list (ValidatorSpec P))
  (sets : list (string * list (ValidatorSpec P))) : list (string * list (ValidatorSpec P)) :=
  assocSet setId
    (match assoc setId sets with Some set => set ++ specs | None => specs end) sets.

(** The sets with what an attribute of the definition adds; [prefix] is
    empty for [validators] and ['element:'] for [elementValidators], and
    [what] is the word the fault for a value that is no array has. *)
Definition mergeDef (prefix what : string) (def : ValidatorsDef P)
  (sets : list (string * list (ValidatorSpec P)))
  : Fault + list (string * list (ValidatorSpec P)) :=
  match def with
  | DefAbsent => inr sets
  | DefArray specs => inr (addToSet (prefix +:+ "*") specs sets)
  | DefObject bySets =>
      fold_left
        (fun acc entry =>
           match acc with
           | inl fault => inl fault
           | inr sets' =>
               match snd entry with
               | None =>
                   inl (X2UsageError
                          ("Invalid " +:+ what +:+ " specification on "
                             +:+ subjDescription
                             +:+ ": expected an array for validation set "
                             +:+ fst entry +:+ "."))
               | Some setValidators =>
                   inr (fold_left
                          (fun s setId => addToSet (prefix +:+ setId) setValidators s)
                          (splitCommas (fst entry)) sets')
               end
           end)
        bySets (inr sets)
  | DefOther =>
      inl (invalidSpecification subjDescription ": expected an object or an array.")
  end.

(** The last loop of [createValidators]: each set resolved in turn. *)
Fixpoint resolveSets (sets : list (string * list (ValidatorSpec P)))
  : Fault + list (string * SetEntry F P) :=
  match sets with
  | [] => inr []
  | (setId, specs) :: rest =>
      match resolveSpecs specs [] with
      | inl fault => inl fault
      | inr validators =>
          match resolveSets rest with
          | inl fault => inl fault
          | inr entries =>
              inr ((setId,
                    match validators with
                    | [] => Raw specs
                    | _ => Resolved (map snd validators)
                    end) :: entries)
          end
      end
  end.

(** The number of validators of the sets that were resolved. *)
Definition numValidators (entries : list (string * SetEntry F P)) : nat :=
  list_sum (map (fun e => match snd e with
                          | Resolved funcs => length funcs
                          | Raw _ => 0
                          end) entries).

(** [createValidators(validatorFuncs, defaultValidators, subjDef,
    subjDescription)], with the attributes [validators] and
    [elementValidators] of [subjDef]: the sets, or [null]. *)
Definition createValidators (defaultValidators : list (string * list (ValidatorSpec P)))
  (validators elementValidators : ValidatorsDef P)
  : Fault + option (list (string * SetEntry F P)) :=
  match mergeDef "" "validators" validators defaultValidators with
  | inl fault => inl fault
  | inr sets1 =>
      match mergeDef "element:" "element validators" elementValidators sets1 with
      | inl fault => inl fault
      | inr sets2 =>
          match resolveSets sets2 with
          | inl fault => inl fault
          | inr entries =>
              inr (if (0 <? numValidators entries)%nat then Some entries else None)
          end
      end
  end.

End CreateValidators.

End Extension.

(* ===================================================================== *)
(** ** index.js: the messages of a record type or property *)
(* ===================================================================== *)

Module Messages.

(** [messagesStore[messageId]], found on the store or inherited. *)
Definition rawLookup (store : MessagesStore) (messageId : string)
  : option MessageTemplates :=
  if String.eqb messageId "*" then Some (messagesWildcard store)
  else assoc messageId (messagesById store).

(** [messagesStore[messageId] = messageDef] on a store created from its
    base: the new entry comes before the inherited ones. *)
Definition setMessage (store : MessagesStore) (messageId : string)
  (messageDef : MessageTemplates) : MessagesStore :=
  if String.eqb messageId "*"
  then mkMessagesStore (messagesById store) messageDef
  else mkMessagesStore ((messageId, messageDef) :: messagesById store)
                       (messagesWildcard store).

Definition hasLang (lang : string) (tmpls : list (string * string)) : bool :=
  match assoc lang tmpls with Some _ => true | None => false end.

(** The definition of a message as [createValidationErrorMessages] stores
    it: templates by language given for a message that has templates by
    language are put on an object created from the existing one, so that
    the languages not given are inherited and come after the given ones;
    anything else replaces what was there. *)
Definition mergeMessageDef (existingMessageDef : option MessageTemplates)
  (messageDef : MessageTemplates) : MessageTemplates :=
  match existingMessageDef, messageDef with
  | Some (TmplByLang first others), TmplByLang first' others' =>
      TmplByLang first'
        (others'
           ++ List.filter (fun e => negb (hasLang (fst e) (first' :: others')))
                          (first :: others))
  | _, _ => messageDef
  end.

(** [createValidationErrorMessages(base, subjDef)], with the attribute
    [validationErrorMessages] of [subjDef], if it has one. *)
Definition createValidationErrorMessages (base : MessagesStore)
  (validationErrorMessages : option (list (string * MessageTemplates)))
  : MessagesStore :=
  match validationErrorMessages with
  | None => base
  | Some defs =>
      fold_left
        (fun store def =>
           setMessage store (fst def)
             (mergeMessageDef (rawLookup store (fst def)) (snd def)))
        defs base
  end.

(** The templates of a message by language, if it has them so. *)
Definition templatesByLang (t : MessageTemplates) : list (string * string) :=
  match t with
  | TmplString _ => []
  | TmplByLang first others => first :: others
  end.

End Messages.

(* ===================================================================== *)
(** ** index.js: the default validators of a property *)
(* ===================================================================== *)

Module Defaults.

Import Extension.

(** The validators [extendPropertyDescriptor] adds for the scalar value
    type of a property; [refTarget] is the target of a reference
    property. *)
Definition scalarTypeValidators {P : Type} (scalarValueType : string) (refTarget : P)
  : list (ValidatorSpec P) :=
  if String.eqb scalarValueType "string" then [SpecId "string"; SpecId "trim"]
  else if String.eqb scalarValueType "number" then [SpecId "number"]
  else if String.eqb scalarValueType "boolean" then [SpecId "boolean"]
  else if String.eqb scalarValueType "datetime" then [SpecId "datetime"]
  else if String.eqb scalarValueType "ref" then [SpecArray "ref" [refTarget]]
  else if String.eqb scalarValueType "object" then [SpecId "object"]
  else [].

(** The default validators [extendPropertyDescriptor] gives a property
    that is no view and no type property of a polymorphic object, from what
    its descriptor says: [optional], the structure, the scalar value type,
    [allowDuplicates] and [refTarget]. *)
Definition defaultValidators {P : Type} (optional : bool) (structure : Structure)
  (scalarValueType : string) (allowDuplicates : bool) (refTarget : P)
  : list (string * list (ValidatorSpec P)) :=
  let required := if optional then [] else [SpecId "required"] in
  let ofType := scalarTypeValidators scalarValueType refTarget in
  let objectElements := String.eqb scalarValueType "object" in
  let elementRequired := if objectElements then [SpecId "required"] else [] in
  match structure with
  | ScalarProp => [("*", required ++ ofType); ("element:*", [])]
  | ArrayProp =>
      [("*", required ++ [SpecId "array"]
               ++ (if objectElements then []
                   else if allowDuplicates then [] else [SpecId "noDupes"]));
       ("element:*", elementRequired ++ ofType)]
  | MapProp =>
      [("*", required ++ [SpecId "object"]);
       ("element:*", elementRequired ++ ofType)]
  end.

(** The ids of the standard validators, the keys of [VALIDATOR_DEFS] in
    lib/standard.js. *)
Definition standardValidatorIds : list string :=
  ["required"; "empty"; "string"; "number"; "boolean"; "datetime"; "ref"; "object";
   "array"; "noDupes"; "integer"; "precision"; "dropEmptyString"; "trim"; "pattern";
   "maxLength"; "minLength"; "max"; "min"; "range"; "oneOf"; "lowercase";
   "uppercase"; "email"; "date"; "time"; "timeToSecond"; "ccNumber";
   "bankRoutingNumber"; "weekday2"; "weekday3"; "loc_US:state2"; "loc_US:zip5";
   "loc_US:phone10"; "rangeDef"; "requiredIf"; "requiredUnless"; "emptyIf";
   "emptyUnless"].

(** The standard validators by id, each standing for its function. *)
Definition standardValidators (id : string) : option string :=
  if existsb (String.eqb id) standardValidatorIds then Some id else None.

End Defaults.

(* ===================================================================== *)
(** ** lib/standard.js: the errors of the dependency rules *)
(* ===================================================================== *)

Module Dependencies.

(** The test value of a dependency rule: not given, a pattern, or another
    value, each with the text [String(testValue)] gives. *)
Inductive TestValue : Type :=
| NoTestValue
| TestPattern (text : string)
| TestEquals (text : string).

(** The context with what [addDepsError] keeps on it under [DEPS_ERRORS]:
    the pointers a dependency error was reported at. *)
Record DepsContext : Type := mkDepsContext {
  baseContext : ValidationContext;
  depsErrors : gset string
}.

(** The message id of a dependency error of the given type. *)
Definition depsMessage (type : string) (testValue : TestValue) : string :=
  match testValue with
  | NoTestValue => "{" +:+ type +:+ "}"
  | TestPattern _ => "{" +:+ type +:+ "Pattern}"
  | TestEquals _ => "{" +:+ type +:+ "Value}"
  end.

Definition depsParams (propName : string) (testValue : TestValue) : MessageParams :=
  [("prop", propName);
   match testValue with
   | NoTestValue => ("value", "undefined")
   | TestPattern text => ("pattern", text)
   | TestEquals text => ("value", text)
   end].

(** [addDepsError(ctx, type, propName, testValue)] *)
Definition addDepsError (type propName : string) (testValue : TestValue)
  (dc : DepsContext) : DepsContext :=
  let curPtrStr := toString (Context.currentPointer (baseContext dc)) in
  if bool_decide (curPtrStr ∈ depsErrors dc) then dc
  else
    mkDepsContext
      (Context.addError (baseContext dc) (depsMessage type testValue)
         (Some (depsParams propName testValue)))
      ({[curPtrStr]} ∪ depsErrors dc).

End Dependencies.

(* ===================================================================== *)
(** ** Lists of validation set names *)
(* ===================================================================== *)

(** Names written one after the other with a comma between them. *)
Fixpoint joinCommas (names : list string) : string :=
  match names with
  | [] => EmptyString
  | [name] => name
  | name :: rest => name +:+ "," +:+ joinCommas rest
  end.

(* ===================================================================== *)
(** ** The default validators as rule chains *)
(* ===================================================================== *)

Module DefaultChains.

Import StandardRules Extension Defaults.

Section Rules.

Context `{HostOps}.

(** ['number'] *)
Definition numberRule (v : value) : Rule :=
  if isNullish v then Return v
  else
    let actual := typeof v in
    match v with
    | VNumber x =>
        if negb (PrimFloat.is_finite x)
        then Observe (fun h _ =>
               AddError "{invalidNumber}" (Some [("value", jsString h v)]) (Return v))
        else Return v
    | _ =>
        AddError "{invalidValueType}"
          (Some [("expected", "number"); ("actual", typeName actual)]) (Return v)
    end.

(** ['boolean'] *)
Definition booleanRule (v : value) : Rule :=
  if isNullish v then Return v
  else
    let actual := typeof v in
    match actual with
    | TyBoolean => Return v
    | _ =>
        AddError "{invalidValueType}"
          (Some [("expected", "boolean"); ("actual", typeName actual)]) (Return v)
    end.

(** ['object'] *)
Definition objectRule (v : value) : Rule :=
  if isNullish v then Return v
  else
    let actual := typeof v in
    if negb (isTyObject actual)
    then AddError "{invalidValueType}"
           (Some [("expected", "object"); ("actual", typeName actual)]) (Return v)
    else Return v.

(** ['array'] *)
Definition arrayRule (v : value) : Rule :=
  if isNullish v then Return v
  else
    Observe (fun h _ =>
      if negb (isArray h v) then AddError "{notArray}" None (Return v)
      else Return v).

(** A validator function as [VALIDATOR_DEFS] has it: the parameters come
    first. *)
Definition validatorFunc : Type := option (list value) -> curriedValidator.

(** The functions of [VALIDATOR_DEFS] the default validators name, by id,
    but for ['datetime'] and ['ref']. *)
Definition standardDefs (id : string) : option validatorFunc :=
  if String.eqb id "required" then Some (fun _ => Standard.required)
  else if String.eqb id "string" then Some (fun _ => stringRule)
  else if String.eqb id "number" then Some (fun _ => numberRule)
  else if String.eqb id "boolean" then Some (fun _ => booleanRule)
  else if String.eqb id "object" then Some (fun _ => objectRule)
  else if String.eqb id "array" then Some (fun _ => arrayRule)
  else if String.eqb id "noDupes" then Some (fun _ => noDupes)
  else if String.eqb id "trim" then Some (fun _ => trimRule)
  else None.

(** [validatorFunc.bind(undefined, params)] as the engine calls it. *)
Definition bound (b : Bound validatorFunc value) : curriedValidator := fst b (snd b).

End Rules.

End DefaultChains.

(* ===================================================================== *)
(** ** Where the model of strings and objects is exact *)
(* ===================================================================== *)

(** A string of this file is a list of characters of one byte each, and
    stands for the JavaScript string of the same characters when all of them
    are ASCII.  On such strings [isSpace], [isLineTerminator], [upperChar]
    and [lowerChar] are the white space class, the line terminators,
    [toUpperCase] and [toLowerCase] of JavaScript; beyond ASCII JavaScript
    knows more white space, two more line terminators and more letters, and
    the properties that depend on them are stated for ASCII text. *)
Definition isAsciiChar (c : ascii) : bool := (nat_of_ascii c <? 128)%nat.

Fixpoint isAsciiText (s : string) : bool :=
  match s with
  | EmptyString => true
  | String c r => isAsciiChar c && isAsciiText r
  end.

(** The names every plain object inherits from [Object.prototype]:
    [obj[name]] answers for them where the object has no property of its own
    under the name.  The lists that stand for objects here hold the
    properties of the object and of the objects it was created from, and
    the lookups in them are those of the code for every other name. *)
Definition objectPrototypeNames : list string :=
  ["constructor"; "__defineGetter__"; "__defineSetter__"; "hasOwnProperty";
   "__lookupGetter__"; "__lookupSetter__"; "isPrototypeOf";
   "propertyIsEnumerable"; "toString"; "valueOf"; "__proto__";
   "toLocaleString"].

Definition isInheritedName (name : string) : bool :=
  existsb (String.eqb name) objectPrototypeNames.

(** A key made of digits only.  The keys [for ... in] lists before the
    others, whatever the order of declaration, the array indices, are among
    them; for every other key the order is that of declaration. *)
Definition isDigitsKey (key : string) : bool :=
  negb (isEmptyString key) && StandardRules.forallChar StandardRules.isDigit key.

(** Whether a child token names something under a pointer, as
    [createChildPointer] resolves it: an element of a collection, or a
    property of the container the pointer stands in.  The pointers package
    raises on a token that names nothing. *)
Definition tokenResolves (p : RecordElementPointer) (token : string) : bool :=
  match propDesc p with
  | Some pd =>
      if negb (isScalarProp pd) && negb (collectionElement p) then true
      else match childDesc (nestedProperties pd) token with
           | Some _ => true
           | None => false
           end
  | None =>
      match childDesc (recordProperties (ptrRecordType p)) token with
      | Some _ => true
      | None => false
      end
  end.

Fixpoint tokensResolve (p : RecordElementPointer) (tokens : list string) : bool :=
  match tokens with
  | [] => true
  | token :: rest =>
      tokenResolves p token && tokensResolve (createChildPointer p token) rest
  end.

(** Whether [pointers.parse(recordTypeDesc, str)] returns. *)
Definition parses (recordTypeDesc : RecordTypeDescriptor unit) (str : string) : bool :=
  tokensResolve (rootPointer recordTypeDesc) (snd (splitSlash str)).

(** A pointer argument [addErrorFor] and [getElementTitle] take without
    raising: a pointer object, or a string that parses. *)
Definition pointerResolves (ctx : ValidationContext) (ptr : PointerArg) : bool :=
  match ptr with
  | PtrString s => parses (_recordTypeDesc ctx) s
  | PtrObject _ => true
  end.

Definition isSlash (c : ascii) : bool := Ascii.eqb c "/"%char.

(** Where ['rangeDef'] stands: on the record, or on a property whose values
    are nested objects, which has nested properties to compare. *)
Definition holdsObjects (ctx : ValidationContext) : Prop :=
  match Context.currentPropDesc ctx with
  | Some pd => scalarValueType pd = "object"
  | None => True
  end.

(* ===================================================================== *)
(** ** index.js: the sets of specifications of a subject *)
(* ===================================================================== *)

(** The first part of [createValidators]: the sets of specifications the
    last loop goes over, the default ones with what the attributes
    [validators] and [elementValidators] of the definition add. *)
Definition specificationSets {P : Type} (subjDescription : string)
  (defaultValidators : list (string * list (Extension.ValidatorSpec P)))
  (validators elementValidators : Extension.ValidatorsDef P)
  : RecordNormalizer.Fault + list (string * list (Extension.ValidatorSpec P)) :=
  match Extension.mergeDef subjDescription "" "validators" validators
          defaultValidators with
  | inl fault => inl fault
  | inr sets1 =>
      Extension.mergeDef subjDescription "element:" "element validators"
        elementValidators sets1
  end.

(* ===================================================================== *)
(** ** Rule functions that report with [addError] *)
(* ===================================================================== *)



(* ===================================================================== *)
(** ** Calls that raise *)
(* ===================================================================== *)

(** The engine once more, with the calls that do not return.  A rule
    function is JavaScript: besides returning, reading and reporting it can
    raise and it can assign into the record.  [ctx.addErrorFor] and
    [ctx.getElementTitle] raise, in [pointers.parse], on a string that names
    no element of the record type.  A validation set in which no
    specification gave a function is left by [createValidators] holding its
    specifications, and the call of a specification raises [TypeError].  The
    engine catches nothing: a raise ends the traversal where it stands and
    leaves [normalize].  The functions of [RecordNormalizer] are these on the
    runs in which every call returns. *)
Module Raising.

Import RecordNormalizer.

(** What leaves a call: a fault of this package, or what [pointers.parse]
    raises for a string that names no element (the pointers package is
    another one, and the fault is named here by the string). *)
Inductive Failure : Type :=
| Thrown (e : Fault)
| NoSuchElement (ptr : string).

Inductive Rule : Type :=
| Return (v : value)
| Observe (k : heap -> ValidationContext -> Rule)
| AddErrorFor (ptr : PointerArg) (message : string)
              (params : option MessageParams) (k : Rule)
| Assign (target : loc) (key : string) (v : value) (k : Rule)
| Raise (e : Failure).

(** [ctx.addError(message, params)] followed by [k]. *)
Definition AddError (message : string) (params : option MessageParams) (k : Rule)
  : Rule :=
  Observe (fun _ ctx => AddErrorFor (PtrObject (Context.currentPointer ctx))
                                    message params k).

(** What [validators[set]] holds: a rule function, or a specification (a
    string or an array) that was left in its set. *)
Inductive SetMember : Type :=
| Function (f : value -> Rule)
| Specification.

(** How a part of the run ends: done, with a value, or raised; in both
    cases the record and the context are as the part left them. *)
Inductive Result (A : Type) : Type :=
| Done (a : A) (st : State)
| Raised (e : Failure) (st : State).
Arguments Done {A}.
Arguments Raised {A}.

Definition Run (A : Type) : Type := State -> Result A.

Definition ret {A : Type} (a : A) : Run A := fun st => Done a st.

Definition bind {A B : Type} (m : Run A) (f : A -> Run B) : Run B :=
  fun st =>
    match m st with
    | Done a st' => f a st'
    | Raised e st' => Raised e st'
    end.

(** A step that always returns. *)
Definition lift (f : State -> State) : Run unit := fun st => Done tt (f st).

Definition raise {A : Type} (e : Failure) : Run A := fun st => Raised e st.

(** [for (let a of l) f(a);] *)
Definition foldRun {A : Type} (f : A -> Run unit) : list A -> Run unit :=
  fix go (l : list A) : Run unit :=
    match l with
    | [] => ret tt
    | a :: rest => bind (f a) (fun _ => go rest)
    end.

(** The call of a rule function. *)
Fixpoint runRule (r : Rule) (st : State) : Result value :=
  match r with
  | Return v => Done v st
  | Observe k => runRule (k (heapOf st) (ctxOf st)) st
  | AddErrorFor ptr message params k =>
      if pointerResolves (ctxOf st) ptr
      then runRule k (addErrorForSt ptr message params st)
      else Raised (NoSuchElement (pointerArgString ptr)) st
  | Assign target key v k => runRule k (assignSt target key v st)
  | Raise e => Raised e st
  end.

(** [validator(ctx, value)] *)
Definition callValidator (kind : ChainKind) (validator : SetMember) (v : value)
  : Run value :=
  match validator with
  | Function f =>
      fun st =>
        runRule (f v)
          (logEvent (EvCall kind (toString (Context.currentPointer (ctxOf st))) v) st)
  | Specification => raise (Thrown TypeError)
  end.

(** [for (let validator of validators) value = validator(ctx, value);] *)
Fixpoint runChain (kind : ChainKind) (chain : list SetMember) (v : value)
  : Run value :=
  match chain with
  | [] => ret v
  | validator :: rest =>
      bind (callValidator kind validator v) (fun v' => runChain kind rest v')
  end.

(** [for (let validator of validators) validator(ctx, obj);] *)
Definition runChainOn (kind : ChainKind) (chain : list SetMember) (obj : value)
  : Run unit :=
  foldRun (fun validator => bind (callValidator kind validator obj) (fun _ => ret tt))
          chain.

(** The validators of an element, and the assignment of their result. *)
Definition validateElement (chain : list SetMember) (collection : loc) (key : string)
  (originalElementValue : value) : Run unit :=
  bind (runChain ElementChain chain originalElementValue)
       (fun elementValue =>
          if strictNeq elementValue originalElementValue
          then lift (assignSt collection key elementValue)
          else ret tt).

(** The body of the loops over the elements of an array or a map of nested
    objects. *)
Definition normalizeObjectElement (children : loc -> Run unit)
  (elementValidators : option (list SetMember))
  (collection : loc) (key : string) : Run unit :=
  fun st =>
    let originalElementValue := getProp (heapOf st) collection key in
    bind (lift (descendSt key (VObject collection)))
      (fun _ =>
         bind match originalElementValue with
              | VObject l => children l
              | _ => ret tt
              end
           (fun _ =>
              bind match elementValidators with
                   | Some chain =>
                       validateElement chain collection key originalElementValue
                   | None => ret tt
                   end
                (fun _ => lift ascendSt)))
      st.

(** The body of the loops over the elements of the other collections. *)
Definition normalizeSimpleElement (chain : list SetMember)
  (collection : loc) (key : string) : Run unit :=
  fun st =>
    let originalElementValue := getProp (heapOf st) collection key in
    bind (lift (descendSt key (VObject collection)))
      (fun _ =>
         bind (validateElement chain collection key originalElementValue)
              (fun _ => lift ascendSt))
      st.

(** The two loops over the keys of a collection. *)
Definition normalizeElements (children : loc -> Run unit)
  (objectElements : bool) (elementValidators : option (list SetMember))
  (collection : loc) (keys : list string) : Run unit :=
  if objectElements
  then foldRun (normalizeObjectElement children elementValidators collection) keys
  else match elementValidators with
       | Some chain => foldRun (normalizeSimpleElement chain collection) keys
       | None => ret tt
       end.

(** [normalizeChildren], given what to do with one property.  The pointer
    of the type property is one the record types library declares in every
    polymorphic container. *)
Definition normalizeChildrenWith
  (normalizeProperty :
     PropertyDescriptor SetMember -> option string -> value -> loc -> Run unit)
  (container : PropertiesContainer (PropertyDescriptor SetMember))
  (subtypeName : option string) (containerObj : loc) : Run unit :=
  fun st =>
    let subtype :=
      if isPolymorphObject container
      then getProp (heapOf st) containerObj (typePropertyName container)
      else VUndefined in
    if isPolymorphObject container && invalidSubtype container subtype
    then lift (addErrorForSt
                 (PtrString (toString (Context.currentPointer (ctxOf st))
                               +:+ "/" +:+ typePropertyName container))
                 "{invalidType}" None) st
    else foldRun
           (fun propDesc =>
              normalizeProperty propDesc subtypeName subtype containerObj)
           (properties container) st.

(** "validate property's nested elements if any" *)
Definition normalizeNested (children : loc -> Run unit)
  (validationSets : gset string) (propDesc : PropertyDescriptor SetMember)
  (originalValue : value) : Run unit :=
  fun st =>
    let objectElements := String.eqb (scalarValueType propDesc) "object" in
    match structure propDesc with
    | ArrayProp =>
        match originalValue with
        | VObject arr =>
            if isArray (heapOf st) originalValue
               && (0 <? lengthOf (heapOf st) arr)%nat
            then normalizeElements children objectElements
                   (getValidators (subject propDesc) true validationSets)
                   arr (map indexKey (seq 0 (lengthOf (heapOf st) arr))) st
            else Done tt st
        | _ => Done tt st
        end
    | MapProp =>
        match originalValue with
        | VObject obj =>
            normalizeElements children objectElements
              (getValidators (subject propDesc) true validationSets)
              obj (keysOf (heapOf st) obj) st
        | _ => Done tt st
        end
    | ScalarProp =>
        match originalValue with
        | VObject obj => if objectElements then children obj st else Done tt st
        | _ => Done tt st
        end
    end.

(** "run property validators" and "replace original value in the record if
    was normalized". *)
Definition validateProperty (validationSets : gset string)
  (propDesc : PropertyDescriptor SetMember) (containerObj : loc)
  (originalValue : value) : Run unit :=
  bind match getValidators (subject propDesc) false validationSets with
       | Some chain => runChain PropertyChain chain originalValue
       | None => ret originalValue
       end
    (fun value =>
       if strictNeq value originalValue
       then lift (assignSt containerObj (name propDesc) value)
       else ret tt).

(** The body of the loop of [normalizeChildren] over the properties. *)
Fixpoint normalizeProperty (validationSets : gset string)
  (propDesc : PropertyDescriptor SetMember)
  (subtypeName : option string) (subtype : value) (containerObj : loc)
  {struct propDesc} : Run unit :=
  if isView propDesc then ret tt
  else if isSubtype propDesc then
    if strictEq (VString (name propDesc)) subtype then
      bind (normalizeChildrenWith (normalizeProperty validationSets)
              (nestedProperties propDesc) (asString subtype) containerObj)
        (fun _ =>
           match getValidators (subject propDesc) false validationSets with
           | Some chain => runChainOn SubtypeChain chain (VObject containerObj)
           | None => ret tt
           end)
    else ret tt
  else
    fun st =>
      let originalValue := getProp (heapOf st) containerObj (name propDesc) in
      bind (lift (descendSt (childToken subtypeName (name propDesc))
                    (VObject containerObj)))
        (fun _ =>
           bind (normalizeNested
                   (normalizeChildrenWith (normalizeProperty validationSets)
                      (nestedProperties propDesc) None)
                   validationSets propDesc originalValue)
             (fun _ =>
                bind (validateProperty validationSets propDesc containerObj
                        originalValue)
                  (fun _ => lift ascendSt)))
        st.

(** [normalizeChildren(ctx, container, subtypeName, containerObj,
    validationSets)] *)
Definition normalizeChildren (validationSets : gset string)
  (container : PropertiesContainer (PropertyDescriptor SetMember))
  (subtypeName : option string) (containerObj : loc) : Run unit :=
  normalizeChildrenWith (normalizeProperty validationSets)
    container subtypeName containerObj.

(** The record-level step of [normalize]. *)
Definition normalizeWhole (recordTypeDesc : RecordTypeDescriptor SetMember)
  (sets : gset string) (record : value) : Run unit :=
  match getValidators (recordSubject recordTypeDesc) false sets with
  | Some recordValidators => runChainOn RecordChain recordValidators record
  | None => ret tt
  end.

(** The two steps of [normalize] on the context it made. *)
Definition traverse (recordTypeDesc : RecordTypeDescriptor SetMember)
  (sets : gset string) (recordObj : loc) : Run unit :=
  bind (normalizeChildren sets (recordProperties recordTypeDesc) None recordObj)
       (fun _ => normalizeWhole recordTypeDesc sets (VObject recordObj)).

(** The context [normalize] creates. *)
Definition initialContext
  (recordTypes : string -> option (RecordTypeDescriptor SetMember))
  (recordTypeDesc : RecordTypeDescriptor SetMember)
  (messageResolver : list string) (sets : gset string) : ValidationContext :=
  Context.create (fun n => option_map forgetRecordType (recordTypes n))
                 (forgetRecordType recordTypeDesc) messageResolver sets.

(** How a call of [normalize] ends. *)
Inductive Outcome : Type :=
| Throws (e : Failure)
| Returns (result : option (gmap string (list string))) (final : State).

(** [normalize(recordTypes, recordTypeName, record, lang, validationSets)] *)
Definition normalize
  (recordTypes : string -> option (RecordTypeDescriptor SetMember))
  (recordTypeName : string) (record : value) (lang : option string)
  (validationSets : option string) (h : heap) : Outcome :=
  if recordMissing record
  then Throws (Thrown (X2UsageError "Record object was not provided."))
  else
    match record with
    | VObject recordObj =>
        match recordTypes recordTypeName with
        | None => Throws (Thrown (X2UsageError "Unknown record type."))
        | Some recordTypeDesc =>
            let sets := activeSets validationSets in
            match MessageResolver.create (langOrDefault lang) with
            | None => Throws (Thrown TypeError)
            | Some messageResolver =>
                let ctx :=
                  initialContext recordTypes recordTypeDesc messageResolver sets in
                match traverse recordTypeDesc sets recordObj (mkState h ctx []) with
                | Done _ final => Returns (Context.getResult (ctxOf final)) final
                | Raised e _ => Throws e
                end
            end
        end
    | _ => Throws (Thrown (X2UsageError "Record object was not provided."))
    end.

(** *** The rules that raise *)

(** ['required'].  [isEmpty] answers for [undefined] and [null] before it
    asks the property descriptor; for any other value it calls
    [propDesc.isArray()], and on the record itself the descriptor is
    [null]. *)
Definition required (v : value) : Rule :=
  Observe (fun h ctx =>
    match Context.currentPropDesc ctx with
    | Some propDesc =>
        if Standard.isEmpty h (Context.currentPointer ctx) propDesc v
        then AddError "{missing}" None (Return v)
        else Return v
    | None =>
        if isNullish v then AddError "{missing}" None (Return v)
        else Raise (Thrown TypeError)
    end).

(** ['empty'] *)
Definition empty (v : value) : Rule :=
  Observe (fun h ctx =>
    match Context.currentPropDesc ctx with
    | Some propDesc =>
        if negb (Standard.isEmpty h (Context.currentPointer ctx) propDesc v)
        then AddError "{notEmpty}" None (Return v)
        else Return v
    | None =>
        if isNullish v then Return v else Raise (Thrown TypeError)
    end).

(** ['rangeDef'] with the parameters [[propLo, propHi, options]], on the
    record or on a property of nested objects:
    [ctx.getElementTitle(propLoPtr)] parses the pointer of the low property
    before the error is added for the high one. *)
Definition rangeDef `{HostOps} (propLo propHi : string)
  (options : option string) (v : value) : Rule :=
  match v with
  | VObject obj =>
      Observe (fun h ctx =>
        let curPtr := toString (Context.currentPointer ctx) in
        let containerDesc := Standard.rangeContainer ctx in
        if isPolymorphObject containerDesc
           && Context.hasErrorsFor ctx
                (PtrString (curPtr +:+ "/" +:+ typePropertyName containerDesc))
        then Return v
        else
          let propLoPtr := Standard.rangePointer h ctx obj propLo in
          let propHiPtr := Standard.rangePointer h ctx obj propHi in
          if Context.hasErrorsFor ctx (PtrString propLoPtr)
             || Context.hasErrorsFor ctx (PtrString propHiPtr)
          then Return v
          else
            let propLoVal := getProp h obj propLo in
            let propHiVal := getProp h obj propHi in
            if isNullish propLoVal || isNullish propHiVal then Return v
            else
              let nonZero := Standard.hasNonZero options in
              if nonZero && jsGe h propLoVal propHiVal
                 || negb nonZero && jsGt h propLoVal propHiVal
              then
                if pointerResolves ctx (PtrString propLoPtr)
                then
                  let propLoTitle :=
                    Context.getElementTitle ctx (PtrString propLoPtr) in
                  AddErrorFor (PtrString propHiPtr) "{invalidRangeDef}"
                    (Some [("rangeLoName", propLoTitle);
                           ("rangeLoNameCaps", capitalize propLoTitle)])
                    (Return v)
                else Raise (NoSuchElement propLoPtr)
              else Return v)
  | _ => Return v
  end.

End Raising.

(* ===================================================================== *)
(** ** From the sets of [createValidators] to the calls of the engine *)
(* ===================================================================== *)

(** A rule function of [RecordNormalizer], which returns from every call,
    among the ones that can raise. *)
Fixpoint returning (r : Rule) : Raising.Rule :=
  match r with
  | Return v => Raising.Return v
  | Observe k => Raising.Observe (fun h ctx => returning (k h ctx))
  | AddErrorFor ptr message params k =>
      Raising.AddErrorFor ptr message params (returning k)
  end.

Definition returningMember (f : curriedValidator) : Raising.SetMember :=
  Raising.Function (fun v => returning (f v)).

(** A descriptor with other rule functions in the same sets. *)
Definition mapSubject {V W : Type} (f : V -> W) (s : WithValidators V)
  : WithValidators W :=
  mkWithValidators (title s) (validationErrorMessages s)
    (match validators s with
     | Some sets => Some (map (fun e => (fst e, map f (snd e))) sets)
     | None => None
     end).

Fixpoint mapProperty {V W : Type} (f : V -> W) (p : PropertyDescriptor V)
  : PropertyDescriptor W :=
  mkPropertyDescriptor (name p) (isView p) (isSubtype p) (structure p)
    (scalarValueType p) (mapSubject f (subject p))
    (mkContainer (isPolymorphObject (nestedProperties p))
                 (typePropertyName (nestedProperties p))
                 (map (mapProperty f) (properties (nestedProperties p)))).

Definition mapContainer {V W : Type} (f : V -> W)
  (c : PropertiesContainer (PropertyDescriptor V))
  : PropertiesContainer (PropertyDescriptor W) :=
  mkContainer (isPolymorphObject c) (typePropertyName c)
              (map (mapProperty f) (properties c)).

Definition mapRecordType {V W : Type} (f : V -> W) (d : RecordTypeDescriptor V)
  : RecordTypeDescriptor W :=
  mkRecordTypeDescriptor (mapContainer f (recordProperties d))
                         (mapSubject f (recordSubject d)).

(** What a set of [createValidators] holds for the engine, [call] being the
    bound functions: the functions, or the specifications that were left. *)
Definition setMembers {F P : Type} (call : Extension.Bound F P -> value -> Raising.Rule)
  (entry : Extension.SetEntry F P) : list Raising.SetMember :=
  match entry with
  | Extension.Resolved funcs => map (fun b => Raising.Function (call b)) funcs
  | Extension.Raw specs => map (fun _ => Raising.Specification) specs
  end.

(** The attribute [validators] of a descriptor: what [createValidators]
    returned. *)
Definition validatorsAttribute {F P : Type}
  (call : Extension.Bound F P -> value -> Raising.Rule)
  (created : RecordNormalizer.Fault + option (list (string * Extension.SetEntry F P)))
  : option (list (string * list Raising.SetMember)) :=
  match created with
  | inr (Some sets) => Some (map (fun e => (fst e, setMembers call (snd e))) sets)
  | _ => None
  end.

(** A rule that calls [ctx.addErrorFor] with strings that name elements of
    the record type [rt], and neither raises nor is raised upon. *)
Fixpoint returnsIn (rt : RecordTypeDescriptor unit) (r : Raising.Rule) : Prop :=
  match r with
  | Raising.Return _ => True
  | Raising.Observe k =>
      forall h ctx, _recordTypeDesc ctx = rt -> returnsIn rt (k h ctx)
  | Raising.AddErrorFor ptr _ _ k =>
      match ptr with
      | PtrString s => parses rt s = true
      | PtrObject _ => True
      end /\ returnsIn rt k
  | Raising.Assign _ _ _ k => returnsIn rt k
  | Raising.Raise _ => False
  end.

(** A member of a set that is a function whose calls return. *)
Definition returnsAlways (rt : RecordTypeDescriptor unit) (m : Raising.SetMember)
  : Prop :=
  match m with
  | Raising.Function f => forall v, returnsIn rt (f v)
  | Raising.Specification => False
  end.

(** A rule function of [RecordNormalizer] whose reports name elements of
    the record type. *)
Definition resolves (rt : RecordTypeDescriptor unit) (f : curriedValidator) : Prop :=
  returnsAlways rt (returningMember f).

(** A state of a run of [normalize] on the record type [rt]: the errors
    object holds what the trace says was reported. *)
Definition recorded (rt : RecordTypeDescriptor unit) (st : State) : Prop :=
  _result (ctxOf st) = Trace.replayErrors (traceOf st) ValidationErrors.empty
  /\ _recordTypeDesc (ctxOf st) = rt.

(** A part of a run that keeps the errors object in step with the trace,
    and that raises only if [q] does not hold. *)
Definition Keeps (rt : RecordTypeDescriptor unit) (q : Prop) {A : Type}
  (m : Raising.Run A) : Prop :=
  forall st,
    recorded rt st ->
    match m st with
    | Raising.Done _ st' => recorded rt st'
    | Raising.Raised _ st' => recorded rt st' /\ ~ q
    end.

(** A part of a run with calls that can raise which does what a part of a
    run of [RecordNormalizer] does, and returns. *)
Definition Agrees (rt : RecordTypeDescriptor unit) {A : Type}
  (m : Raising.Run A) (f : State -> A * State) : Prop :=
  forall st,
    _recordTypeDesc (ctxOf st) = rt ->
    m st = Raising.Done (fst (f st)) (snd (f st))
    /\ _recordTypeDesc (ctxOf (snd (f st))) = rt.

Module RaisingExamples.

Import RecordNormalizer Examples Extension Defaults.

(** A record type with no property and the rule ['required'] on the record. *)
Definition formType : RecordTypeDescriptor Raising.SetMember :=
  mkRecordTypeDescriptor noProperties
    (titled "Form" (Some [("*", [Raising.Function Raising.required])])).

(** A number [x] defined with
    [validators: {'*': ['-number'], 'create': ['required']}]: the set ['*']
    is left with the specifications ['number'] and ['-number']. *)
Definition measureProp : PropertyDescriptor Raising.SetMember :=
  mkPropertyDescriptor "x" false false ScalarProp "number"
    (mkWithValidators (TmplString "x") standardMessages
       (validatorsAttribute (fun _ => Raising.required)
          (createValidators (P := string) standardValidators "property x"
             (defaultValidators true ScalarProp "number" false "")
             (DefObject [("*", Some [SpecId "-number"]);
                         ("create", Some [SpecId "required"])])
             DefAbsent)))
    noProperties.

Definition measureType : RecordTypeDescriptor Raising.SetMember :=
  mkRecordTypeDescriptor (mkContainer false "" [measureProp]) (titled "Measure" None).

Definition plainProp (n t : string) : PropertyDescriptor Raising.SetMember :=
  mkPropertyDescriptor n false false ScalarProp "string" (titled t None) noProperties.

(** The shift of [Examples], a polymorphic object with ['rangeDef'] on it. *)
Definition shiftProp : PropertyDescriptor Raising.SetMember :=
  mkPropertyDescriptor "shift" false false ScalarProp "object"
    (titled "shift"
       (Some [("*", [Raising.Function
                       (Raising.rangeDef (H := hostOps) "timeFrom" "timeTo" None)])]))
    (mkContainer true "type"
       [plainProp "type" "type";
        mkPropertyDescriptor "Day" false true ScalarProp "object" (titled "Day" None)
          (mkContainer false ""
             [plainProp "timeFrom" "start time"; plainProp "timeTo" "end time"])]).

Definition rosterType : RecordTypeDescriptor Raising.SetMember :=
  mkRecordTypeDescriptor (mkContainer false "" [shiftProp]) (titled "Roster" None).

(** An array of numbers with a rule on its elements, and a rule of the
    record that looks at the third of them. *)
Definition tallyType : RecordTypeDescriptor Raising.SetMember :=
  mkRecordTypeDescriptor
    (mkContainer false ""
       [mkPropertyDescriptor "scores" false false ArrayProp "number"
          (titled "scores" (Some [("element:*", [returningMember notNegative])]))
          noProperties])
    (titled "Tally" (Some [("*", [returningMember (whenInvalid "/scores/2")])])).

(** A name with the rule ['required']. *)
Definition personType : RecordTypeDescriptor Raising.SetMember :=
  mkRecordTypeDescriptor
    (mkContainer false ""
       [mkPropertyDescriptor "name" false false ScalarProp "string"
          (titled "name" (Some [("*", [Raising.Function Raising.required])]))
          noProperties])
    (titled "Person" None).

Definition library (n : string) : option (RecordTypeDescriptor Raising.SetMember) :=
  if String.eqb n "Form" then Some formType
  else if String.eqb n "Measure" then Some measureType
  else if String.eqb n "Roster" then Some rosterType
  else if String.eqb n "Tally" then Some tallyType
  else if String.eqb n "Person" then Some personType
  else None.

(** The record [{scores: [1, 2, -3]}]. *)
Definition tallyStore : heap :=
  <[1%positive := objectOf [("scores", VObject 2)]]>
    (<[2%positive := arrayOf [VNumber 1; VNumber 2; VNumber (-3)]]> ∅).

(** The record [{}]. *)
Definition formStore : heap := <[1%positive := objectOf []]> ∅.

(** The record [{x: 5}]. *)
Definition measureStore : heap := <[1%positive := objectOf [("x", VNumber 5)]]> ∅.

(** The record [{shift: {type: 'type', timeFrom: '10:00', timeTo: '09:00'}}]:
    the type value is the name of the type property, which is a property of
    the shift and no subtype of it. *)
Definition strayShiftStore : heap :=
  <[1%positive := objectOf [("shift", VObject 2)]]>
    (<[2%positive := objectOf [("type", VString "type");
                               ("timeFrom", VString "10:00");
                               ("timeTo", VString "09:00")]]> ∅).

(** The same with the type [Day]. *)
Definition dayShiftStore : heap :=
  <[1%positive := objectOf [("shift", VObject 2)]]>
    (<[2%positive := objectOf [("type", VString "Day");
                               ("timeFrom", VString "10:00");
                               ("timeTo", VString "09:00")]]> ∅).

End RaisingExamples.

(* ===================================================================== *)
(** * Properties *)
(* ===================================================================== *)

Section ChainResolution.

Context {V : Type}.

Lemma push_each (vs acc : list V) :
  fold_left (fun a validator => a ++ [validator]) vs acc = acc ++ vs.
Proof.
  revert acc; induction vs as [|v vs IH]; intros acc; simpl.
  - by rewrite app_nil_r.
  - rewrite IH, <- app_assoc. reflexivity.
Qed.

(** The loop of [getValidators] over the declared sets, from any array
    collected so far. *)
Lemma getValidators_loop (element : bool) (active : gset string)
  (sets : list (string * list V)) (acc : list V) :
  fold_left
    (fun all entry =>
       let set := fst entry in
       if element && negb (startsWith "element:" set) then all
       else if bool_decide
                 ((if element then substringFrom 8 set else set) ∈ active)
            then fold_left (fun a validator => a ++ [validator]) (snd entry) all
            else all)
    sets acc
  = acc ++ ChainSpec.resolvedChain element sets active.
Proof.
  unfold ChainSpec.resolvedChain.
  revert acc; induction sets as [|[set vs] sets IH]; intros acc; simpl.
  - by rewrite app_nil_r.
  - rewrite IH. unfold ChainSpec.takesPart.
    destruct element; simpl.
    + destruct (startsWith "element:" set); simpl; [|reflexivity].
      destruct (bool_decide _); simpl; [|reflexivity].
      rewrite push_each, <- app_assoc. reflexivity.
    + destruct (bool_decide _); simpl; [|reflexivity].
      rewrite push_each, <- app_assoc. reflexivity.
Qed.

(** [getValidators] computes the chain the specification words, and [null]
    for an empty one. *)
Lemma getValidators_resolved (subjDesc : WithValidators V) (element : bool)
  (active : gset string) :
  RecordNormalizer.getValidators subjDesc element active
  = match validators subjDesc with
    | None => None
    | Some sets =>
        match ChainSpec.resolvedChain element sets active with
        | [] => None
        | chain => Some chain
        end
    end.
Proof.
  unfold RecordNormalizer.getValidators.
  destruct (validators subjDesc) as [sets|]; [|reflexivity].
  rewrite getValidators_loop. simpl.
  destruct (ChainSpec.resolvedChain element sets active); reflexivity.
Qed.

(** Leaving out the element sets changes no whole-value chain when no
    active name has the prefix. *)
Lemma filter_element_sets (sets : list (string * list V)) (active : gset string) :
  (forall n, n ∈ active -> startsWith "element:" n = false) ->
  ChainSpec.resolvedChain false
    (List.filter (fun e => negb (startsWith "element:" (fst e))) sets) active
  = ChainSpec.resolvedChain false sets active.
Proof.
  intros Hno. unfold ChainSpec.resolvedChain. f_equal. f_equal.
  induction sets as [|[set vs] sets IH]; [reflexivity|].
  cbn [List.filter fst]. unfold ChainSpec.takesPart at 2. 
  destruct (bool_decide (set ∈ active)) eqn:Hin.
  - apply bool_decide_eq_true in Hin. rewrite (Hno set Hin).
    cbn [negb List.filter fst]. unfold ChainSpec.takesPart at 1.
    rewrite (bool_decide_eq_true_2 _ Hin). f_equal. exact IH.
  - destruct (startsWith "element:" set); cbn [negb List.filter fst]; [exact IH|].
    unfold ChainSpec.takesPart at 1. rewrite Hin. exact IH.
Qed.

End ChainResolution.

(* --------------------------------------------------------------------- *)
(** ** What a run leaves in place *)
(* --------------------------------------------------------------------- *)

Section Frame.

Import Trace.

Lemma setResult_same (ctx : ValidationContext) :
  Context.setResult ctx (_result ctx) = ctx.
Proof. destruct ctx; reflexivity. Qed.

Lemma setResult_twice (ctx : ValidationContext) (e1 e2 : gmap string (list string)) :
  Context.setResult (Context.setResult ctx e1) e2 = Context.setResult ctx e2.
Proof. reflexivity. Qed.

Lemma Extends_refl (st : State) : Extends st [] st.
Proof.
  unfold Extends; simpl. rewrite app_nil_r, setResult_same. auto.
Qed.

Lemma Extends_trans (st1 st2 st3 : State) (tr1 tr2 : list Event) :
  Extends st1 tr1 st2 -> Extends st2 tr2 st3 -> Extends st1 (tr1 ++ tr2) st3.
Proof.
  intros (T1 & C1 & H1) (T2 & C2 & H2). unfold Extends.
  rewrite T2, T1, C2, C1, H2, H1. simpl.
  unfold replayErrors, replayAssigns. rewrite !fold_left_app, app_assoc.
  auto.
Qed.

Lemma Extends_call (kind : ChainKind) (ptr : string) (v : value) (st : State) :
  Extends st [EvCall kind ptr v] (logEvent (EvCall kind ptr v) st).
Proof.
  unfold Extends; simpl. rewrite setResult_same. auto.
Qed.

Lemma Extends_addErrorFor (ptr : PointerArg) (message : string)
  (params : option MessageParams) (st : State) :
  Extends st
    [EvError (pointerArgString ptr)
             (Context.errorMessage (ctxOf st) ptr message params)]
    (addErrorForSt ptr message params st).
Proof. unfold Extends; simpl. auto. Qed.

Lemma Extends_assign (target : loc) (key : string) (v : value) (st : State) :
  Extends st [EvAssign target key v] (assignSt target key v st).
Proof.
  unfold Extends; simpl. rewrite setResult_same. auto.
Qed.

(** A rule function only reports errors. *)
Lemma runRule_extends (r : Rule) (st : State) :
  exists tr, Extends st tr (snd (runRule r st))
             /\ forallb isError tr = true.
Proof.
  revert st; induction r as [v | k IH | ptr message params k IH]; intros st; simpl.
  - exists []. split; [apply Extends_refl | reflexivity].
  - apply IH.
  - destruct (IH (addErrorForSt ptr message params st)) as (tr & E & F).
    eexists. split.
    + eapply Extends_trans; [apply Extends_addErrorFor | exact E].
    + simpl. exact F.
Qed.

End Frame.

Section EngineFrame.

Import Trace RecordNormalizer.

(** Induction on a descriptor with the nested properties as hypotheses. *)
Lemma PropertyDescriptor_nested_ind {V : Type} (P : PropertyDescriptor V -> Prop) :
  (forall p, Forall P (properties (nestedProperties p)) -> P p) ->
  forall p, P p.
Proof.
  intros step.
  fix IH 1. intros [n v s st svt subj [poly tpn props]].
  apply step. simpl.
  induction props as [|q props IHprops]; constructor.
  - apply IH.
  - exact IHprops.
Qed.

Lemma ascend_descend (ctx : ValidationContext) (token : string) (c : value)
  (errs : gmap string (list string)) :
  Context.ascend (Context.setResult (Context.descend ctx token c) errs)
  = Context.setResult ctx errs.
Proof.
  unfold Context.ascend, Context.descend, Context.setResult, Context.setPosition.
  simpl. rewrite last_last, !removelast_last. reflexivity.
Qed.

Lemma Extends_ascend (st st' : State) (token : string) (c : value)
  (tr : list Event) :
  Extends (descendSt token c st) tr st' -> Extends st tr (ascendSt st').
Proof.
  intros (T & C & H). unfold Extends, ascendSt; simpl in *.
  rewrite C, ascend_descend. auto.
Qed.

Lemma forallb_isError_childEvent (tr : list Event) :
  forallb isError tr = true -> forallb childEvent tr = true.
Proof.
  induction tr as [|e tr IH]; simpl; [reflexivity|].
  intros H. apply andb_prop in H as [He Ht]. rewrite IH by exact Ht.
  destruct e; simpl in *; congruence.
Qed.

Lemma Framed_id : Framed (fun st => st).
Proof. intros st. exists []. split; [apply Extends_refl | reflexivity]. Qed.

Lemma Framed_compose (f g : State -> State) :
  Framed f -> Framed g -> Framed (fun st => g (f st)).
Proof.
  intros Hf Hg st.
  destruct (Hf st) as (tr1 & E1 & F1). destruct (Hg (f st)) as (tr2 & E2 & F2).
  exists (tr1 ++ tr2). split.
  - eapply Extends_trans; eassumption.
  - rewrite forallb_app, F1, F2. reflexivity.
Qed.

Lemma Framed_fold {A : Type} (f : A -> State -> State) (l : list A) :
  (forall x, In x l -> Framed (f x)) ->
  Framed (fun st => fold_left (fun acc x => f x acc) l st).
Proof.
  induction l as [|x l IH]; intros H; simpl.
  - apply Framed_id.
  - apply (Framed_compose (f x) (fun st => fold_left (fun acc y => f y acc) l st)).
    + apply H. left; reflexivity.
    + apply IH. intros y Hy. apply H. right; exact Hy.
Qed.

Lemma Framed_between (token : State -> string) (c : value) (f : State -> State) :
  Framed f ->
  Framed (fun st => ascendSt (f (descendSt (token st) c st))).
Proof.
  intros Hf st. destruct (Hf (descendSt (token st) c st)) as (tr & E & F).
  exists tr. split; [eapply Extends_ascend; exact E | exact F].
Qed.

Lemma Framed_addErrorFor (ptr : State -> PointerArg) (message : string)
  (params : option MessageParams) :
  Framed (fun st => addErrorForSt (ptr st) message params st).
Proof.
  intros st. eexists. split; [apply Extends_addErrorFor | reflexivity].
Qed.

Lemma Framed_assign (target : loc) (key : string) (v : value) :
  Framed (assignSt target key v).
Proof.
  intros st. eexists. split; [apply Extends_assign | reflexivity].
Qed.

Lemma callValidator_extends (kind : ChainKind) (f : curriedValidator)
  (v : value) (st : State) :
  exists tr, Extends st
               (EvCall kind (toString (Context.currentPointer (ctxOf st))) v :: tr)
               (snd (callValidator kind f v st))
             /\ forallb isError tr = true.
Proof.
  unfold callValidator.
  destruct (runRule_extends (f v)
              (logEvent (EvCall kind (toString (Context.currentPointer (ctxOf st))) v) st))
    as (tr & E & F).
  exists tr. split; [|exact F].
  change (EvCall kind (toString (Context.currentPointer (ctxOf st))) v :: tr)
    with ([EvCall kind (toString (Context.currentPointer (ctxOf st))) v] ++ tr).
  eapply Extends_trans; [apply Extends_call | exact E].
Qed.

Lemma runChain_extends (kind : ChainKind) (chain : list curriedValidator)
  (v : value) (st : State) :
  exists tr, Extends st tr (snd (runChain kind chain v st))
             /\ forallb (chainEvent kind (toString (Context.currentPointer (ctxOf st)))) tr
                = true.
Proof.
  unfold runChain.
  revert v st; induction chain as [|f chain IH]; intros v st; simpl.
  - exists []. split; [apply Extends_refl | reflexivity].
  - destruct (callValidator_extends kind f v st) as (tr1 & E1 & F1).
    destruct (callValidator kind f v st) as [v1 st1] eqn:Hc. simpl in *.
    destruct (IH v1 st1) as (tr2 & E2 & F2).
    eexists. split; [eapply Extends_trans; eassumption|].
    assert (Hp : Context.currentPointer (ctxOf st1) = Context.currentPointer (ctxOf st)).
    { destruct E1 as (_ & C & _). rewrite C. reflexivity. }
    rewrite Hp in F2. simpl. rewrite forallb_app, F2, String.eqb_refl.
    rewrite !andb_true_r. apply andb_true_intro. split.
    + destruct kind; reflexivity.
    + clear -F1. induction tr1 as [|e tr1 IHt]; simpl in *; [reflexivity|].
      apply andb_prop in F1 as [He Ht]. rewrite IHt by exact Ht.
      destruct e; simpl in *; congruence.
Qed.

Lemma runChainOn_extends (kind : ChainKind) (chain : list curriedValidator)
  (obj : value) (st : State) :
  exists tr, Extends st tr (runChainOn kind chain obj st)
             /\ forallb (chainEvent kind (toString (Context.currentPointer (ctxOf st)))) tr
                = true.
Proof.
  unfold runChainOn.
  revert st; induction chain as [|f chain IH]; intros st; simpl.
  - exists []. split; [apply Extends_refl | reflexivity].
  - destruct (callValidator_extends kind f obj st) as (tr1 & E1 & F1).
    destruct (IH (snd (callValidator kind f obj st))) as (tr2 & E2 & F2).
    eexists. split; [eapply Extends_trans; eassumption|].
    assert (Hp : Context.currentPointer (ctxOf (snd (callValidator kind f obj st)))
                 = Context.currentPointer (ctxOf st)).
    { destruct E1 as (_ & C & _). rewrite C. reflexivity. }
    rewrite Hp in F2. simpl. rewrite forallb_app, F2, String.eqb_refl.
    rewrite !andb_true_r. apply andb_true_intro. split.
    + destruct kind; reflexivity.
    + clear -F1. induction tr1 as [|e tr1 IHt]; simpl in *; [reflexivity|].
      apply andb_prop in F1 as [He Ht]. rewrite IHt by exact Ht.
      destruct e; simpl in *; congruence.
Qed.

End EngineFrame.

Section EngineFramed.

Import Trace RecordNormalizer.

Lemma chainEvent_childEvent (kind : ChainKind) (ptr : string) (tr : list Event) :
  kind <> RecordChain ->
  forallb (chainEvent kind ptr) tr = true -> forallb childEvent tr = true.
Proof.
  intros Hk. induction tr as [|e tr IH]; simpl; [reflexivity|].
  intros H. apply andb_prop in H as [He Ht]. rewrite IH by exact Ht.
  rewrite andb_true_r. unfold childEvent.
  destruct e as [k p v| |]; simpl in *; try reflexivity; try discriminate.
  destruct k, kind; simpl in *; congruence.
Qed.

Lemma Framed_runChainOn (kind : ChainKind) (chain : list curriedValidator)
  (obj : value) :
  kind <> RecordChain -> Framed (runChainOn kind chain obj).
Proof.
  intros Hk st. destruct (runChainOn_extends kind chain obj st) as (tr & E & F).
  exists tr. split; [exact E | eapply chainEvent_childEvent; eassumption].
Qed.

(** A chain followed by the assignment of its result when it differs. *)
Lemma Framed_chain_assign (kind : ChainKind) (chain : list curriedValidator)
  (original : State -> value) (target : loc) (key : string) :
  kind <> RecordChain ->
  Framed (fun st =>
            let '(v, st') := runChain kind chain (original st) st in
            if strictNeq v (original st) then assignSt target key v st' else st').
Proof.
  intros Hk st. destruct (runChain_extends kind chain (original st) st) as (tr & E & F).
  destruct (runChain kind chain (original st) st) as [v st'] eqn:Hr. simpl in *.
  apply (chainEvent_childEvent _ _ _ Hk) in F.
  destruct (strictNeq v (original st)).
  - exists (tr ++ [EvAssign target key v]). split.
    + eapply Extends_trans; [exact E | apply Extends_assign].
    + rewrite forallb_app, F. reflexivity.
  - exists tr. auto.
Qed.

Lemma Framed_ext (f g : State -> State) :
  (forall st, f st = g st) -> Framed f -> Framed g.
Proof. intros H Hf st. rewrite <- H. apply Hf. Qed.

Lemma Framed_normalizeObjectElement (children : loc -> State -> State)
  (elementValidators : option (list curriedValidator))
  (collection : loc) (key : string) :
  (forall l, Framed (children l)) ->
  Framed (normalizeObjectElement children elementValidators collection key).
Proof.
  intros Hc st0. unfold normalizeObjectElement.
  set (orig := getProp (heapOf st0) collection key).
  pose proof (Framed_between (fun _ => key) (VObject collection)
    (fun st1 =>
       match elementValidators with
       | Some chain =>
           let '(elementValue, st') :=
             runChain ElementChain chain orig
               (match orig with VObject l => children l st1 | _ => st1 end) in
           if strictNeq elementValue orig
           then assignSt collection key elementValue st' else st'
       | None => match orig with VObject l => children l st1 | _ => st1 end
       end)) as HF.
  apply HF. clear HF.
  assert (Hfirst : Framed (fun st1 => match orig with
                                      | VObject l => children l st1
                                      | _ => st1 end)).
  { destruct orig; try apply Framed_id. apply Hc. }
  destruct elementValidators as [chain|]; [|exact Hfirst].
  apply (Framed_compose _ _ Hfirst
           (Framed_chain_assign ElementChain chain (fun _ => orig) collection key
              ltac:(discriminate))).
Qed.

Lemma Framed_normalizeSimpleElement (chain : list curriedValidator)
  (collection : loc) (key : string) :
  Framed (normalizeSimpleElement chain collection key).
Proof.
  intros st0. unfold normalizeSimpleElement.
  set (orig := getProp (heapOf st0) collection key).
  pose proof (Framed_between (fun _ => key) (VObject collection) _
                (Framed_chain_assign ElementChain chain (fun _ => orig) collection key
                   ltac:(discriminate))) as HF.
  destruct (HF st0) as (tr & E & F). exists tr. split; [|exact F].
  simpl in E.
  destruct (runChain ElementChain chain orig (descendSt key (VObject collection) st0)).
  exact E.
Qed.

Lemma Framed_normalizeElements (children : loc -> State -> State)
  (objectElements : bool) (elementValidators : option (list curriedValidator))
  (collection : loc) (keys : list string) :
  (forall l, Framed (children l)) ->
  Framed (normalizeElements children objectElements elementValidators collection keys).
Proof.
  intros Hc. unfold normalizeElements.
  destruct objectElements.
  - apply (Framed_fold
             (fun key => normalizeObjectElement children elementValidators collection key)).
    intros key _. apply Framed_normalizeObjectElement. exact Hc.
  - destruct elementValidators as [chain|]; [|apply Framed_id].
    apply (Framed_fold (fun key => normalizeSimpleElement chain collection key)).
    intros key _. apply Framed_normalizeSimpleElement.
Qed.

Lemma Framed_normalizeChildrenWith
  (np : PropertyDescriptor curriedValidator -> option string -> value -> loc ->
        State -> State)
  (container : PropertiesContainer (PropertyDescriptor curriedValidator))
  (subtypeName : option string) (containerObj : loc) :
  (forall p, In p (properties container) ->
     forall sn sub obj, Framed (np p sn sub obj)) ->
  Framed (normalizeChildrenWith np container subtypeName containerObj).
Proof.
  intros Hnp st. unfold normalizeChildrenWith.
  destruct (isPolymorphObject container
            && invalidSubtype container
                 (if isPolymorphObject container
                  then getProp (heapOf st) containerObj (typePropertyName container)
                  else VUndefined)).
  - eexists. split; [apply Extends_addErrorFor | reflexivity].
  - apply (Framed_fold
             (fun propDesc => np propDesc subtypeName
                (if isPolymorphObject container
                 then getProp (heapOf st) containerObj (typePropertyName container)
                 else VUndefined) containerObj)).
    intros p Hp. apply Hnp. exact Hp.
Qed.

Lemma Framed_normalizeNested (children : loc -> State -> State)
  (validationSets : gset string) (propDesc : PropertyDescriptor curriedValidator)
  (originalValue : value) :
  (forall l, Framed (children l)) ->
  Framed (normalizeNested children validationSets propDesc originalValue).
Proof.
  intros Hc st. unfold normalizeNested.
  destruct (structure propDesc), originalValue; try apply Framed_id.
  - destruct (String.eqb (scalarValueType propDesc) "object");
      [apply Hc | apply Framed_id].
  - destruct (isArray (heapOf st) (VObject l) && (0 <? lengthOf (heapOf st) l)%nat);
      [|apply Framed_id].
    apply Framed_normalizeElements. exact Hc.
  - apply Framed_normalizeElements. exact Hc.
Qed.

Lemma Framed_validateProperty (validationSets : gset string)
  (propDesc : PropertyDescriptor curriedValidator) (containerObj : loc)
  (originalValue : value) :
  Framed (validateProperty validationSets propDesc containerObj originalValue).
Proof.
  unfold validateProperty.
  destruct (getValidators (subject propDesc) false validationSets) as [chain|].
  - apply (Framed_chain_assign PropertyChain chain (fun _ => originalValue)
             containerObj (name propDesc)).
    discriminate.
  - intros st. destruct (strictNeq originalValue originalValue);
      [apply Framed_assign | apply Framed_id].
Qed.

(** The step on a regular property, in its parts. *)
Lemma normalizeProperty_regular (validationSets : gset string)
  (propDesc : PropertyDescriptor curriedValidator)
  (subtypeName : option string) (subtype : value) (containerObj : loc) (st : State) :
  isView propDesc = false ->
  isSubtype propDesc = false ->
  normalizeProperty validationSets propDesc subtypeName subtype containerObj st
  = ascendSt
      (validateProperty validationSets propDesc containerObj
         (getProp (heapOf st) containerObj (name propDesc))
         (normalizeNested
            (normalizeChildren validationSets (nestedProperties propDesc) None)
            validationSets propDesc
            (getProp (heapOf st) containerObj (name propDesc))
            (descendSt (childToken subtypeName (name propDesc))
               (VObject containerObj) st))).
Proof.
  intros Hv Hs. destruct propDesc as [n view sub str svt subj nested].
  simpl in Hv, Hs. subst view sub. reflexivity.
Qed.

Lemma normalizeProperty_view (validationSets : gset string)
  (propDesc : PropertyDescriptor curriedValidator)
  (subtypeName : option string) (subtype : value) (containerObj : loc) (st : State) :
  isView propDesc = true ->
  normalizeProperty validationSets propDesc subtypeName subtype containerObj st = st.
Proof.
  intros Hv. destruct propDesc as [n view sub str svt subj nested].
  simpl in Hv. subst view. reflexivity.
Qed.

(** The step on a subtype property, in its parts. *)
Lemma normalizeProperty_subtype (validationSets : gset string)
  (propDesc : PropertyDescriptor curriedValidator)
  (subtypeName : option string) (subtype : value) (containerObj : loc) (st : State) :
  isView propDesc = false ->
  isSubtype propDesc = true ->
  normalizeProperty validationSets propDesc subtypeName subtype containerObj st
  = if strictEq (VString (name propDesc)) subtype
    then
      let st1 :=
        normalizeChildren validationSets (nestedProperties propDesc)
          (asString subtype) containerObj st in
      match getValidators (subject propDesc) false validationSets with
      | Some chain => runChainOn SubtypeChain chain (VObject containerObj) st1
      | None => st1
      end
    else st.
Proof.
  intros Hv Hs. destruct propDesc as [n view sub str svt subj nested].
  simpl in Hv, Hs. subst view sub. reflexivity.
Qed.

(** The step of the traversal on one property is framed. *)
Lemma Framed_normalizeProperty (validationSets : gset string)
  (propDesc : PropertyDescriptor curriedValidator) :
  forall subtypeName subtype containerObj,
    Framed (normalizeProperty validationSets propDesc subtypeName subtype containerObj).
Proof.
  induction propDesc as [p IH] using PropertyDescriptor_nested_ind.
  intros subtypeName subtype containerObj.
  assert (Hchildren : forall sn l,
            Framed (normalizeChildren validationSets (nestedProperties p) sn l)).
  { intros sn l. apply Framed_normalizeChildrenWith.
    intros q Hq. rewrite Forall_forall in IH. apply IH.
    apply list_elem_of_In. exact Hq. }
  intros st0.
  destruct (isView p) eqn:Hv.
  { rewrite normalizeProperty_view by assumption. apply (Framed_id st0). }
  destruct (isSubtype p) eqn:Hs.
  { rewrite normalizeProperty_subtype by assumption.
    destruct (strictEq (VString (name p)) subtype); [|apply (Framed_id st0)].
    cbv zeta.
    destruct (getValidators (subject p) false validationSets) as [chain|].
    - apply (Framed_compose _ _ (Hchildren (asString subtype) containerObj)
               (Framed_runChainOn SubtypeChain chain (VObject containerObj)
                  ltac:(discriminate)) st0).
    - apply (Hchildren _ _ st0). }
  rewrite normalizeProperty_regular by assumption.
  apply (Framed_between (fun _ => childToken subtypeName (name p)) (VObject containerObj)
           (fun st1 =>
              validateProperty validationSets p containerObj
                (getProp (heapOf st0) containerObj (name p))
                (normalizeNested
                   (normalizeChildren validationSets (nestedProperties p) None)
                   validationSets p (getProp (heapOf st0) containerObj (name p)) st1))).
  apply (Framed_compose
           (normalizeNested (normalizeChildren validationSets (nestedProperties p) None)
              validationSets p (getProp (heapOf st0) containerObj (name p)))
           (validateProperty validationSets p containerObj
              (getProp (heapOf st0) containerObj (name p)))).
  - apply Framed_normalizeNested. intros l. apply Hchildren.
  - apply Framed_validateProperty.
Qed.

Lemma Framed_normalizeChildren (validationSets : gset string)
  (container : PropertiesContainer (PropertyDescriptor curriedValidator))
  (subtypeName : option string) (containerObj : loc) :
  Framed (normalizeChildren validationSets container subtypeName containerObj).
Proof.
  apply Framed_normalizeChildrenWith.
  intros p _ sn sub obj. apply Framed_normalizeProperty.
Qed.

(** On a polymorphic object whose type value is no string or names no
    property of the container, [normalizeChildren] reports the one error
    ['{invalidType}'] at the pointer of the type property and does nothing
    else. *)
Lemma normalizeChildren_invalid_type (validationSets : gset string)
  (container : PropertiesContainer (PropertyDescriptor curriedValidator))
  (subtypeName : option string) (containerObj : loc) (st : State) :
  isPolymorphObject container = true ->
  invalidSubtype container
    (getProp (heapOf st) containerObj (typePropertyName container)) = true ->
  normalizeChildren validationSets container subtypeName containerObj st
  = addErrorForSt
      (PtrString (toString (Context.currentPointer (ctxOf st))
                    +:+ "/" +:+ typePropertyName container))
      "{invalidType}" None st.
Proof.
  intros Hp Hi. unfold normalizeChildren, normalizeChildrenWith.
  rewrite Hp, Hi. reflexivity.
Qed.

End EngineFramed.

(* --------------------------------------------------------------------- *)
(** ** The errors object of a run *)
(* --------------------------------------------------------------------- *)

Section ErrorsOfARun.

Import Trace.

Lemma addError_lookup (errs : gmap string (list string)) (k k' m : string) :
  ValidationErrors.addError errs k m !! k'
  = if String.eqb k k'
    then Some (default [] (errs !! k) ++ [m])
    else errs !! k'.
Proof.
  unfold ValidationErrors.addError.
  destruct (String.eqb_spec k k') as [->|Hne].
  - destruct (errs !! k') eqn:E; simpl; by rewrite lookup_insert_eq.
  - destruct (errs !! k) eqn:E; by rewrite lookup_insert_ne.
Qed.

(** The messages under a pointer after a run: those that were there, then
    those the run reported at it. *)
Lemma replayErrors_lookup (tr : list Event) (errs : gmap string (list string))
  (k : string) :
  replayErrors tr errs !! k
  = match messagesAt k tr with
    | [] => errs !! k
    | ms => Some (default [] (errs !! k) ++ ms)
    end.
Proof.
  unfold replayErrors, messagesAt.
  revert errs; induction tr as [|e tr IH]; intros errs; simpl; [reflexivity|].
  rewrite IH. destruct e as [kind p v | k' m | l key v]; simpl; try reflexivity.
  rewrite addError_lookup.
  destruct (String.eqb_spec k' k) as [->|Hne]; simpl; [|reflexivity].
  match goal with |- context [flat_map ?f tr] => destruct (flat_map f tr) end;
    simpl; [reflexivity|].
  rewrite <- app_assoc. reflexivity.
Qed.

Lemma messagesAt_nil_iff (k : string) (tr : list Event) :
  messagesAt k tr = [] <-> ~ In k (errorKeys tr).
Proof.
  unfold messagesAt, errorKeys.
  induction tr as [|e tr IH]; simpl; [tauto|].
  destruct e as [kind p v | k' m | l key v]; simpl; try exact IH.
  destruct (String.eqb_spec k' k) as [->|Hne]; simpl.
  - split; [discriminate | intros H; exfalso; apply H; left; reflexivity].
  - rewrite IH. split; [intros H [E|I]; [congruence | tauto] | tauto].
Qed.

(** [hasErrors] after a run that started with no errors: true just for the
    pointers the run reported an error at. *)
Lemma hasErrors_replay (tr : list Event) (k : string) :
  ValidationErrors.hasErrors (replayErrors tr ValidationErrors.empty) k = true
  <-> In k (errorKeys tr).
Proof.
  unfold ValidationErrors.hasErrors, ValidationErrors.empty.
  rewrite replayErrors_lookup, lookup_empty. simpl.
  destruct (messagesAt k tr) as [|m ms] eqn:E.
  - apply messagesAt_nil_iff in E. split; [discriminate | tauto].
  - split; [intros _ | reflexivity].
    destruct (in_dec String.string_dec k (errorKeys tr)) as [I|N]; [exact I|].
    apply messagesAt_nil_iff in N. congruence.
Qed.

Lemma replayErrors_empty_iff (tr : list Event) :
  replayErrors tr ValidationErrors.empty = ∅ <-> errorKeys tr = [].
Proof.
  split.
  - intros H. destruct (errorKeys tr) as [|k ks] eqn:E; [reflexivity|].
    assert (I : In k (errorKeys tr)) by (rewrite E; left; reflexivity).
    apply hasErrors_replay in I. unfold ValidationErrors.hasErrors in I.
    rewrite H, lookup_empty in I. discriminate.
  - intros H. apply map_eq. intros k.
    unfold ValidationErrors.empty. rewrite replayErrors_lookup, !lookup_empty.
    assert (N : ~ In k (errorKeys tr)) by (rewrite H; simpl; tauto).
    apply messagesAt_nil_iff in N. rewrite N. reflexivity.
Qed.

Lemma isEmpty_true_iff (errs : gmap string (list string)) :
  ValidationErrors.isEmpty errs = true <-> errs = ∅.
Proof.
  unfold ValidationErrors.isEmpty. rewrite Nat.eqb_eq. apply map_size_empty_iff.
Qed.

End ErrorsOfARun.

(* --------------------------------------------------------------------- *)
(** ** The run of [normalize] *)
(* --------------------------------------------------------------------- *)

Section NormalizeRun.

Import Trace RecordNormalizer.

Lemma recordMissing_false (record : value) :
  recordMissing record = false -> exists recordObj, record = VObject recordObj.
Proof. destruct record; simpl; try discriminate. eauto. Qed.

Lemma normalizeWhole_extends (recordTypeDesc : RecordTypeDescriptor curriedValidator)
  (sets : gset string) (record : value) (st : State) :
  exists tr, Extends st tr (normalizeWhole recordTypeDesc sets record st)
             /\ forallb (chainEvent RecordChain
                           (toString (Context.currentPointer (ctxOf st)))) tr = true.
Proof.
  unfold normalizeWhole.
  destruct (getValidators (recordSubject recordTypeDesc) false sets) as [chain|].
  - apply runChainOn_extends.
  - exists []. split; [apply Extends_refl | reflexivity].
Qed.

(** A call on a record object of a known type with a language preference
    that parses: the properties are gone through from the root, then the
    record type's own chain runs, and the call returns. *)
Lemma normalize_run
  (recordTypes : string -> option (RecordTypeDescriptor curriedValidator))
  (recordTypeName : string) (recordObj : loc) (lang validationSets : option string)
  (h : heap) (recordTypeDesc : RecordTypeDescriptor curriedValidator)
  (messageResolver : list string) :
  recordTypes recordTypeName = Some recordTypeDesc ->
  MessageResolver.create (langOrDefault lang) = Some messageResolver ->
  let sets := activeSets validationSets in
  let init :=
    mkState h (initialContext recordTypes recordTypeDesc messageResolver sets) [] in
  let st1 :=
    normalizeChildren sets (recordProperties recordTypeDesc) None recordObj init in
  let st2 := normalizeWhole recordTypeDesc sets (VObject recordObj) st1 in
  normalize recordTypes recordTypeName (VObject recordObj) lang validationSets h
  = Returns (Context.getResult (ctxOf st2)) st2
  /\ exists tr1 tr2,
       Extends init tr1 st1 /\ forallb childEvent tr1 = true
       /\ Extends st1 tr2 st2 /\ forallb (chainEvent RecordChain "") tr2 = true.
Proof.
  intros Ht Hl sets init st1 st2. split.
  - unfold normalize. simpl. rewrite Ht, Hl. reflexivity.
  - destruct (Framed_normalizeChildren sets (recordProperties recordTypeDesc) None
                recordObj init) as (tr1 & E1 & F1).
    destruct (normalizeWhole_extends recordTypeDesc sets (VObject recordObj) st1)
      as (tr2 & E2 & F2).
    exists tr1, tr2. repeat split; try assumption.
    + apply E1. + apply E1. + apply E1.
    + apply E2. + apply E2. + apply E2.
    + replace (toString (Context.currentPointer (ctxOf st1))) with "" in F2;
        [exact F2|].
      destruct E1 as (_ & C & _). fold st1 in C. rewrite C. reflexivity.
Qed.

End NormalizeRun.

(* --------------------------------------------------------------------- *)
(** ** The active validation sets *)
(* --------------------------------------------------------------------- *)

Section ActiveSets.

Import RecordNormalizer.

(** Splitting a string that ends in [",*"]: the last piece is ["*"]. *)
Lemma splitCommaAux_star (t : string) :
  exists p ps, splitCommaAux (t +:+ ",*") = (p, ps ++ ["*"]).
Proof.
  induction t as [|c t (p & ps & IH)]; simpl.
  - exists EmptyString, []. reflexivity.
  - rewrite IH. destruct (isComma c).
    + exists EmptyString, (trimStart p :: ps). reflexivity.
    + destruct (isSpace c && isEmptyString p
                && negb match ps ++ ["*"] with [] => true | _ => false end).
      * exists EmptyString, ps. reflexivity.
      * exists (String c p), ps. reflexivity.
Qed.

(** The universal set is always active. *)
Lemma star_active (validationSets : option string) :
  "*" ∈ activeSets validationSets.
Proof.
  unfold activeSets. apply elem_of_list_to_set.
  assert (Hstar : "*" ∈ splitComma "*") by (apply list_elem_of_In; left; reflexivity).
  destruct validationSets as [s|]; [|exact Hstar].
  destruct (isEmptyString s); [exact Hstar|].
  unfold splitComma.
  destruct (splitCommaAux_star (trim s)) as (p & ps & ->).
  apply list_elem_of_In. right. apply in_or_app. right. left. reflexivity.
Qed.

End ActiveSets.

(* --------------------------------------------------------------------- *)
(** ** The pointers the chains run at *)
(* --------------------------------------------------------------------- *)

Section Addresses.

Import Trace RecordNormalizer.

Lemma string_app_nil_r (s : string) : s +:+ "" = s.
Proof.
  induction s as [|a s IH]; [reflexivity|].
  change (String a (s +:+ "") = String a s). by rewrite IH.
Qed.

Lemma string_app_assoc (a b c : string) : (a +:+ b) +:+ c = a +:+ (b +:+ c).
Proof.
  induction a as [|x a IH]; [reflexivity|].
  change (String x ((a +:+ b) +:+ c) = String x (a +:+ (b +:+ c))). by rewrite IH.
Qed.

Lemma joinTokens_app (ts : list string) (t : string) :
  joinTokens (ts ++ [t]) = joinTokens ts +:+ "/" +:+ t.
Proof.
  induction ts as [|x ts IH].
  - simpl. rewrite string_app_nil_r. reflexivity.
  - change (("/" +:+ x) +:+ joinTokens (ts ++ [t])
            = (("/" +:+ x) +:+ joinTokens ts) +:+ "/" +:+ t).
    rewrite IH, !string_app_assoc. reflexivity.
Qed.

(** The string of a child pointer: the parent's, a slash, the token. *)
Lemma toString_createChildPointer (p : RecordElementPointer) (token : string) :
  toString (createChildPointer p token) = toString p +:+ "/" +:+ token.
Proof.
  unfold createChildPointer, toString.
  destruct (propDesc p) as [pd|]; [destruct (negb (isScalarProp pd) && negb (collectionElement p))|];
    simpl; apply joinTokens_app.
Qed.

Lemma toString_descend (token : string) (c : value) (st : State) :
  toString (Context.currentPointer (ctxOf (descendSt token c st)))
  = toString (Context.currentPointer (ctxOf st)) +:+ "/" +:+ token.
Proof. apply toString_createChildPointer. Qed.

Lemma callPointers_app (kind : ChainKind) (tr1 tr2 : list Event) :
  callPointers kind (tr1 ++ tr2) = callPointers kind tr1 ++ callPointers kind tr2.
Proof. unfold callPointers. apply flat_map_app. Qed.

Lemma callPointers_errors (kind : ChainKind) (tr : list Event) :
  forallb isError tr = true -> callPointers kind tr = [].
Proof.
  induction tr as [|e tr IH]; simpl; [reflexivity|].
  intros H. apply andb_prop in H as [He Ht].
  destruct e; simpl in *; try discriminate. apply IH. exact Ht.
Qed.

Lemma callPointers_other (kind kind' : ChainKind) (ptr : string) (tr : list Event) :
  kind <> kind' ->
  forallb (fun e => chainEvent kind' ptr e || isAssign e) tr = true ->
  callPointers kind tr = [].
Proof.
  intros Hk. induction tr as [|e tr IH]; simpl; [reflexivity|].
  intros H. apply andb_prop in H as [He Ht]. rewrite IH by exact Ht.
  destruct e as [k p v| |]; simpl in *; try reflexivity.
  rewrite orb_false_r in He. apply andb_prop in He as [He _].
  destruct k, kind, kind'; simpl in *; congruence.
Qed.

(** The calls of a chain: one for each of its rule functions, all at the
    pointer the chain starts at. *)
Lemma runChain_calls (kind : ChainKind) (chain : list curriedValidator)
  (v : value) (st : State) :
  exists tr, Extends st tr (snd (runChain kind chain v st))
             /\ forallb (chainEvent kind (toString (Context.currentPointer (ctxOf st)))) tr
                = true
             /\ callPointers kind tr
                = repeat (toString (Context.currentPointer (ctxOf st))) (length chain).
Proof.
  unfold runChain.
  revert v st; induction chain as [|f chain IH]; intros v st; simpl.
  - exists []. split; [apply Extends_refl|]. split; reflexivity.
  - destruct (callValidator_extends kind f v st) as (tr1 & E1 & F1).
    destruct (callValidator kind f v st) as [v1 st1] eqn:Hc. simpl in *.
    destruct (IH v1 st1) as (tr2 & E2 & F2 & C2).
    assert (Hp : Context.currentPointer (ctxOf st1) = Context.currentPointer (ctxOf st)).
    { destruct E1 as (_ & C & _). rewrite C. reflexivity. }
    rewrite Hp in F2, C2.
    eexists. split; [eapply Extends_trans; eassumption|]. split.
    + simpl. rewrite forallb_app, F2, String.eqb_refl.
      rewrite !andb_true_r. apply andb_true_intro. split.
      * destruct kind; reflexivity.
      * clear -F1. induction tr1 as [|e tr1 IHt]; simpl in *; [reflexivity|].
        apply andb_prop in F1 as [He Ht]. rewrite IHt by exact Ht.
        destruct e; simpl in *; congruence.
    + rewrite callPointers_app, C2.
      change (EvCall kind (toString (Context.currentPointer (ctxOf st))) v :: tr1)
        with ([EvCall kind (toString (Context.currentPointer (ctxOf st))) v] ++ tr1).
      rewrite callPointers_app, (callPointers_errors _ _ F1).
      destruct kind; reflexivity.
Qed.


Lemma callPointers_assign (kind : ChainKind) (l : loc) (key : string) (v : value) :
  callPointers kind [EvAssign l key v] = [].
Proof. reflexivity. Qed.

(** A chain and the assignment of its result: the calls, all at the pointer
    the chain starts at. *)
Lemma chain_assign_calls (kind : ChainKind) (chain : list curriedValidator)
  (original : value) (target : loc) (key : string) (st : State) :
  exists tr,
    Extends st tr
      (let '(v, st') := runChain kind chain original st in
       if strictNeq v original then assignSt target key v st' else st')
    /\ forallb (fun e => chainEvent kind (toString (Context.currentPointer (ctxOf st))) e
                         || isAssign e) tr = true
    /\ callPointers kind tr
       = repeat (toString (Context.currentPointer (ctxOf st))) (length chain).
Proof.
  destruct (runChain_calls kind chain original st) as (tr & E & F & C).
  destruct (runChain kind chain original st) as [v st'] eqn:Hr. simpl in E.
  assert (F' : forallb (fun e => chainEvent kind
                                   (toString (Context.currentPointer (ctxOf st))) e
                                 || isAssign e) tr = true).
  { clear -F. induction tr as [|e tr IH]; simpl in *; [reflexivity|].
    apply andb_prop in F as [He Ht]. rewrite He, IH by exact Ht. reflexivity. }
  destruct (strictNeq v original).
  - exists (tr ++ [EvAssign target key v]). split; [|split].
    + eapply Extends_trans; [exact E | apply Extends_assign].
    + rewrite forallb_app, F'. reflexivity.
    + rewrite callPointers_app, C. simpl. apply app_nil_r.
  - exists tr. auto.
Qed.

(** The element chain of a collection of simple values runs at the pointer
    of the collection extended with the key of the element. *)
Lemma normalizeSimpleElement_calls (chain : list curriedValidator)
  (collection : loc) (key : string) (st : State) :
  exists tr,
    Extends st tr (normalizeSimpleElement chain collection key st)
    /\ callPointers ElementChain tr
       = repeat (toString (Context.currentPointer (ctxOf st)) +:+ "/" +:+ key)
                (length chain).
Proof.
  unfold normalizeSimpleElement.
  destruct (chain_assign_calls ElementChain chain
              (getProp (heapOf st) collection key) collection key
              (descendSt key (VObject collection) st)) as (tr & E & _ & C).
  rewrite toString_descend in C.
  exists tr. split; [|exact C].
  destruct (runChain ElementChain chain (getProp (heapOf st) collection key)
              (descendSt key (VObject collection) st)).
  eapply Extends_ascend. exact E.
Qed.

Lemma simpleElements_calls (chain : list curriedValidator) (collection : loc)
  (keys : list string) (st : State) :
  exists tr,
    Extends st tr
      (fold_left (fun acc key => normalizeSimpleElement chain collection key acc) keys st)
    /\ callPointers ElementChain tr
       = flat_map (fun key =>
                     repeat (toString (Context.currentPointer (ctxOf st)) +:+ "/" +:+ key)
                            (length chain)) keys.
Proof.
  revert st; induction keys as [|key keys IH]; intros st; simpl.
  - exists []. split; [apply Extends_refl | reflexivity].
  - destruct (normalizeSimpleElement_calls chain collection key st) as (tr1 & E1 & C1).
    destruct (IH (normalizeSimpleElement chain collection key st)) as (tr2 & E2 & C2).
    assert (Hp : Context.currentPointer (ctxOf (normalizeSimpleElement chain collection key st))
                 = Context.currentPointer (ctxOf st)).
    { destruct E1 as (_ & C & _). rewrite C. reflexivity. }
    rewrite Hp in C2.
    exists (tr1 ++ tr2). split; [eapply Extends_trans; eassumption|].
    rewrite callPointers_app, C1, C2. reflexivity.
Qed.


Lemma Extends_trace_inj (st st' : State) (tr1 tr2 : list Event) :
  Extends st tr1 st' -> Extends st tr2 st' -> tr1 = tr2.
Proof.
  intros (T1 & _) (T2 & _). rewrite T1 in T2. eapply app_inv_head. exact T2.
Qed.

(** The step on a regular property: what the nested values did, then what
    the property's own chain and the assignment of its result did, at the
    pointer of the property. *)
Lemma regular_property_parts (validationSets : gset string)
  (propDesc : PropertyDescriptor curriedValidator)
  (subtypeName : option string) (subtype : value) (containerObj : loc) (st : State) :
  isView propDesc = false ->
  isSubtype propDesc = false ->
  let inside :=
    descendSt (childToken subtypeName (name propDesc)) (VObject containerObj) st in
  let original := getProp (heapOf st) containerObj (name propDesc) in
  let afterNested :=
    normalizeNested (normalizeChildren validationSets (nestedProperties propDesc) None)
      validationSets propDesc original inside in
  let here :=
    toString (Context.currentPointer (ctxOf st)) +:+ "/"
      +:+ childToken subtypeName (name propDesc) in
  exists ofNested ofOwn,
    Extends inside ofNested afterNested
    /\ forallb childEvent ofNested = true
    /\ traceOf (normalizeProperty validationSets propDesc subtypeName subtype
                  containerObj st)
       = traceOf st ++ ofNested ++ ofOwn
    /\ forallb (fun e => chainEvent PropertyChain here e || isAssign e) ofOwn = true
    /\ callPointers PropertyChain ofOwn
       = repeat here
           (match getValidators (subject propDesc) false validationSets with
            | Some chain => length chain
            | None => 0
            end).
Proof.
  intros Hv Hs inside original afterNested here.
  destruct (Framed_normalizeNested
              (normalizeChildren validationSets (nestedProperties propDesc) None)
              validationSets propDesc original
              (fun l => Framed_normalizeChildren validationSets
                          (nestedProperties propDesc) None l) inside)
    as (ofNested & EN & FN).
  fold afterNested in EN.
  assert (Hhere : toString (Context.currentPointer (ctxOf afterNested)) = here).
  { destruct EN as (_ & C & _). rewrite C. apply toString_descend. }
  assert (Hown : exists ofOwn,
             Extends afterNested ofOwn
               (validateProperty validationSets propDesc containerObj original afterNested)
             /\ forallb (fun e => chainEvent PropertyChain here e || isAssign e) ofOwn = true
             /\ callPointers PropertyChain ofOwn
                = repeat here
                    (match getValidators (subject propDesc) false validationSets with
                     | Some chain => length chain
                     | None => 0
                     end)).
  { unfold validateProperty.
    destruct (getValidators (subject propDesc) false validationSets) as [chain|].
    - rewrite <- Hhere.
      apply (chain_assign_calls PropertyChain chain original containerObj
               (name propDesc) afterNested).
    - destruct (strictNeq original original).
      + eexists. split; [apply Extends_assign|]. split; reflexivity.
      + exists []. split; [apply Extends_refl|]. split; reflexivity. }
  destruct Hown as (ofOwn & EO & FO & CO).
  exists ofNested, ofOwn. repeat split; try assumption; try apply EN.
  rewrite normalizeProperty_regular by assumption.
  fold original inside afterNested.
  destruct EN as (TN & _ & _). destruct EO as (TO & _ & _).
  simpl. rewrite TO, TN. unfold inside. simpl. rewrite <- app_assoc. reflexivity.
Qed.



End Addresses.

(* --------------------------------------------------------------------- *)
(** ** Runs that leave the record as it is *)
(* --------------------------------------------------------------------- *)

Section QuietRuns.

Import Trace RecordNormalizer.

Lemma assocSet_same {A : Type} (key : string) (x : A) (l : list (string * A)) :
  assoc key l = Some x -> assocSet key x l = l.
Proof.
  induction l as [|[k y] l IH]; simpl; [discriminate|].
  destruct (String.eqb k key); [intros [= ->]; reflexivity|].
  intros H. rewrite IH by exact H. reflexivity.
Qed.

(** Putting back a value that differs from itself changes no store. *)
Lemma setProp_reassign (h : heap) (target : loc) (key : string) (v : value) :
  getProp h target key = v -> strictEq v v = false -> setProp h target key v = h.
Proof.
  unfold getProp, setProp. intros Hget Hneq.
  destruct (h !! target) as [o|] eqn:Ho; [|reflexivity].
  destruct (assoc key (ownProps o)) as [x|] eqn:Ha.
  - subst x. rewrite assocSet_same by exact Ha.
    destruct o. apply insert_id. exact Ho.
  - subst v. discriminate.
Qed.

Lemma replayAssigns_reassigns (tr : list Event) (h : heap) :
  Forall (reassigns h) tr -> replayAssigns tr h = h.
Proof.
  unfold replayAssigns. induction tr as [|e tr IH]; intros H; [reflexivity|].
  inversion H as [|? ? He Ht]; subst. simpl.
  destruct e as [| |target key v]; try (apply IH; exact Ht).
  destruct He as [Hg Hn]. rewrite setProp_reassign by assumption. apply IH. exact Ht.
Qed.

Lemma Quiet_heap (f : State -> State) (st : State) :
  Quiet f -> heapOf (f st) = heapOf st.
Proof.
  intros Hf. destruct (Hf st) as (tr & (_ & _ & H) & F).
  rewrite H. apply replayAssigns_reassigns. exact F.
Qed.

Lemma Quiet_id : Quiet (fun st => st).
Proof. intros st. exists []. split; [apply Extends_refl | constructor]. Qed.

Lemma Quiet_compose (f g : State -> State) :
  Quiet f -> Quiet g -> Quiet (fun st => g (f st)).
Proof.
  intros Hf Hg st.
  destruct (Hf st) as (tr1 & E1 & F1). destruct (Hg (f st)) as (tr2 & E2 & F2).
  rewrite (Quiet_heap f st Hf) in F2.
  exists (tr1 ++ tr2). split.
  - eapply Extends_trans; eassumption.
  - apply Forall_app. split; assumption.
Qed.

Lemma Quiet_fold {A : Type} (f : A -> State -> State) (l : list A) :
  (forall x, In x l -> Quiet (f x)) ->
  Quiet (fun st => fold_left (fun acc x => f x acc) l st).
Proof.
  induction l as [|x l IH]; intros H; simpl.
  - apply Quiet_id.
  - apply (Quiet_compose (f x) (fun st => fold_left (fun acc y => f y acc) l st)).
    + apply H. left; reflexivity.
    + apply IH. intros y Hy. apply H. right; exact Hy.
Qed.

Lemma Quiet_between (token : State -> string) (c : value) (f : State -> State) :
  Quiet f ->
  Quiet (fun st => ascendSt (f (descendSt (token st) c st))).
Proof.
  intros Hf st. destruct (Hf (descendSt (token st) c st)) as (tr & E & F).
  exists tr. split; [eapply Extends_ascend; exact E | exact F].
Qed.

Lemma Forall_reassigns_errors (h : heap) (tr : list Event) :
  forallb isError tr = true -> Forall (reassigns h) tr.
Proof.
  induction tr as [|e tr IH]; simpl; intros H; constructor.
  - destruct e; simpl in *; try exact I. discriminate.
  - apply IH. apply andb_prop in H. tauto.
Qed.

(** A chain of rule functions that return their argument returns the
    value it was given, and assigns nothing. *)
Lemma runChain_returnsArgument (kind : ChainKind) (chain : list curriedValidator)
  (v : value) (st : State) :
  Forall returnsArgument chain ->
  fst (runChain kind chain v st) = v
  /\ exists tr, Extends st tr (snd (runChain kind chain v st))
                /\ Forall (reassigns (heapOf st)) tr.
Proof.
  unfold runChain. intros H.
  revert v st; induction H as [|f chain Hf Hc IH]; intros v st; simpl.
  - split; [reflexivity|]. exists []. split; [apply Extends_refl | constructor].
  - destruct (callValidator_extends kind f v st) as (tr1 & E1 & F1).
    assert (Hv : fst (callValidator kind f v st) = v) by apply Hf.
    destruct (callValidator kind f v st) as [v1 st1]. simpl in *. subst v1.
    destruct (IH v st1) as (Hres & tr2 & E2 & F2).
    split; [exact Hres|].
    assert (Hh : heapOf st1 = heapOf st).
    { destruct E1 as (_ & _ & H1). rewrite H1. simpl.
      apply replayAssigns_reassigns. apply Forall_reassigns_errors. exact F1. }
    rewrite Hh in F2.
    eexists. split; [eapply Extends_trans; eassumption|].
    constructor; [exact I|]. apply Forall_app. split; [|exact F2].
    apply Forall_reassigns_errors. exact F1.
Qed.

Lemma runChainOn_quiet (kind : ChainKind) (chain : list curriedValidator) (obj : value) :
  Quiet (runChainOn kind chain obj).
Proof.
  intros st. destruct (runChainOn_extends kind chain obj st) as (tr & E & F).
  exists tr. split; [exact E|].
  clear -F. induction tr as [|e tr IH]; simpl in *; constructor.
  - apply andb_prop in F as [He _]. destruct e; simpl in *; try exact I. discriminate.
  - apply IH. apply andb_prop in F. tauto.
Qed.

(** A chain of such rule functions, and the assignment of its result into
    the slot the value was read from. *)
Lemma chain_assign_quiet (kind : ChainKind) (chain : list curriedValidator)
  (original : value) (target : loc) (key : string) (st : State) :
  Forall returnsArgument chain ->
  getProp (heapOf st) target key = original ->
  exists tr,
    Extends st tr
      (let '(v, st') := runChain kind chain original st in
       if strictNeq v original then assignSt target key v st' else st')
    /\ Forall (reassigns (heapOf st)) tr.
Proof.
  intros Hc Hget.
  destruct (runChain_returnsArgument kind chain original st Hc) as (Hv & tr & E & F).
  destruct (runChain kind chain original st) as [v st']. simpl in *. subst v.
  unfold strictNeq. destruct (strictEq original original) eqn:Hs; simpl.
  - exists tr. auto.
  - exists (tr ++ [EvAssign target key original]). split.
    + eapply Extends_trans; [exact E | apply Extends_assign].
    + apply Forall_app. split; [exact F|]. constructor; [|constructor].
      simpl. auto.
Qed.


Lemma Forall_concat_filter {A B : Type} (P : B -> Prop) (keep : A -> bool)
  (get : A -> list B) (l : list A) :
  Forall (fun e => Forall P (get e)) l ->
  Forall P (concat (map get (List.filter keep l))).
Proof.
  induction 1 as [|e l He Hl IH]; simpl; [constructor|].
  destruct (keep e); simpl; [|exact IH].
  apply Forall_app. split; assumption.
Qed.

(** A resolved chain is made of declared rule functions. *)
Lemma getValidators_Forall {V : Type} (P : V -> Prop) (s : WithValidators V)
  (element : bool) (sets : gset string) (chain : list V) :
  subjectRules P s ->
  getValidators s element sets = Some chain ->
  Forall P chain.
Proof.
  unfold subjectRules. rewrite getValidators_resolved.
  destruct (validators s) as [declared|]; [|discriminate].
  intros H Hc.
  assert (F : Forall P (ChainSpec.resolvedChain element declared sets)).
  { unfold ChainSpec.resolvedChain. apply Forall_concat_filter. exact H. }
  destruct (ChainSpec.resolvedChain element declared sets); [discriminate|].
  injection Hc as <-. exact F.
Qed.

Lemma everyRule_nested {V : Type} (P : V -> Prop) (p : PropertyDescriptor V) :
  everyRule P p -> Forall (everyRule P) (properties (nestedProperties p)).
Proof.
  destruct p as [n view sub str svt subj [poly tpn props]]. simpl.
  intros [_ H]. induction props as [|q props IH]; simpl in *; constructor; tauto.
Qed.

Lemma everyRule_subject {V : Type} (P : V -> Prop) (p : PropertyDescriptor V) :
  everyRule P p -> subjectRules P (subject p).
Proof. destruct p. simpl. tauto. Qed.

Lemma quiet_heap_at (st st' : State) (tr : list Event) :
  Extends st tr st' -> Forall (reassigns (heapOf st)) tr -> heapOf st' = heapOf st.
Proof.
  intros (_ & _ & H) F. rewrite H. apply replayAssigns_reassigns. exact F.
Qed.

Lemma Quiet_normalizeSimpleElement (chain : list curriedValidator)
  (collection : loc) (key : string) :
  Forall returnsArgument chain ->
  Quiet (normalizeSimpleElement chain collection key).
Proof.
  intros Hc st. unfold normalizeSimpleElement.
  destruct (chain_assign_quiet ElementChain chain (getProp (heapOf st) collection key)
              collection key (descendSt key (VObject collection) st) Hc eq_refl)
    as (tr & E & F).
  exists tr. split; [|exact F].
  destruct (runChain ElementChain chain (getProp (heapOf st) collection key)
              (descendSt key (VObject collection) st)).
  eapply Extends_ascend. exact E.
Qed.

Lemma Quiet_normalizeObjectElement (children : loc -> State -> State)
  (elementValidators : option (list curriedValidator))
  (collection : loc) (key : string) :
  (forall l, Quiet (children l)) ->
  (forall chain, elementValidators = Some chain -> Forall returnsArgument chain) ->
  Quiet (normalizeObjectElement children elementValidators collection key).
Proof.
  intros Hch Hc st. unfold normalizeObjectElement.
  set (orig := getProp (heapOf st) collection key).
  set (inside := descendSt key (VObject collection) st).
  set (afterNested := match orig with
                      | VObject l => children l inside
                      | _ => inside
                      end).
  assert (HN : exists tr, Extends inside tr afterNested
                          /\ Forall (reassigns (heapOf inside)) tr).
  { unfold afterNested. destruct orig;
      try (exists []; split; [apply Extends_refl | constructor]).
    apply Hch. }
  destruct HN as (tr1 & E1 & F1).
  pose proof (quiet_heap_at _ _ _ E1 F1) as Hh.
  destruct elementValidators as [chain|].
  - destruct (chain_assign_quiet ElementChain chain orig collection key afterNested
                (Hc chain eq_refl)) as (tr2 & E2 & F2).
    { rewrite Hh. reflexivity. }
    rewrite Hh in F2.
    exists (tr1 ++ tr2). split.
    + destruct (runChain ElementChain chain orig afterNested).
      eapply Extends_ascend. eapply Extends_trans; eassumption.
    + apply Forall_app. split; assumption.
  - exists tr1. split; [eapply Extends_ascend; exact E1 | exact F1].
Qed.

Lemma Quiet_normalizeElements (children : loc -> State -> State)
  (objectElements : bool) (elementValidators : option (list curriedValidator))
  (collection : loc) (keys : list string) :
  (forall l, Quiet (children l)) ->
  (forall chain, elementValidators = Some chain -> Forall returnsArgument chain) ->
  Quiet (normalizeElements children objectElements elementValidators collection keys).
Proof.
  intros Hch Hc. unfold normalizeElements.
  destruct objectElements.
  - apply (Quiet_fold
             (fun key => normalizeObjectElement children elementValidators collection key)).
    intros key _. apply Quiet_normalizeObjectElement; assumption.
  - destruct elementValidators as [chain|]; [|apply Quiet_id].
    apply (Quiet_fold (fun key => normalizeSimpleElement chain collection key)).
    intros key _. apply Quiet_normalizeSimpleElement. apply Hc. reflexivity.
Qed.

Lemma Quiet_normalizeNested (children : loc -> State -> State)
  (validationSets : gset string) (propDesc : PropertyDescriptor curriedValidator)
  (originalValue : value) :
  (forall l, Quiet (children l)) ->
  subjectRules returnsArgument (subject propDesc) ->
  Quiet (normalizeNested children validationSets propDesc originalValue).
Proof.
  intros Hch Hs st. unfold normalizeNested.
  assert (Hc : forall chain,
             getValidators (subject propDesc) true validationSets = Some chain ->
             Forall returnsArgument chain).
  { intros chain. apply getValidators_Forall. exact Hs. }
  destruct (structure propDesc), originalValue; try apply Quiet_id.
  - destruct (String.eqb (scalarValueType propDesc) "object");
      [apply Hch | apply Quiet_id].
  - destruct (isArray (heapOf st) (VObject l) && (0 <? lengthOf (heapOf st) l)%nat);
      [|apply Quiet_id].
    apply Quiet_normalizeElements; assumption.
  - apply Quiet_normalizeElements; assumption.
Qed.

Lemma validateProperty_quiet (validationSets : gset string)
  (propDesc : PropertyDescriptor curriedValidator) (containerObj : loc)
  (originalValue : value) (st : State) :
  subjectRules returnsArgument (subject propDesc) ->
  getProp (heapOf st) containerObj (name propDesc) = originalValue ->
  exists tr,
    Extends st tr (validateProperty validationSets propDesc containerObj originalValue st)
    /\ Forall (reassigns (heapOf st)) tr.
Proof.
  intros Hs Hget. unfold validateProperty.
  destruct (getValidators (subject propDesc) false validationSets) as [chain|] eqn:Hc.
  - apply chain_assign_quiet; [|exact Hget].
    eapply getValidators_Forall; eassumption.
  - unfold strictNeq. destruct (strictEq originalValue originalValue) eqn:He; simpl.
    + exists []. split; [apply Extends_refl | constructor].
    + eexists. split; [apply Extends_assign|]. constructor; [|constructor].
      simpl. auto.
Qed.

Lemma Quiet_normalizeChildrenWith
  (np : PropertyDescriptor curriedValidator -> option string -> value -> loc ->
        State -> State)
  (container : PropertiesContainer (PropertyDescriptor curriedValidator))
  (subtypeName : option string) (containerObj : loc) :
  (forall p, In p (properties container) ->
     forall sn sub obj, Quiet (np p sn sub obj)) ->
  Quiet (normalizeChildrenWith np container subtypeName containerObj).
Proof.
  intros Hnp st. unfold normalizeChildrenWith.
  destruct (isPolymorphObject container
            && invalidSubtype container
                 (if isPolymorphObject container
                  then getProp (heapOf st) containerObj (typePropertyName container)
                  else VUndefined)).
  - eexists. split; [apply Extends_addErrorFor|]. constructor; [exact I | constructor].
  - apply (Quiet_fold
             (fun propDesc => np propDesc subtypeName
                (if isPolymorphObject container
                 then getProp (heapOf st) containerObj (typePropertyName container)
                 else VUndefined) containerObj)).
    intros p Hp. apply Hnp. exact Hp.
Qed.

(** With rule functions that return their argument, the step on a property
    only puts back values that differ from themselves. *)
Lemma Quiet_normalizeProperty (validationSets : gset string)
  (propDesc : PropertyDescriptor curriedValidator) :
  everyRule returnsArgument propDesc ->
  forall subtypeName subtype containerObj,
    Quiet (normalizeProperty validationSets propDesc subtypeName subtype containerObj).
Proof.
  induction propDesc as [p IH] using PropertyDescriptor_nested_ind.
  intros Hall subtypeName subtype containerObj.
  pose proof (everyRule_subject _ _ Hall) as Hsubj.
  assert (Hchildren : forall sn l,
            Quiet (normalizeChildren validationSets (nestedProperties p) sn l)).
  { intros sn l. apply Quiet_normalizeChildrenWith.
    intros q Hq. pose proof (everyRule_nested _ _ Hall) as Hn.
    rewrite Forall_forall in IH, Hn.
    apply IH; [|apply Hn]; apply list_elem_of_In; exact Hq. }
  intros st0.
  destruct (isView p) eqn:Hv.
  { rewrite normalizeProperty_view by assumption. apply (Quiet_id st0). }
  destruct (isSubtype p) eqn:Hs.
  { rewrite normalizeProperty_subtype by assumption.
    destruct (strictEq (VString (name p)) subtype); [|apply (Quiet_id st0)].
    cbv zeta.
    destruct (getValidators (subject p) false validationSets) as [chain|].
    - apply (Quiet_compose _ _ (Hchildren (asString subtype) containerObj)
               (runChainOn_quiet SubtypeChain chain (VObject containerObj)) st0).
    - apply (Hchildren _ _ st0). }
  rewrite normalizeProperty_regular by assumption.
  set (orig := getProp (heapOf st0) containerObj (name p)).
  set (inside := descendSt (childToken subtypeName (name p)) (VObject containerObj) st0).
  destruct (Quiet_normalizeNested
              (normalizeChildren validationSets (nestedProperties p) None)
              validationSets p orig (fun l => Hchildren None l) Hsubj inside)
    as (tr1 & E1 & F1).
  pose proof (quiet_heap_at _ _ _ E1 F1) as Hh.
  destruct (validateProperty_quiet validationSets p containerObj orig
              (normalizeNested (normalizeChildren validationSets (nestedProperties p) None)
                 validationSets p orig inside) Hsubj) as (tr2 & E2 & F2).
  { rewrite Hh. reflexivity. }
  rewrite Hh in F2.
  exists (tr1 ++ tr2). split.
  - eapply Extends_ascend. eapply Extends_trans; eassumption.
  - apply Forall_app. split; assumption.
Qed.

Lemma Quiet_normalizeChildren (validationSets : gset string)
  (container : PropertiesContainer (PropertyDescriptor curriedValidator))
  (subtypeName : option string) (containerObj : loc) :
  Forall (everyRule returnsArgument) (properties container) ->
  Quiet (normalizeChildren validationSets container subtypeName containerObj).
Proof.
  intros H. apply Quiet_normalizeChildrenWith.
  intros p Hp sn sub obj. apply Quiet_normalizeProperty.
  rewrite Forall_forall in H. apply H. apply list_elem_of_In. exact Hp.
Qed.


Lemma chainEvent_no_assign (kind : ChainKind) (ptr : string) (tr : list Event) (h : heap) :
  forallb (chainEvent kind ptr) tr = true ->
  List.filter isAssign tr = [] /\ replayAssigns tr h = h.
Proof.
  unfold replayAssigns. induction tr as [|e tr IH]; simpl; [auto|].
  intros H. apply andb_prop in H as [He Ht]. destruct (IH Ht) as [IH1 IH2].
  destruct e; simpl in *; try discriminate; auto.
Qed.

(** The assignments of a chain followed by the assignment of its result:
    that one, exactly when the result differs from the value read. *)
Lemma chain_assign_trace (kind : ChainKind) (chain : list curriedValidator)
  (original : value) (target : loc) (key : string) (st : State) :
  let result := runChain kind chain original st in
  let after :=
    let '(v, st') := runChain kind chain original st in
    if strictNeq v original then assignSt target key v st' else st' in
  List.filter isAssign (traceOf after)
  = List.filter isAssign (traceOf st)
    ++ (if strictNeq (fst result) original
        then [EvAssign target key (fst result)] else [])
  /\ heapOf after
     = if strictNeq (fst result) original
       then setProp (heapOf st) target key (fst result)
       else heapOf st.
Proof.
  intros result after. unfold after, result.
  destruct (runChain_extends kind chain original st) as (tr & (T & _ & H) & F).
  destruct (chainEvent_no_assign _ _ _ (heapOf st) F) as [Fa Fh].
  destruct (runChain kind chain original st) as [v st']. simpl in *.
  rewrite Fh in H.
  destruct (strictNeq v original); simpl; rewrite T, ?H, !List.filter_app, Fa; simpl;
    rewrite ?app_nil_r; auto.
Qed.

Lemma required_returnsArgument : returnsArgument Standard.required.
Proof.
  intros v st. simpl.
  destruct (Context.currentPropDesc (ctxOf st)) as [propDesc|]; [|reflexivity].
  destruct (Standard.isEmpty (heapOf st) (Context.currentPointer (ctxOf st)) propDesc v);
    reflexivity.
Qed.

End QuietRuns.

Section StringFacts.

Import RecordNormalizer.

Lemma existsChar_trimStart (f : ascii -> bool) (s : string) :
  existsChar f s = false -> existsChar f (trimStart s) = false.
Proof.
  induction s as [|c s IH]; simpl; [reflexivity|].
  intros H. apply orb_false_elim in H as [Hc Hs].
  destruct (isSpace c); [apply IH; exact Hs|]. simpl. rewrite Hc, Hs. reflexivity.
Qed.

Lemma existsChar_trimEnd (f : ascii -> bool) (s : string) :
  existsChar f s = false -> existsChar f (trimEnd s) = false.
Proof.
  induction s as [|c s IH]; simpl; [reflexivity|].
  intros H. apply orb_false_elim in H as [Hc Hs].
  destruct (isSpace c && isEmptyString (trimEnd s)); [reflexivity|].
  simpl. rewrite Hc, (IH Hs). reflexivity.
Qed.

Lemma existsChar_trim (f : ascii -> bool) (s : string) :
  existsChar f s = false -> existsChar f (trim s) = false.
Proof.
  intros H. unfold trim. apply existsChar_trimEnd, existsChar_trimStart, H.
Qed.

Lemma existsChar_splitCommaAux (f : ascii -> bool) (s : string) :
  existsChar f s = false ->
  existsChar f (fst (splitCommaAux s)) = false
  /\ Forall (fun p => existsChar f p = false) (snd (splitCommaAux s)).
Proof.
  induction s as [|c s IH]; simpl; [auto|].
  intros H. apply orb_false_elim in H as [Hc Hs].
  destruct (IH Hs) as [Hp Hps]. destruct (splitCommaAux s) as [p ps]. simpl in *.
  destruct (isComma c); simpl.
  - split; [reflexivity|]. constructor; [apply existsChar_trimStart; exact Hp | exact Hps].
  - destruct (isSpace c && isEmptyString p
              && negb match ps with [] => true | _ => false end); simpl.
    + auto.
    + rewrite Hc, Hp. auto.
Qed.

Lemma existsChar_splitComma (f : ascii -> bool) (s : string) :
  existsChar f s = false ->
  Forall (fun p => existsChar f p = false) (splitComma s).
Proof.
  intros H. unfold splitComma.
  destruct (existsChar_splitCommaAux f s H) as [Hp Hps].
  destruct (splitCommaAux s) as [p ps]. constructor; assumption.
Qed.

Lemma trimStart_first (s : string) (c : ascii) :
  String.get 0 (trimStart s) = Some c -> isSpace c = false.
Proof.
  induction s as [|d s IH]; simpl; [discriminate|].
  destruct (isSpace d) eqn:Hd; [exact IH|]. simpl. intros [= <-]. exact Hd.
Qed.

Lemma trimStart_fixed (s : string) :
  (forall c, String.get 0 s = Some c -> isSpace c = false) -> trimStart s = s.
Proof.
  destruct s as [|d s]; [reflexivity|]. intros H. simpl.
  rewrite (H d eq_refl). reflexivity.
Qed.

Lemma trimEnd_first (s : string) (c : ascii) :
  (forall d, String.get 0 s = Some d -> isSpace d = false) ->
  String.get 0 (trimEnd s) = Some c -> isSpace c = false.
Proof.
  destruct s as [|d s]; simpl; [discriminate|]. intros H.
  rewrite (H d eq_refl). simpl. intros [= <-]. apply H. reflexivity.
Qed.

Lemma trimEnd_twice (s : string) : trimEnd (trimEnd s) = trimEnd s.
Proof.
  induction s as [|c s IH]; simpl; [reflexivity|].
  destruct (isSpace c && isEmptyString (trimEnd s)) eqn:E; [reflexivity|].
  simpl. rewrite IH, E. reflexivity.
Qed.

Lemma lastChar_cons (c : ascii) (s : string) :
  lastChar (String c s) = match s with EmptyString => Some c | _ => lastChar s end.
Proof.
  unfold lastChar. destruct s as [|d s]; [reflexivity|].
  simpl. rewrite Nat.sub_0_r. reflexivity.
Qed.

Lemma trimEnd_last (s : string) (c : ascii) :
  lastChar (trimEnd s) = Some c -> isSpace c = false.
Proof.
  induction s as [|d s IH]; simpl; [discriminate|].
  destruct (isSpace d && isEmptyString (trimEnd s)) eqn:E; [discriminate|].
  rewrite lastChar_cons. destruct (trimEnd s) as [|e t] eqn:Ht.
  - intros [= <-]. simpl in E. rewrite andb_true_r in E. exact E.
  - exact IH.
Qed.

Lemma trim_twice (s : string) : trim (trim s) = trim s.
Proof.
  unfold trim. rewrite trimStart_fixed.
  - apply trimEnd_twice.
  - intros c. apply trimEnd_first. intros d. apply trimStart_first.
Qed.

Lemma string_app_nil (a : string) : a +:+ "" = a.
Proof.
  induction a as [|c a IH]; [reflexivity|].
  change (String c a +:+ "") with (String c (a +:+ "")). rewrite IH. reflexivity.
Qed.

Lemma string_app_assoc' (a b c : string) : (a +:+ b) +:+ c = a +:+ (b +:+ c).
Proof.
  induction a as [|x a IH]; [reflexivity|].
  change ((String x a +:+ b) +:+ c) with (String x ((a +:+ b) +:+ c)).
  rewrite IH. reflexivity.
Qed.

Lemma trim_commute (s : string) : trimStart (trimEnd s) = trimEnd (trimStart s).
Proof.
  induction s as [|c r IH]; [reflexivity|]. cbn [trimStart trimEnd].
  destruct (isSpace c) eqn:Hc; cbn [andb].
  - destruct (isEmptyString (trimEnd r)) eqn:He.
    + rewrite <- IH. destruct (trimEnd r); [reflexivity | discriminate].
    + cbn [trimStart]. rewrite Hc. exact IH.
  - cbn [trimStart trimEnd]. rewrite Hc. reflexivity.
Qed.

Lemma splitCommaAux_piece (a rest : string) :
  existsChar isComma a = false ->
  splitCommaAux (a +:+ "," +:+ rest)
  = (trimEnd a,
     trimStart (fst (splitCommaAux rest)) :: snd (splitCommaAux rest)).
Proof.
  induction a as [|c a IH]; intros Hn.
  - change ("" +:+ "," +:+ rest) with (String "," rest). cbn [splitCommaAux].
    destruct (splitCommaAux rest) as [p ps]. reflexivity.
  - cbn [existsChar] in Hn. apply orb_false_elim in Hn as [Hc Ha].
    change (String c a +:+ "," +:+ rest) with (String c (a +:+ "," +:+ rest)).
    cbn [splitCommaAux trimEnd]. rewrite (IH Ha), Hc.
    destruct (isSpace c && isEmptyString (trimEnd a)); reflexivity.
Qed.

Lemma trimStart_piece (a rest : string) :
  trimStart (a +:+ "," +:+ rest) = trimStart a +:+ "," +:+ rest.
Proof.
  induction a as [|c a IH]; [reflexivity|].
  change (String c a +:+ "," +:+ rest) with (String c (a +:+ "," +:+ rest)).
  cbn [trimStart]. destruct (isSpace c); [exact IH | reflexivity].
Qed.

Lemma trimEnd_piece (a rest : string) :
  trimEnd (a +:+ "," +:+ rest) = a +:+ "," +:+ trimEnd rest.
Proof.
  induction a as [|c a IH].
  - change ("" +:+ "," +:+ rest) with (String "," rest).
    change ("" +:+ "," +:+ trimEnd rest) with (String "," (trimEnd rest)).
    reflexivity.
  - change (String c a +:+ "," +:+ rest) with (String c (a +:+ "," +:+ rest)).
    cbn [trimEnd]. rewrite IH.
    replace (isEmptyString (a +:+ "," +:+ trimEnd rest)) with false
      by (destruct a; reflexivity).
    rewrite andb_false_r. reflexivity.
Qed.

(** The pieces of a list of names joined by commas and followed by
    [",*"]. *)
Lemma splitCommaAux_join (name : string) (rest : list string) :
  Forall (fun n => existsChar isComma n = false) (name :: rest) ->
  splitCommaAux (joinCommas (name :: rest) +:+ ",*")
  = (trimEnd name, map (fun n => trimStart (trimEnd n)) rest ++ ["*"]).
Proof.
  revert name. induction rest as [|name' rest IH]; intros name Hn.
  - cbn [joinCommas map app]. inversion Hn as [|? ? Hc _]; subst.
    change (name +:+ ",*") with (name +:+ "," +:+ "*").
    rewrite (splitCommaAux_piece name "*" Hc). reflexivity.
  - inversion Hn as [|? ? Hc Hrest]; subst.
    change (joinCommas (name :: name' :: rest))
      with (name +:+ "," +:+ joinCommas (name' :: rest)).
    rewrite string_app_assoc'.
    change (("," +:+ joinCommas (name' :: rest)) +:+ ",*")
      with ("," +:+ (joinCommas (name' :: rest) +:+ ",*")).
    rewrite (splitCommaAux_piece name _ Hc), (IH name' Hrest). reflexivity.
Qed.

Lemma trimEnd_join (name : string) (rest : list string) :
  exists name' rest',
    trimEnd (joinCommas (name :: rest)) = joinCommas (name' :: rest')
    /\ trimEnd name' = trimEnd name
    /\ map (fun n => trimStart (trimEnd n)) rest'
       = map (fun n => trimStart (trimEnd n)) rest
    /\ (Forall (fun n => existsChar isComma n = false) (name :: rest) ->
        Forall (fun n => existsChar isComma n = false) (name' :: rest')).
Proof.
  revert name. induction rest as [|name2 rest IH]; intros name.
  - exists (trimEnd name), []. cbn [joinCommas map].
    split; [reflexivity|]. split; [apply trimEnd_twice|]. split; [reflexivity|].
    intros Hn. inversion Hn; subst. constructor; [|constructor].
    apply existsChar_trimEnd. assumption.
  - destruct (IH name2) as (n2' & rest' & E & E1 & E2 & E3).
    exists name, (n2' :: rest').
    change (joinCommas (name :: name2 :: rest))
      with (name +:+ "," +:+ joinCommas (name2 :: rest)).
    rewrite trimEnd_piece, E.
    split; [reflexivity|]. split; [reflexivity|]. split.
    + cbn [map]. rewrite E1, E2. reflexivity.
    + intros Hn. inversion Hn; subst. constructor; [assumption|]. apply E3. assumption.
Qed.

Lemma trimStart_join (name : string) (rest : list string) :
  trimStart (joinCommas (name :: rest)) = joinCommas (trimStart name :: rest).
Proof.
  destruct rest as [|name2 rest]; [reflexivity|].
  change (joinCommas (name :: name2 :: rest))
    with (name +:+ "," +:+ joinCommas (name2 :: rest)).
  apply trimStart_piece.
Qed.

(** The active sets of a list of names written with commas between them:
    the names without the white space around them, and ['*']. *)
Lemma activeSets_join (name : string) (rest : list string) :
  Forall (fun n => existsChar isComma n = false) (name :: rest) ->
  joinCommas (name :: rest) <> EmptyString ->
  activeSets (Some (joinCommas (name :: rest)))
  = list_to_set (map trim (name :: rest) ++ ["*"]).
Proof.
  intros Hn Hne. unfold activeSets.
  destruct (joinCommas (name :: rest)) as [|c s] eqn:Hj; [congruence|].
  cbn [isEmptyString]. rewrite <- Hj. clear Hj Hne c s.
  f_equal. unfold trim at 1. rewrite trimStart_join.
  assert (Hn' : Forall (fun n => existsChar isComma n = false) (trimStart name :: rest)).
  { inversion Hn; subst. constructor; [|assumption].
    apply existsChar_trimStart. assumption. }
  destruct (trimEnd_join (trimStart name) rest) as (n' & rest' & E & E1 & E2 & E3).
  rewrite E. unfold splitComma.
  rewrite (splitCommaAux_join n' rest' (E3 Hn')).
  rewrite E1, E2. cbn [map app]. unfold trim. f_equal.
  f_equal. apply map_ext. intros n. apply trim_commute.
Qed.

End StringFacts.

Section PointerParsing.

Lemma splitSlash_token (t rest : string) :
  existsChar isSlash t = false ->
  splitSlash (t +:+ rest)
  = (t +:+ fst (splitSlash rest), snd (splitSlash rest)).
Proof.
  induction t as [|c t IH]; intros Ht.
  - change ("" +:+ rest) with rest. destruct (splitSlash rest). reflexivity.
  - cbn [existsChar] in Ht. apply orb_false_elim in Ht as [Hc Ht].
    change (String c t +:+ rest) with (String c (t +:+ rest)).
    cbn [splitSlash]. rewrite (IH Ht). unfold isSlash in Hc. rewrite Hc. reflexivity.
Qed.

Lemma splitSlash_join (tokens : list string) :
  Forall (fun t => existsChar isSlash t = false) tokens ->
  splitSlash (joinTokens tokens) = (EmptyString, tokens).
Proof.
  induction 1 as [|t tokens Ht _ IH]; [reflexivity|].
  cbn [joinTokens].
  change ("/" +:+ t +:+ joinTokens tokens) with (String "/" (t +:+ joinTokens tokens)).
  cbn [splitSlash]. rewrite (splitSlash_token t _ Ht), IH. cbn [fst snd].
  rewrite string_app_nil_r. reflexivity.
Qed.

Lemma parse_join (recordTypeDesc : RecordTypeDescriptor unit) (tokens : list string) :
  Forall (fun t => existsChar isSlash t = false) tokens ->
  parse recordTypeDesc (joinTokens tokens)
  = fold_left createChildPointer tokens (rootPointer recordTypeDesc).
Proof.
  intros H. unfold parse. rewrite (splitSlash_join tokens H). reflexivity.
Qed.

Lemma ptrTokens_createChildPointer (p : RecordElementPointer) (token : string) :
  ptrTokens (createChildPointer p token) = ptrTokens p ++ [token].
Proof.
  unfold createChildPointer. destruct (propDesc p) as [pd|];
    [destruct (negb (isScalarProp pd) && negb (collectionElement p))|]; reflexivity.
Qed.

Lemma ptrTokens_fold (tokens : list string) (p : RecordElementPointer) :
  ptrTokens (fold_left createChildPointer tokens p) = ptrTokens p ++ tokens.
Proof.
  revert p. induction tokens as [|t tokens IH]; intros p; cbn [fold_left].
  - rewrite app_nil_r. reflexivity.
  - rewrite IH, ptrTokens_createChildPointer, <- app_assoc. reflexivity.
Qed.

Lemma ptrRecordType_fold (tokens : list string) (p : RecordElementPointer) :
  ptrRecordType (fold_left createChildPointer tokens p) = ptrRecordType p.
Proof.
  revert p. induction tokens as [|t tokens IH]; intros p; cbn [fold_left];
    [reflexivity|].
  rewrite IH. unfold createChildPointer. destruct (propDesc p) as [pd|];
    [destruct (negb (isScalarProp pd) && negb (collectionElement p))|]; reflexivity.
Qed.

(** The string of a pointer reached from the root, with one more token
    after a slash, parses to the child pointer. *)
Lemma parse_child (recordTypeDesc : RecordTypeDescriptor unit) (tokens : list string)
  (token : string) :
  Forall (fun t => existsChar isSlash t = false) tokens ->
  existsChar isSlash token = false ->
  let p := fold_left createChildPointer tokens (rootPointer recordTypeDesc) in
  parse recordTypeDesc (toString p +:+ "/" +:+ token) = createChildPointer p token.
Proof.
  intros Hts Ht p.
  assert (Hp : toString p = joinTokens tokens).
  { unfold toString, p. rewrite ptrTokens_fold. reflexivity. }
  rewrite Hp, <- joinTokens_app, parse_join.
  - rewrite fold_left_app. reflexivity.
  - apply Forall_app. split; [exact Hts | repeat constructor; exact Ht].
Qed.

End PointerParsing.

Section ErrorsAtPointers.

Import Trace RecordNormalizer.




Lemma messagesAt_app (k : string) (tr1 tr2 : list Event) :
  messagesAt k (tr1 ++ tr2) = messagesAt k tr1 ++ messagesAt k tr2.
Proof. unfold messagesAt. apply flat_map_app. Qed.

(** No message at a pointer no error is keyed at. *)
Lemma messagesAt_other (k here : string) (tr : list Event) :
  Forall (eq here) (errorKeys tr) -> k <> here -> messagesAt k tr = [].
Proof.
  intros Hall Hk. apply messagesAt_nil_iff. intros Hin.
  rewrite Forall_forall in Hall. apply Hk. symmetry. apply Hall.
  apply list_elem_of_In. exact Hin.
Qed.









End ErrorsAtPointers.

Section FieldsAreValidated.

Import Trace RecordNormalizer.





End FieldsAreValidated.

(* --------------------------------------------------------------------- *)
(** ** Runs that may raise *)
(* --------------------------------------------------------------------- *)

Section RaisingRuns.

Import Trace RecordNormalizer.

Variable rt : RecordTypeDescriptor unit.
Variable q : Prop.

Lemma replayErrors_snoc (tr : list Event) (e : Event)
  (errs : gmap string (list string)) :
  replayErrors (tr ++ [e]) errs
  = match e with
    | EvError errorKey message =>
        ValidationErrors.addError (replayErrors tr errs) errorKey message
    | _ => replayErrors tr errs
    end.
Proof. unfold replayErrors. rewrite fold_left_app. reflexivity. Qed.

Lemma recorded_call (kind : ChainKind) (ptr : string) (v : value) (st : State) :
  recorded rt st -> recorded rt (logEvent (EvCall kind ptr v) st).
Proof.
  intros [R T]. split; simpl; [|exact T]. rewrite replayErrors_snoc. exact R.
Qed.

Lemma recorded_addErrorFor (ptr : PointerArg) (message : string)
  (params : option MessageParams) (st : State) :
  recorded rt st -> recorded rt (addErrorForSt ptr message params st).
Proof.
  intros [R T]. split; simpl; [|exact T].
  rewrite replayErrors_snoc, R. reflexivity.
Qed.

Lemma recorded_assign (target : loc) (key : string) (v : value) (st : State) :
  recorded rt st -> recorded rt (assignSt target key v st).
Proof.
  intros [R T]. split; simpl; [|exact T]. rewrite replayErrors_snoc. exact R.
Qed.

Lemma recorded_descend (token : string) (c : value) (st : State) :
  recorded rt st -> recorded rt (descendSt token c st).
Proof. intros [R T]. split; simpl; assumption. Qed.

Lemma recorded_ascend (st : State) : recorded rt st -> recorded rt (ascendSt st).
Proof. intros [R T]. split; simpl; assumption. Qed.

Lemma Keeps_ret {A : Type} (a : A) : Keeps rt q (Raising.ret a).
Proof. intros st H. exact H. Qed.

Lemma Keeps_lift (f : State -> State) :
  (forall st, recorded rt st -> recorded rt (f st)) -> Keeps rt q (Raising.lift f).
Proof. intros Hf st H. apply Hf. exact H. Qed.

Lemma Keeps_bind {A B : Type} (m : Raising.Run A) (f : A -> Raising.Run B) :
  Keeps rt q m -> (forall a, Keeps rt q (f a)) -> Keeps rt q (Raising.bind m f).
Proof.
  intros Hm Hf st H. unfold Raising.bind. specialize (Hm st H).
  destruct (m st) as [a st'|e st']; [apply Hf; exact Hm | exact Hm].
Qed.

Lemma Keeps_foldRun {A : Type} (f : A -> Raising.Run unit) (l : list A) :
  (forall a, In a l -> Keeps rt q (f a)) -> Keeps rt q (Raising.foldRun f l).
Proof.
  induction l as [|a l IH]; intros Hf; simpl.
  - apply Keeps_ret.
  - apply Keeps_bind; [apply Hf; left; reflexivity|].
    intros _. apply IH. intros b Hb. apply Hf. right. exact Hb.
Qed.

Lemma Keeps_descend (token : string) (c : value) :
  Keeps rt q (Raising.lift (descendSt token c)).
Proof. apply Keeps_lift. intros st. apply recorded_descend. Qed.

Lemma Keeps_ascend : Keeps rt q (Raising.lift ascendSt).
Proof. apply Keeps_lift. intros st. apply recorded_ascend. Qed.

Lemma pointerResolves_parses (ctx : ValidationContext) (ptr : PointerArg) :
  _recordTypeDesc ctx = rt ->
  match ptr with
  | PtrString s => parses rt s = true
  | PtrObject _ => True
  end ->
  pointerResolves ctx ptr = true.
Proof. intros <-. destruct ptr; simpl; tauto. Qed.

(** The call of a rule keeps the errors object in step with the trace, and
    returns when the rule does. *)
Lemma Keeps_runRule (r : Raising.Rule) :
  (q -> returnsIn rt r) -> Keeps rt q (Raising.runRule r).
Proof.
  induction r as [v | k IH | ptr message params k IH | target key v k IH | e];
    intros Hq st H; simpl.
  - exact H.
  - apply IH; [|exact H]. intros Q. apply (Hq Q). exact (proj2 H).
  - destruct (pointerResolves (ctxOf st) ptr) eqn:Hp.
    + apply IH; [intros Q; exact (proj2 (Hq Q)) | apply recorded_addErrorFor; exact H].
    + split; [exact H|]. intros Q.
      rewrite (pointerResolves_parses _ _ (proj2 H) (proj1 (Hq Q))) in Hp.
      discriminate.
  - apply IH; [exact Hq | apply recorded_assign; exact H].
  - split; [exact H|]. intros Q. exact (Hq Q).
Qed.

Lemma Keeps_callValidator (kind : ChainKind) (validator : Raising.SetMember)
  (v : value) :
  (q -> returnsAlways rt validator) ->
  Keeps rt q (Raising.callValidator kind validator v).
Proof.
  intros Hq st H. destruct validator as [f|]; simpl.
  - apply Keeps_runRule; [intros Q; apply (Hq Q) | apply recorded_call; exact H].
  - split; [exact H|]. intros Q. exact (Hq Q).
Qed.

Lemma Keeps_runChain (kind : ChainKind) (chain : list Raising.SetMember) :
  (q -> Forall (returnsAlways rt) chain) ->
  forall v, Keeps rt q (Raising.runChain kind chain v).
Proof.
  induction chain as [|validator chain IH]; intros Hq v; simpl.
  - apply Keeps_ret.
  - apply Keeps_bind.
    + apply Keeps_callValidator. intros Q. exact (Forall_inv (Hq Q)).
    + intros v'. apply IH. intros Q. exact (Forall_inv_tail (Hq Q)).
Qed.

Lemma Keeps_runChainOn (kind : ChainKind) (chain : list Raising.SetMember)
  (obj : value) :
  (q -> Forall (returnsAlways rt) chain) ->
  Keeps rt q (Raising.runChainOn kind chain obj).
Proof.
  intros Hq. apply Keeps_foldRun. intros validator Hin.
  apply Keeps_bind; [|intros _; apply Keeps_ret].
  apply Keeps_callValidator. intros Q.
  pose proof (Hq Q) as F. rewrite Forall_forall in F. apply F.
  apply list_elem_of_In. exact Hin.
Qed.

Lemma Keeps_validateElement (chain : list Raising.SetMember) (collection : loc)
  (key : string) (original : value) :
  (q -> Forall (returnsAlways rt) chain) ->
  Keeps rt q (Raising.validateElement chain collection key original).
Proof.
  intros Hq. apply Keeps_bind; [apply Keeps_runChain; exact Hq|].
  intros v. destruct (strictNeq v original); [|apply Keeps_ret].
  apply Keeps_lift. intros st. apply recorded_assign.
Qed.

Lemma Keeps_chain_of (s : WithValidators Raising.SetMember) (element : bool)
  (sets : gset string) (chain : list Raising.SetMember) :
  (q -> subjectRules (returnsAlways rt) s) ->
  getValidators s element sets = Some chain ->
  q -> Forall (returnsAlways rt) chain.
Proof.
  intros Hq Hc Q. exact (getValidators_Forall _ s element sets chain (Hq Q) Hc).
Qed.

Lemma Keeps_normalizeObjectElement (children : loc -> Raising.Run unit)
  (elementValidators : option (list Raising.SetMember)) (collection : loc)
  (key : string) :
  (forall l, Keeps rt q (children l)) ->
  (forall chain, elementValidators = Some chain ->
                 q -> Forall (returnsAlways rt) chain) ->
  Keeps rt q (Raising.normalizeObjectElement children elementValidators collection key).
Proof.
  intros Hc Hv st H. unfold Raising.normalizeObjectElement.
  apply Keeps_bind; [apply Keeps_descend | | exact H].
  intros _. apply Keeps_bind.
  - destruct (getProp (heapOf st) collection key); try apply Keeps_ret. apply Hc.
  - intros _. apply Keeps_bind; [|intros _; apply Keeps_ascend].
    destruct elementValidators as [chain|]; [|apply Keeps_ret].
    apply Keeps_validateElement. apply Hv. reflexivity.
Qed.

Lemma Keeps_normalizeSimpleElement (chain : list Raising.SetMember)
  (collection : loc) (key : string) :
  (q -> Forall (returnsAlways rt) chain) ->
  Keeps rt q (Raising.normalizeSimpleElement chain collection key).
Proof.
  intros Hv st H. unfold Raising.normalizeSimpleElement.
  apply Keeps_bind; [apply Keeps_descend | | exact H].
  intros _. apply Keeps_bind; [|intros _; apply Keeps_ascend].
  apply Keeps_validateElement. exact Hv.
Qed.

Lemma Keeps_normalizeElements (children : loc -> Raising.Run unit)
  (objectElements : bool) (elementValidators : option (list Raising.SetMember))
  (collection : loc) (keys : list string) :
  (forall l, Keeps rt q (children l)) ->
  (forall chain, elementValidators = Some chain ->
                 q -> Forall (returnsAlways rt) chain) ->
  Keeps rt q (Raising.normalizeElements children objectElements elementValidators
                collection keys).
Proof.
  intros Hc Hv. unfold Raising.normalizeElements. destruct objectElements.
  - apply Keeps_foldRun. intros key _. apply Keeps_normalizeObjectElement; assumption.
  - destruct elementValidators as [chain|]; [|apply Keeps_ret].
    apply Keeps_foldRun. intros key _. apply Keeps_normalizeSimpleElement.
    apply Hv. reflexivity.
Qed.

Lemma Keeps_normalizeNested (children : loc -> Raising.Run unit)
  (validationSets : gset string) (propDesc : PropertyDescriptor Raising.SetMember)
  (originalValue : value) :
  (forall l, Keeps rt q (children l)) ->
  (q -> subjectRules (returnsAlways rt) (subject propDesc)) ->
  Keeps rt q (Raising.normalizeNested children validationSets propDesc originalValue).
Proof.
  intros Hc Hs st H. unfold Raising.normalizeNested.
  assert (He : forall collection keys,
            Keeps rt q
              (Raising.normalizeElements children
                 (String.eqb (scalarValueType propDesc) "object")
                 (getValidators (subject propDesc) true validationSets)
                 collection keys)).
  { intros collection keys. apply Keeps_normalizeElements; [exact Hc|].
    intros chain Hchain. exact (Keeps_chain_of _ _ _ _ Hs Hchain). }
  destruct (structure propDesc); destruct originalValue; try exact H.
  - destruct (String.eqb (scalarValueType propDesc) "object"); [|exact H].
    apply Hc. exact H.
  - destruct (isArray (heapOf st) (VObject l) && (0 <? lengthOf (heapOf st) l)%nat);
      [|exact H].
    apply He. exact H.
  - apply He. exact H.
Qed.

Lemma Keeps_validateProperty (validationSets : gset string)
  (propDesc : PropertyDescriptor Raising.SetMember) (containerObj : loc)
  (originalValue : value) :
  (q -> subjectRules (returnsAlways rt) (subject propDesc)) ->
  Keeps rt q (Raising.validateProperty validationSets propDesc containerObj
                originalValue).
Proof.
  intros Hs. unfold Raising.validateProperty. apply Keeps_bind.
  - destruct (getValidators (subject propDesc) false validationSets) as [chain|] eqn:Hc;
      [|apply Keeps_ret].
    apply Keeps_runChain. exact (Keeps_chain_of _ _ _ _ Hs Hc).
  - intros v. destruct (strictNeq v originalValue); [|apply Keeps_ret].
    apply Keeps_lift. intros st. apply recorded_assign.
Qed.

Lemma Keeps_normalizeChildrenWith
  (normalizeProperty :
     PropertyDescriptor Raising.SetMember -> option string -> value -> loc ->
     Raising.Run unit)
  (container : PropertiesContainer (PropertyDescriptor Raising.SetMember))
  (subtypeName : option string) (containerObj : loc) :
  (forall p, In p (properties container) ->
             forall sn subtype l, Keeps rt q (normalizeProperty p sn subtype l)) ->
  Keeps rt q (Raising.normalizeChildrenWith normalizeProperty container subtypeName
                containerObj).
Proof.
  intros Hp st H. unfold Raising.normalizeChildrenWith.
  destruct (isPolymorphObject container && invalidSubtype container _).
  - apply recorded_addErrorFor. exact H.
  - apply Keeps_foldRun; [|exact H]. intros p Hin. apply Hp. exact Hin.
Qed.

Lemma Raising_normalizeProperty_eq (validationSets : gset string)
  (propDesc : PropertyDescriptor Raising.SetMember)
  (subtypeName : option string) (subtype : value) (containerObj : loc) :
  Raising.normalizeProperty validationSets propDesc subtypeName subtype containerObj
  = if isView propDesc then Raising.ret tt
    else if isSubtype propDesc then
      if strictEq (VString (name propDesc)) subtype then
        Raising.bind
          (Raising.normalizeChildren validationSets (nestedProperties propDesc)
             (asString subtype) containerObj)
          (fun _ =>
             match getValidators (subject propDesc) false validationSets with
             | Some chain =>
                 Raising.runChainOn SubtypeChain chain (VObject containerObj)
             | None => Raising.ret tt
             end)
      else Raising.ret tt
    else
      fun st =>
        let originalValue := getProp (heapOf st) containerObj (name propDesc) in
        Raising.bind
          (Raising.lift (descendSt (childToken subtypeName (name propDesc))
                           (VObject containerObj)))
          (fun _ =>
             Raising.bind
               (Raising.normalizeNested
                  (Raising.normalizeChildren validationSets
                     (nestedProperties propDesc) None)
                  validationSets propDesc originalValue)
               (fun _ =>
                  Raising.bind
                    (Raising.validateProperty validationSets propDesc containerObj
                       originalValue)
                    (fun _ => Raising.lift ascendSt)))
          st.
Proof. destruct propDesc. reflexivity. Qed.

(** The step of the traversal on one property. *)
Lemma Keeps_normalizeProperty (validationSets : gset string)
  (propDesc : PropertyDescriptor Raising.SetMember) :
  (q -> everyRule (returnsAlways rt) propDesc) ->
  forall subtypeName subtype containerObj,
    Keeps rt q (Raising.normalizeProperty validationSets propDesc subtypeName subtype
                  containerObj).
Proof.
  induction propDesc as [p IH] using PropertyDescriptor_nested_ind.
  intros Hq subtypeName subtype containerObj.
  assert (Hchildren : forall sn l,
            Keeps rt q
              (Raising.normalizeChildren validationSets (nestedProperties p) sn l)).
  { intros sn l. apply Keeps_normalizeChildrenWith.
    intros p' Hin sn' subtype' l'. rewrite Forall_forall in IH.
    apply IH; [apply list_elem_of_In; exact Hin|].
    intros Q. pose proof (everyRule_nested _ _ (Hq Q)) as F.
    rewrite Forall_forall in F. apply F. apply list_elem_of_In. exact Hin. }
  assert (Hsubj : q -> subjectRules (returnsAlways rt) (subject p)).
  { intros Q. exact (everyRule_subject _ _ (Hq Q)). }
  rewrite Raising_normalizeProperty_eq.
  destruct (isView p); [apply Keeps_ret|].
  destruct (isSubtype p).
  - destruct (strictEq (VString (name p)) subtype); [|apply Keeps_ret].
    apply Keeps_bind; [apply Hchildren|]. intros _.
    destruct (getValidators (subject p) false validationSets) as [chain|] eqn:Hc;
      [|apply Keeps_ret].
    apply Keeps_runChainOn. exact (Keeps_chain_of _ _ _ _ Hsubj Hc).
  - intros st H. cbv zeta.
    apply Keeps_bind; [apply Keeps_descend | | exact H].
    intros _. apply Keeps_bind.
    + apply Keeps_normalizeNested; [intros l; apply Hchildren | exact Hsubj].
    + intros _. apply Keeps_bind; [|intros _; apply Keeps_ascend].
      apply Keeps_validateProperty. exact Hsubj.
Qed.

(** The two steps of [normalize]. *)
Lemma Keeps_traverse (recordTypeDesc : RecordTypeDescriptor Raising.SetMember)
  (sets : gset string) (recordObj : loc) :
  (q -> everyRuleOfType (returnsAlways rt) recordTypeDesc) ->
  Keeps rt q (Raising.traverse recordTypeDesc sets recordObj).
Proof.
  intros Hq. unfold Raising.traverse. apply Keeps_bind.
  - apply Keeps_normalizeChildrenWith. intros p Hin sn subtype l.
    apply Keeps_normalizeProperty. intros Q.
    pose proof (proj2 (Hq Q)) as F. rewrite Forall_forall in F. apply F.
    apply list_elem_of_In. exact Hin.
  - intros _. unfold Raising.normalizeWhole.
    destruct (getValidators (recordSubject recordTypeDesc) false sets) as [chain|] eqn:Hc;
      [|apply Keeps_ret].
    apply Keeps_runChainOn.
    apply (Keeps_chain_of (recordSubject recordTypeDesc) false sets chain);
      [|exact Hc].
    intros Q. exact (proj1 (Hq Q)).
Qed.

End RaisingRuns.

Section RaisingOutcome.

Import Trace RecordNormalizer.

(** The result of a state in which the errors object is in step with the
    trace: [null] when the trace has no error, and otherwise the messages of
    the trace under their pointers. *)
Lemma recorded_result (rt : RecordTypeDescriptor unit) (final : State) :
  recorded rt final ->
  (Context.getResult (ctxOf final) = None <-> errorKeys (traceOf final) = [])
  /\ (forall errs,
        Context.getResult (ctxOf final) = Some errs ->
        errs <> ∅
        /\ forall k, errs !! k = match messagesAt k (traceOf final) with
                                 | [] => None
                                 | ms => Some ms
                                 end).
Proof.
  intros [R _]. unfold Context.getResult. rewrite R.
  destruct (ValidationErrors.isEmpty
              (replayErrors (traceOf final) ValidationErrors.empty)) eqn:He.
  - apply isEmpty_true_iff in He. split.
    + split; [intros _; by apply replayErrors_empty_iff | reflexivity].
    + intros errs [=].
  - split.
    + split; [discriminate|]. intros Hk.
      apply replayErrors_empty_iff in Hk. apply isEmpty_true_iff in Hk. congruence.
    + intros errs [= <-]. split.
      * intros Hk. apply isEmpty_true_iff in Hk. congruence.
      * intros k. rewrite replayErrors_lookup.
        unfold ValidationErrors.empty. rewrite lookup_empty. simpl.
        destruct (messagesAt k (traceOf final)); reflexivity.
Qed.

Lemma recorded_initial
  (recordTypes : string -> option (RecordTypeDescriptor Raising.SetMember))
  (recordTypeDesc : RecordTypeDescriptor Raising.SetMember)
  (messageResolver : list string) (sets : gset string) (h : heap) :
  recorded (forgetRecordType recordTypeDesc)
    (mkState h (Raising.initialContext recordTypes recordTypeDesc messageResolver sets)
       []).
Proof. split; reflexivity. Qed.

End RaisingOutcome.

(* --------------------------------------------------------------------- *)
(** ** The runs in which every call returns *)
(* --------------------------------------------------------------------- *)

Section ReturningRuns.

Import Trace RecordNormalizer.

Variable rt : RecordTypeDescriptor unit.

Lemma Agrees_ext {A : Type} (m : Raising.Run A) (f g : State -> A * State) :
  (forall st, f st = g st) -> Agrees rt m f -> Agrees rt m g.
Proof. intros E H st Hst. rewrite <- E. apply H. exact Hst. Qed.

Lemma Agrees_ret {A : Type} (a : A) : Agrees rt (Raising.ret a) (fun st => (a, st)).
Proof. intros st Hst. split; [reflexivity | exact Hst]. Qed.

Lemma Agrees_lift (f : State -> State) :
  (forall st, _recordTypeDesc (ctxOf (f st)) = _recordTypeDesc (ctxOf st)) ->
  Agrees rt (Raising.lift f) (fun st => (tt, f st)).
Proof. intros Hf st Hst. split; [reflexivity | simpl; rewrite Hf; exact Hst]. Qed.

Lemma Agrees_bind {A B : Type} (m : Raising.Run A) (k : A -> Raising.Run B)
  (f : State -> A * State) (g : A -> State -> B * State) :
  Agrees rt m f ->
  (forall a, Agrees rt (k a) (g a)) ->
  Agrees rt (Raising.bind m k) (fun st => g (fst (f st)) (snd (f st))).
Proof.
  intros Hm Hk st Hst. unfold Raising.bind.
  destruct (Hm st Hst) as [-> Hrt]. apply Hk. exact Hrt.
Qed.

Lemma Agrees_foldRun {A : Type} (k : A -> Raising.Run unit) (g : A -> State -> State)
  (l : list A) :
  (forall a, In a l -> Agrees rt (k a) (fun st => (tt, g a st))) ->
  Agrees rt (Raising.foldRun k l) (fun st => (tt, fold_left (fun acc a => g a acc) l st)).
Proof.
  induction l as [|a l IH]; intros H; simpl.
  - apply Agrees_ret.
  - apply (Agrees_bind _ _ (fun st => (tt, g a st))
             (fun _ st => (tt, fold_left (fun acc a => g a acc) l st))).
    + apply H. left. reflexivity.
    + intros _. apply IH. intros b Hb. apply H. right. exact Hb.
Qed.

Lemma Agrees_assign (target : loc) (key : string) (v : value) :
  Agrees rt (Raising.lift (assignSt target key v))
    (fun st => (tt, assignSt target key v st)).
Proof. apply Agrees_lift. reflexivity. Qed.

Lemma Agrees_descend (token : string) (c : value) :
  Agrees rt (Raising.lift (descendSt token c)) (fun st => (tt, descendSt token c st)).
Proof. apply Agrees_lift. reflexivity. Qed.

Lemma Agrees_ascend : Agrees rt (Raising.lift ascendSt) (fun st => (tt, ascendSt st)).
Proof. apply Agrees_lift. reflexivity. Qed.

Lemma Agrees_runRule (r : Rule) :
  returnsIn rt (returning r) -> Agrees rt (Raising.runRule (returning r)) (runRule r).
Proof.
  induction r as [v | k IH | ptr message params k IH]; simpl; intros Hr st Hst.
  - split; [reflexivity | exact Hst].
  - apply IH; [apply Hr; exact Hst | exact Hst].
  - destruct Hr as [Hp Hk].
    assert (Hres : pointerResolves (ctxOf st) ptr = true).
    { destruct ptr; simpl; [rewrite Hst; exact Hp | reflexivity]. }
    rewrite Hres. apply IH; [exact Hk | exact Hst].
Qed.

Lemma Agrees_callValidator (kind : ChainKind) (f : curriedValidator) (v : value) :
  resolves rt f ->
  Agrees rt (Raising.callValidator kind (returningMember f) v)
    (callValidator kind f v).
Proof.
  intros Hf st Hst. unfold callValidator. simpl.
  apply (Agrees_runRule (f v) (Hf v)). exact Hst.
Qed.

Lemma Agrees_runChain (kind : ChainKind) (chain : list curriedValidator) :
  Forall (resolves rt) chain ->
  forall v,
    Agrees rt (Raising.runChain kind (map returningMember chain) v)
      (runChain kind chain v).
Proof.
  unfold runChain.
  induction chain as [|f chain IH]; intros H v.
  - apply Agrees_ret.
  - apply (Agrees_ext _
             (fun st =>
                (fun v' st' =>
                   fold_left
                     (fun acc validator =>
                        callValidator kind validator (fst acc) (snd acc))
                     chain (v', st'))
                  (fst (callValidator kind f v st))
                  (snd (callValidator kind f v st)))).
    { intros st. cbn [fold_left fst snd].
      destruct (callValidator kind f v st). reflexivity. }
    exact (Agrees_bind (Raising.callValidator kind (returningMember f) v)
             (fun v' => Raising.runChain kind (map returningMember chain) v')
             (callValidator kind f v)
             (fun v' st' =>
                fold_left
                  (fun acc validator =>
                     callValidator kind validator (fst acc) (snd acc))
                  chain (v', st'))
             (Agrees_callValidator kind f v (Forall_inv H))
             (fun v' => IH (Forall_inv_tail H) v')).
Qed.

Lemma Agrees_runChainOn (kind : ChainKind) (chain : list curriedValidator)
  (obj : value) :
  Forall (resolves rt) chain ->
  Agrees rt (Raising.runChainOn kind (map returningMember chain) obj)
    (fun st => (tt, runChainOn kind chain obj st)).
Proof.
  intros H. unfold runChainOn, Raising.runChainOn.
  assert (E : forall l : list curriedValidator,
            Raising.foldRun
              (fun validator =>
                 Raising.bind (Raising.callValidator kind validator obj)
                   (fun _ => Raising.ret tt))
              (map returningMember l)
            = Raising.foldRun
                (fun f =>
                   Raising.bind (Raising.callValidator kind (returningMember f) obj)
                     (fun _ => Raising.ret tt))
                l).
  { induction l as [|f l IH]; simpl; [reflexivity | rewrite IH; reflexivity]. }
  rewrite E.
  apply (Agrees_foldRun _ (fun f st => snd (callValidator kind f obj st))).
  intros f Hin.
  apply (Agrees_bind _ _ (callValidator kind f obj) (fun _ st => (tt, st))).
  - apply Agrees_callValidator. rewrite Forall_forall in H. apply H.
    apply list_elem_of_In. exact Hin.
  - intros _. apply Agrees_ret.
Qed.

Lemma getValidators_mapSubject {V W : Type} (f : V -> W) (s : WithValidators V)
  (element : bool) (sets : gset string) :
  getValidators (mapSubject f s) element sets
  = option_map (map f) (getValidators s element sets).
Proof.
  rewrite !getValidators_resolved. unfold mapSubject. simpl.
  destruct (validators s) as [declared|]; [|reflexivity].
  assert (E : ChainSpec.resolvedChain element
                (map (fun e => (fst e, map f (snd e))) declared) sets
              = map f (ChainSpec.resolvedChain element declared sets)).
  { unfold ChainSpec.resolvedChain.
    induction declared as [|[set vs] declared IH]; simpl; [reflexivity|].
    destruct (ChainSpec.takesPart element sets set); simpl; [|exact IH].
    rewrite IH, map_app. reflexivity. }
  rewrite E.
  destruct (ChainSpec.resolvedChain element declared sets); reflexivity.
Qed.

Lemma Agrees_validateElement (chain : list curriedValidator) (collection : loc)
  (key : string) (original : value) :
  Forall (resolves rt) chain ->
  Agrees rt
    (Raising.validateElement (map returningMember chain) collection key original)
    (fun st =>
       (tt, let '(v, st') := runChain ElementChain chain original st in
            if strictNeq v original then assignSt collection key v st' else st')).
Proof.
  intros H. unfold Raising.validateElement.
  apply (Agrees_ext _
           (fun st =>
              (fun v st' =>
                 (tt, if strictNeq v original then assignSt collection key v st'
                      else st'))
                (fst (runChain ElementChain chain original st))
                (snd (runChain ElementChain chain original st)))).
  { intros st. destruct (runChain ElementChain chain original st). reflexivity. }
  apply (Agrees_bind _ _ (runChain ElementChain chain original)
           (fun v st' =>
              (tt, if strictNeq v original then assignSt collection key v st'
                   else st'))).
  - apply Agrees_runChain. exact H.
  - intros v. destruct (strictNeq v original); [apply Agrees_assign | apply Agrees_ret].
Qed.

Lemma Agrees_normalizeObjectElement (childrenR : loc -> Raising.Run unit)
  (children : loc -> State -> State) (s : WithValidators curriedValidator)
  (sets : gset string) (collection : loc) (key : string) :
  (forall l, Agrees rt (childrenR l) (fun st => (tt, children l st))) ->
  subjectRules (resolves rt) s ->
  Agrees rt
    (Raising.normalizeObjectElement childrenR
       (getValidators (mapSubject returningMember s) true sets) collection key)
    (fun st =>
       (tt, normalizeObjectElement children (getValidators s true sets)
              collection key st)).
Proof.
  intros Hc Hs st Hst. unfold Raising.normalizeObjectElement, normalizeObjectElement.
  rewrite getValidators_mapSubject.
  set (original := getProp (heapOf st) collection key).
  refine (Agrees_bind _ _ (fun st => (tt, descendSt key (VObject collection) st))
            (fun _ st1 =>
               (tt, ascendSt
                      match getValidators s true sets with
                      | Some chain =>
                          let '(v, st') :=
                            runChain ElementChain chain original
                              match original with
                              | VObject l => children l st1
                              | _ => st1
                              end in
                          if strictNeq v original
                          then assignSt collection key v st' else st'
                      | None =>
                          match original with
                          | VObject l => children l st1
                          | _ => st1
                          end
                      end))
            (Agrees_descend key (VObject collection)) _ st Hst).
  intros _.
  refine (Agrees_bind _ _
            (fun st1 => (tt, match original with
                             | VObject l => children l st1
                             | _ => st1
                             end))
            (fun _ st2 =>
               (tt, ascendSt
                      match getValidators s true sets with
                      | Some chain =>
                          let '(v, st') := runChain ElementChain chain original st2 in
                          if strictNeq v original
                          then assignSt collection key v st' else st'
                      | None => st2
                      end)) _ _).
  - destruct original; try apply Agrees_ret. apply Hc.
  - intros _.
    refine (Agrees_bind _ _
              (fun st2 =>
                 (tt, match getValidators s true sets with
                      | Some chain =>
                          let '(v, st') := runChain ElementChain chain original st2 in
                          if strictNeq v original
                          then assignSt collection key v st' else st'
                      | None => st2
                      end))
              (fun _ st3 => (tt, ascendSt st3)) _ (fun _ => Agrees_ascend)).
    destruct (getValidators s true sets) as [chain|] eqn:Hchain; simpl.
    + apply Agrees_validateElement.
      exact (getValidators_Forall _ s true sets chain Hs Hchain).
    + apply Agrees_ret.
Qed.

Lemma Agrees_simpleElement_from (chain : list curriedValidator)
  (collection : loc) (key : string) (original : value) :
  Forall (resolves rt) chain ->
  Agrees rt
    (Raising.bind (Raising.lift (descendSt key (VObject collection)))
       (fun _ =>
          Raising.bind
            (Raising.validateElement (map returningMember chain) collection key
               original)
            (fun _ => Raising.lift ascendSt)))
    (fun st =>
       (tt, let '(elementValue, st2) :=
              runChain ElementChain chain original
                (descendSt key (VObject collection) st) in
            ascendSt (if strictNeq elementValue original
                      then assignSt collection key elementValue st2
                      else st2))).
Proof.
  intros H.
  pose (F0 := fun st : State => (tt, descendSt key (VObject collection) st)).
  pose (F1 := fun st1 : State =>
                (tt, let '(v, st') := runChain ElementChain chain original st1 in
                     if strictNeq v original
                     then assignSt collection key v st' else st')).
  pose (G1 := fun (_ : unit) (st3 : State) => (tt, ascendSt st3)).
  pose (G0 := fun (_ : unit) (st1 : State) => G1 (fst (F1 st1)) (snd (F1 st1))).
  apply (Agrees_ext _ (fun st0 => G0 (fst (F0 st0)) (snd (F0 st0)))).
  { intros st0. unfold G0, G1, F1, F0. cbn [fst snd].
    destruct (runChain ElementChain chain original
                (descendSt key (VObject collection) st0)).
    reflexivity. }
  refine (Agrees_bind _ _ F0 G0 (Agrees_descend _ _) _).
  intros u. refine (Agrees_bind _ _ F1 G1 _ (fun _ => Agrees_ascend)).
  apply Agrees_validateElement. exact H.
Qed.

Lemma Agrees_normalizeSimpleElement (chain : list curriedValidator)
  (collection : loc) (key : string) :
  Forall (resolves rt) chain ->
  Agrees rt
    (Raising.normalizeSimpleElement (map returningMember chain) collection key)
    (fun st => (tt, normalizeSimpleElement chain collection key st)).
Proof.
  intros H st Hst.
  exact (Agrees_simpleElement_from chain collection key
           (getProp (heapOf st) collection key) H st Hst).
Qed.

Lemma foldRun_map {A B : Type} (h : A -> B) (k : B -> Raising.Run unit) (l : list A) :
  Raising.foldRun k (map h l) = Raising.foldRun (fun a => k (h a)) l.
Proof. induction l as [|a l IH]; simpl; [reflexivity | rewrite IH; reflexivity]. Qed.

Lemma Agrees_normalizeElements (childrenR : loc -> Raising.Run unit)
  (children : loc -> State -> State) (s : WithValidators curriedValidator)
  (sets : gset string) (objectElements : bool) (collection : loc)
  (keys : list string) :
  (forall l, Agrees rt (childrenR l) (fun st => (tt, children l st))) ->
  subjectRules (resolves rt) s ->
  Agrees rt
    (Raising.normalizeElements childrenR objectElements
       (getValidators (mapSubject returningMember s) true sets) collection keys)
    (fun st =>
       (tt, normalizeElements children objectElements (getValidators s true sets)
              collection keys st)).
Proof.
  intros Hc Hs. unfold Raising.normalizeElements, normalizeElements.
  destruct objectElements.
  - apply (Agrees_foldRun _
             (fun key st =>
                normalizeObjectElement children (getValidators s true sets)
                  collection key st)).
    intros key _. apply Agrees_normalizeObjectElement; assumption.
  - rewrite getValidators_mapSubject.
    destruct (getValidators s true sets) as [chain|] eqn:Hchain; simpl.
    + apply (Agrees_foldRun _
               (fun key st => normalizeSimpleElement chain collection key st)).
      intros key _. apply Agrees_normalizeSimpleElement.
      exact (getValidators_Forall _ s true sets chain Hs Hchain).
    + apply Agrees_ret.
Qed.

Lemma Agrees_normalizeNested (childrenR : loc -> Raising.Run unit)
  (children : loc -> State -> State) (sets : gset string)
  (p : PropertyDescriptor curriedValidator) (originalValue : value) :
  (forall l, Agrees rt (childrenR l) (fun st => (tt, children l st))) ->
  subjectRules (resolves rt) (subject p) ->
  Agrees rt
    (Raising.normalizeNested childrenR sets (mapProperty returningMember p)
       originalValue)
    (fun st => (tt, normalizeNested children sets p originalValue st)).
Proof.
  intros Hc Hs st Hst. unfold Raising.normalizeNested, normalizeNested.
  destruct p as [n view sub str svt subj nested]. cbn [structure scalarValueType
    subject mapProperty] in *.
  assert (Hid : Raising.Done tt st = Raising.Done (fst (tt, st)) (snd (tt, st))
                /\ _recordTypeDesc (ctxOf (snd (tt, st))) = rt)
    by (split; [reflexivity | exact Hst]).
  destruct str; destruct originalValue; try exact Hid.
  - destruct (String.eqb svt "object"); [|exact Hid]. apply Hc. exact Hst.
  - destruct (isArray (heapOf st) (VObject l) && (0 <? lengthOf (heapOf st) l)%nat);
      [|exact Hid].
    apply (Agrees_normalizeElements childrenR children subj sets
             (String.eqb svt "object") l
             (map indexKey (seq 0 (lengthOf (heapOf st) l))) Hc Hs st Hst).
  - apply (Agrees_normalizeElements childrenR children subj sets
             (String.eqb svt "object") l (keysOf (heapOf st) l) Hc Hs st Hst).
Qed.

Lemma Agrees_validateProperty (sets : gset string)
  (p : PropertyDescriptor curriedValidator) (containerObj : loc)
  (originalValue : value) :
  subjectRules (resolves rt) (subject p) ->
  Agrees rt
    (Raising.validateProperty sets (mapProperty returningMember p) containerObj
       originalValue)
    (fun st => (tt, validateProperty sets p containerObj originalValue st)).
Proof.
  intros Hs. unfold Raising.validateProperty, validateProperty.
  destruct p as [n view sub str svt subj nested]. cbn [name subject mapProperty] in *.
  rewrite getValidators_mapSubject.
  pose (F := fun st : State =>
               match getValidators subj false sets with
               | Some chain => runChain PropertyChain chain originalValue st
               | None => (originalValue, st)
               end).
  pose (G := fun (v : value) (st' : State) =>
               (tt, if strictNeq v originalValue
                    then assignSt containerObj n v st' else st')).
  apply (Agrees_ext _ (fun st => G (fst (F st)) (snd (F st)))).
  { intros st. unfold G, F.
    destruct (getValidators subj false sets) as [chain|]; simpl.
    - destruct (runChain PropertyChain chain originalValue st). reflexivity.
    - reflexivity. }
  refine (Agrees_bind _ _ F G _ _).
  - unfold F. destruct (getValidators subj false sets) as [chain|] eqn:Hchain; simpl.
    + apply Agrees_runChain.
      exact (getValidators_Forall _ subj false sets chain Hs Hchain).
    + apply Agrees_ret.
  - intros v. unfold G.
    destruct (strictNeq v originalValue); [apply Agrees_assign | apply Agrees_ret].
Qed.

Lemma find_mapProperty {V W : Type} (f : V -> W) (l : list (PropertyDescriptor V))
  (n : string) :
  List.find (fun p => String.eqb (name p) n) (map (mapProperty f) l)
  = option_map (mapProperty f) (List.find (fun p => String.eqb (name p) n) l).
Proof.
  induction l as [|p l IH]; simpl; [reflexivity|].
  assert (E : name (mapProperty f p) = name p) by (destruct p; reflexivity).
  rewrite E. destruct (String.eqb (name p) n); [reflexivity | exact IH].
Qed.

Lemma invalidSubtype_mapContainer {V W : Type} (f : V -> W)
  (c : PropertiesContainer (PropertyDescriptor V)) (subtype : value) :
  invalidSubtype (mapContainer f c) subtype = invalidSubtype c subtype.
Proof.
  unfold invalidSubtype, hasProperty, getPropertyDesc, mapContainer.
  destruct subtype; try reflexivity. cbn [properties].
  rewrite find_mapProperty.
  destruct (List.find _ (properties c)); reflexivity.
Qed.

Lemma Agrees_normalizeChildrenWith
  (normalizePropertyR :
     PropertyDescriptor Raising.SetMember -> option string -> value -> loc ->
     Raising.Run unit)
  (normalizeProperty :
     PropertyDescriptor curriedValidator -> option string -> value -> loc ->
     State -> State)
  (container : PropertiesContainer (PropertyDescriptor curriedValidator))
  (subtypeName : option string) (containerObj : loc) :
  (forall p, In p (properties container) ->
             forall sn subtype l,
               Agrees rt
                 (normalizePropertyR (mapProperty returningMember p) sn subtype l)
                 (fun st => (tt, normalizeProperty p sn subtype l st))) ->
  Agrees rt
    (Raising.normalizeChildrenWith normalizePropertyR
       (mapContainer returningMember container) subtypeName containerObj)
    (fun st =>
       (tt, normalizeChildrenWith normalizeProperty container subtypeName
              containerObj st)).
Proof.
  intros Hp st Hst. unfold Raising.normalizeChildrenWith, normalizeChildrenWith.
  rewrite invalidSubtype_mapContainer.
  cbn [mapContainer isPolymorphObject typePropertyName properties].
  destruct (isPolymorphObject container && invalidSubtype container _).
  - split; [reflexivity | exact Hst].
  - rewrite foldRun_map.
    apply (Agrees_foldRun
             (fun p =>
                normalizePropertyR (mapProperty returningMember p) subtypeName
                  (if isPolymorphObject container
                   then getProp (heapOf st) containerObj (typePropertyName container)
                   else VUndefined) containerObj)
             (fun p st0 =>
                normalizeProperty p subtypeName
                  (if isPolymorphObject container
                   then getProp (heapOf st) containerObj (typePropertyName container)
                   else VUndefined) containerObj st0)
             (properties container)); [|exact Hst].
    intros p Hin. apply Hp. exact Hin.
Qed.

(** The step of the traversal on one property. *)
Lemma Agrees_normalizeProperty (sets : gset string)
  (p : PropertyDescriptor curriedValidator) :
  everyRule (resolves rt) p ->
  forall subtypeName subtype containerObj,
    Agrees rt
      (Raising.normalizeProperty sets (mapProperty returningMember p) subtypeName
         subtype containerObj)
      (fun st => (tt, normalizeProperty sets p subtypeName subtype containerObj st)).
Proof.
  induction p as [p IH] using PropertyDescriptor_nested_ind.
  intros Hall subtypeName subtype containerObj.
  pose proof (everyRule_subject _ _ Hall) as Hsubj.
  assert (Hchildren : forall sn l,
            Agrees rt
              (Raising.normalizeChildren sets
                 (mapContainer returningMember (nestedProperties p)) sn l)
              (fun st => (tt, normalizeChildren sets (nestedProperties p) sn l st))).
  { intros sn l. apply Agrees_normalizeChildrenWith.
    intros q Hq sn' subtype' l'. rewrite Forall_forall in IH.
    apply IH; [apply list_elem_of_In; exact Hq|].
    pose proof (everyRule_nested _ _ Hall) as F.
    rewrite Forall_forall in F. apply F. apply list_elem_of_In. exact Hq. }
  rewrite Raising_normalizeProperty_eq.
  assert (En : nestedProperties (mapProperty returningMember p)
               = mapContainer returningMember (nestedProperties p))
    by (destruct p; reflexivity).
  assert (Ev : isView (mapProperty returningMember p) = isView p)
    by (destruct p; reflexivity).
  assert (Es : isSubtype (mapProperty returningMember p) = isSubtype p)
    by (destruct p; reflexivity).
  assert (Em : name (mapProperty returningMember p) = name p)
    by (destruct p; reflexivity).
  assert (Esub : subject (mapProperty returningMember p)
                 = mapSubject returningMember (subject p))
    by (destruct p; reflexivity).
  rewrite Ev, Es, Em, En, Esub.
  destruct (isView p) eqn:Hv.
  { apply (Agrees_ext _ (fun st => (tt, st))); [|apply Agrees_ret].
    intros st. rewrite normalizeProperty_view by assumption. reflexivity. }
  destruct (isSubtype p) eqn:Hs.
  { apply (Agrees_ext _
             (fun st =>
                (tt, if strictEq (VString (name p)) subtype
                     then
                       match getValidators (subject p) false sets with
                       | Some chain =>
                           runChainOn SubtypeChain chain (VObject containerObj)
                             (normalizeChildren sets (nestedProperties p)
                                (asString subtype) containerObj st)
                       | None =>
                           normalizeChildren sets (nestedProperties p)
                             (asString subtype) containerObj st
                       end
                     else st))).
    { intros st. rewrite normalizeProperty_subtype by assumption. reflexivity. }
    destruct (strictEq (VString (name p)) subtype); [|apply Agrees_ret].
    rewrite getValidators_mapSubject.
    pose (F := fun st : State =>
                 (tt, normalizeChildren sets (nestedProperties p) (asString subtype)
                        containerObj st)).
    pose (G := fun (_ : unit) (st1 : State) =>
                 (tt, match getValidators (subject p) false sets with
                      | Some chain =>
                          runChainOn SubtypeChain chain (VObject containerObj) st1
                      | None => st1
                      end)).
    apply (Agrees_ext _ (fun st => G (fst (F st)) (snd (F st)))).
    { intros st. unfold G, F. cbn [fst snd].
      destruct (getValidators (subject p) false sets); reflexivity. }
    refine (Agrees_bind _ _ F G (Hchildren _ _) _).
    intros u. unfold G.
    destruct (getValidators (subject p) false sets) as [chain|] eqn:Hchain; simpl.
    - apply Agrees_runChainOn.
      exact (getValidators_Forall _ (subject p) false sets chain Hsubj Hchain).
    - apply Agrees_ret. }
  intros st Hst. rewrite normalizeProperty_regular by assumption.
  set (originalValue := getProp (heapOf st) containerObj (name p)).
  pose (F0 := fun st : State =>
                (tt, descendSt (childToken subtypeName (name p)) (VObject containerObj)
                       st)).
  pose (F1 := fun st1 : State =>
                (tt, normalizeNested (normalizeChildren sets (nestedProperties p) None)
                       sets p originalValue st1)).
  pose (F2 := fun st2 : State =>
                (tt, validateProperty sets p containerObj originalValue st2)).
  pose (G2 := fun (_ : unit) (st3 : State) => (tt, ascendSt st3)).
  pose (G1 := fun (_ : unit) (st2 : State) => G2 (fst (F2 st2)) (snd (F2 st2))).
  pose (G0 := fun (_ : unit) (st1 : State) => G1 (fst (F1 st1)) (snd (F1 st1))).
  refine (Agrees_bind _ _ F0 G0 (Agrees_descend _ _) _ st Hst).
  intros u. refine (Agrees_bind _ _ F1 G1 _ _).
  - apply Agrees_normalizeNested; [|exact Hsubj].
    intros l. apply Hchildren.
  - intros u'. refine (Agrees_bind _ _ F2 G2 _ (fun _ => Agrees_ascend)).
    apply Agrees_validateProperty. exact Hsubj.
Qed.

(** The two steps of [normalize] on a record type whose rule functions
    return: the traversal with calls that can raise returns, and leaves the
    record and the context as the traversal of [RecordNormalizer] does. *)
Lemma traverse_returning (recordTypeDesc : RecordTypeDescriptor curriedValidator)
  (sets : gset string) (recordObj : loc) (st : State) :
  everyRuleOfType (resolves rt) recordTypeDesc ->
  _recordTypeDesc (ctxOf st) = rt ->
  Raising.traverse (mapRecordType returningMember recordTypeDesc) sets recordObj st
  = Raising.Done tt
      (normalizeWhole recordTypeDesc sets (VObject recordObj)
         (normalizeChildren sets (recordProperties recordTypeDesc) None recordObj st)).
Proof.
  intros [Hsubj Hprops] Hst. unfold Raising.traverse.
  pose (F := fun st : State =>
               (tt, normalizeChildren sets (recordProperties recordTypeDesc) None
                      recordObj st)).
  pose (G := fun (_ : unit) (st1 : State) =>
               (tt, normalizeWhole recordTypeDesc sets (VObject recordObj) st1)).
  refine (proj1 (Agrees_bind _ _ F G _ _ st Hst)).
  - apply Agrees_normalizeChildrenWith. intros p Hin sn subtype l.
    apply Agrees_normalizeProperty. rewrite Forall_forall in Hprops.
    apply Hprops. apply list_elem_of_In. exact Hin.
  - intros u. unfold G, Raising.normalizeWhole, normalizeWhole.
    cbn [mapRecordType recordSubject]. rewrite getValidators_mapSubject.
    destruct (getValidators (recordSubject recordTypeDesc) false sets) as [chain|]
      eqn:Hchain; simpl.
    + apply Agrees_runChainOn.
      exact (getValidators_Forall _ _ false sets chain Hsubj Hchain).
    + apply Agrees_ret.
Qed.

End ReturningRuns.

Section RulesAtAProperty.

Import RecordNormalizer.

(** At a property, where there is a descriptor to ask, ['required'] returns,
    and does what the rule of [Standard] does. *)
Lemma required_at_a_property (v : value) (st : State) (pd : PropertyDescriptor unit) :
  Context.currentPropDesc (ctxOf st) = Some pd ->
  Raising.runRule (Raising.required v) st
  = Raising.Done (fst (runRule (Standard.required v) st))
      (snd (runRule (Standard.required v) st)).
Proof.
  intros Hp. simpl. rewrite Hp.
  destruct (Standard.isEmpty (heapOf st) (Context.currentPointer (ctxOf st)) pd v);
    reflexivity.
Qed.

Lemma empty_at_a_property (v : value) (st : State) (pd : PropertyDescriptor unit) :
  Context.currentPropDesc (ctxOf st) = Some pd ->
  Raising.runRule (Raising.empty v) st
  = Raising.Done (fst (runRule (Standard.empty v) st))
      (snd (runRule (Standard.empty v) st)).
Proof.
  intros Hp. simpl. rewrite Hp.
  destruct (Standard.isEmpty (heapOf st) (Context.currentPointer (ctxOf st)) pd v);
    reflexivity.
Qed.

(** On the record, ['required'] and ['empty'] raise on every value but
    [undefined] and [null]. *)
Lemma required_at_the_record (v : value) (st : State) :
  Context.currentPropDesc (ctxOf st) = None ->
  isNullish v = false ->
  Raising.runRule (Raising.required v) st = Raising.Raised (Raising.Thrown TypeError) st
  /\ Raising.runRule (Raising.empty v) st
     = Raising.Raised (Raising.Thrown TypeError) st.
Proof. intros Hp Hv. simpl. rewrite Hp, Hv. split; reflexivity. Qed.

End RulesAtAProperty.

(* ===================================================================== *)
(** * The claims *)
(* ===================================================================== *)

Section Claims.

Import Trace RecordNormalizer Examples.

(** C1, as amended.  A call of [normalize] whose record is [null] or not an
    object raises the usage fault "Record object was not provided." and
    gives no errors object; so does, with the fault of the record types
    library, a call that names a record type the library does not know.
    Whenever the call returns, it returns [null] exactly when no error was
    reported during the run, and otherwise the errors object, which is not
    empty and holds under each pointer the messages reported at it, in
    order.  On a record object and a known record type the engine catches
    nothing: what is raised during the traversal (by a rule function, by
    the call of a specification left in a validation set, by
    [ctx.addErrorFor] on a string that names no element) leaves the call,
    and nothing is returned; the call returns when the traversal comes to
    its end, and it does so whenever every member of the validation sets of
    the record type is a function whose calls return. *)
Theorem normalize_outcome
  (recordTypes : string -> option (RecordTypeDescriptor Raising.SetMember))
  (recordTypeName : string) (record : value) (lang validationSets : option string)
  (h : heap) :
  (recordMissing record = true ->
   Raising.normalize recordTypes recordTypeName record lang validationSets h
   = Raising.Throws (Raising.Thrown (X2UsageError "Record object was not provided.")))
  /\ (recordMissing record = false ->
      recordTypes recordTypeName = None ->
      Raising.normalize recordTypes recordTypeName record lang validationSets h
      = Raising.Throws (Raising.Thrown (X2UsageError "Unknown record type.")))
  /\ (forall result final,
        Raising.normalize recordTypes recordTypeName record lang validationSets h
        = Raising.Returns result final ->
        result = Context.getResult (ctxOf final)
        /\ (result = None <-> errorKeys (traceOf final) = [])
        /\ (forall errs,
              result = Some errs ->
              errs <> ∅
              /\ forall k, errs !! k = match messagesAt k (traceOf final) with
                                       | [] => None
                                       | ms => Some ms
                                       end))
  /\ (forall recordObj recordTypeDesc messageResolver,
        record = VObject recordObj ->
        recordTypes recordTypeName = Some recordTypeDesc ->
        MessageResolver.create (langOrDefault lang) = Some messageResolver ->
        let sets := activeSets validationSets in
        let start :=
          mkState h
            (Raising.initialContext recordTypes recordTypeDesc messageResolver sets)
            [] in
        (forall e left,
           Raising.traverse recordTypeDesc sets recordObj start = Raising.Raised e left ->
           Raising.normalize recordTypes recordTypeName record lang validationSets h
           = Raising.Throws e)
        /\ (forall final,
              Raising.traverse recordTypeDesc sets recordObj start
              = Raising.Done tt final ->
              Raising.normalize recordTypes recordTypeName record lang validationSets h
              = Raising.Returns (Context.getResult (ctxOf final)) final)
        /\ (everyRuleOfType (returnsAlways (forgetRecordType recordTypeDesc))
              recordTypeDesc ->
            exists final,
              Raising.traverse recordTypeDesc sets recordObj start
              = Raising.Done tt final
              /\ Raising.normalize recordTypes recordTypeName record lang
                   validationSets h
                 = Raising.Returns (Context.getResult (ctxOf final)) final)).
Proof.
  split; [|split; [|split]].
  - intros Hm. unfold Raising.normalize. rewrite Hm. reflexivity.
  - intros Hm Ht. destruct (recordMissing_false record Hm) as (recordObj & ->).
    unfold Raising.normalize. rewrite Hm, Ht. reflexivity.
  - intros result final. unfold Raising.normalize.
    destruct (recordMissing record); [discriminate|].
    destruct record as [| | | | |recordObj]; try discriminate.
    destruct (recordTypes recordTypeName) as [recordTypeDesc|]; [|discriminate].
    destruct (MessageResolver.create (langOrDefault lang)) as [messageResolver|];
      [|discriminate].
    cbv zeta.
    pose proof (Keeps_traverse (forgetRecordType recordTypeDesc) False recordTypeDesc
                  (activeSets validationSets) recordObj ltac:(intros [])
                  _ (recorded_initial recordTypes recordTypeDesc messageResolver
                       (activeSets validationSets) h)) as K.
    destruct (Raising.traverse recordTypeDesc (activeSets validationSets) recordObj _)
      as [[] st|e st]; [|discriminate].
    intros [= <- <-]. split; [reflexivity|].
    exact (recorded_result _ _ K).
  - intros recordObj recordTypeDesc messageResolver -> Ht Hl sets start.
    assert (Hn : Raising.normalize recordTypes recordTypeName (VObject recordObj) lang
                   validationSets h
                 = match Raising.traverse recordTypeDesc sets recordObj start with
                   | Raising.Done _ final =>
                       Raising.Returns (Context.getResult (ctxOf final)) final
                   | Raising.Raised e _ => Raising.Throws e
                   end).
    { unfold Raising.normalize. simpl. rewrite Ht, Hl. reflexivity. }
    split; [|split].
    + intros e left Hr. rewrite Hn, Hr. reflexivity.
    + intros final Hr. rewrite Hn, Hr. reflexivity.
    + intros Hall.
      pose proof (Keeps_traverse (forgetRecordType recordTypeDesc) True recordTypeDesc
                    sets recordObj (fun _ => Hall)
                    _ (recorded_initial recordTypes recordTypeDesc messageResolver
                         sets h)) as K.
      fold start in K. rewrite Hn.
      destruct (Raising.traverse recordTypeDesc sets recordObj start) as [[] st|e st].
      * exists st. split; reflexivity.
      * exfalso. exact (proj2 K I).
Qed.

Lemma normalize_outcome_witness :
  exists final,
    Raising.traverse RaisingExamples.tallyType (activeSets None) 1%positive
      (mkState RaisingExamples.tallyStore
         (Raising.initialContext RaisingExamples.library RaisingExamples.tallyType []
            (activeSets None)) [])
    = Raising.Done tt final
    /\ Raising.normalize RaisingExamples.library "Tally" (VObject 1) None None
         RaisingExamples.tallyStore
       = Raising.Returns (Context.getResult (ctxOf final)) final.
Proof.
  apply (proj2 (proj2 (proj2
           (normalize_outcome RaisingExamples.library "Tally" (VObject 1) None None
              RaisingExamples.tallyStore)))
           1%positive RaisingExamples.tallyType [] eq_refl eq_refl eq_refl).
  split.
  - repeat constructor. intros v. simpl. intros h0 ctx _.
    destruct (Context.hasErrorsFor ctx (PtrString "/scores/2")); simpl; auto.
  - cbn -[returnsAlways]. unfold subjectRules. cbn -[returnsAlways].
    repeat (constructor || split).
    intros v. destruct v; simpl; auto.
    match goal with |- context [(?x <? 0)%float] => destruct (x <? 0)%float end;
      simpl; auto.
Defined.

(** The errors of that call: the third score, and the record for it. *)
Example tally_errors :
  match Raising.normalize RaisingExamples.library "Tally" (VObject 1) None None
          RaisingExamples.tallyStore with
  | Raising.Returns (Some errs) _ => (errs !! "/scores/2", errs !! EmptyString)
  | _ => (None, None)
  end
  = (Some ["Too small."], Some ["Has an invalid part."]).
Proof. vm_compute. reflexivity. Qed.

(** ['required'] at a property: the record [{}] has no name. *)
Example required_on_a_property_reports :
  match Raising.normalize RaisingExamples.library "Person" (VObject 1) None None
          RaisingExamples.formStore with
  | Raising.Returns (Some errs) _ => errs !! "/name"
  | _ => None
  end
  = Some ["Missing value."].
Proof. vm_compute. reflexivity. Qed.

(** On the record, where there is no property descriptor, ['required']
    raises [TypeError]: [isEmpty] calls [propDesc.isArray()] on [null]. *)
Example required_on_a_record_raises :
  Raising.normalize RaisingExamples.library "Form" (VObject 1) None None
    RaisingExamples.formStore
  = Raising.Throws (Raising.Thrown TypeError).
Proof. reflexivity. Qed.

(** A set left with its specifications: the first of them is called, and
    the call raises [TypeError]. *)
Example specification_called_raises :
  Extension.createValidators (P := string) Defaults.standardValidators "property x"
    (Defaults.defaultValidators true ScalarProp "number" false "")
    (Extension.DefObject [("*", Some [Extension.SpecId "-number"]);
                          ("create", Some [Extension.SpecId "required"])])
    Extension.DefAbsent
  = inr (Some [("*", Extension.Raw [Extension.SpecId "number";
                                    Extension.SpecId "-number"]);
               ("element:*", Extension.Raw []);
               ("create", Extension.Resolved [("required", None)])])
  /\ Raising.normalize RaisingExamples.library "Measure" (VObject 1) None None
       RaisingExamples.measureStore
     = Raising.Throws (Raising.Thrown TypeError).
Proof. split; reflexivity. Qed.

(** ['rangeDef'] on a polymorphic object whose type value is the name of
    the type property: no error stands at the type, and the pointer of the
    low property names nothing. *)
Example rangeDef_on_stray_type_raises :
  Raising.normalize RaisingExamples.library "Roster" (VObject 1) None None
    RaisingExamples.strayShiftStore
  = Raising.Throws (Raising.NoSuchElement "/shift/type:timeFrom").
Proof. reflexivity. Qed.

(** C1, the claim as it stands fails: on a record object and a record type
    name the library does not know, no error is reported and the call does
    not return [null]; it raises. *)
Lemma normalize_unknown_type_raises :
  recordMissing (VObject 1) = false
  /\ normalize library "Nobody" (VObject 1) None None ownerStore
     = Throws (X2UsageError "Unknown record type.")
  /\ ~ exists result final,
         normalize library "Nobody" (VObject 1) None None ownerStore
         = Returns result final.
Proof.
  split; [reflexivity|]. split; [reflexivity|].
  intros (result & final & H). discriminate H.
Qed.



(** The record-level rule of the example sees the error of the third score:
    the errors, and the calls in order. *)
Example owner_record_rule_sees_field_error :
  match normalize library "Owner" (VObject 1) None None ownerStore with
  | Returns result final =>
      (option_map map_to_list result, callPointers ElementChain (traceOf final),
       callPointers PropertyChain (traceOf final),
       callPointers RecordChain (traceOf final))
  | Throws _ => (None, [], [], [])
  end
  = (Some [("/scores/2", ["Too small."]);
           ("/pet/Dog:name", ["Missing value."]);
           ("", ["Has an invalid part."])],
     ["/scores/0"; "/scores/1"; "/scores/2"],
     ["/scores"; "/pet/Dog:name"; "/pet"],
     [""]).
Proof. vm_compute. reflexivity. Qed.

(** C7.  The active sets [normalize] builds from the caller's list: the
    universal set ["*"] is always among them; a list of names of ASCII
    characters with commas between them makes active exactly those names,
    each without the white space around it, and ["*"]; with no list only
    ["*"] is active.  For a descriptor with declared rule sets, the
    whole-value chain [getValidators] resolves is the concatenation, in
    declaration order, of the rule lists of the sets whose name is active,
    and the element chain the concatenation of the lists of the sets with
    the prefix ["element:"] whose name without the prefix is active; either
    is [null] when it is empty or the descriptor has no rule sets.  On
    [null] the engine runs no chain: the record-level step leaves the run as
    it is; a selected subtype is only gone through; the step on the value of
    a property, of whatever structure, calls no rule function and at most
    assigns; the elements of a collection of simple values are not visited,
    and an element that is an object is only gone through. *)
Theorem resolved_chains (validationSets : option string) :
  let active := activeSets validationSets in
  "*" ∈ active
  /\ (forall name rest,
        validationSets = Some (joinCommas (name :: rest)) ->
        Forall (fun n => isAsciiText n = true) (name :: rest) ->
        Forall (fun n => existsChar isComma n = false) (name :: rest) ->
        joinCommas (name :: rest) <> EmptyString ->
        forall n, n ∈ active <-> In n (map trim (name :: rest)) \/ n = "*")
  /\ (validationSets = None \/ validationSets = Some EmptyString ->
      forall n, n ∈ active <-> n = "*")
  /\ (forall (V : Type) (subjDesc : WithValidators V) (element : bool),
        getValidators subjDesc element active
        = match validators subjDesc with
          | None => None
          | Some sets =>
              match ChainSpec.resolvedChain element sets active with
              | [] => None
              | chain => Some chain
              end
          end)
  /\ (forall recordTypeDesc record st,
        getValidators (recordSubject recordTypeDesc) false active = None ->
        normalizeWhole recordTypeDesc active record st = st)
  /\ (forall variant subtypeName containerObj st,
        isView variant = false ->
        isSubtype variant = true ->
        getValidators (subject variant) false active = None ->
        normalizeProperty active variant subtypeName (VString (name variant))
          containerObj st
        = normalizeChildren active (nestedProperties variant) (Some (name variant))
            containerObj st)
  /\ (forall propDesc containerObj originalValue st,
        getValidators (subject propDesc) false active = None ->
        validateProperty active propDesc containerObj originalValue st
        = if strictNeq originalValue originalValue
          then assignSt containerObj (name propDesc) originalValue st
          else st)
  /\ (forall propDesc subtypeName subtype containerObj st,
        isView propDesc = false ->
        isSubtype propDesc = false ->
        getValidators (subject propDesc) false active = None ->
        let here :=
          toString (Context.currentPointer (ctxOf st)) +:+ "/"
            +:+ childToken subtypeName (name propDesc) in
        exists ofNested ofOwn,
          traceOf (normalizeProperty active propDesc subtypeName subtype containerObj st)
          = traceOf st ++ ofNested ++ ofOwn
          /\ Extends
               (descendSt (childToken subtypeName (name propDesc)) (VObject containerObj)
                  st)
               ofNested
               (normalizeNested
                  (normalizeChildren active (nestedProperties propDesc) None)
                  active propDesc (getProp (heapOf st) containerObj (name propDesc))
                  (descendSt (childToken subtypeName (name propDesc))
                     (VObject containerObj) st))
          /\ forallb isAssign ofOwn = true)
  /\ (forall propDesc subtypeName subtype containerObj st,
        isView propDesc = false ->
        isSubtype propDesc = false ->
        String.eqb (scalarValueType propDesc) "object" = false ->
        getValidators (subject propDesc) false active = None ->
        getValidators (subject propDesc) true active = None ->
        List.filter isCall
          (traceOf (normalizeProperty active propDesc subtypeName subtype containerObj st))
        = List.filter isCall (traceOf st))
  /\ (forall children collection keys st,
        normalizeElements children false None collection keys st = st)
  /\ (forall children collection key st,
        normalizeObjectElement children None collection key st
        = ascendSt
            match getProp (heapOf st) collection key with
            | VObject l => children l (descendSt key (VObject collection) st)
            | _ => descendSt key (VObject collection) st
            end).
Proof.
  intros active.
  split; [apply star_active|].
  split; [|split; [|split; [|split; [|split; [|split; [|split; [|split; [|split]]]]]]]].
  - intros name rest -> _ Hcomma Hne n. unfold active.
    rewrite (activeSets_join name rest Hcomma Hne).
    rewrite elem_of_list_to_set, elem_of_app, !list_elem_of_In.
    split; (intros [Hn|Hn]; [left; exact Hn | right]).
    + destruct Hn as [E|[]]. symmetry. exact E.
    + left. symmetry. exact Hn.
  - intros Hnone n. unfold active.
    replace (activeSets validationSets) with (list_to_set ["*"] : gset string)
      by (destruct Hnone as [->| ->]; reflexivity).
    rewrite elem_of_list_to_set, list_elem_of_In. cbn [In]. split.
    + intros [E|[]]. symmetry. exact E.
    + intros ->. left. reflexivity.
  - intros V subjDesc element. apply getValidators_resolved.
  - intros recordTypeDesc record st H. unfold normalizeWhole. rewrite H. reflexivity.
  - intros variant subtypeName containerObj st Hv Hs Hnone.
    rewrite normalizeProperty_subtype by assumption.
    simpl. rewrite String.eqb_refl, Hnone. reflexivity.
  - intros propDesc containerObj originalValue st Hnone.
    unfold validateProperty. rewrite Hnone. reflexivity.
  - intros propDesc subtypeName subtype containerObj st Hv Hs Hnone here.
    destruct (regular_property_parts active propDesc subtypeName subtype containerObj st
                Hv Hs) as (ofNested & ofOwn' & EN & _).
    rewrite normalizeProperty_regular by assumption.
    unfold validateProperty. rewrite Hnone.
    pose proof EN as (T & _).
    destruct (strictNeq (getProp (heapOf st) containerObj (name propDesc))
                (getProp (heapOf st) containerObj (name propDesc))).
    + exists ofNested,
        [EvAssign containerObj (name propDesc)
           (getProp (heapOf st) containerObj (name propDesc))].
      split; [|split; [exact EN | reflexivity]].
      cbn [ascendSt withCtx assignSt logEvent traceOf]. rewrite T.
      cbn [descendSt withCtx traceOf]. rewrite <- app_assoc. reflexivity.
    + exists ofNested, []. split; [|split; [exact EN | reflexivity]].
      cbn [ascendSt withCtx traceOf]. rewrite T.
      cbn [descendSt withCtx traceOf]. rewrite app_nil_r. reflexivity.
  - intros propDesc subtypeName subtype containerObj st Hv Hs Hsvt Hnone Hel.
    rewrite normalizeProperty_regular by assumption.
    unfold validateProperty, normalizeNested. rewrite Hsvt, Hnone, Hel.
    set (orig := getProp (heapOf st) containerObj (name propDesc)).
    unfold normalizeElements.
    set (st1 := descendSt (childToken subtypeName (name propDesc)) (VObject containerObj)
                  st).
    assert (Hst2 : match structure propDesc with
                   | ScalarProp => match orig with VObject _ => st1 | _ => st1 end
                   | ArrayProp =>
                       match orig with
                       | VObject arr =>
                           if isArray (heapOf st1) orig
                              && (0 <? lengthOf (heapOf st1) arr)%nat
                           then st1 else st1
                       | _ => st1
                       end
                   | MapProp => match orig with VObject _ => st1 | _ => st1 end
                   end = st1).
    { destruct (structure propDesc); destruct orig; try reflexivity.
      destruct (isArray (heapOf st1) (VObject l) && (0 <? lengthOf (heapOf st1) l)%nat);
        reflexivity. }
    rewrite Hst2.
    destruct (strictNeq orig orig); simpl; [|reflexivity].
    rewrite List.filter_app. simpl. apply app_nil_r.
  - reflexivity.
  - reflexivity.
Qed.

Lemma resolved_chains_witness :
  let active := activeSets (Some "create, update") in
  "*" ∈ active
  /\ "create" ∈ active
  /\ "update" ∈ active
  /\ getValidators (subject scoresProp) true active = Some [notNegative]
  /\ normalizeWhole (mkRecordTypeDescriptor noProperties (titled "Empty" None))
       active (VObject 1) (mkState ownerStore (initialContext library ownerType [] active) [])
     = mkState ownerStore (initialContext library ownerType [] active) []
  /\ List.filter isCall
       (traceOf (normalizeProperty active typeProp None VUndefined 3%positive
                   (mkState ownerStore (initialContext library ownerType [] active) [])))
     = [].
Proof.
  intros active.
  destruct (resolved_chains (Some "create, update"))
    as (Hstar & Hnames & _ & Hres & Hwhole & _ & _ & _ & Hprop & _).
  assert (Hin : forall n, In n (map trim ["create"; " update"]) -> n ∈ active).
  { intros n Hn.
    apply (Hnames "create" [" update"] eq_refl); [repeat constructor .. | discriminate |].
    left. exact Hn. }
  split; [exact Hstar|].
  split; [apply Hin; left; reflexivity|].
  split; [apply Hin; right; left; reflexivity|].
  split; [|split].
  - rewrite Hres. reflexivity.
  - apply Hwhole. reflexivity.
  - apply Hprop; reflexivity.
Defined.

(** C10.  When no active set name begins with ["element:"], the whole-value
    chain is the one of the descriptor with its element sets left out: no
    rule comes into it from a set declared for elements.  But the prefix is
    only looked at for element chains: when the caller activates a name
    ["element:..."] that the descriptor declares, the rules declared under
    it stand in the whole-value chain, between the rules of the sets
    declared before it and after it. *)
Theorem element_sets_in_whole_value_chain
  (V : Type) (subjDesc : WithValidators V) (active : gset string) :
  ((forall n, n ∈ active -> startsWith "element:" n = false) ->
   getValidators subjDesc false active
   = getValidators (ChainSpec.withoutElementSets subjDesc) false active)
  /\ (forall before set rules after,
        validators subjDesc = Some (before ++ (set, rules) :: after) ->
        startsWith "element:" set = true ->
        set ∈ active ->
        getValidators subjDesc false active
        = match ChainSpec.resolvedChain false before active
                ++ rules ++ ChainSpec.resolvedChain false after active with
          | [] => None
          | chain => Some chain
          end).
Proof.
  split.
  - intros Hno. rewrite !getValidators_resolved.
    unfold ChainSpec.withoutElementSets. simpl.
    destruct (validators subjDesc) as [sets|]; [|reflexivity].
    rewrite filter_element_sets by exact Hno. reflexivity.
  - intros before set rules after Hsets Hpre Hin.
    rewrite getValidators_resolved, Hsets.
    replace (ChainSpec.resolvedChain false (before ++ (set, rules) :: after) active)
      with (ChainSpec.resolvedChain false before active
              ++ rules ++ ChainSpec.resolvedChain false after active); [reflexivity|].
    unfold ChainSpec.resolvedChain.
    rewrite List.filter_app, map_app, concat_app.
    cbn [List.filter fst].
    replace (ChainSpec.takesPart false active set) with true
      by (symmetry; apply bool_decide_eq_true_2; exact Hin).
    reflexivity.
Qed.

Lemma element_sets_in_whole_value_chain_witness :
  getValidators (subject scoresProp) false (activeSets None)
  = getValidators (ChainSpec.withoutElementSets (subject scoresProp)) false
      (activeSets None)
  /\ getValidators (subject scoresProp) false (activeSets (Some "element:*"))
     = Some [Standard.required; notNegative].
Proof.
  split.
  - apply (proj1 (element_sets_in_whole_value_chain _ (subject scoresProp)
                    (activeSets None))).
    intros n Hn. unfold activeSets in Hn. apply elem_of_list_to_set in Hn.
    apply list_elem_of_In in Hn. simpl in Hn.
    destruct Hn as [<-|[]]. reflexivity.
  - apply (proj2 (element_sets_in_whole_value_chain _ (subject scoresProp)
                    (activeSets (Some "element:*")))
                 [("*", [Standard.required])] "element:*" [notNegative] []).
    + reflexivity.
    + reflexivity.
    + unfold activeSets. apply elem_of_list_to_set. apply list_elem_of_In.
      simpl. left. reflexivity.
Defined.

(** C9, as amended.  The rule ['rangeDef'] on the properties [propLo] and
    [propHi] of an object, the record or the value of a property of nested
    objects, returns its value and reports nothing when the value is no
    object, when the object is polymorphic and the pointer of its type
    property has errors, when the pointer of either property has errors, or
    when either value is [undefined] or [null].  Otherwise, when
    the low value is greater than the high one: if the pointer of the low
    property names no element of the record type the rule raises, in
    [ctx.getElementTitle], and reports nothing (so it is when the value of
    the type property of a polymorphic object names no subtype); if that of
    the high property names none it raises, in [ctx.addErrorFor]; and when
    both name properties and the title of the low property is of ASCII
    characters, it reports exactly one error ['{invalidRangeDef}'], at the
    pointer of the high property, with the title of the low property as the
    parameter [rangeLoName]: the run gains that one error, the message is
    added under the pointer of the high property in the errors object, and
    the messages under every other pointer stay as they were.
    The pointer of a property is the current pointer, a slash and the
    property name, with the subtype and a colon before the name in a
    polymorphic object: the pointer at which the traversal of the object
    validates the property.  The title is the one of the descriptor the
    pointer of the low property leads to from the current pointer. *)
Theorem rangeDef_reports `{HostOps} (propLo propHi : string) (options : option string)
  (v : value) (st : State) :
  ((forall obj, v <> VObject obj) ->
   Raising.runRule (Raising.rangeDef propLo propHi options v) st = Raising.Done v st)
  /\ (forall obj,
        v = VObject obj ->
        holdsObjects (ctxOf st) ->
        let h := heapOf st in
        let ctx := ctxOf st in
        let curPtr := toString (Context.currentPointer ctx) in
        let propLoPtr := Standard.rangePointer h ctx obj propLo in
        let propHiPtr := Standard.rangePointer h ctx obj propHi in
        (rangeSkipped propLo propHi obj st = true ->
         Raising.runRule (Raising.rangeDef propLo propHi options v) st
         = Raising.Done v st)
        /\ (rangeSkipped propLo propHi obj st = false ->
            jsGt h (getProp h obj propLo) (getProp h obj propHi) = true ->
            (parses (Context.recordTypeDesc ctx) propLoPtr = false ->
             Raising.runRule (Raising.rangeDef propLo propHi options v) st
             = Raising.Raised (Raising.NoSuchElement propLoPtr) st)
            /\ (parses (Context.recordTypeDesc ctx) propLoPtr = true ->
                parses (Context.recordTypeDesc ctx) propHiPtr = false ->
                Raising.runRule (Raising.rangeDef propLo propHi options v) st
                = Raising.Raised (Raising.NoSuchElement propHiPtr) st))
        /\ (rangeSkipped propLo propHi obj st = false ->
            jsGt h (getProp h obj propLo) (getProp h obj propHi) = true ->
            parses (Context.recordTypeDesc ctx) propLoPtr = true ->
            parses (Context.recordTypeDesc ctx) propHiPtr = true ->
            let propLoTitle := Context.getElementTitle ctx (PtrString propLoPtr) in
            isAsciiText propLoTitle = true ->
            let params :=
              Some [("rangeLoName", propLoTitle);
                    ("rangeLoNameCaps", capitalize propLoTitle)] in
            let reported :=
              addErrorForSt (PtrString propHiPtr) "{invalidRangeDef}" params st in
            Raising.runRule (Raising.rangeDef propLo propHi options v) st
            = Raising.Done v reported
            /\ errorKeys (traceOf reported) = errorKeys (traceOf st) ++ [propHiPtr]
            /\ _result (ctxOf reported) !! propHiPtr
               = Some (default [] (_result (ctxOf st) !! propHiPtr)
                         ++ [Context.errorMessage ctx (PtrString propHiPtr)
                               "{invalidRangeDef}" params])
            /\ forall k,
                 k <> propHiPtr ->
                 _result (ctxOf reported) !! k = _result (ctxOf st) !! k)
        /\ (isPolymorphObject (Standard.rangeContainer ctx) = false ->
            propLoPtr = curPtr +:+ "/" +:+ propLo
            /\ propHiPtr = curPtr +:+ "/" +:+ propHi
            /\ forall prop,
                 Standard.rangePointer h ctx obj prop
                 = toString (Context.currentPointer
                               (ctxOf (descendSt (childToken None prop) v st))))
        /\ (forall subtype,
              isPolymorphObject (Standard.rangeContainer ctx) = true ->
              getProp h obj (typePropertyName (Standard.rangeContainer ctx))
              = VString subtype ->
              propLoPtr = curPtr +:+ "/" +:+ subtype +:+ ":" +:+ propLo
              /\ propHiPtr = curPtr +:+ "/" +:+ subtype +:+ ":" +:+ propHi
              /\ (subtype <> EmptyString ->
                  forall prop,
                    Standard.rangePointer h ctx obj prop
                    = toString (Context.currentPointer
                                  (ctxOf (descendSt (childToken (Some subtype) prop)
                                            v st)))))
        /\ (forall tokens token loDesc,
              Context.currentPointer ctx
              = fold_left createChildPointer tokens
                  (rootPointer (Context.recordTypeDesc ctx)) ->
              Forall (fun t => existsChar isSlash t = false) tokens ->
              existsChar isSlash token = false ->
              match Context.currentPropDesc ctx with
              | Some pd =>
                  isScalarProp pd || collectionElement (Context.currentPointer ctx)
                  = true
              | None => True
              end ->
              propLoPtr = curPtr +:+ "/" +:+ token ->
              childDesc (Standard.rangeContainer ctx) token = Some loDesc ->
              Context.getElementTitle ctx (PtrString propLoPtr)
              = MessageResolver.renderMessage (_messageResolver ctx)
                  (title (subject loDesc)) None)).
Proof.
  split.
  - intros Hno. destruct v; try reflexivity. exfalso. eapply Hno. reflexivity.
  - intros obj -> _ h ctx curPtr propLoPtr propHiPtr.
    assert (Hcmp : rangeSkipped propLo propHi obj st = false ->
                   jsGt h (getProp h obj propLo) (getProp h obj propHi) = true ->
                   Raising.runRule (Raising.rangeDef propLo propHi options (VObject obj))
                     st
                   = if parses (Context.recordTypeDesc ctx) propLoPtr
                     then
                       Raising.runRule
                         (Raising.AddErrorFor (PtrString propHiPtr) "{invalidRangeDef}"
                            (Some [("rangeLoName",
                                    Context.getElementTitle ctx (PtrString propLoPtr));
                                   ("rangeLoNameCaps",
                                    capitalize
                                      (Context.getElementTitle ctx
                                         (PtrString propLoPtr)))])
                            (Raising.Return (VObject obj))) st
                     else Raising.Raised (Raising.NoSuchElement propLoPtr) st).
    { unfold rangeSkipped. fold h ctx. intros Hskip Hgt.
      apply orb_false_elim in Hskip as [Hskip Hhi].
      apply orb_false_elim in Hskip as [Hskip Hlo].
      apply orb_false_elim in Hskip as [Hskip Hehi].
      apply orb_false_elim in Hskip as [Hty Helo].
      cbn [Raising.rangeDef Raising.runRule]. fold h ctx.
      rewrite Hty, Helo, Hehi, Hlo, Hhi. cbn [orb].
      assert (Hc : Standard.hasNonZero options
                   && jsGe h (getProp h obj propLo) (getProp h obj propHi)
                   || negb (Standard.hasNonZero options)
                      && jsGt h (getProp h obj propLo) (getProp h obj propHi) = true).
      { destruct (Standard.hasNonZero options); simpl;
          [rewrite (jsGt_jsGe _ _ _ Hgt) | rewrite Hgt]; reflexivity. }
      rewrite Hc. unfold pointerResolves at 1. fold propLoPtr.
      unfold Context.recordTypeDesc.
      destruct (parses (_recordTypeDesc ctx) propLoPtr); reflexivity. }
    split; [|split; [|split; [|split; [|split]]]].
    + unfold rangeSkipped. fold h ctx. intros Hskip.
      cbn [Raising.rangeDef Raising.runRule]. fold h ctx.
      destruct (isPolymorphObject (Standard.rangeContainer ctx)
                && Context.hasErrorsFor ctx
                     (PtrString (toString (Context.currentPointer ctx) +:+ "/"
                        +:+ typePropertyName (Standard.rangeContainer ctx))));
        [reflexivity|].
      simpl in Hskip.
      destruct (Context.hasErrorsFor ctx (PtrString (Standard.rangePointer h ctx obj propLo))
                || Context.hasErrorsFor ctx (PtrString (Standard.rangePointer h ctx obj propHi)));
        [reflexivity|].
      simpl in Hskip. rewrite Hskip. reflexivity.
    + intros Hskip Hgt. rewrite (Hcmp Hskip Hgt). split.
      * intros Hlo. rewrite Hlo. reflexivity.
      * intros Hlo Hhi. rewrite Hlo. cbn [Raising.runRule].
        unfold pointerResolves. fold ctx. unfold Context.recordTypeDesc in Hhi.
        rewrite Hhi. reflexivity.
    + intros Hskip Hgt Hlo Hhi propLoTitle _ params reported.
      split; [|split; [|split]].
      * rewrite (Hcmp Hskip Hgt), Hlo. cbn [Raising.runRule].
        unfold pointerResolves. fold ctx. unfold Context.recordTypeDesc in Hhi.
        rewrite Hhi. reflexivity.
      * simpl. unfold errorKeys. rewrite flat_map_app. reflexivity.
      * simpl. rewrite addError_lookup, String.eqb_refl. reflexivity.
      * intros k Hk. simpl. rewrite addError_lookup.
        destruct (String.eqb_spec propHiPtr k) as [E|_]; [congruence | reflexivity].
    + intros Hp. unfold propLoPtr, propHiPtr, Standard.rangePointer.
      rewrite Hp. split; [reflexivity|]. split; [reflexivity|].
      intros prop. rewrite toString_descend. reflexivity.
    + intros subtype Hp Hsub. unfold propLoPtr, propHiPtr, Standard.rangePointer.
      rewrite Hp, Hsub, jsString_VString. split; [reflexivity|]. split; [reflexivity|].
      intros Hne prop. rewrite toString_descend.
      destruct subtype; [congruence | reflexivity].
    + intros tokens token loDesc Hcur Hts Ht Hpos Hptr Hlo.
      pose proof (parse_child (Context.recordTypeDesc ctx) tokens token Hts Ht) as Hp.
      cbv zeta in Hp. rewrite <- Hcur in Hp. unfold Context.recordTypeDesc in Hp.
      unfold Context.getElementTitle, Context.subjectAt.
      rewrite Hptr. unfold curPtr. rewrite Hp.
      replace (propDesc (createChildPointer (Context.currentPointer ctx) token))
        with (Some loDesc); [reflexivity|].
      rewrite <- Hlo. unfold Standard.rangeContainer, createChildPointer.
      unfold Context.currentPropDesc, Context.currentPointer in *.
      destruct (propDesc (_curPointer ctx)) as [pd|] eqn:Hpd.
      * destruct (isScalarProp pd); destruct (collectionElement (_curPointer ctx));
          try discriminate Hpos; reflexivity.
      * cbn [propDesc]. rewrite Hcur, ptrRecordType_fold. reflexivity.
Qed.

Lemma rangeDef_reports_witness :
  let st :=
    normalizeChildren (activeSets None) (recordProperties calendarType) None 1%positive
      (mkState calendarStore
         (initialContext library calendarType [] (activeSets None)) []) in
  rangeSkipped (H := hostOps) "timeFrom" "timeTo" 1%positive st = false
  /\ jsGt (HostOps := hostOps) (heapOf st)
          (getProp (heapOf st) 1%positive "timeFrom")
          (getProp (heapOf st) 1%positive "timeTo") = true
  /\ Raising.runRule
       (Raising.rangeDef (H := hostOps) "timeFrom" "timeTo" None (VObject 1)) st
     = Raising.Done (VObject 1)
         (addErrorForSt (PtrString "/timeTo") "{invalidRangeDef}"
            (Some [("rangeLoName", "start time"); ("rangeLoNameCaps", "Start time")])
            st).
Proof.
  intros st.
  assert (Hskip : rangeSkipped (H := hostOps) "timeFrom" "timeTo" 1%positive st = false)
    by (vm_compute; reflexivity).
  assert (Hgt : jsGt (HostOps := hostOps) (heapOf st)
                     (getProp (heapOf st) 1%positive "timeFrom")
                     (getProp (heapOf st) 1%positive "timeTo") = true)
    by (vm_compute; reflexivity).
  split; [exact Hskip|]. split; [exact Hgt|].
  exact (proj1 (proj1 (proj2 (proj2 (proj2 (rangeDef_reports (H := hostOps)
           "timeFrom" "timeTo" None (VObject 1) st) 1%positive eq_refl I)))
           Hskip Hgt eq_refl eq_refl eq_refl)).
Defined.

(** C9, the claim as it stands fails: in the record
    [{shift: {type: 'Night', timeFrom: '10:00', timeTo: '09:00'}}] neither
    time's pointer has errors, neither value is absent and the low one is
    greater than the high one, and the rule on [shift] is called and reports
    nothing, because the pointer of the type property has errors. *)
Lemma rangeDef_silent_when_type_has_errors :
  match normalize library "Roster" (VObject 1) None None rosterStore with
  | Returns result final =>
      option_map map_to_list result
      = Some [("/shift/type", ["Missing or invalid type."])]
      /\ traceOf final
         = [EvError "/shift/type" "Missing or invalid type.";
            EvCall PropertyChain "/shift" (VObject 2)]
      /\ jsGt (HostOps := hostOps) (heapOf final)
              (getProp (heapOf final) 2%positive "timeFrom")
              (getProp (heapOf final) 2%positive "timeTo") = true
      /\ isNullish (getProp (heapOf final) 2%positive "timeFrom") = false
      /\ isNullish (getProp (heapOf final) 2%positive "timeTo") = false
      /\ Context.hasErrorsFor (ctxOf final) (PtrString "/shift/Night:timeFrom") = false
      /\ Context.hasErrorsFor (ctxOf final) (PtrString "/shift/Night:timeTo") = false
      /\ Context.hasErrorsFor (ctxOf final) (PtrString "/shift/timeFrom") = false
      /\ Context.hasErrorsFor (ctxOf final) (PtrString "/shift/timeTo") = false
  | Throws _ => False
  end.
Proof. vm_compute. repeat split. Qed.

(** Example 3 of the specification: the error is under [/timeTo] only. *)
Example calendar_entry_out_of_order :
  match normalize library "CalendarEntry" (VObject 1) None None calendarStore with
  | Returns result _ => option_map map_to_list result
  | Throws _ => None
  end
  = Some [("/timeTo", ["Must be greater than start time."])].
Proof. vm_compute. reflexivity. Qed.

(** C3, the code against the claim.  The constructor sorts the preferences
    by ascending weight and [_findMessageTemplate] goes through them from
    the start, so the language of the lowest weight is tried first: with the
    preference [en;q=0.8,es;q=0.4] the resolver holds [es] before [en], and
    of the templates [{en: 'Hello', es: 'Hola'}] it renders the Spanish one.
    Of any two preferences given with the heavier one first, the sort puts
    the lighter one first. *)
Theorem lowest_weight_tried_first :
  MessageResolver.create "en;q=0.8,es;q=0.4" = Some ["es"; "en"]
  /\ match MessageResolver.create "en;q=0.8,es;q=0.4" with
     | Some langs =>
         MessageResolver.renderMessage langs
           (TmplByLang ("en", "Hello") [("es", "Hola")]) None
     | None => EmptyString
     end = "Hola"
  /\ (forall l1 l2,
        (MessageResolver.qvalue l2 <? MessageResolver.qvalue l1)%float = true ->
        (MessageResolver.qvalue l1 <? MessageResolver.qvalue l2)%float = false ->
        MessageResolver.sortBy MessageResolver.compareQvalue [l1; l2] = [l2; l1]).
Proof.
  split; [vm_compute; reflexivity|]. split; [vm_compute; reflexivity|].
  intros l1 l2 H21 H12.
  unfold MessageResolver.sortBy, MessageResolver.compareQvalue. simpl.
  rewrite H12, H21. reflexivity.
Qed.

Lemma lowest_weight_tried_first_witness :
  MessageResolver.sortBy MessageResolver.compareQvalue
    [MessageResolver.mkLangPref "en" 0.75%float; MessageResolver.mkLangPref "es" 0.5%float]
  = [MessageResolver.mkLangPref "es" 0.5%float; MessageResolver.mkLangPref "en" 0.75%float].
Proof.
  apply (proj2 (proj2 lowest_weight_tried_first)); reflexivity.
Defined.

(** The tags are put in lower case and the keys of the templates are not:
    a preference [en-US] does not find the template under [en-US]. *)
Example upper_case_template_key_never_matches :
  match MessageResolver.create "es,en-US;q=0.5" with
  | Some langs =>
      (langs,
       MessageResolver.renderMessage langs
         (TmplByLang ("de", "Hallo") [("en-US", "Hello")]) None)
  | None => ([], EmptyString)
  end = (["en-us"; "es"], "Hallo").
Proof. vm_compute. reflexivity. Qed.

(** C5, as amended.  The context's own [isEmpty(val)] is true exactly for
    [undefined] and [null].  The test the rules ['required'] and ['empty']
    use is the function [isEmpty(ptr, propDesc, value)] of the standard
    rules: true for [undefined] and [null]; for an array under an array
    property whose pointer is no collection element, true exactly when its
    length is 0; for an object under a map property whose pointer is no
    collection element, true exactly when it has no keys; for a string
    under a string property that is scalar or whose pointer is a collection
    element, true exactly when it is the empty string; false for every
    number and boolean.  ['required'] reports ['{missing}'] at the current
    pointer exactly when that test holds there. *)
Theorem emptiness_tests :
  (forall v, Context.isEmpty v = true <-> v = VUndefined \/ v = VNull)
  /\ (forall h ptr propDesc,
        Standard.isEmpty h ptr propDesc VUndefined = true
        /\ Standard.isEmpty h ptr propDesc VNull = true)
  /\ (forall h ptr propDesc l,
        isArrayProp propDesc = true ->
        collectionElement ptr = false ->
        isArray h (VObject l) = true ->
        Standard.isEmpty h ptr propDesc (VObject l) = (lengthOf h l =? 0)%nat)
  /\ (forall h ptr propDesc l,
        isMapProp propDesc = true ->
        collectionElement ptr = false ->
        Standard.isEmpty h ptr propDesc (VObject l)
        = (length (keysOf h l) =? 0)%nat)
  /\ (forall h ptr propDesc s,
        isScalarProp propDesc || collectionElement ptr = true ->
        scalarValueType propDesc = "string" ->
        Standard.isEmpty h ptr propDesc (VString s) = (String.length s =? 0)%nat)
  /\ (forall h ptr propDesc x b,
        Standard.isEmpty h ptr propDesc (VNumber x) = false
        /\ Standard.isEmpty h ptr propDesc (VBool b) = false)
  /\ (forall v st propDesc,
        Context.currentPropDesc (ctxOf st) = Some propDesc ->
        runRule (Standard.required v) st
        = (v, if Standard.isEmpty (heapOf st) (Context.currentPointer (ctxOf st))
                   propDesc v
              then addErrorForSt (PtrObject (Context.currentPointer (ctxOf st)))
                     "{missing}" None st
              else st)).
Proof.
  split; [|split; [|split; [|split; [|split; [|split]]]]].
  - intros v. destruct v; simpl; split; try discriminate; try tauto;
      intros [H|H]; discriminate.
  - intros h ptr propDesc. split; reflexivity.
  - intros h ptr propDesc l Ha Hc Harr. unfold Standard.isEmpty.
    rewrite Ha, Hc, Harr. reflexivity.
  - intros h ptr propDesc l Hm Hc. unfold Standard.isEmpty.
    assert (Ha : isArrayProp propDesc = false).
    { unfold isArrayProp, isMapProp in *. destruct (structure propDesc); congruence. }
    rewrite Ha, Hm, Hc. reflexivity.
  - intros h ptr propDesc s Hs Hsvt. unfold Standard.isEmpty.
    rewrite Hs, Hsvt. simpl. rewrite !andb_false_r. reflexivity.
  - intros h ptr propDesc x b. unfold Standard.isEmpty. simpl.
    rewrite !andb_false_r. split; reflexivity.
  - intros v st propDesc Hp. simpl. rewrite Hp.
    destruct (Standard.isEmpty (heapOf st) (Context.currentPointer (ctxOf st)) propDesc v);
      reflexivity.
Qed.

Lemma emptiness_tests_witness :
  Standard.isEmpty ownerStore
    (createChildPointer (rootPointer (forgetRecordType ownerType)) "scores")
    (forgetProperty scoresProp) (VObject 2)
  = (lengthOf ownerStore 2%positive =? 0)%nat
  /\ Standard.isEmpty ownerStore
       (createChildPointer (rootPointer (forgetRecordType calendarType)) "timeTo")
       (forgetProperty timeToProp) (VString "")
     = true.
Proof.
  split.
  - apply (proj1 (proj2 (proj2 emptiness_tests))); reflexivity.
  - apply (proj1 (proj2 (proj2 (proj2 (proj2 emptiness_tests))))); reflexivity.
Defined.

(** C5, the claim as it stands fails on the context's method: for the empty
    string and for an empty array [isEmpty(val)] is false. *)
Lemma context_isEmpty_only_null_undefined :
  Context.isEmpty (VString "") = false
  /\ isArray (<[1%positive := arrayOf []]> ∅) (VObject 1) = true
  /\ lengthOf (<[1%positive := arrayOf []]> ∅) 1%positive = 0%nat
  /\ Context.isEmpty (VObject 1) = false.
Proof. repeat split. Qed.



(** C8, as amended.  After the chain of a property (or, with no chain,
    right away) the engine assigns the final value to the property of the
    container exactly when it differs from the value read, by [!==]: the
    step adds that one assignment to the trace, or none, and the store
    changes accordingly; the same holds for the element of a collection and
    its element chain, after the nested properties of the element have been
    gone through when the elements are objects (where, with no element
    chain, nothing is compared and nothing assigned to the slot).  In a call
    of [normalize] on a record type all of whose rule functions return their
    argument, the store is in the end what it was, and every assignment made
    puts back into a slot the value the slot holds, a value that differs
    from itself ([NaN]); when no value of the store differs from itself, no
    assignment is made at all. *)
Theorem write_back_on_change :
  (forall validationSets propDesc containerObj originalValue st,
      let result :=
        match getValidators (subject propDesc) false validationSets with
        | Some chain => runChain PropertyChain chain originalValue st
        | None => (originalValue, st)
        end in
      let after :=
        validateProperty validationSets propDesc containerObj originalValue st in
      List.filter isAssign (traceOf after)
      = List.filter isAssign (traceOf st)
        ++ (if strictNeq (fst result) originalValue
            then [EvAssign containerObj (name propDesc) (fst result)] else [])
      /\ heapOf after
         = if strictNeq (fst result) originalValue
           then setProp (heapOf st) containerObj (name propDesc) (fst result)
           else heapOf st)
  /\ (forall chain collection key st,
        let originalElementValue := getProp (heapOf st) collection key in
        let result :=
          runChain ElementChain chain originalElementValue
            (descendSt key (VObject collection) st) in
        let after := normalizeSimpleElement chain collection key st in
        List.filter isAssign (traceOf after)
        = List.filter isAssign (traceOf st)
          ++ (if strictNeq (fst result) originalElementValue
              then [EvAssign collection key (fst result)] else [])
        /\ heapOf after
           = if strictNeq (fst result) originalElementValue
             then setProp (heapOf st) collection key (fst result)
             else heapOf st)
  /\ (forall children elementValidators collection key st,
        let originalElementValue := getProp (heapOf st) collection key in
        let inside :=
          match originalElementValue with
          | VObject l => children l (descendSt key (VObject collection) st)
          | _ => descendSt key (VObject collection) st
          end in
        let after :=
          normalizeObjectElement children elementValidators collection key st in
        match elementValidators with
        | Some chain =>
            let result := runChain ElementChain chain originalElementValue inside in
            List.filter isAssign (traceOf after)
            = List.filter isAssign (traceOf inside)
              ++ (if strictNeq (fst result) originalElementValue
                  then [EvAssign collection key (fst result)] else [])
            /\ heapOf after
               = if strictNeq (fst result) originalElementValue
                 then setProp (heapOf inside) collection key (fst result)
                 else heapOf inside
        | None => traceOf after = traceOf inside /\ heapOf after = heapOf inside
        end)
  /\ (forall recordTypes recordTypeName recordObj lang validationSets h
             recordTypeDesc messageResolver,
        recordTypes recordTypeName = Some recordTypeDesc ->
        MessageResolver.create (langOrDefault lang) = Some messageResolver ->
        everyRuleOfType returnsArgument recordTypeDesc ->
        exists final,
          normalize recordTypes recordTypeName (VObject recordObj) lang validationSets h
          = Returns (Context.getResult (ctxOf final)) final
          /\ heapOf final = h
          /\ Forall (reassigns h) (traceOf final)
          /\ ((forall l k, strictEq (getProp h l k) (getProp h l k) = true) ->
              List.filter isAssign (traceOf final) = [])).
Proof.
  split; [|split; [|split]].
  - intros validationSets propDesc containerObj originalValue st result after.
    unfold after, result, validateProperty.
    destruct (getValidators (subject propDesc) false validationSets) as [chain|].
    + apply chain_assign_trace.
    + simpl. destruct (strictNeq originalValue originalValue); simpl.
      * rewrite List.filter_app. auto.
      * rewrite app_nil_r. auto.
  - intros chain collection key st originalElementValue result after.
    unfold after, result, normalizeSimpleElement. fold originalElementValue.
    destruct (chain_assign_trace ElementChain chain originalElementValue collection key
                (descendSt key (VObject collection) st)) as [HT HH].
    destruct (runChain ElementChain chain originalElementValue
                (descendSt key (VObject collection) st)) as [v st'].
    simpl in *. auto.
  - intros children elementValidators collection key st originalElementValue inside
           after.
    unfold after, normalizeObjectElement. fold originalElementValue. fold inside.
    destruct elementValidators as [chain|]; [|split; reflexivity].
    destruct (chain_assign_trace ElementChain chain originalElementValue collection key
                inside) as [HT HH].
    destruct (runChain ElementChain chain originalElementValue inside) as [v st'].
    simpl in *. auto.
  - intros recordTypes recordTypeName recordObj lang validationSets h
           recordTypeDesc messageResolver Ht Hl [Hrec Hprops].
    destruct (normalize_run recordTypes recordTypeName recordObj lang validationSets h
                recordTypeDesc messageResolver Ht Hl) as (Hn & _).
    eexists. split; [exact Hn|].
    set (init := mkState h (initialContext recordTypes recordTypeDesc messageResolver
                              (activeSets validationSets)) []).
    assert (Hq : Quiet (fun st =>
                   normalizeWhole recordTypeDesc (activeSets validationSets)
                     (VObject recordObj)
                     (normalizeChildren (activeSets validationSets)
                        (recordProperties recordTypeDesc) None recordObj st))).
    { apply Quiet_compose.
      - apply Quiet_normalizeChildren. exact Hprops.
      - unfold normalizeWhole.
        destruct (getValidators (recordSubject recordTypeDesc) false
                    (activeSets validationSets));
          [apply runChainOn_quiet | apply Quiet_id]. }
    destruct (Hq init) as (tr & E & F).
    pose proof (quiet_heap_at _ _ _ E F) as Hh.
    destruct E as (T & _ & _). simpl in T, F, Hh.
    split; [exact Hh|]. split; [rewrite T; exact F|].
    intros Hself. rewrite T.
    clear -F Hself. induction F as [|e tr He Ht IH]; [reflexivity|].
    destruct e as [| |l k v]; simpl; try exact IH.
    destruct He as [Hg Hn]. rewrite <- Hg, Hself in Hn. discriminate.
Qed.

Lemma write_back_on_change_witness :
  exists final,
    normalize library "Owner" (VObject 1) None None ownerStore
    = Returns (Context.getResult (ctxOf final)) final
    /\ heapOf final = ownerStore
    /\ Forall (reassigns ownerStore) (traceOf final)
    /\ ((forall l k, strictEq (getProp ownerStore l k) (getProp ownerStore l k) = true) ->
        List.filter isAssign (traceOf final) = []).
Proof.
  apply (proj2 (proj2 (proj2 write_back_on_change)) library "Owner" 1%positive None None
               ownerStore ownerType []); try reflexivity.
  assert (Hneg : returnsArgument notNegative).
  { intros v st. destruct v; try reflexivity. simpl.
    destruct (x <? 0)%float; reflexivity. }
  assert (Hwhen : returnsArgument (whenInvalid "/scores/2")).
  { intros v st. simpl.
    destruct (Context.hasErrorsFor (ctxOf st) (PtrString "/scores/2")); reflexivity. }
  pose proof required_returnsArgument as Hreq.
  unfold everyRuleOfType, subjectRules. simpl.
  repeat (split || constructor); simpl; repeat constructor; assumption.
Defined.

(** C8, the claim as it stands fails: the record [{x: NaN}] of a record type
    without any rule function is assigned to, for [NaN !== NaN]. *)
Lemma nan_is_assigned_back :
  everyRuleOfType returnsArgument plainType
  /\ match normalize plainLibrary "Plain" (VObject 1) None None nanStore with
     | Returns result final =>
         result = None
         /\ traceOf final = [EvAssign 1%positive "x" (VNumber nan)]
     | Throws _ => False
     end.
Proof.
  split.
  - unfold everyRuleOfType, subjectRules. simpl. repeat constructor.
  - vm_compute. split; reflexivity.
Qed.

(** C6, the code against the claim.  On a polymorphic object whose type
    value is no string or names no property of the container,
    [normalizeChildren] reports the one error ['{invalidType}'] at the
    current pointer extended with the name of the type property, and does
    nothing else.  But [hasProperty] answers for every property of the
    container, the type property and the shared ones as well as the
    subtypes.  In the record [{..., pet: {type: 'type'}}] the type value
    names the type property, which is no subtype: no ['{invalidType}'] error
    is reported at [/pet/type], and the traversal goes on into the
    container. *)
Theorem stray_type_value_not_reported :
  (forall validationSets container subtypeName containerObj st,
      isPolymorphObject container = true ->
      invalidSubtype container
        (getProp (heapOf st) containerObj (typePropertyName container)) = true ->
      normalizeChildren validationSets container subtypeName containerObj st
      = addErrorForSt
          (PtrString (toString (Context.currentPointer (ctxOf st))
                        +:+ "/" +:+ typePropertyName container))
          "{invalidType}" None st)
  /\ isPolymorphObject petContainer = true
  /\ getProp strayTypeStore 3%positive (typePropertyName petContainer) = VString "type"
  /\ existsb (fun p => isSubtype p && String.eqb (name p) "type")
             (properties petContainer) = false
  /\ invalidSubtype petContainer (VString "type") = false
  /\ match normalize library "Owner" (VObject 1) None None strayTypeStore with
     | Returns result final =>
         option_map map_to_list result
         = Some [("/scores/2", ["Too small."]); ("", ["Has an invalid part."])]
         /\ messagesAt "/pet/type" (traceOf final) = []
         /\ callPointers PropertyChain (traceOf final) = ["/scores"; "/pet"]
     | Throws _ => False
     end.
Proof.
  split.
  - intros validationSets container subtypeName containerObj st Hp Hi.
    apply normalizeChildren_invalid_type; assumption.
  - vm_compute. repeat split.
Qed.

Lemma stray_type_value_not_reported_witness :
  let atShift :=
    descendSt "shift" (VObject 1)
      (mkState rosterStore (initialContext library rosterType [] (activeSets None)) []) in
  normalizeChildren (activeSets None) (nestedProperties shiftProp) None 2%positive atShift
  = addErrorForSt (PtrString "/shift/type") "{invalidType}" None atShift.
Proof.
  intros atShift.
  apply (proj1 stray_type_value_not_reported (activeSets None)
               (nestedProperties shiftProp) None 2%positive atShift);
    reflexivity.
Defined.

End Claims.

(* ===================================================================== *)
(** * Further properties *)
(* ===================================================================== *)

Section EngineMore.

Import Trace RecordNormalizer Examples.

(** What a step that only adds to the run keeps: the position of the
    context and the messages already under each pointer. *)
Lemma Extends_keeps (st st' : State) (tr : list Event) :
  Extends st tr st' ->
  Context.currentPointer (ctxOf st') = Context.currentPointer (ctxOf st)
  /\ _pointerStack (ctxOf st') = _pointerStack (ctxOf st)
  /\ Context.containersChain (ctxOf st') = Context.containersChain (ctxOf st)
  /\ forall k ms,
       _result (ctxOf st) !! k = Some ms ->
       exists more, _result (ctxOf st') !! k = Some (ms ++ more).
Proof.
  intros (_ & C & _). rewrite C. simpl. repeat split.
  intros k ms Hk. rewrite replayErrors_lookup, Hk. simpl.
  destruct (messagesAt k tr) as [|m more].
  - exists []. rewrite app_nil_r. reflexivity.
  - exists (m :: more). reflexivity.
Qed.

(** X1.  The traversal of a container, and the call of a rule function,
    leave the context where it was: the current pointer, the stack of
    pointers and the chain of containers are those of the start.  Errors are
    only added: the messages a pointer had are the first of the messages it
    has afterwards, in the same order. *)
Theorem traversal_keeps_position_and_errors :
  (forall validationSets container subtypeName containerObj st,
      let after :=
        normalizeChildren validationSets container subtypeName containerObj st in
      Context.currentPointer (ctxOf after) = Context.currentPointer (ctxOf st)
      /\ _pointerStack (ctxOf after) = _pointerStack (ctxOf st)
      /\ Context.containersChain (ctxOf after) = Context.containersChain (ctxOf st)
      /\ forall k ms,
           _result (ctxOf st) !! k = Some ms ->
           exists more, _result (ctxOf after) !! k = Some (ms ++ more))
  /\ (forall kind chain v st,
        let after := snd (runChain kind chain v st) in
        Context.currentPointer (ctxOf after) = Context.currentPointer (ctxOf st)
        /\ _pointerStack (ctxOf after) = _pointerStack (ctxOf st)
        /\ Context.containersChain (ctxOf after) = Context.containersChain (ctxOf st)
        /\ forall k ms,
             _result (ctxOf st) !! k = Some ms ->
             exists more, _result (ctxOf after) !! k = Some (ms ++ more)).
Proof.
  split.
  - intros validationSets container subtypeName containerObj st after.
    destruct (Framed_normalizeChildren validationSets container subtypeName
                containerObj st) as (tr & E & _).
    exact (Extends_keeps _ _ _ E).
  - intros kind chain v st after.
    destruct (runChain_calls kind chain v st) as (tr & E & _).
    exact (Extends_keeps _ _ _ E).
Qed.


(** X2.  The element chain of a map property of simple values runs once
    for each key of the map, in the order of [Object.keys], each time at the
    current pointer extended with the property name and then with the key. *)
Theorem map_element_addresses
  (validationSets : gset string) (propDesc : PropertyDescriptor curriedValidator)
  (subtype : value) (containerObj : loc) (st : State) (obj : loc)
  (chain : list curriedValidator) :
  isView propDesc = false ->
  isSubtype propDesc = false ->
  structure propDesc = MapProp ->
  String.eqb (scalarValueType propDesc) "object" = false ->
  getProp (heapOf st) containerObj (name propDesc) = VObject obj ->
  getValidators (subject propDesc) true validationSets = Some chain ->
  callPointers ElementChain
    (traceOf (normalizeProperty validationSets propDesc None subtype containerObj st))
  = callPointers ElementChain (traceOf st)
    ++ flat_map
         (fun key =>
            repeat (toString (Context.currentPointer (ctxOf st)) +:+ "/"
                      +:+ name propDesc +:+ "/" +:+ key)
                   (length chain))
         (keysOf (heapOf st) obj).
Proof.
  intros Hv Hs Hstr Hsvt Hget Hchain.
  destruct (regular_property_parts validationSets propDesc None subtype containerObj st
              Hv Hs) as (ofNested & ofOwn & EN & _ & T & FO & _).
  rewrite T, !callPointers_app.
  rewrite (callPointers_other ElementChain PropertyChain _ ofOwn ltac:(discriminate) FO).
  rewrite app_nil_r. f_equal.
  unfold normalizeNested in EN. rewrite Hstr, Hget, Hsvt, Hchain in EN.
  simpl heapOf in EN. unfold normalizeElements in EN.
  destruct (simpleElements_calls chain obj (keysOf (heapOf st) obj)
              (descendSt (childToken None (name propDesc)) (VObject containerObj) st))
    as (tr & E & C).
  rewrite (Extends_trace_inj _ _ _ _ EN E), C.
  apply flat_map_ext. intros key. rewrite toString_descend. simpl.
  rewrite !string_app_assoc. reflexivity.
Qed.

End EngineMore.

Section EngineMore2.

Import Trace RecordNormalizer Examples MoreExamples.

Lemma map_element_addresses_witness :
  callPointers ElementChain
    (traceOf (normalizeProperty (activeSets None) limitsProp None VUndefined
                1%positive planStart))
  = ["/limits/cpu"; "/limits/ram"].
Proof.
  exact (map_element_addresses (activeSets None) limitsProp VUndefined 1%positive
           planStart 2%positive [notNegative]
           eq_refl eq_refl eq_refl eq_refl eq_refl eq_refl).
Defined.

(** X3.  When the value of a property is not what the traversal goes into
    (no array or an empty one for an array property, no object for a map or
    a nested object property), nothing is done below the property: no
    element is visited and no element rule is called.  The whole-value chain
    of the property runs all the same, once per rule, at the pointer of the
    property. *)
Theorem value_without_elements
  (validationSets : gset string) (propDesc : PropertyDescriptor curriedValidator)
  (subtypeName : option string) (subtype : value) (containerObj : loc) (st : State) :
  isView propDesc = false ->
  isSubtype propDesc = false ->
  hasNestedElements (heapOf st) propDesc
    (getProp (heapOf st) containerObj (name propDesc)) = false ->
  let here :=
    toString (Context.currentPointer (ctxOf st)) +:+ "/"
      +:+ childToken subtypeName (name propDesc) in
  exists ofOwn,
    traceOf (normalizeProperty validationSets propDesc subtypeName subtype containerObj st)
    = traceOf st ++ ofOwn
    /\ forallb (fun e => chainEvent PropertyChain here e || isAssign e) ofOwn = true
    /\ callPointers PropertyChain ofOwn
       = repeat here
           match getValidators (subject propDesc) false validationSets with
           | Some chain => length chain
           | None => 0%nat
           end.
Proof.
  intros Hv Hs Hn here.
  destruct (regular_property_parts validationSets propDesc subtypeName subtype
              containerObj st Hv Hs) as (ofNested & ofOwn & EN & _ & T & FO & C).
  assert (Hid : normalizeNested
                  (normalizeChildren validationSets (nestedProperties propDesc) None)
                  validationSets propDesc
                  (getProp (heapOf st) containerObj (name propDesc))
                  (descendSt (childToken subtypeName (name propDesc))
                     (VObject containerObj) st)
                = descendSt (childToken subtypeName (name propDesc))
                    (VObject containerObj) st).
  { unfold normalizeNested, hasNestedElements in *. simpl heapOf.
    destruct (structure propDesc);
      destruct (getProp (heapOf st) containerObj (name propDesc));
      try reflexivity; try discriminate; rewrite Hn; reflexivity. }
  rewrite Hid in EN.
  rewrite (Extends_trace_inj _ _ _ _ EN (Extends_refl _)) in T.
  exists ofOwn. auto.
Qed.

Lemma value_without_elements_witness :
  exists ofOwn,
    traceOf (normalizeProperty (activeSets None) scoresProp None VUndefined
               1%positive planStart)
    = traceOf planStart ++ ofOwn
    /\ forallb (fun e => chainEvent PropertyChain "/scores" e || isAssign e) ofOwn = true
    /\ callPointers PropertyChain ofOwn = ["/scores"].
Proof.
  exact (value_without_elements (activeSets None) scoresProp None VUndefined
           1%positive planStart eq_refl eq_refl eq_refl).
Defined.

(** X4.  The loop over the properties of a container leaves out the views
    and, in a polymorphic object, the subtypes other than the one the type
    value names: when the type check passes, the traversal of the container
    is the traversal of the properties that remain, in order. *)
Theorem views_and_other_subtypes_skipped
  (validationSets : gset string)
  (container : PropertiesContainer (PropertyDescriptor curriedValidator))
  (subtypeName : option string) (containerObj : loc) (st : State) :
  let subtype :=
    if isPolymorphObject container
    then getProp (heapOf st) containerObj (typePropertyName container)
    else VUndefined in
  isPolymorphObject container && invalidSubtype container subtype = false ->
  normalizeChildren validationSets container subtypeName containerObj st
  = fold_left
      (fun acc propDesc =>
         normalizeProperty validationSets propDesc subtypeName subtype containerObj acc)
      (List.filter (isVisited subtype) (properties container)) st.
Proof.
  intros subtype Hok.
  unfold normalizeChildren, normalizeChildrenWith. fold subtype. rewrite Hok.
  generalize st. induction (properties container) as [|p ps IH]; intros st0.
  - reflexivity.
  - cbn [List.filter fold_left].
    destruct (isVisited subtype p) eqn:Hvis; cbn [fold_left]; [apply IH|].
    rewrite <- IH. f_equal.
    unfold isVisited in Hvis.
    destruct (isView p) eqn:Hv; [apply normalizeProperty_view; exact Hv|].
    destruct (isSubtype p) eqn:Hs; [|discriminate].
    rewrite (normalizeProperty_subtype _ _ _ _ _ _ Hv Hs).
    cbn [negb andb orb] in Hvis. rewrite Hvis. reflexivity.
Qed.

Lemma views_and_other_subtypes_skipped_witness :
  let atPet :=
    descendSt "pet" (VObject 1)
      (mkState ownerStore (initialContext library ownerType [] (activeSets None)) []) in
  normalizeChildren (activeSets None) petContainer None 3%positive atPet
  = fold_left
      (fun acc propDesc =>
         normalizeProperty (activeSets None) propDesc None (VString "Dog") 3%positive acc)
      [typeProp; dogProp] atPet.
Proof.
  intros atPet.
  exact (views_and_other_subtypes_skipped (activeSets None) petContainer None
           3%positive atPet eq_refl).
Defined.

End EngineMore2.

Section ErrorsObject.

Import Trace.

Lemma addErrors_replay (adds : list (string * string)) (errs : ValidationErrors.t) :
  addErrors adds errs = replayErrors (map (fun a => EvError (fst a) (snd a)) adds) errs.
Proof.
  unfold addErrors, replayErrors. revert errs.
  induction adds as [|a adds IH]; intros errs; simpl; [reflexivity|]. apply IH.
Qed.

Lemma addedAt_messagesAt (k : string) (adds : list (string * string)) :
  messagesAt k (map (fun a => EvError (fst a) (snd a)) adds) = addedAt k adds.
Proof.
  unfold messagesAt, addedAt.
  induction adds as [|a adds IH]; simpl; [reflexivity|].
  rewrite IH. destruct (String.eqb (fst a) k); reflexivity.
Qed.

Lemma errorKeys_adds (adds : list (string * string)) :
  errorKeys (map (fun a => EvError (fst a) (snd a)) adds) = map fst adds.
Proof.
  unfold errorKeys. induction adds as [|a adds IH]; simpl; [reflexivity|].
  rewrite IH. reflexivity.
Qed.

(** X5.  An errors object filled by calls of [addError] with JSON pointers
    as keys holds under each key the messages added under it, in the order
    they were added, and holds no key without a message.  [hasErrors] is
    true exactly for the keys something was added under, and [isEmpty] is
    true exactly when nothing was added. *)
Theorem errors_object_holds_what_was_added (adds : list (string * string)) :
  Forall (fun a => isPointerKey (fst a) = true) adds ->
  let errs := addErrors adds ValidationErrors.empty in
  (forall k, errs !! k = match addedAt k adds with
                         | [] => None
                         | ms => Some ms
                         end)
  /\ (forall k, ValidationErrors.hasErrors errs k = true <-> In k (map fst adds))
  /\ (ValidationErrors.isEmpty errs = true <-> adds = []).
Proof.
  intros _ errs. unfold errs. rewrite addErrors_replay. split; [|split].
  - intros k. rewrite replayErrors_lookup, addedAt_messagesAt.
    unfold ValidationErrors.empty. rewrite lookup_empty.
    destruct (addedAt k adds); reflexivity.
  - intros k. rewrite hasErrors_replay, errorKeys_adds. reflexivity.
  - rewrite isEmpty_true_iff, replayErrors_empty_iff, errorKeys_adds.
    destruct adds; simpl; split; congruence.
Qed.

Lemma errors_object_holds_what_was_added_witness :
  let errs :=
    addErrors [("/a", "first"); ("", "whole"); ("/a", "second")]
      ValidationErrors.empty in
  (forall k, errs !! k
             = match addedAt k [("/a", "first"); ("", "whole"); ("/a", "second")] with
               | [] => None
               | ms => Some ms
               end)
  /\ (forall k, ValidationErrors.hasErrors errs k = true
                <-> In k (map fst [("/a", "first"); ("", "whole"); ("/a", "second")]))
  /\ (ValidationErrors.isEmpty errs = true
      <-> [("/a", "first"); ("", "whole"); ("/a", "second")] = []).
Proof.
  apply (errors_object_holds_what_was_added
           [("/a", "first"); ("", "whole"); ("/a", "second")]).
  repeat constructor.
Defined.

End ErrorsObject.

Section LanguagePreferences.

Import MessageResolver.

Lemma parseLangs_total (ls : list string) :
  Forall (fun l => existsChar isLineTerminator l = false) ls ->
  exists prefs, parseLangs ls = Some prefs.
Proof.
  induction 1 as [|l ls Hl _ (prefs & IH)]; simpl.
  - exists []. reflexivity.
  - unfold parseLang. rewrite Hl, IH.
    destruct (splitAtFirst ";q=" l) as [[tag q]|]; eexists; reflexivity.
Qed.

Lemma In_insertSorted {A : Type} (cmp : A -> A -> Z) (x y : A) (l : list A) :
  In x (insertSorted cmp y l) <-> x = y \/ In x l.
Proof.
  induction l as [|z l IH]; simpl.
  - intuition congruence.
  - destruct (cmp y z <=? 0)%Z; simpl; [intuition congruence|].
    rewrite IH. intuition congruence.
Qed.

Lemma In_sortBy {A : Type} (cmp : A -> A -> Z) (x : A) (l : list A) :
  In x (sortBy cmp l) <-> In x l.
Proof.
  unfold sortBy. induction l as [|y l IH]; simpl; [reflexivity|].
  rewrite In_insertSorted, IH. intuition congruence.
Qed.

Lemma lowerChar_twice (c : ascii) : lowerChar (lowerChar c) = lowerChar c.
Proof. destruct c as [[] [] [] [] [] [] [] []]; reflexivity. Qed.

Lemma lowerChar_star (c : ascii) : lowerChar c = "*"%char -> c = "*"%char.
Proof. destruct c as [[] [] [] [] [] [] [] []]; vm_compute; congruence. Qed.

Lemma toLowerCase_twice (s : string) : toLowerCase (toLowerCase s) = toLowerCase s.
Proof.
  unfold toLowerCase. induction s as [|c s IH]; simpl; [reflexivity|].
  rewrite lowerChar_twice, IH. reflexivity.
Qed.

Lemma toLowerCase_star (s : string) : toLowerCase s = "*" -> s = "*".
Proof.
  destruct s as [|c [|d s]]; simpl; try discriminate.
  intros [= H]. apply lowerChar_star in H. rewrite H. reflexivity.
Qed.

(** X6.  On a language preference of ASCII characters that holds no line
    terminator the constructor of the message resolver raises nothing.
    Among the tags it keeps of a preference of ASCII characters, none is the
    wildcard ["*"], and each is in lower case. *)
Theorem language_preference_tags :
  (forall langSpec,
      isAsciiText langSpec = true ->
      existsChar isLineTerminator langSpec = false ->
      exists langs, create langSpec = Some langs)
  /\ (forall langSpec langs,
        isAsciiText langSpec = true ->
        create langSpec = Some langs ->
        Forall (fun l => l <> "*" /\ toLowerCase l = l) langs).
Proof.
  split.
  - intros langSpec _ H. unfold create.
    destruct (parseLangs_total (splitComma (trim langSpec))) as (prefs & ->).
    + apply existsChar_splitComma, existsChar_trim, H.
    + eexists. reflexivity.
  - intros langSpec langs _. unfold create.
    destruct (parseLangs (splitComma (trim langSpec))) as [prefs|]; [|discriminate].
    intros [= <-]. apply Forall_forall. intros l Hl.
    apply list_elem_of_In, in_map_iff in Hl as (p & <- & Hp).
    apply In_sortBy, filter_In in Hp as [_ Hk].
    unfold keepLang in Hk. apply andb_prop in Hk as [Hs _].
    split; [|apply toLowerCase_twice].
    intros E. apply toLowerCase_star in E. rewrite E in Hs. discriminate.
Qed.

Lemma language_preference_tags_witness :
  (exists langs, create "fr-CA, *;q=0.5, EN" = Some langs)
  /\ Forall (fun l => l <> "*" /\ toLowerCase l = l) ["fr-ca"; "en"].
Proof.
  split.
  - apply (proj1 language_preference_tags "fr-CA, *;q=0.5, EN"); reflexivity.
  - apply (proj2 language_preference_tags "fr-CA, *;q=0.5, EN"); reflexivity.
Defined.

End LanguagePreferences.

Section Placeholders.

Import MessageResolver.

Variable params : MessageParams.

Lemma length_string_app (a b : string) :
  String.length (a +:+ b) = (String.length a + String.length b)%nat.
Proof.
  induction a as [|c a IH]; [reflexivity|].
  change (String c a +:+ b) with (String c (a +:+ b)). simpl. rewrite IH. reflexivity.
Qed.

Lemma substring_all (s : string) : String.substring 0 (String.length s) s = s.
Proof. induction s as [|c s IH]; simpl; [reflexivity|]. rewrite IH. reflexivity. Qed.

Lemma substringFrom_2 (s : string) :
  String.prefix "${" s = true ->
  s = String "$" (String "{" (substringFrom 2 s)).
Proof.
  intros H. apply String.prefix_correct in H.
  destruct s as [|c [|d t]]; try discriminate.
  cbn in H. injection H as -> ->.
  unfold substringFrom. cbn [String.length Nat.sub String.substring].
  rewrite Nat.sub_0_r, substring_all. reflexivity.
Qed.

Lemma placeholderName_length (t nm rest : string) :
  placeholderName t = Some (nm, rest) ->
  String.length t = (String.length nm + 1 + String.length rest)%nat.
Proof.
  revert nm. induction t as [|c t IH]; simpl; intros nm; [discriminate|].
  destruct (Ascii.eqb c "}").
  - intros [= <- <-]. reflexivity.
  - destruct (placeholderName t) as [[n r]|]; [|discriminate].
    intros [= <- <-]. simpl. rewrite (IH n eq_refl). reflexivity.
Qed.

Lemma placeholderName_none (t : string) :
  existsChar isClosingBrace t = false -> placeholderName t = None.
Proof.
  induction t as [|c t IH]; simpl; [reflexivity|].
  unfold isClosingBrace at 1. intros H. apply orb_false_elim in H as [Hc Ht].
  rewrite Hc, (IH Ht). reflexivity.
Qed.

Lemma placeholderName_found (nm rest : string) :
  existsChar isClosingBrace nm = false ->
  placeholderName (nm +:+ String "}" rest) = Some (nm, rest).
Proof.
  induction nm as [|c nm IH]; intros H.
  - reflexivity.
  - simpl in H. unfold isClosingBrace at 1 in H.
    apply orb_false_elim in H as [Hc Hn].
    change (String c nm +:+ String "}" rest) with (String c (nm +:+ String "}" rest)).
    simpl. rewrite Hc, (IH Hn). reflexivity.
Qed.

(** The fuel [_replaceParams] starts with is enough: more changes nothing. *)
Lemma replaceParamsFuel_enough (n m : nat) (s : string) :
  (String.length s <= n)%nat -> (String.length s <= m)%nat ->
  replaceParamsFuel n params s = replaceParamsFuel m params s.
Proof.
  revert m s. induction n as [|n IH]; intros m s Hn Hm.
  - destruct s; [|simpl in Hn; lia]. destruct m; reflexivity.
  - destruct m as [|m]; [destruct s; [reflexivity | simpl in Hm; lia]|].
    destruct s as [|c r]; [reflexivity|].
    cbn [replaceParamsFuel]. simpl String.length in Hn, Hm.
    destruct (String.prefix "${" (String c r)) eqn:Hp.
    + destruct (placeholderName (substringFrom 2 (String c r))) as [[nm rest]|] eqn:Hph.
      * destruct nm as [|n0 ns].
        -- f_equal. apply IH; lia.
        -- f_equal. apply placeholderName_length in Hph.
           apply substringFrom_2 in Hp.
           apply (f_equal String.length) in Hp. simpl in Hp, Hph.
           apply IH; lia.
      * f_equal. apply IH; lia.
    + f_equal. apply IH; lia.
Qed.

Lemma replaceParams_step (s : string) (n : nat) :
  (String.length s <= n)%nat ->
  replaceParamsFuel n params s = _replaceParams s params.
Proof.
  intros H. unfold _replaceParams. apply replaceParamsFuel_enough; [exact H | lia].
Qed.

Lemma replaceParams_char (c : ascii) (r : string) :
  String.prefix "${" (String c r) = false ->
  _replaceParams (String c r) params = String c (_replaceParams r params).
Proof.
  intros H. unfold _replaceParams at 1. cbn [String.length replaceParamsFuel].
  rewrite H. reflexivity.
Qed.

Lemma prefix_not_dollar (c : ascii) (r : string) :
  isDollar c = false -> String.prefix "${" (String c r) = false.
Proof.
  unfold isDollar. intros H.
  destruct (String.prefix "${" (String c r)) eqn:E; [|reflexivity].
  apply substringFrom_2 in E. injection E as -> _. discriminate.
Qed.

Lemma replaceParamsFuel_placeholder (n : nat) (n0 : ascii) (ns rest : string) :
  existsChar isClosingBrace (String n0 ns) = false ->
  replaceParamsFuel (S n) params
    (String "$" (String "{" (String n0 ns +:+ String "}" rest)))
  = paramString params (String n0 ns) +:+ replaceParamsFuel n params rest.
Proof.
  intros Hn. cbn [replaceParamsFuel].
  replace (String.prefix "${" (String "$" (String "{" (String n0 ns +:+ String "}" rest))))
    with true by reflexivity.
  replace (substringFrom 2 (String "$" (String "{" (String n0 ns +:+ String "}" rest))))
    with (String n0 ns +:+ String "}" rest).
  2:{ unfold substringFrom. cbn [String.length Nat.sub String.substring].
      rewrite Nat.sub_0_r, substring_all. reflexivity. }
  rewrite placeholderName_found by exact Hn. reflexivity.
Qed.

Lemma replaceParams_no_dollar (messageTmpl : string) :
  existsChar isDollar messageTmpl = false ->
  _replaceParams messageTmpl params = messageTmpl.
Proof.
  induction messageTmpl as [|c r IH]; intros H; [reflexivity|].
  simpl in H. apply orb_false_elim in H as [Hc Hr].
  rewrite replaceParams_char by (apply prefix_not_dollar; exact Hc).
  rewrite (IH Hr). reflexivity.
Qed.

Lemma replaceParams_placeholder (n0 : ascii) (ns rest : string) :
  existsChar isClosingBrace (String n0 ns) = false ->
  _replaceParams ("${" +:+ String n0 ns +:+ String "}" rest) params
  = paramString params (String n0 ns) +:+ _replaceParams rest params.
Proof.
  intros Hn.
  change ("${" +:+ String n0 ns +:+ String "}" rest)
    with (String "$" (String "{" (String n0 ns +:+ String "}" rest))).
  unfold _replaceParams at 1.
  change (String.length (String "$" (String "{" (String n0 ns +:+ String "}" rest))))
    with (S (String.length (String "{" (String n0 ns +:+ String "}" rest)))).
  set (k := String.length (String "{" (String n0 ns +:+ String "}" rest))).
  rewrite replaceParamsFuel_placeholder by exact Hn.
  f_equal. apply replaceParams_step. unfold k.
  change (String n0 ns +:+ String "}" rest) with (String n0 (ns +:+ String "}" rest)).
  simpl. rewrite length_string_app. simpl. lia.
Qed.

(** X7.  [_replaceParams] leaves a template that holds no dollar sign as it
    is, and likewise a template that holds no closing brace.  Where the
    template starts with a placeholder, a dollar sign and a name of at least
    one character in braces, and the name is none of those every object
    inherits, the result is the parameter of that name (or [undefined] when
    there is none) followed by what [_replaceParams] makes of the rest of
    the template: the text put in is not looked at again.  A character that
    starts no placeholder is copied. *)
Theorem replaceParams_equations :
  (forall messageTmpl,
      existsChar isDollar messageTmpl = false ->
      _replaceParams messageTmpl params = messageTmpl)
  /\ (forall messageTmpl,
        existsChar isClosingBrace messageTmpl = false ->
        _replaceParams messageTmpl params = messageTmpl)
  /\ (forall n0 ns rest,
        existsChar isClosingBrace (String n0 ns) = false ->
        isInheritedName (String n0 ns) = false ->
        _replaceParams ("${" +:+ String n0 ns +:+ String "}" rest) params
        = paramString params (String n0 ns) +:+ _replaceParams rest params)
  /\ (forall c rest,
        String.prefix "${" (String c rest) = false ->
        _replaceParams (String c rest) params = String c (_replaceParams rest params)).
Proof.
  split; [|split; [|split]].
  - apply replaceParams_no_dollar.
  - induction messageTmpl as [|c r IH]; intros H; [reflexivity|].
    pose proof H as H'. simpl in H'. apply orb_false_elim in H' as [Hc Hr].
    destruct (String.prefix "${" (String c r)) eqn:Hp.
    + unfold _replaceParams. cbn [String.length replaceParamsFuel]. rewrite Hp.
      rewrite placeholderName_none.
      * f_equal. rewrite replaceParams_step by lia. apply IH, Hr.
      * pose proof (substringFrom_2 _ Hp) as Hs.
        remember (substringFrom 2 (String c r)) as t eqn:Ht. clear Ht.
        injection Hs as -> ->. simpl in Hr. exact Hr.
    + rewrite replaceParams_char by exact Hp. rewrite (IH Hr). reflexivity.
  - intros n0 ns rest Hn _. apply replaceParams_placeholder, Hn.
  - intros c rest. apply replaceParams_char.
Qed.

End Placeholders.

Lemma replaceParams_equations_witness :
  MessageResolver._replaceParams "Invalid." [("field", "name")] = "Invalid."
  /\ MessageResolver._replaceParams "Not closed ${field" [("field", "name")]
     = "Not closed ${field"
  /\ MessageResolver._replaceParams ("${" +:+ "field" +:+ String "}" " is ${x}.")
       [("field", "${x}"); ("x", "0")]
     = MessageResolver.paramString [("field", "${x}"); ("x", "0")] "field"
         +:+ MessageResolver._replaceParams " is ${x}." [("field", "${x}"); ("x", "0")]
  /\ MessageResolver._replaceParams "$5" [("field", "name")]
     = String "$" (MessageResolver._replaceParams "5" [("field", "name")]).
Proof.
  split; [|split; [|split]].
  - apply (proj1 (replaceParams_equations [("field", "name")])). reflexivity.
  - apply (proj1 (proj2 (replaceParams_equations [("field", "name")]))). reflexivity.
  - apply (proj1 (proj2 (proj2 (replaceParams_equations [("field", "${x}"); ("x", "0")])))
                 "f"%char "ield" " is ${x}."); reflexivity.
  - apply (proj2 (proj2 (proj2 (replaceParams_equations [("field", "name")])))
                 "$"%char "5").
    reflexivity.
Defined.

Section MessageLookup.

Import MessageResolver.

Lemma substring_app_left (a b : string) :
  String.substring 0 (String.length a) (a +:+ b) = a.
Proof.
  induction a as [|c a IH]; simpl.
  - destruct b; reflexivity.
  - change (String c a +:+ b) with (String c (a +:+ b)). rewrite IH. reflexivity.
Qed.

Lemma substring_skip (a b : string) (m : nat) :
  String.substring (String.length a) m (a +:+ b) = String.substring 0 m b.
Proof.
  induction a as [|c a IH]; [reflexivity|].
  change (String c a +:+ b) with (String c (a +:+ b)). simpl. exact IH.
Qed.

Lemma middle_of_braces (id : string) :
  String.substring 1 (String.length ("{" +:+ id +:+ "}") - 2) ("{" +:+ id +:+ "}") = id.
Proof.
  change ("{" +:+ id +:+ "}") with (String "{" (id +:+ "}")).
  cbn [String.length String.substring].
  rewrite length_string_app. simpl String.length.
  replace (S (String.length id + 1) - 2)%nat with (String.length id) by lia.
  apply substring_app_left.
Qed.

Lemma isMessageId_braces (id : string) :
  id <> EmptyString ->
  existsChar isLineTerminator id = false ->
  isMessageId ("{" +:+ id +:+ "}") = true.
Proof.
  intros Hne Hlt.
  change ("{" +:+ id +:+ "}") with (String "{" (id +:+ "}")).
  unfold isMessageId. rewrite length_string_app. simpl String.length.
  replace (String.length id + 1 - 1)%nat with (String.length id) by lia.
  rewrite substring_app_left, Hlt.
  unfold substringFrom. rewrite length_string_app, substring_skip. simpl String.length.
  replace (String.length id + 1 - String.length id)%nat with 1%nat by lia.
  destruct id as [|c id]; [congruence|].
  cbn [String.length]. replace (2 <=? S (String.length id) + 1)%nat with true; [reflexivity|].
  symmetry. apply Nat.leb_le. lia.
Qed.

(** X8.  [getMessage] takes a message written as an identifier in braces,
    an identifier of at least one ASCII character that holds no line
    terminator and is none of the names every object inherits, for the
    message of that identifier in the store (or the store's ['*']), and a
    message that does not start with an opening brace for the template
    itself. *)
Theorem getMessage_by_identifier
  (langs : list string) (store : MessagesStore) (params : option MessageParams) :
  (forall id,
      id <> EmptyString ->
      isAsciiText id = true ->
      existsChar isLineTerminator id = false ->
      isInheritedName id = false ->
      getMessage langs store ("{" +:+ id +:+ "}") params
      = renderMessage langs (lookupMessage store id) params)
  /\ (forall message,
        startsWith "{" message = false ->
        getMessage langs store message params
        = renderMessage langs (TmplString message) params).
Proof.
  split.
  - intros id Hne _ Hlt _. unfold getMessage.
    rewrite (isMessageId_braces id Hne Hlt), middle_of_braces. reflexivity.
  - intros message H. unfold getMessage.
    replace (isMessageId message) with false; [reflexivity|].
    destruct message as [|c r]; [reflexivity|].
    unfold startsWith in H.
    destruct (Ascii.eqb_spec c "{") as [->|Hc].
    + destruct r; vm_compute in H; discriminate H.
    + unfold isMessageId.
      destruct c as [[] [] [] [] [] [] [] []]; try reflexivity. congruence.
Qed.

Lemma getMessage_by_identifier_witness :
  getMessage ["en-us"] Examples.standardMessages "{tooSmall}" None
  = renderMessage ["en-us"]
      (lookupMessage Examples.standardMessages "tooSmall") None
  /\ getMessage ["en-us"] Examples.standardMessages "Too small by {n}." None
     = renderMessage ["en-us"] (TmplString "Too small by {n}.") None.
Proof.
  split.
  - apply (proj1 (getMessage_by_identifier ["en-us"] Examples.standardMessages None)
                 "tooSmall"); [discriminate | reflexivity ..].
  - apply (proj2 (getMessage_by_identifier ["en-us"] Examples.standardMessages None)).
    reflexivity.
Defined.

Lemma findByLangs_none (langs : list string) (tmpls : list (string * string)) :
  Forall (fun l => match assoc l tmpls with
                   | Some t => isEmptyString t = true
                   | None => True
                   end) langs ->
  findByLangs langs tmpls = None.
Proof.
  induction 1 as [|l langs Hl _ IH]; simpl; [reflexivity|].
  destruct (assoc l tmpls) as [t|]; [rewrite Hl|]; exact IH.
Qed.

Lemma assoc_In {A : Type} (k : string) (x : A) (l : list (string * A)) :
  assoc k l = Some x -> In x (map snd l).
Proof.
  induction l as [|[k' y] l IH]; simpl; [discriminate|].
  destruct (String.eqb k' k); [intros [= ->]; left; reflexivity | right; auto].
Qed.

Lemma findByLangs_In (langs : list string) (tmpls : list (string * string)) (t : string) :
  findByLangs langs tmpls = Some t -> In t (map snd tmpls).
Proof.
  induction langs as [|l langs IH]; simpl; [discriminate|].
  destruct (assoc l tmpls) as [u|] eqn:Hu; [|exact IH].
  destruct (isEmptyString u); [exact IH|].
  intros [= <-]. eapply assoc_In. exact Hu.
Qed.

(** X9.  Of an object of templates by language, and with a list of
    languages none of which is a name every object inherits,
    [_findMessageTemplate] gives the template of the first language of the
    list that has a template other than the empty string; when no language
    of the list has one, and no language of the object is written in digits
    only, it gives the first declared template of the object.  What it gives
    is always one of the templates of the object. *)
Theorem findMessageTemplate_choice
  (first : string * string) (others : list (string * string)) :
  (forall before l after t,
      Forall (fun l' => isInheritedName l' = false) (before ++ [l]) ->
      Forall (fun l' => match assoc l' (first :: others) with
                        | Some t' => isEmptyString t' = true
                        | None => True
                        end) before ->
      assoc l (first :: others) = Some t ->
      isEmptyString t = false ->
      _findMessageTemplate (before ++ l :: after) first others = t)
  /\ (forall langs,
        Forall (fun l => isInheritedName l = false) langs ->
        Forall (fun k => isDigitsKey k = false) (map fst (first :: others)) ->
        Forall (fun l => match assoc l (first :: others) with
                         | Some t => isEmptyString t = true
                         | None => True
                         end) langs ->
        _findMessageTemplate langs first others = snd first)
  /\ (forall langs,
        Forall (fun l => isInheritedName l = false) langs ->
        In (_findMessageTemplate langs first others) (map snd (first :: others))).
Proof.
  split; [|split].
  - intros before l after t _ Hb Hl Ht. unfold _findMessageTemplate.
    replace (findByLangs (before ++ l :: after) (first :: others)) with (Some t);
      [reflexivity|].
    induction Hb as [|l' before Hl' _ IH].
    + cbn [app findByLangs]. rewrite Hl, Ht. reflexivity.
    + cbn [app findByLangs].
      destruct (assoc l' (first :: others)) as [t'|]; [rewrite Hl'|]; exact IH.
  - intros langs _ _ H. unfold _findMessageTemplate.
    rewrite (findByLangs_none _ _ H). reflexivity.
  - intros langs _. unfold _findMessageTemplate.
    destruct (findByLangs langs (first :: others)) as [t|] eqn:E.
    + eapply findByLangs_In. exact E.
    + left. reflexivity.
Qed.

Lemma findMessageTemplate_choice_witness :
  _findMessageTemplate (["de"; "fr"] ++ "es" :: ["en"]) ("en", "Hello")
    [("fr", ""); ("es", "Hola")] = "Hola"
  /\ _findMessageTemplate ["de"; "fr"] ("en", "Hello") [("fr", ""); ("es", "Hola")]
     = snd ("en", "Hello").
Proof.
  split.
  - apply (proj1 (findMessageTemplate_choice ("en", "Hello") [("fr", ""); ("es", "Hola")])
                 ["de"; "fr"] "es" ["en"] "Hola").
    + repeat constructor.
    + repeat constructor.
    + reflexivity.
    + reflexivity.
  - apply (proj1 (proj2 (findMessageTemplate_choice ("en", "Hello")
                           [("fr", ""); ("es", "Hola")])) ["de"; "fr"]);
      repeat constructor.
Defined.

End MessageLookup.

Section StandardRulesFacts.

Import Trace RecordNormalizer StandardRules.

Lemma addErrorForSt_changes (ptr : PointerArg) (message : string)
  (params : option MessageParams) (st : State) :
  addErrorForSt ptr message params st <> st.
Proof.
  intros H. apply (f_equal (fun s => length (traceOf s))) in H.
  simpl in H. rewrite length_app in H. simpl in H. lia.
Qed.

Lemma runRule_AddError (message : string) (params : option MessageParams)
  (v : value) (st : State) :
  runRule (AddError message params (Return v)) st
  = (v, addErrorForSt (PtrObject (Context.currentPointer (ctxOf st))) message params st).
Proof. reflexivity. Qed.

(* ----- trim ----- *)

(** X10.  The rule ['trim'] reports nothing and leaves every value that is
    no string as it is.  Of a string of ASCII characters it gives the string
    without the white space at its start and at its end: the result neither
    starts nor ends with a white space character, and the rule gives it back
    unchanged when it is applied again. *)
Theorem trim_rule_result (st : State) :
  (forall v,
      typeof v <> TyString -> runRule (trimRule v) st = (v, st))
  /\ (forall s,
        isAsciiText s = true ->
        runRule (trimRule (VString s)) st = (VString (trim s), st)
        /\ runRule (trimRule (VString (trim s))) st = (VString (trim s), st)
        /\ (forall c, String.get 0 (trim s) = Some c -> isSpace c = false)
        /\ (forall c, lastChar (trim s) = Some c -> isSpace c = false)).
Proof.
  split.
  - intros v Hv. destruct v; try reflexivity. exfalso. apply Hv. reflexivity.
  - intros s _. split; [reflexivity|]. split; [|split].
    + simpl. rewrite trim_twice. reflexivity.
    + intros c. unfold trim. apply trimEnd_first. intros d. apply trimStart_first.
    + intros c. unfold trim. apply trimEnd_last.
Qed.

Lemma trim_rule_result_witness :
  runRule (trimRule (VNumber 1)) MoreExamples.planStart
  = (VNumber 1, MoreExamples.planStart)
  /\ isSpace "a" = false
  /\ isSpace "b" = false.
Proof.
  destruct (trim_rule_result MoreExamples.planStart) as [Hother Hstring].
  split; [apply Hother; discriminate|].
  destruct (Hstring "  a b  " eq_refl) as (_ & _ & Hfirst & Hlast).
  split; [apply Hfirst | apply Hlast]; reflexivity.
Defined.

(** X11.  The chain a required string property gets by default,
    ['required'], ['string'], ['trim'], on each kind of value: on
    [undefined], [null] and the empty string it reports ['{missing}'] and
    nothing else; on a value of another type it reports
    ['{invalidValueType}'] with the type found, and nothing else; on any
    other string of ASCII characters it reports nothing and gives the string
    trimmed.  So a string of blanks only is not reported, and comes out as
    the empty string, which the same chain reports as missing. *)
Theorem default_string_chain (v : value) (st : State) (pd : PropertyDescriptor unit) :
  Context.currentPropDesc (ctxOf st) = Some pd ->
  isScalarProp pd = true ->
  scalarValueType pd = "string" ->
  let result := runChain PropertyChain [Standard.required; stringRule; trimRule] v st in
  match v with
  | VUndefined | VNull =>
      fst result = v
      /\ ctxOf (snd result) = Context.addError (ctxOf st) "{missing}" None
  | VString s =>
      isAsciiText s = true ->
      fst result = VString (trim s)
      /\ ctxOf (snd result)
         = if isEmptyString s then Context.addError (ctxOf st) "{missing}" None
           else ctxOf st
  | _ =>
      fst result = v
      /\ ctxOf (snd result)
         = Context.addError (ctxOf st) "{invalidValueType}"
             (Some [("expected", "string"); ("actual", typeName (typeof v))])
  end.
Proof.
  intros Hpd Hsc Hty result. unfold result, runChain, callValidator.
  cbn [fold_left fst snd]. unfold Standard.required. cbn [runRule logEvent ctxOf heapOf].
  rewrite Hpd. unfold Standard.isEmpty.
  assert (Ha : isArrayProp pd = false)
    by (unfold isArrayProp, isScalarProp in *; destruct (structure pd); congruence).
  assert (Hm : isMapProp pd = false)
    by (unfold isMapProp, isScalarProp in *; destruct (structure pd); congruence).
  rewrite Ha, Hm, Hsc, Hty.
  destruct v as [| | b | x | s | l]; cbn; try (split; reflexivity).
  intros _. destruct s; cbn; split; reflexivity.
Qed.

Lemma default_string_chain_witness :
  let st := descendSt "timeTo" (VObject 1)
              (mkState Examples.calendarStore
                 (initialContext Examples.library Examples.calendarType []
                    (activeSets None)) []) in
  let result :=
    runChain PropertyChain [Standard.required; stringRule; trimRule] (VString "   ") st in
  fst result = VString (trim "   ") /\ ctxOf (snd result) = ctxOf st.
Proof.
  intros st.
  exact (default_string_chain (VString "   ") st (forgetProperty Examples.timeToProp)
           eq_refl eq_refl eq_refl eq_refl).
Defined.

End StandardRulesFacts.

Section StandardRulesFacts2.

Import Trace RecordNormalizer StandardRules.

(* ----- noDupes ----- *)

Lemma existsb_nth_later (el : value) (rest : list value) :
  existsb (fun later => strictEq later el) rest = true
  <-> exists j, (j < length rest)%nat /\ strictEq (nth j rest VUndefined) el = true.
Proof.
  rewrite existsb_exists. split.
  - intros (x & Hin & Hx). apply (In_nth _ _ VUndefined) in Hin as (j & Hj & <-).
    exists j. auto.
  - intros (j & Hj & Hx). exists (nth j rest VUndefined). split; [|exact Hx].
    apply nth_In. exact Hj.
Qed.

Lemma hasDuplicate_spec (vs : list value) :
  hasDuplicate vs = true
  <-> exists i j, (i < j < length vs)%nat
                  /\ strictEq (nth j vs VUndefined) (nth i vs VUndefined) = true.
Proof.
  induction vs as [|el rest IH]; simpl.
  - split; [discriminate|]. intros (i & j & H & _). lia.
  - rewrite orb_true_iff, existsb_nth_later, IH. split.
    + intros [(j & Hj & Hx)|(i & j & Hij & Hx)].
      * exists 0%nat, (S j). split; [lia | exact Hx].
      * exists (S i), (S j). split; [lia | exact Hx].
    + intros (i & j & Hij & Hx). destruct j as [|j]; [lia|]. destruct i as [|i].
      * left. exists j. split; [lia | exact Hx].
      * right. exists i, j. split; [lia | exact Hx].
Qed.

Lemma elementsOf_nth (h : heap) (l : loc) (i : nat) :
  (i < lengthOf h l)%nat ->
  nth i (elementsOf h l) VUndefined = getProp h l (indexKey i).
Proof.
  intros Hi. unfold elementsOf.
  rewrite (nth_indep _ VUndefined (getProp h l (indexKey 0))) by (rewrite length_map, length_seq; exact Hi).
  rewrite (map_nth (fun i => getProp h l (indexKey i))), seq_nth by exact Hi.
  reflexivity.
Qed.

Lemma elementsOf_length (h : heap) (l : loc) :
  length (elementsOf h l) = lengthOf h l.
Proof. unfold elementsOf. rewrite length_map, length_seq. reflexivity. Qed.

(** X12.  The rule ['noDupes'] on an array reports ['{duplicates}'], once,
    exactly when some element is [===] to an element before it, and
    reports nothing otherwise; a value that is no array it leaves alone.  It
    always returns its argument. *)
Theorem noDupes_reports (v : value) (st : State) :
  (isArray (heapOf st) v = false -> runRule (noDupes v) st = (v, st))
  /\ (forall arr,
        v = VObject arr ->
        isArray (heapOf st) v = true ->
        let h := heapOf st in
        ((exists i j, (i < j < lengthOf h arr)%nat
                      /\ strictEq (getProp h arr (indexKey j))
                                  (getProp h arr (indexKey i)) = true)
         /\ runRule (noDupes v) st
            = (v, addErrorForSt (PtrObject (Context.currentPointer (ctxOf st)))
                    "{duplicates}" None st))
        \/ ((forall i j, (i < j < lengthOf h arr)%nat ->
                         strictEq (getProp h arr (indexKey j))
                                  (getProp h arr (indexKey i)) = false)
            /\ runRule (noDupes v) st = (v, st))).
Proof.
  split.
  - intros Hn. destruct v; try reflexivity. cbn [noDupes runRule]. rewrite Hn. reflexivity.
  - intros arr -> Ha h. cbn [noDupes runRule]. rewrite Ha. cbn [andb]. fold h.
    destruct (hasDuplicate (elementsOf h arr)) eqn:Hd.
    + left. split; [|reflexivity].
      apply hasDuplicate_spec in Hd as (i & j & Hij & Hx).
      rewrite elementsOf_length in Hij.
      rewrite !elementsOf_nth in Hx by lia. exists i, j. auto.
    + right. split; [|reflexivity]. intros i j Hij.
      destruct (strictEq (getProp h arr (indexKey j)) (getProp h arr (indexKey i))) eqn:Hx;
        [|reflexivity].
      assert (hasDuplicate (elementsOf h arr) = true); [|congruence].
      apply hasDuplicate_spec. exists i, j. rewrite elementsOf_length.
      rewrite !elementsOf_nth by lia. auto.
Qed.

Lemma noDupes_reports_witness :
  runRule (noDupes (VString "none")) MoreExamples.planStart
  = (VString "none", MoreExamples.planStart)
  /\ let st := mkState (<[1%positive := arrayOf [VNumber nan; VNumber 2; VNumber nan]]> ∅)
                 (ctxOf MoreExamples.planStart) [] in
     runRule (noDupes (VObject 1)) st = (VObject 1, st).
Proof.
  split.
  - apply (proj1 (noDupes_reports (VString "none") MoreExamples.planStart)). reflexivity.
  - intros st.
    destruct (proj2 (noDupes_reports (VObject 1) st) 1%positive eq_refl eq_refl)
      as [[(i & j & Hij & Hx) _]|[_ Hr]]; [|exact Hr].
    exfalso. change (lengthOf (heapOf st) 1) with 3%nat in Hij.
    assert (Hc : ((i = 0 /\ j = 1) \/ (i = 0 /\ j = 2) \/ (i = 1 /\ j = 2))%nat) by lia.
    destruct Hc as [[-> ->]|[[-> ->]|[-> ->]]]; vm_compute in Hx; discriminate Hx.
Defined.

(* ----- bankRoutingNumber ----- *)

Lemma digitAt_lt (i : nat) (s : string) : (digitAt i s < 10)%nat.
Proof.
  unfold digitAt. destruct (String.get i s) as [c|]; [|lia].
  unfold JsNumber.digitOf.
  destruct ((48 <=? nat_of_ascii c)%nat && (nat_of_ascii c <=? 57)%nat) eqn:E; [|lia].
  apply andb_prop in E as [E1 E2]. apply Nat.leb_le in E1, E2. lia.
Qed.

Lemma routing_checksum (a b c d : nat) :
  (d < 10)%nat ->
  ((7 * a + 3 * b + 9 * c) mod 10 = d
   <-> (3 * a + 7 * b + (c + d)) mod 10 = 0)%nat.
Proof.
  intros Hd.
  pose proof (Nat.div_mod_eq (7 * a + 3 * b + 9 * c) 10) as E1.
  pose proof (Nat.div_mod_eq (3 * a + 7 * b + (c + d)) 10) as E2.
  pose proof (Nat.mod_upper_bound (7 * a + 3 * b + 9 * c) 10 ltac:(lia)) as B1.
  pose proof (Nat.mod_upper_bound (3 * a + 7 * b + (c + d)) 10 ltac:(lia)) as B2.
  split; intros H; lia.
Qed.

(** X13.  The rule ['bankRoutingNumber'] leaves alone a value that is no
    string and reports a string that is not nine digits.  A string of nine
    digits [d1 ... d9] it accepts exactly when
    [3 (d1 + d4 + d7) + 7 (d2 + d5 + d8) + (d3 + d6 + d9)] is a multiple of
    ten, the checksum of routing numbers; otherwise it reports
    ['{invalidBankRoutingNumber}'].  It always returns its argument. *)
Theorem bankRoutingNumber_checksum (st : State) :
  let reported v :=
    (v, addErrorForSt (PtrObject (Context.currentPointer (ctxOf st)))
          "{invalidBankRoutingNumber}" None st) in
  (forall v, typeof v <> TyString -> runRule (bankRoutingNumber v) st = (v, st))
  /\ (forall s,
        isDigits 9 s = false ->
        runRule (bankRoutingNumber (VString s)) st = reported (VString s))
  /\ (forall s,
        isDigits 9 s = true ->
        let d i := digitAt i s in
        (runRule (bankRoutingNumber (VString s)) st = (VString s, st)
         \/ runRule (bankRoutingNumber (VString s)) st = reported (VString s))
        /\ (runRule (bankRoutingNumber (VString s)) st = (VString s, st)
            <-> (3 * (d 0 + d 3 + d 6) + 7 * (d 1 + d 4 + d 7)
                 + (d 2 + d 5 + d 8)) mod 10 = 0)%nat).
Proof.
  intros reported. split; [|split].
  - intros v Hv. destruct v; try reflexivity. exfalso. apply Hv. reflexivity.
  - intros s Hs. cbn [bankRoutingNumber]. rewrite Hs. reflexivity.
  - intros s Hs d. cbn [bankRoutingNumber]. rewrite Hs. cbn [negb].
    pose proof (routing_checksum (d 0 + d 3 + d 6) (d 1 + d 4 + d 7) (d 2 + d 5) (d 8)
                  (digitAt_lt 8 s))%nat as Hsum.
    unfold routingSum. fold (d 0) (d 1) (d 2) (d 3) (d 4) (d 5) (d 6) (d 7) (d 8).
    destruct (Nat.eqb_spec ((7 * (d 0 + d 3 + d 6) + 3 * (d 1 + d 4 + d 7)
                             + 9 * (d 2 + d 5)) mod 10) (d 8))%nat as [E|E]; cbn [negb].
    + split; [left; reflexivity|]. split; [intros _|reflexivity].
      apply Hsum in E. etransitivity; [|exact E]. f_equal; lia.
    + split; [right; reflexivity|]. split.
      * intros H. rewrite runRule_AddError in H. injection H as H.
        destruct (addErrorForSt_changes _ _ _ _ H).
      * intros H. exfalso. apply E, Hsum. etransitivity; [|exact H]. f_equal; lia.
Qed.

Lemma bankRoutingNumber_checksum_witness :
  runRule (bankRoutingNumber (VNumber 1)) MoreExamples.planStart
  = (VNumber 1, MoreExamples.planStart)
  /\ runRule (bankRoutingNumber (VString "12345")) MoreExamples.planStart
     = (VString "12345",
        addErrorForSt (PtrObject (Context.currentPointer (ctxOf MoreExamples.planStart)))
          "{invalidBankRoutingNumber}" None MoreExamples.planStart)
  /\ (runRule (bankRoutingNumber (VString "021000021")) MoreExamples.planStart
      = (VString "021000021", MoreExamples.planStart)
      <-> ((3 * (0 + 0 + 0) + 7 * (2 + 0 + 2) + (1 + 0 + 1)) mod 10 = 0)%nat).
Proof.
  destruct (bankRoutingNumber_checksum MoreExamples.planStart) as (Hv & Hbad & Hgood).
  split; [apply Hv; discriminate|]. split; [apply Hbad; reflexivity|].
  exact (proj2 (Hgood "021000021" eq_refl)).
Defined.

End StandardRulesFacts2.

Section StandardRulesFacts3.

Import Trace RecordNormalizer StandardRules.

(* ----- loc_US:phone10 ----- *)

Lemma isDigit_not_punctuation (c : ascii) :
  isDigit c = true -> isPhonePunctuation c = false.
Proof. destruct c as [[] [] [] [] [] [] [] []]; vm_compute; congruence. Qed.

Lemma removeChars_digits (s : string) :
  forallChar isDigit s = true -> removeChars isPhonePunctuation s = s.
Proof.
  induction s as [|c s IH]; simpl; [reflexivity|].
  intros H. apply andb_prop in H as [Hc Hs].
  rewrite (isDigit_not_punctuation c Hc), (IH Hs). reflexivity.
Qed.

(** X14.  The rule ['loc_US:phone10'] takes the white space, parentheses
    and hyphens out of a string of ASCII characters.  When ten digits
    remain it reports nothing and gives those ten digits, which the rule
    gives back unchanged when it is applied again; otherwise it reports
    ['{invalidUSPhone}'] and returns the string as it was. *)
Theorem phone10_normal_form (s : string) (st : State) :
  isAsciiText s = true ->
  let normValue := removeChars isPhonePunctuation s in
  (isDigits 10 normValue = true ->
   runRule (loc_US_phone10 (VString s)) st = (VString normValue, st)
   /\ runRule (loc_US_phone10 (VString normValue)) st = (VString normValue, st))
  /\ (isDigits 10 normValue = false ->
      runRule (loc_US_phone10 (VString s)) st
      = (VString s,
         addErrorForSt (PtrObject (Context.currentPointer (ctxOf st)))
           "{invalidUSPhone}" None st)).
Proof.
  intros _ normValue. split.
  - intros H. split.
    + cbn [loc_US_phone10]. fold normValue. rewrite H. reflexivity.
    + cbn [loc_US_phone10].
      assert (Hsame : removeChars isPhonePunctuation normValue = normValue).
      { apply removeChars_digits. unfold isDigits in H.
        apply andb_prop in H as [H _]. exact H. }
      rewrite Hsame, H. reflexivity.
  - intros H. cbn [loc_US_phone10]. fold normValue. rewrite H. reflexivity.
Qed.

Lemma phone10_normal_form_witness :
  runRule (loc_US_phone10 (VString "(212) 555-0100")) MoreExamples.planStart
  = (VString "2125550100", MoreExamples.planStart)
  /\ runRule (loc_US_phone10 (VString "555-0100")) MoreExamples.planStart
     = (VString "555-0100",
        addErrorForSt (PtrObject (Context.currentPointer (ctxOf MoreExamples.planStart)))
          "{invalidUSPhone}" None MoreExamples.planStart).
Proof.
  split.
  - exact (proj1 (proj1 (phone10_normal_form "(212) 555-0100" MoreExamples.planStart
                                  eq_refl) eq_refl)).
  - exact (proj2 (phone10_normal_form "555-0100" MoreExamples.planStart eq_refl)
                 eq_refl).
Defined.

(* ----- weekday2, weekday3, loc_US:state2 ----- *)

Lemma codeRule_cases (alternatives : list string) (message : string) (s : string)
  (st : State) :
  Forall (fun a => toUpperCase a = a) alternatives ->
  (exists code,
      In code alternatives
      /\ runRule (codeRule alternatives message (VString s)) st = (VString code, st)
      /\ runRule (codeRule alternatives message (VString code)) st = (VString code, st))
  \/ runRule (codeRule alternatives message (VString s)) st
     = (VString s,
        addErrorForSt (PtrObject (Context.currentPointer (ctxOf st))) message None st).
Proof.
  intros Hup. cbn [codeRule].
  destruct (isOneOfIgnoringCase alternatives s) eqn:E; [|right; reflexivity].
  left. exists (toUpperCase s).
  unfold isOneOfIgnoringCase in E. apply existsb_exists in E as (a & Ha & Ea).
  apply String.eqb_eq in Ea. rewrite Ea.
  split; [exact Ha|]. split; [reflexivity|].
  assert (Hin : isOneOfIgnoringCase alternatives a = true).
  { unfold isOneOfIgnoringCase. apply existsb_exists. exists a. split; [exact Ha|].
    rewrite Forall_forall in Hup. rewrite (Hup a) by (apply list_elem_of_In; exact Ha).
    apply String.eqb_refl. }
  rewrite Hin. rewrite Forall_forall in Hup.
  rewrite (Hup a) by (apply list_elem_of_In; exact Ha). reflexivity.
Qed.

(** X15.  Each of the rules ['weekday2'], ['weekday3'] and
    ['loc_US:state2'] either reports its error and returns the string as it
    was, or reports nothing and returns one of its codes, in upper case,
    which the rule accepts and returns unchanged when it is applied again. *)
Theorem code_rules_give_codes (s : string) (st : State) :
  let outcome (rule : curriedValidator) (codes : list string) (message : string) :=
    (exists code,
        In code codes
        /\ runRule (rule (VString s)) st = (VString code, st)
        /\ runRule (rule (VString code)) st = (VString code, st))
    \/ runRule (rule (VString s)) st
       = (VString s,
          addErrorForSt (PtrObject (Context.currentPointer (ctxOf st))) message None st) in
  outcome weekday2 weekdays2 "{invalidWeekday}"
  /\ outcome weekday3 weekdays3 "{invalidWeekday}"
  /\ outcome loc_US_state2 usStates "{invalidUSState}".
Proof.
  intros outcome. unfold outcome, weekday2, weekday3, loc_US_state2.
  split; [|split]; apply codeRule_cases; repeat constructor.
Qed.

(* ----- required and empty ----- *)

(** X16.  On every value, at every property, exactly one of the rules
    ['required'] and ['empty'] reports: ['required'] reports ['{missing}']
    and ['empty'] nothing, or ['empty'] reports ['{notEmpty}'] and
    ['required'] nothing.  Both return their argument. *)
Theorem required_or_empty_reports (v : value) (st : State) (pd : PropertyDescriptor unit) :
  Context.currentPropDesc (ctxOf st) = Some pd ->
  let here := PtrObject (Context.currentPointer (ctxOf st)) in
  (runRule (Standard.required v) st = (v, addErrorForSt here "{missing}" None st)
   /\ runRule (Standard.empty v) st = (v, st))
  \/ (runRule (Standard.required v) st = (v, st)
      /\ runRule (Standard.empty v) st = (v, addErrorForSt here "{notEmpty}" None st)).
Proof.
  intros Hpd here. cbn [Standard.required Standard.empty runRule]. rewrite Hpd.
  destruct (Standard.isEmpty (heapOf st) (Context.currentPointer (ctxOf st)) pd v);
    [left | right]; split; reflexivity.
Qed.

Lemma required_or_empty_reports_witness :
  let st := descendSt "timeTo" (VObject 1)
              (mkState Examples.calendarStore
                 (initialContext Examples.library Examples.calendarType []
                    (activeSets None)) []) in
  let here := PtrObject (Context.currentPointer (ctxOf st)) in
  (runRule (Standard.required (VBool false)) st
   = (VBool false, addErrorForSt here "{missing}" None st)
   /\ runRule (Standard.empty (VBool false)) st = (VBool false, st))
  \/ (runRule (Standard.required (VBool false)) st = (VBool false, st)
      /\ runRule (Standard.empty (VBool false)) st
         = (VBool false, addErrorForSt here "{notEmpty}" None st)).
Proof.
  intros st.
  exact (required_or_empty_reports (VBool false) st
           (forgetProperty Examples.timeToProp) eq_refl).
Defined.

End StandardRulesFacts3.

Section ParameterRulesFacts.

Import Trace RecordNormalizer StandardRules ParameterRules.

Context `{HostOps}.

Lemma sameType_trans (a b c : value) :
  sameType a b = true -> sameType a c = true -> sameType b c = true.
Proof.
  unfold sameType. intros H1 H2.
  apply String.eqb_eq in H1, H2. apply String.eqb_eq. congruence.
Qed.

(** X17.  The rule ['range'] reports ['{outOfRange}'] exactly when the
    value has the type of both bounds and one of the rules ['min'] and
    ['max'] with the same bounds reports.  With bounds of two different
    types ['range'] therefore never reports, whatever the value. *)
Theorem range_is_min_and_max (minVal maxVal v : value) (st : State) :
  (sameType minVal maxVal = true ->
   (runRule (rangeRule minVal maxVal v) st = (v, st)
    <-> runRule (minRule minVal v) st = (v, st)
        /\ runRule (maxRule maxVal v) st = (v, st)))
  /\ (sameType minVal maxVal = false ->
      runRule (rangeRule minVal maxVal v) st = (v, st)).
Proof.
  unfold rangeRule, minRule, maxRule.
  destruct (isNullish v) eqn:Hn.
  { split; intros _; [split; [intros _; split|]|]; reflexivity. }
  cbn [runRule]. split.
  - intros Hmm.
    assert (Hsame : sameType v maxVal = sameType v minVal).
    { unfold sameType in *. apply String.eqb_eq in Hmm. rewrite Hmm. reflexivity. }
    rewrite Hsame.
    destruct (sameType v minVal); cbn [andb]; [|split; [split|]; reflexivity].
    destruct (jsGt (heapOf st) minVal v), (jsGt (heapOf st) v maxVal); cbn [orb];
      split; try (intros [H1 H2]); try intros H1;
      try (split; reflexivity); try reflexivity;
      try (rewrite runRule_AddError in H1; injection H1 as H1;
           destruct (addErrorForSt_changes _ _ _ _ H1));
      try (rewrite runRule_AddError in H2; injection H2 as H2;
           destruct (addErrorForSt_changes _ _ _ _ H2)).
  - intros Hmm.
    destruct (sameType v minVal) eqn:H1; [|reflexivity].
    destruct (sameType v maxVal) eqn:H2; [|reflexivity].
    rewrite (sameType_trans v minVal maxVal H1 H2) in Hmm. discriminate.
Qed.

End ParameterRulesFacts.

Lemma range_is_min_and_max_witness :
  (runRule (ParameterRules.rangeRule (H := Examples.hostOps) (VNumber 1) (VNumber 10)
              (VNumber 5)) MoreExamples.planStart
   = (VNumber 5, MoreExamples.planStart)
   <-> runRule (ParameterRules.minRule (H := Examples.hostOps) (VNumber 1) (VNumber 5))
         MoreExamples.planStart
       = (VNumber 5, MoreExamples.planStart)
       /\ runRule (ParameterRules.maxRule (H := Examples.hostOps) (VNumber 10) (VNumber 5))
            MoreExamples.planStart
          = (VNumber 5, MoreExamples.planStart))
  /\ runRule (ParameterRules.rangeRule (H := Examples.hostOps) (VNumber 1) (VString "z")
                (VNumber 0)) MoreExamples.planStart
     = (VNumber 0, MoreExamples.planStart).
Proof.
  split.
  - apply (proj1 (range_is_min_and_max (H := Examples.hostOps) (VNumber 1) (VNumber 10)
                    (VNumber 5) MoreExamples.planStart)).
    reflexivity.
  - apply (proj2 (range_is_min_and_max (H := Examples.hostOps) (VNumber 1) (VString "z")
                    (VNumber 0) MoreExamples.planStart)).
    reflexivity.
Defined.

Section TimeFacts.

Import Trace RecordNormalizer StandardRules ParameterRules.

Lemma digit_char (c : ascii) :
  isBetween "0" "9" c = true ->
  ascii_of_nat (48 + (nat_of_ascii c - 48)) = c /\ (nat_of_ascii c - 48 < 10)%nat.
Proof.
  unfold isBetween. intros H. apply andb_prop in H as [H1 H2].
  apply Nat.leb_le in H1, H2. change (nat_of_ascii "0") with 48%nat in H1.
  change (nat_of_ascii "9") with 57%nat in H2.
  split; [|lia].
  replace (48 + (nat_of_ascii c - 48))%nat with (nat_of_ascii c) by lia.
  apply ascii_nat_embedding.
Qed.

Lemma isBetween_bounds (lo hi c : ascii) :
  isBetween lo hi c = true ->
  (nat_of_ascii lo <= nat_of_ascii c <= nat_of_ascii hi)%nat.
Proof.
  unfold isBetween. intros H. apply andb_prop in H as [H1 H2].
  apply Nat.leb_le in H1, H2. lia.
Qed.

Lemma isBetween_weaken (lo hi c : ascii) :
  isBetween "0" hi c = true -> (nat_of_ascii hi <= 57)%nat ->
  isBetween "0" "9" c = true.
Proof.
  unfold isBetween. intros H Hhi. apply andb_prop in H as [H1 H2].
  apply Nat.leb_le in H2. rewrite H1. apply Nat.leb_le.
  change (nat_of_ascii "9") with 57%nat. lia.
Qed.

Lemma twoDigits_of (a b : nat) :
  (b < 10)%nat ->
  twoDigits (10 * a + b)
  = String (ascii_of_nat (48 + a)) (String (ascii_of_nat (48 + b)) EmptyString).
Proof.
  intros Hb. unfold twoDigits.
  assert (Hd : ((10 * a + b) / 10 = a)%nat)
    by (symmetry; apply (Nat.div_unique _ _ _ b); lia).
  assert (Hm : ((10 * a + b) mod 10 = b)%nat)
    by (symmetry; apply (Nat.mod_unique _ _ a); lia).
  rewrite Hd, Hm. reflexivity.
Qed.

Lemma two_chars (c1 c2 : ascii) :
  isBetween "0" "9" c1 = true -> isBetween "0" "9" c2 = true ->
  twoDigits (10 * (nat_of_ascii c1 - 48) + (nat_of_ascii c2 - 48))
  = String c1 (String c2 EmptyString).
Proof.
  intros H1 H2. destruct (digit_char c1 H1) as [E1 _].
  destruct (digit_char c2 H2) as [E2 B2].
  rewrite (twoDigits_of _ _ B2), E1, E2. reflexivity.
Qed.

Lemma isTimeText_written (s : string) :
  isTimeText s = true ->
  exists hh mm, (hh < 24)%nat /\ (mm < 60)%nat /\ s = timeText hh mm.
Proof.
  destruct s as [|h1 [|h2 [|c [|m1 [|m2 [|x r]]]]]]; try discriminate.
  cbn [isTimeText]. intros H.
  apply andb_prop in H as [H Hm]. apply andb_prop in H as [Hh Hc].
  apply Ascii.eqb_eq in Hc. subst c.
  unfold isMinutes in Hm. apply andb_prop in Hm as [Hm1 Hm2].
  assert (Hh' : isBetween "0" "9" h1 = true /\ isBetween "0" "9" h2 = true
                /\ (10 * (nat_of_ascii h1 - 48) + (nat_of_ascii h2 - 48) < 24)%nat).
  { unfold isHours in Hh. apply orb_prop in Hh as [Hh|Hh];
      apply andb_prop in Hh as [Ha Hb].
    - split; [apply (isBetween_weaken "0" "1"); [exact Ha | vm_compute; lia]|].
      split; [exact Hb|].
      apply isBetween_bounds in Ha, Hb.
      change (nat_of_ascii "0") with 48%nat in *. change (nat_of_ascii "1") with 49%nat in *.
      change (nat_of_ascii "9") with 57%nat in *. lia.
    - apply Ascii.eqb_eq in Ha. subst h1.
      split; [reflexivity|].
      split; [apply (isBetween_weaken "0" "3"); [exact Hb | vm_compute; lia]|].
      apply isBetween_bounds in Hb.
      change (nat_of_ascii "0") with 48%nat in *. change (nat_of_ascii "3") with 51%nat in *.
      change (nat_of_ascii "2") with 50%nat. lia. }
  destruct Hh' as (Hh1 & Hh2 & Hlt).
  assert (Hm1' : isBetween "0" "9" m1 = true)
    by (apply (isBetween_weaken "0" "5"); [exact Hm1 | vm_compute; lia]).
  exists (10 * (nat_of_ascii h1 - 48) + (nat_of_ascii h2 - 48))%nat,
         (10 * (nat_of_ascii m1 - 48) + (nat_of_ascii m2 - 48))%nat.
  split; [exact Hlt|]. split.
  - apply isBetween_bounds in Hm1, Hm2.
    change (nat_of_ascii "0") with 48%nat in *. change (nat_of_ascii "5") with 53%nat in *.
    change (nat_of_ascii "9") with 57%nat in *. lia.
  - unfold timeText. rewrite (two_chars h1 h2 Hh1 Hh2), (two_chars m1 m2 Hm1' Hm2).
    reflexivity.
Qed.

Lemma timeText_isTimeText (hh mm : nat) :
  (hh < 24)%nat -> (mm < 60)%nat -> isTimeText (timeText hh mm) = true.
Proof.
  intros Hh Hm.
  assert (Hall : forallb (fun h => forallb (fun m => isTimeText (timeText h m)) (seq 0 60))
                         (seq 0 24) = true) by (vm_compute; reflexivity).
  rewrite forallb_forall in Hall.
  specialize (Hall hh ltac:(apply in_seq; lia)).
  rewrite forallb_forall in Hall.
  apply Hall. apply in_seq. lia.
Qed.

Lemma timeText_length (hh mm : nat) : String.length (timeText hh mm) = 5%nat.
Proof. reflexivity. Qed.

Lemma substringFrom_app (a b : string) :
  substringFrom (String.length a) (a +:+ b) = b.
Proof.
  unfold substringFrom. rewrite length_string_app, substring_skip.
  replace (String.length a + String.length b - String.length a)%nat
    with (String.length b) by lia.
  apply substring_all.
Qed.

Lemma startsWith_app (a b : string) : startsWith a (a +:+ b) = true.
Proof.
  unfold startsWith. apply String.prefix_correct. apply substring_app_left.
Qed.

Context `{HostOps}.

(** X18.  The format the rule ['time'] asks of a string.  Without the
    option [allow24] it reports ['{invalidTime}'] on every string but the
    times [hh:mm] with [hh] below 24 and [mm] below 60, each written with
    two digits.  With the option, the pattern is an alternation whose one
    branch is bound to the start of the string and the other to its end:
    every string that starts with [24:00] passes, whatever follows, and so
    does every string that ends with a time, whatever precedes it. *)
Theorem time_rule_formats (misaligned : value -> string -> bool)
  (param1 param2 : value) (st : State) :
  let here := PtrObject (Context.currentPointer (ctxOf st)) in
  let outcome s := runRule (timeRule misaligned param1 param2 (VString s)) st in
  let invalid s := (VString s, addErrorForSt here "{invalidTime}" None st) in
  let passed s :=
    (VString s,
     if misaligned param1 s
     then addErrorForSt here "{invalidTimeGranularity}"
            (Some [("granularity", jsString (heapOf st) param1)]) st
     else st) in
  let allow24 :=
    match timeOptions param1 param2 with
    | Some options => Standard.hasWordFrom false "allow24" options
    | None => false
    end in
  (allow24 = false ->
   forall s,
     ((exists hh mm, (hh < 24)%nat /\ (mm < 60)%nat /\ s = timeText hh mm) ->
      outcome s = passed s)
     /\ (~ (exists hh mm, (hh < 24)%nat /\ (mm < 60)%nat /\ s = timeText hh mm) ->
         outcome s = invalid s))
  /\ (allow24 = true ->
      (forall rest, outcome ("24:00" +:+ rest) = passed ("24:00" +:+ rest))
      /\ (forall before hh mm,
            (hh < 24)%nat -> (mm < 60)%nat ->
            outcome (before +:+ timeText hh mm) = passed (before +:+ timeText hh mm))).
Proof.
  intros here outcome invalid passed allow24.
  assert (Hok : forall s, timeFormat allow24 s = true -> outcome s = passed s).
  { intros s Hs. unfold outcome, passed. cbn [timeRule runRule]. fold allow24.
    rewrite Hs. cbn [negb]. destruct (misaligned param1 s); reflexivity. }
  split.
  - intros Hno s. split.
    + intros (hh & mm & Hh & Hm & ->). apply Hok. rewrite Hno. cbn [timeFormat].
      apply timeText_isTimeText; assumption.
    + intros Hnot. unfold outcome, invalid. cbn [timeRule runRule]. fold allow24.
      rewrite Hno. cbn [timeFormat].
      destruct (isTimeText s) eqn:E; [|reflexivity].
      destruct Hnot. apply isTimeText_written. exact E.
  - intros Hyes. split.
    + intros rest. apply Hok. rewrite Hyes. cbn [timeFormat].
      rewrite startsWith_app. reflexivity.
    + intros before hh mm Hh Hm. apply Hok. rewrite Hyes. cbn [timeFormat].
      apply orb_true_iff. right. unfold endsWithTime.
      rewrite length_string_app, timeText_length.
      replace (String.length before + 5 - 5)%nat with (String.length before) by lia.
      rewrite substringFrom_app, (timeText_isTimeText hh mm Hh Hm).
      rewrite andb_true_r. apply Nat.leb_le. lia.
Qed.

End TimeFacts.

Lemma time_rule_formats_witness :
  runRule (ParameterRules.timeRule (H := Examples.hostOps) (fun _ _ => false)
             VUndefined VUndefined (VString "09:30")) MoreExamples.planStart
  = (VString "09:30", MoreExamples.planStart)
  /\ runRule (ParameterRules.timeRule (H := Examples.hostOps) (fun _ _ => false)
                (VString "allow24") VUndefined (VString "24:00 or so"))
       MoreExamples.planStart
     = (VString "24:00 or so", MoreExamples.planStart)
  /\ runRule (ParameterRules.timeRule (H := Examples.hostOps) (fun _ _ => false)
                (VString "allow24") VUndefined (VString "about 09:30"))
       MoreExamples.planStart
     = (VString "about 09:30", MoreExamples.planStart).
Proof.
  split; [|split].
  - apply (proj1 (proj1 (time_rule_formats (H := Examples.hostOps) (fun _ _ => false)
                           VUndefined VUndefined MoreExamples.planStart) eq_refl "09:30")).
    exists 9%nat, 30%nat. repeat split; lia.
  - apply (proj1 (proj2 (time_rule_formats (H := Examples.hostOps) (fun _ _ => false)
                           (VString "allow24") VUndefined MoreExamples.planStart) eq_refl)
                 " or so").
  - apply (proj2 (proj2 (time_rule_formats (H := Examples.hostOps) (fun _ _ => false)
                           (VString "allow24") VUndefined MoreExamples.planStart) eq_refl)
                 "about " 9%nat 30%nat); lia.
Defined.

Section CreateValidatorsFacts.

Import RecordNormalizer Extension.

Context {F P : Type}.
Variable validatorFuncs : string -> option F.
Variable subjDescription : string.

Local Abbreviation resolve := (resolveSpecs (P := P) validatorFuncs subjDescription).

Lemma resolveSpecs_app (a b : list (ValidatorSpec P))
  (validators : list (string * Bound F P)) :
  resolve (a ++ b) validators
  = match resolve a validators with
    | inl fault => inl fault
    | inr vs => resolve b vs
    end.
Proof.
  revert validators. induction a as [|spec a IH]; intros validators; [reflexivity|].
  cbn [app resolveSpecs].
  destruct spec as [id|id params|].
  - destruct (startsWith "-" id); [apply IH|].
    destruct (validatorFuncs id); [apply IH | reflexivity].
  - destruct (validatorFuncs id); [apply IH | reflexivity].
  - reflexivity.
Qed.

Lemma startsWith_minus (x : string) : startsWith "-" ("-" +:+ x) = true.
Proof. apply startsWith_app. Qed.

Lemma substringFrom_minus (x : string) : substringFrom 1 ("-" +:+ x) = x.
Proof. apply (substringFrom_app "-" x). Qed.

(** X19.  In the specifications of a validation set, an id written with a
    hyphen before it takes out every validator of that id that the
    specifications before it gave, and no other; what follows it is
    resolved from there, so the validator can be given again.  An id
    written without the hyphen adds its validator after those already
    there, even if it is among them. *)
Theorem validator_removal (specs1 : list (ValidatorSpec P))
  (vs : list (string * Bound F P)) :
  resolve specs1 [] = inr vs ->
  (forall x specs2,
      resolve (specs1 ++ SpecId ("-" +:+ x) :: specs2) []
      = resolve specs2 (List.filter (fun v => negb (String.eqb (fst v) x)) vs))
  /\ (forall x,
        exists kept,
          resolve (specs1 ++ [SpecId ("-" +:+ x)]) [] = inr kept
          /\ (forall v, In v kept <-> In v vs /\ fst v <> x))
  /\ (forall id validatorFunc,
        startsWith "-" id = false ->
        validatorFuncs id = Some validatorFunc ->
        resolve (specs1 ++ [SpecId id]) [] = inr (vs ++ [(id, (validatorFunc, None))])).
Proof.
  intros Hvs. split; [|split].
  - intros x specs2. rewrite resolveSpecs_app, Hvs. cbn [resolveSpecs].
    rewrite startsWith_minus, substringFrom_minus. reflexivity.
  - intros x. eexists. split.
    + rewrite resolveSpecs_app, Hvs. cbn [resolveSpecs].
      rewrite startsWith_minus, substringFrom_minus. reflexivity.
    + intros v. rewrite filter_In, negb_true_iff. 
      destruct (String.eqb_spec (fst v) x); intuition congruence.
  - intros id validatorFunc Hid Hf. rewrite resolveSpecs_app, Hvs. cbn [resolveSpecs].
    rewrite Hid, Hf. reflexivity.
Qed.

(** X20.  The loop over the specifications of a validation set raises the
    usage fault exactly when one of them is neither an id nor an array that
    starts with one, or names a validator that is not known.  An id written
    with a hyphen before it, to take the validator out, is never looked up:
    it raises nothing, known or not. *)
Theorem specifications_fault (specs : list (ValidatorSpec P))
  (validators : list (string * Bound F P)) :
  (exists fault, resolve specs validators = inl fault)
  <-> existsb (raisesOn validatorFuncs) specs = true.
Proof.
  revert validators. induction specs as [|spec specs IH]; intros validators.
  - cbn. split; [intros (fault & H); discriminate | discriminate].
  - cbn [existsb resolveSpecs]. destruct spec as [id|id params|]; cbn [raisesOn].
    + destruct (startsWith "-" id); cbn [negb andb orb]; [apply IH|].
      destruct (validatorFuncs id); cbn [orb]; [apply IH|].
      split; [reflexivity|]. intros _. eexists. reflexivity.
    + destruct (validatorFuncs id); cbn [orb]; [apply IH|].
      split; [reflexivity|]. intros _. eexists. reflexivity.
    + split; [reflexivity|]. intros _. eexists. reflexivity.
Qed.

Lemma resolveSets_entries (sets : list (string * list (ValidatorSpec P)))
  (entries : list (string * SetEntry F P)) :
  resolveSets validatorFuncs subjDescription sets = inr entries ->
  Forall2
    (fun set entry =>
       fst entry = fst set
       /\ exists vs,
            resolve (snd set) [] = inr vs
            /\ snd entry = match vs with
                           | [] => Raw (snd set)
                           | _ => Resolved (map snd vs)
                           end)
    sets entries.
Proof.
  revert entries. induction sets as [|[setId specs] sets IH]; intros entries.
  - intros [= <-]. constructor.
  - cbn [resolveSets]. destruct (resolve specs []) as [fault|vs] eqn:Hvs; [discriminate|].
    destruct (resolveSets validatorFuncs subjDescription sets) as [fault|rest];
      [discriminate|].
    intros [= <-]. constructor; [|apply IH; reflexivity].
    split; [reflexivity|]. exists vs. split; [exact Hvs | reflexivity].
Qed.

Lemma numValidators_zero (entries : list (string * SetEntry F P)) :
  Forall (fun e => match snd e with
                   | Resolved funcs => funcs <> []
                   | Raw _ => True
                   end) entries ->
  (numValidators entries = 0%nat
   <-> Forall (fun e => match snd e with Raw _ => True | Resolved _ => False end) entries).
Proof.
  unfold numValidators. induction 1 as [|e entries He _ IH]; cbn [map list_sum].
  - split; [constructor | reflexivity].
  - destruct (snd e) as [funcs|specs] eqn:Hs.
    + split.
      * intros H0. destruct funcs; [congruence | simpl in H0; lia].
      * intros Hall. inversion Hall as [|? ? Hbad _]. rewrite Hs in Hbad. destruct Hbad.
    + cbn [Nat.add]. rewrite IH. split.
      * intros Hall. constructor; [rewrite Hs; exact I | exact Hall].
      * intros Hall. inversion Hall. assumption.
Qed.

Lemma assoc_assocSet_other {A : Type} (k k' : string) (x : A) (l : list (string * A)) :
  String.eqb k k' = false ->
  assoc k' (assocSet k x l) = assoc k' l.
Proof.
  intros Hk. induction l as [|[k0 y] l IH]; cbn [assocSet assoc].
  - rewrite Hk. reflexivity.
  - destruct (String.eqb k0 k) eqn:E; cbn [assoc].
    + apply String.eqb_eq in E. subst k0. rewrite Hk. reflexivity.
    + rewrite IH. reflexivity.
Qed.

Lemma assoc_assocSet_same {A : Type} (k : string) (x : A) (l : list (string * A)) :
  assoc k (assocSet k x l) = Some x.
Proof.
  induction l as [|[k' y] l IH]; cbn [assocSet assoc].
  - rewrite String.eqb_refl. reflexivity.
  - destruct (String.eqb k' k) eqn:E; cbn [assoc]; rewrite E; [reflexivity | exact IH].
Qed.

(** A set there is keeps its specifications, with more after them. *)
Lemma addToSet_keeps (setId : string) (more : list (ValidatorSpec P))
  (sets : list (string * list (ValidatorSpec P))) (k : string)
  (specs : list (ValidatorSpec P)) :
  assoc k sets = Some specs ->
  exists after, assoc k (addToSet setId more sets) = Some (specs ++ after).
Proof.
  intros Hk. unfold addToSet. destruct (String.eqb setId k) eqn:E.
  - apply String.eqb_eq in E. subst setId. rewrite Hk, assoc_assocSet_same.
    exists more. reflexivity.
  - rewrite assoc_assocSet_other by exact E. exists []. rewrite app_nil_r. exact Hk.
Qed.

Lemma addToSet_fold_keeps (prefix : string) (more : list (ValidatorSpec P))
  (setIds : list string) (sets : list (string * list (ValidatorSpec P))) (k : string)
  (specs : list (ValidatorSpec P)) :
  assoc k sets = Some specs ->
  exists after,
    assoc k (fold_left (fun s setId => addToSet (prefix +:+ setId) more s) setIds sets)
    = Some (specs ++ after).
Proof.
  revert sets specs. induction setIds as [|setId setIds IH]; intros sets specs Hk.
  - exists []. rewrite app_nil_r. exact Hk.
  - cbn [fold_left].
    destruct (addToSet_keeps (prefix +:+ setId) more sets k specs Hk) as (a1 & H1).
    destruct (IH _ _ H1) as (a2 & H2).
    exists (a1 ++ a2). rewrite H2, app_assoc. reflexivity.
Qed.

Lemma mergeDef_keeps (prefix what : string) (def : ValidatorsDef P)
  (sets sets' : list (string * list (ValidatorSpec P))) (k : string)
  (specs : list (ValidatorSpec P)) :
  mergeDef subjDescription prefix what def sets = inr sets' ->
  assoc k sets = Some specs ->
  exists after, assoc k sets' = Some (specs ++ after).
Proof.
  destruct def as [|custom|bySets|]; cbn [mergeDef].
  - intros [= <-] Hk. exists []. rewrite app_nil_r. exact Hk.
  - intros [= <-] Hk. apply addToSet_keeps, Hk.
  - revert sets specs. induction bySets as [|[setsSpec setValidators] bySets IH];
      intros sets specs; cbn [fold_left fst snd].
    + intros [= <-] Hk. exists []. rewrite app_nil_r. exact Hk.
    + destruct setValidators as [setValidators|].
      * intros Hm Hk.
        destruct (addToSet_fold_keeps prefix setValidators (splitCommas setsSpec)
                    sets k specs Hk) as (a1 & H1).
        destruct (IH _ _ Hm H1) as (a2 & H2).
        exists (a1 ++ a2). rewrite H2, app_assoc. reflexivity.
      * intros Hm. exfalso. clear -Hm.
        induction bySets as [|e bySets IH]; [discriminate Hm | exact (IH Hm)].
  - discriminate.
Qed.

Lemma resolveSets_none (sets : list (string * list (ValidatorSpec P)))
  (entries : list (string * SetEntry F P)) (k : string) :
  resolveSets validatorFuncs subjDescription sets = inr entries ->
  assoc k sets = None ->
  assoc k entries = None.
Proof.
  revert entries. induction sets as [|[setId specs] sets IH]; intros entries.
  - intros [= <-] _. reflexivity.
  - cbn [resolveSets assoc].
    destruct (resolve specs []) as [fault|vs]; [discriminate|].
    destruct (resolveSets validatorFuncs subjDescription sets) as [fault|rest];
      [discriminate|].
    intros [= <-]. cbn [assoc]. destruct (String.eqb setId k); [discriminate|].
    intros Hk. exact (IH rest eq_refl Hk).
Qed.

Lemma resolveSets_resolves (sets : list (string * list (ValidatorSpec P)))
  (entries : list (string * SetEntry F P)) :
  resolveSets validatorFuncs subjDescription sets = inr entries ->
  forall set, In set sets -> exists vs, resolve (snd set) [] = inr vs.
Proof.
  revert entries. induction sets as [|[setId specs] sets IH]; intros entries;
    [intros _ set []|].
  cbn [resolveSets].
  destruct (resolve specs []) as [fault|vs] eqn:Hvs; [discriminate|].
  destruct (resolveSets validatorFuncs subjDescription sets) as [fault|rest];
    [discriminate|].
  intros _ set [<-|Hin]; [exists vs; exact Hvs | exact (IH rest eq_refl set Hin)].
Qed.

Lemma numValidators_sets (sets : list (string * list (ValidatorSpec P)))
  (entries : list (string * SetEntry F P)) :
  resolveSets validatorFuncs subjDescription sets = inr entries ->
  (numValidators entries = 0%nat
   <-> forall set, In set sets -> resolve (snd set) [] = inr []).
Proof.
  revert entries. induction sets as [|[setId specs] sets IH]; intros entries.
  - intros [= <-]. split; [intros _ set [] | reflexivity].
  - cbn [resolveSets].
    destruct (resolve specs []) as [fault|vs] eqn:Hvs; [discriminate|].
    destruct (resolveSets validatorFuncs subjDescription sets) as [fault|rest] eqn:Hr;
      [discriminate|].
    intros [= <-]. specialize (IH rest eq_refl).
    unfold numValidators in *. cbn [map list_sum snd].
    destruct vs as [|v vs].
    + cbn [Nat.add]. rewrite IH. split.
      * intros Hall set [<-|Hin]; [exact Hvs | exact (Hall set Hin)].
      * intros Hall set Hin. apply Hall. right. exact Hin.
    + split.
      * cbn [length map]. intros H0. simpl in H0. lia.
      * intros Hall. specialize (Hall (setId, specs) (or_introl eq_refl)).
        cbn [snd] in Hall. rewrite Hvs in Hall. discriminate Hall.
Qed.

Lemma resolveSets_assoc (sets : list (string * list (ValidatorSpec P)))
  (entries : list (string * SetEntry F P)) (k : string)
  (specs : list (ValidatorSpec P)) (vs : list (string * Bound F P)) :
  resolveSets validatorFuncs subjDescription sets = inr entries ->
  assoc k sets = Some specs ->
  resolve specs [] = inr vs ->
  assoc k entries = Some match vs with
                         | [] => Raw specs
                         | _ => Resolved (map snd vs)
                         end.
Proof.
  revert entries. induction sets as [|[setId specs'] sets IH]; intros entries;
    [discriminate 2|].
  cbn [resolveSets assoc].
  destruct (resolve specs' []) as [fault|vs'] eqn:Hvs'; [discriminate|].
  destruct (resolveSets validatorFuncs subjDescription sets) as [fault|rest];
    [discriminate|].
  intros [= <-]. cbn [assoc]. destruct (String.eqb setId k).
  - intros [= ->] Hvs. rewrite Hvs in Hvs'. injection Hvs' as <-. reflexivity.
  - intros Hk Hvs. exact (IH rest eq_refl Hk Hvs).
Qed.

(** X21.  What [createValidators] returns when it raises nothing.  The sets
    it goes over are the default ones, each with its default specifications
    first, and those the definition adds.  It returns [null] exactly when
    the specifications of every set give no function.  Otherwise it returns
    an object with exactly these sets: a set whose specifications give
    functions holds the functions, in order, and a set whose specifications
    give none holds the specifications themselves as they were written. *)
Theorem createValidators_result
  (defaultValidators : list (string * list (ValidatorSpec P)))
  (validators elementValidators : ValidatorsDef P)
  (result : option (list (string * SetEntry F P))) :
  createValidators validatorFuncs subjDescription defaultValidators
    validators elementValidators = inr result ->
  exists sets,
    specificationSets subjDescription defaultValidators validators elementValidators
    = inr sets
    /\ (forall setId specs,
          assoc setId defaultValidators = Some specs ->
          exists added, assoc setId sets = Some (specs ++ added))
    /\ (result = None
        <-> forall set, In set sets -> resolve (snd set) [] = inr [])
    /\ (forall entries,
          result = Some entries ->
          forall setId,
            match assoc setId sets with
            | Some specs =>
                exists vs,
                  resolve specs [] = inr vs
                  /\ assoc setId entries
                     = Some match vs with
                            | [] => Raw specs
                            | _ => Resolved (map snd vs)
                            end
            | None => assoc setId entries = None
            end).
Proof.
  unfold createValidators, specificationSets.
  destruct (mergeDef subjDescription "" "validators" validators defaultValidators)
    as [fault|sets1] eqn:H1; [discriminate|].
  destruct (mergeDef subjDescription "element:" "element validators" elementValidators sets1)
    as [fault|sets2] eqn:H2; [discriminate|].
  destruct (resolveSets validatorFuncs subjDescription sets2) as [fault|entries] eqn:Hr;
    [discriminate|].
  intros [= <-]. exists sets2. split; [reflexivity|]. split; [|split].
  - intros setId specs Hd.
    destruct (mergeDef_keeps _ _ _ _ _ _ _ H1 Hd) as (a1 & E1).
    destruct (mergeDef_keeps _ _ _ _ _ _ _ H2 E1) as (a2 & E2).
    exists (a1 ++ a2). rewrite E2, app_assoc. reflexivity.
  - pose proof (numValidators_sets sets2 entries Hr) as Hz.
    destruct (0 <? numValidators entries)%nat eqn:Hn.
    + apply Nat.ltb_lt in Hn. split; [discriminate|].
      intros Hall. apply Hz in Hall. lia.
    + apply Nat.ltb_ge in Hn. split; [|reflexivity].
      intros _. apply Hz. lia.
  - intros entries' He setId.
    assert (entries' = entries)
      by (destruct (0 <? numValidators entries)%nat; congruence).
    subst entries'.
    destruct (assoc setId sets2) as [specs|] eqn:Hs.
    + assert (Hin : In (setId, specs) sets2).
      { clear -Hs. induction sets2 as [|[k y] l IH]; [discriminate|].
        cbn [assoc] in Hs. destruct (String.eqb k setId) eqn:E.
        - apply String.eqb_eq in E. injection Hs as ->. left. congruence.
        - right. exact (IH Hs). }
      destruct (resolveSets_resolves sets2 entries Hr _ Hin) as (vs & Hvs).
      exists vs. split; [exact Hvs|].
      exact (resolveSets_assoc sets2 entries setId specs vs Hr Hs Hvs).
    + exact (resolveSets_none sets2 entries setId Hr Hs).
Qed.

(** X22.  The validators a definition gives as an array come after the
    default ones of the set ['*']: when [createValidators] returns sets,
    the set ['*'] holds the functions that the default specifications
    followed by those of the definition give, in that order, so that an id
    with a hyphen before it in the definition takes out a default
    validator. *)
Theorem definition_validators_follow_defaults
  (defaultValidators : list (string * list (ValidatorSpec P)))
  (custom : list (ValidatorSpec P))
  (entries : list (string * SetEntry F P)) (vs : list (string * Bound F P)) :
  createValidators validatorFuncs subjDescription defaultValidators
    (DefArray custom) DefAbsent = inr (Some entries) ->
  resolve (match assoc "*" defaultValidators with
           | Some defaults => defaults
           | None => []
           end ++ custom) [] = inr vs ->
  vs <> [] ->
  assoc "*" entries = Some (Resolved (map snd vs)).
Proof.
  unfold createValidators. cbn [mergeDef].
  destruct (resolveSets validatorFuncs subjDescription
              (addToSet ("" +:+ "*") custom defaultValidators)) as [fault|entries']
    eqn:Hr; [discriminate|].
  intros H Hvs Hne.
  assert (entries' = entries)
    by (destruct (0 <? numValidators entries')%nat; congruence).
  subst entries'.
  erewrite (resolveSets_assoc _ entries "*" _ vs Hr).
  - destruct vs; [congruence | reflexivity].
  - unfold addToSet. change ("" +:+ "*") with "*". apply assoc_assocSet_same.
  - destruct (assoc "*" defaultValidators); exact Hvs.
Qed.

End CreateValidatorsFacts.

Section MessagesFacts.

Import MessageResolver Messages.

Lemma rawLookup_setMessage (store : MessagesStore) (id id' : string)
  (def : MessageTemplates) :
  rawLookup (setMessage store id def) id'
  = if String.eqb id id' then Some def else rawLookup store id'.
Proof.
  unfold rawLookup, setMessage.
  destruct (String.eqb_spec id "*") as [->|Hid]; cbn [messagesById messagesWildcard].
  - destruct (String.eqb_spec "*" id') as [<-|Hne].
    + reflexivity.
    + destruct (String.eqb_spec id' "*"); [congruence | reflexivity].
  - destruct (String.eqb_spec id id') as [<-|Hne].
    + destruct (String.eqb_spec id "*"); [congruence|].
      cbn [assoc]. rewrite String.eqb_refl. reflexivity.
    + destruct (String.eqb_spec id' "*"); [reflexivity|].
      cbn [assoc]. destruct (String.eqb_spec id id'); [congruence | reflexivity].
Qed.

Lemma rawLookup_create_other (defs : list (string * MessageTemplates))
  (base : MessagesStore) (id : string) :
  ~ In id (map fst defs) ->
  rawLookup (createValidationErrorMessages base (Some defs)) id = rawLookup base id.
Proof.
  cbn [createValidationErrorMessages]. revert base.
  induction defs as [|[k d] defs IH]; intros base Hn; [reflexivity|].
  cbn [fold_left fst snd]. rewrite IH by (intros Hin; apply Hn; right; exact Hin).
  rewrite rawLookup_setMessage.
  destruct (String.eqb_spec k id) as [->|]; [|reflexivity].
  destruct Hn. left. reflexivity.
Qed.

Lemma assoc_app {A : Type} (k : string) (l1 l2 : list (string * A)) :
  assoc k (l1 ++ l2) = match assoc k l1 with
                       | Some x => Some x
                       | None => assoc k l2
                       end.
Proof.
  induction l1 as [|[k' x] l1 IH]; cbn [app assoc]; [reflexivity|].
  destruct (String.eqb k' k); [reflexivity | exact IH].
Qed.

Lemma assoc_filter_other (k : string) (given l : list (string * string)) :
  hasLang k given = false ->
  assoc k (List.filter (fun e => negb (hasLang (fst e) given)) l) = assoc k l.
Proof.
  intros Hk. induction l as [|[k' x] l IH]; cbn [List.filter assoc fst]; [reflexivity|].
  destruct (String.eqb_spec k' k) as [->|Hne].
  - rewrite Hk. cbn [negb assoc]. rewrite String.eqb_refl. reflexivity.
  - destruct (negb (hasLang k' given)); [|exact IH].
    cbn [assoc]. destruct (String.eqb_spec k' k); [congruence | exact IH].
Qed.

(** X23.  The messages of a subject, made from those of its context and
    the attribute [validationErrorMessages] of its definition.  A message
    id the definition does not give keeps what it had.  A message id the
    definition gives, once, has the definition's templates: when both the
    definition and the context give templates by language, a language of
    the definition has the definition's template, any other language keeps
    the template of the context, and the first declared template, the one
    taken when no preferred language has one, is the first of the
    definition.  Otherwise the definition replaces what was there. *)
Theorem messages_of_a_definition (base : MessagesStore)
  (defs : list (string * MessageTemplates)) :
  List.NoDup (map fst defs) ->
  let store := createValidationErrorMessages base (Some defs) in
  (forall id, ~ In id (map fst defs) -> rawLookup store id = rawLookup base id)
  /\ (forall id def,
        In (id, def) defs ->
        rawLookup store id = Some (mergeMessageDef (rawLookup base id) def))
  /\ (forall first others first' others',
        let merged :=
          mergeMessageDef (Some (TmplByLang first others)) (TmplByLang first' others') in
        (forall lang,
            assoc lang (templatesByLang merged)
            = match assoc lang (first' :: others') with
              | Some t => Some t
              | None => assoc lang (first :: others)
              end)
        /\ renderMessage [] merged None = snd first')
  /\ (forall existing s, mergeMessageDef existing (TmplString s) = TmplString s)
  /\ (forall s def, mergeMessageDef (Some (TmplString s)) def = def)
  /\ (forall def, mergeMessageDef None def = def).
Proof.
  intros Hnd store. split; [|split; [|split; [|split; [|split]]]].
  - intros id Hn. apply rawLookup_create_other. exact Hn.
  - unfold store. cbn [createValidationErrorMessages]. clear store. revert base.
    induction defs as [|[k d] defs IH]; intros base id def Hin; [destruct Hin|].
    cbn [map fst] in Hnd. inversion Hnd as [|? ? Hk Hnd']; subst.
    cbn [fold_left fst snd]. destruct Hin as [[= -> ->]|Hin].
    + pose proof (rawLookup_create_other defs
                    (setMessage base id (mergeMessageDef (rawLookup base id) def)) id Hk)
        as Hkeep.
      cbn [createValidationErrorMessages] in Hkeep. rewrite Hkeep.
      rewrite rawLookup_setMessage, String.eqb_refl. reflexivity.
    + rewrite (IH Hnd' _ id def Hin). rewrite rawLookup_setMessage.
      destruct (String.eqb_spec k id) as [->|]; [|reflexivity].
      destruct Hk. apply in_map_iff. exists (id, def). auto.
  - intros first others first' others' merged. split.
    + intros lang. unfold merged. cbn [mergeMessageDef templatesByLang].
      change (first' :: others' ++ List.filter
                (fun e => negb (hasLang (fst e) (first' :: others'))) (first :: others))
        with ((first' :: others') ++ List.filter
                (fun e => negb (hasLang (fst e) (first' :: others'))) (first :: others)).
      rewrite assoc_app.
      destruct (assoc lang (first' :: others')) as [t|] eqn:E; [reflexivity|].
      apply assoc_filter_other. unfold hasLang. rewrite E. reflexivity.
    + reflexivity.
  - intros existing s. destruct existing as [[|]|]; reflexivity.
  - intros s def. destruct def; reflexivity.
  - intros def. destruct def; reflexivity.
Qed.

Lemma messages_of_a_definition_witness :
  let store :=
    createValidationErrorMessages Examples.standardMessages
      (Some [("missing", TmplByLang ("fr", "Valeur manquante.") [])]) in
  rawLookup store "tooSmall" = rawLookup Examples.standardMessages "tooSmall"
  /\ rawLookup store "missing"
     = Some (mergeMessageDef (rawLookup Examples.standardMessages "missing")
               (TmplByLang ("fr", "Valeur manquante.") [])).
Proof.
  intros store.
  destruct (messages_of_a_definition Examples.standardMessages
              [("missing", TmplByLang ("fr", "Valeur manquante.") [])])
    as (Hother & Hgiven & _).
  - repeat constructor. intros [].
  - split.
    + apply Hother. intros [H|[]]. discriminate H.
    + apply Hgiven. left. reflexivity.
Defined.

(** With no preferred language, the message [missing] of the example is the
    French one the definition gave, and the English one is still there. *)
Example definition_language_comes_first :
  let store :=
    createValidationErrorMessages Examples.standardMessages
      (Some [("missing", TmplByLang ("fr", "Valeur manquante.") [])]) in
  getMessage [] store "{missing}" None = "Valeur manquante."
  /\ getMessage ["en-US"] store "{missing}" None = "Missing value."
  /\ getMessage [] Examples.standardMessages "{missing}" None = "Missing value.".
Proof. vm_compute. repeat split. Qed.

End MessagesFacts.

Section MoreFacts.

Import RecordNormalizer MessageResolver Extension Defaults Dependencies.

(** X24.  In the message of an error at a pointer that names a record
    element, the placeholder [${field}] stands for the title of that element
    and, when the title is of ASCII characters, [${Field}] for the title
    with its first letter in upper case, whatever parameters the rule gave:
    a message template that is one of the two followed by text without a
    dollar sign comes out as the title followed by that text. *)
Theorem field_placeholder (ctx : ValidationContext) (ptr : PointerArg)
  (params : option MessageParams) (rest : string) :
  pointerResolves ctx ptr = true ->
  existsChar isDollar rest = false ->
  Context.errorMessage ctx ptr ("${field}" +:+ rest) params
  = Context.getElementTitle ctx ptr +:+ rest
  /\ (isAsciiText (Context.getElementTitle ctx ptr) = true ->
      Context.errorMessage ctx ptr ("${Field}" +:+ rest) params
      = capitalize (Context.getElementTitle ctx ptr) +:+ rest).
Proof.
  intros _ Hrest. unfold Context.errorMessage, Context.getElementTitle.
  set (t := renderMessage (_messageResolver ctx) (title (Context.subjectAt ctx ptr)) None).
  set (ps := ("field", t) :: ("Field", capitalize t)
               :: match params with Some ps => ps | None => [] end).
  split.
  - unfold getMessage.
    change (isMessageId ("${field}" +:+ rest)) with false. cbn [renderMessage].
    change ("${field}" +:+ rest) with ("${" +:+ String "f" "ield" +:+ String "}" rest).
    rewrite replaceParams_placeholder by reflexivity.
    rewrite replaceParams_no_dollar by exact Hrest. reflexivity.
  - intros _. unfold getMessage.
    change (isMessageId ("${Field}" +:+ rest)) with false. cbn [renderMessage].
    change ("${Field}" +:+ rest) with ("${" +:+ String "F" "ield" +:+ String "}" rest).
    rewrite replaceParams_placeholder by reflexivity.
    rewrite replaceParams_no_dollar by exact Hrest. reflexivity.
Qed.

Lemma field_placeholder_witness :
  let ctx := initialContext Examples.library Examples.calendarType [] (activeSets None) in
  Context.errorMessage ctx (PtrString "/timeFrom") ("${field}" +:+ " is late.")
    (Some [("field", "ignored")])
  = Context.getElementTitle ctx (PtrString "/timeFrom") +:+ " is late."
  /\ Context.errorMessage ctx (PtrString "/timeFrom") ("${Field}" +:+ " is late.")
       (Some [("field", "ignored")])
     = capitalize (Context.getElementTitle ctx (PtrString "/timeFrom")) +:+ " is late.".
Proof.
  intros ctx.
  destruct (field_placeholder ctx (PtrString "/timeFrom") (Some [("field", "ignored")])
              " is late." eq_refl eq_refl) as [Hfield HField].
  split; [exact Hfield | exact (HField eq_refl)].
Defined.

(** X25.  [addDepsError] reports one dependency error for a pointer and no
    more: at a pointer with none so far it reports the error of the given
    type at the current pointer, and a call that follows at the same
    pointer, of whatever type, property and test value, changes nothing. *)
Theorem one_dependency_error_per_pointer (type propName : string)
  (testValue : TestValue) (dc : DepsContext) :
  (toString (Context.currentPointer (baseContext dc)) ∉ depsErrors dc ->
   baseContext (addDepsError type propName testValue dc)
   = Context.addError (baseContext dc) (depsMessage type testValue)
       (Some (depsParams propName testValue)))
  /\ (forall type' propName' testValue',
        addDepsError type' propName' testValue' (addDepsError type propName testValue dc)
        = addDepsError type propName testValue dc).
Proof.
  split.
  - intros Hn. unfold addDepsError. rewrite bool_decide_eq_false_2 by exact Hn.
    reflexivity.
  - intros type' propName' testValue'. unfold addDepsError at 2 3.
    destruct (bool_decide (toString (Context.currentPointer (baseContext dc))
                             ∈ depsErrors dc)) eqn:E.
    + unfold addDepsError. rewrite E. reflexivity.
    + unfold addDepsError. cbn [baseContext depsErrors].
      rewrite bool_decide_eq_true_2; [reflexivity|].
      change (Context.currentPointer
                (Context.addError (baseContext dc) (depsMessage type testValue)
                   (Some (depsParams propName testValue))))
        with (Context.currentPointer (baseContext dc)).
      set_solver.
Qed.

Lemma one_dependency_error_per_pointer_witness :
  let dc :=
    mkDepsContext
      (initialContext Examples.library Examples.calendarType [] (activeSets None)) ∅ in
  baseContext (addDepsError "missingWhen" "timeFrom" NoTestValue dc)
  = Context.addError (baseContext dc) "{missingWhen}"
      (Some [("prop", "timeFrom"); ("value", "undefined")]).
Proof.
  intros dc.
  apply (proj1 (one_dependency_error_per_pointer "missingWhen" "timeFrom" NoTestValue dc)).
  set_solver.
Defined.

Lemma standardValidators_known (id : string) :
  In id standardValidatorIds -> standardValidators id = Some id.
Proof.
  intros Hin. unfold standardValidators.
  replace (existsb (String.eqb id) standardValidatorIds) with true; [reflexivity|].
  symmetry. apply existsb_exists. exists id. split; [exact Hin | apply String.eqb_refl].
Qed.

(** X26.  The default validators of a property are all standard ones.
    Whatever the descriptor says (optional or not, scalar, array or map,
    any scalar value type, duplicates allowed or not), the defaults are the
    two sets ['*'] and ['element:*'], no specification in them raises with
    the standard validators, and [createValidators] on them alone raises
    nothing. *)
Theorem default_validators_are_standard (subjDescription : string)
  (optional : bool) (structure : Structure) (scalarValueType : string)
  (allowDuplicates : bool) (refTarget : string) :
  let defaults :=
    defaultValidators optional structure scalarValueType allowDuplicates refTarget in
  map fst defaults = ["*"; "element:*"]
  /\ Forall (fun set => existsb (raisesOn standardValidators) (snd set) = false) defaults
  /\ exists result,
       createValidators standardValidators subjDescription defaults DefAbsent DefAbsent
       = inr result.
Proof.
  intros defaults. unfold defaults, defaultValidators, scalarTypeValidators.
  destruct structure, optional, allowDuplicates;
    destruct (String.eqb scalarValueType "string");
    try destruct (String.eqb scalarValueType "number");
    try destruct (String.eqb scalarValueType "boolean");
    try destruct (String.eqb scalarValueType "datetime");
    try destruct (String.eqb scalarValueType "ref");
    try destruct (String.eqb scalarValueType "object");
    (split; [reflexivity|]); (split; [repeat constructor|]);
    eexists; vm_compute; reflexivity.
Qed.

End MoreFacts.

Section CreateValidatorsExamples.

Import RecordNormalizer Extension Defaults.

Lemma validator_removal_witness :
  resolveSpecs (P := string) standardValidators "property x"
    ([SpecId "required"; SpecId "string"; SpecId "trim"]
       ++ SpecId ("-" +:+ "required") :: [SpecId "lowercase"]) []
  = resolveSpecs standardValidators "property x" [SpecId "lowercase"]
      (List.filter (fun v => negb (String.eqb (fst v) "required"))
         [("required", ("required", None)); ("string", ("string", None));
          ("trim", ("trim", None))]).
Proof.
  apply (proj1 (validator_removal (P := string) standardValidators "property x"
                  [SpecId "required"; SpecId "string"; SpecId "trim"]
                  [("required", ("required", None)); ("string", ("string", None));
                   ("trim", ("trim", None))] eq_refl)).
Defined.

Lemma createValidators_result_witness :
  let defaults : list (string * list (ValidatorSpec string)) :=
    defaultValidators true ScalarProp "number" false "" in
  let def : ValidatorsDef string :=
    DefObject [("*", Some [SpecId "-number"]); ("create", Some [SpecId "required"])] in
  let result : option (list (string * SetEntry string string)) :=
    Some [("*", Raw [SpecId "number"; SpecId "-number"]);
          ("element:*", Raw []);
          ("create", Resolved [("required", None)])] in
  exists sets,
    specificationSets "property x" defaults def DefAbsent = inr sets
    /\ (forall setId specs,
          assoc setId defaults = Some specs ->
          exists added, assoc setId sets = Some (specs ++ added))
    /\ (result = None
        <-> forall set,
              In set sets ->
              resolveSpecs standardValidators "property x" (snd set) [] = inr [])
    /\ (forall entries,
          result = Some entries ->
          forall setId,
            match assoc setId sets with
            | Some specs =>
                exists vs,
                  resolveSpecs standardValidators "property x" specs [] = inr vs
                  /\ assoc setId entries
                     = Some match vs with
                            | [] => Raw specs
                            | _ => Resolved (map snd vs)
                            end
            | None => assoc setId entries = None
            end).
Proof.
  intros defaults def result.
  exact (createValidators_result standardValidators "property x" defaults def DefAbsent
           result eq_refl).
Defined.

Example set_left_with_specifications :
  createValidators (P := string) standardValidators "property x"
    (defaultValidators true ScalarProp "number" false "")
    (DefObject [("*", Some [SpecId "-number"]); ("create", Some [SpecId "required"])])
    DefAbsent
  = inr (Some [("*", Raw [SpecId "number"; SpecId "-number"]);
               ("element:*", Raw []);
               ("create", Resolved [("required", None)])]).
Proof. reflexivity. Qed.

Lemma definition_validators_follow_defaults_witness :
  assoc "*"
    [("*", Resolved (P := string)
             [("string", None); ("trim", None); ("lowercase", None)]);
     ("element:*", Raw [])]
  = Some (Resolved (map snd [("string", ("string", None)); ("trim", ("trim", None));
                             ("lowercase", ("lowercase", None))])).
Proof.
  apply (definition_validators_follow_defaults (P := string) standardValidators
           "property x" (defaultValidators false ScalarProp "string" false "")
           [SpecId "-required"; SpecId "lowercase"]).
  - reflexivity.
  - reflexivity.
  - discriminate.
Defined.

End CreateValidatorsExamples.

Section ActiveSetsOfAList.

Import RecordNormalizer.

(** X27.  The validation sets of a call.  When the caller's list is names
    of ASCII characters with commas between them, each name is active with
    the white space around it taken off, and with them the set ['*'];
    nothing else is active. *)
Theorem active_sets_of_a_list (name : string) (rest : list string) :
  Forall (fun n => isAsciiText n = true) (name :: rest) ->
  Forall (fun n => existsChar isComma n = false) (name :: rest) ->
  joinCommas (name :: rest) <> EmptyString ->
  activeSets (Some (joinCommas (name :: rest)))
  = list_to_set (map trim (name :: rest) ++ ["*"]).
Proof.
  intros _. apply activeSets_join.
Qed.

Lemma active_sets_of_a_list_witness :
  activeSets (Some (joinCommas [" create "; "update"]))
  = list_to_set (map trim [" create "; "update"] ++ ["*"]).
Proof.
  apply (active_sets_of_a_list " create " ["update"]).
  - repeat constructor.
  - repeat constructor.
  - discriminate.
Defined.

End ActiveSetsOfAList.

Section DefaultChainsFacts.

Import RecordNormalizer StandardRules Extension Defaults DefaultChains.

Context `{HostOps}.

(** X28.  The default validators on a property that has no value.  For a
    property whose value type is string, number, boolean or object, the
    validators [createValidators] makes of the defaults alone report, on
    [undefined] and on [null], ['{missing}'] once when the property is not
    optional and nothing when it is, and return the value.  On an element
    of an array or a map that is [undefined] or [null] the default element
    validators report ['{missing}'] only where the elements are objects:
    such an element of strings, numbers or booleans is not reported. *)
Theorem default_chain_on_absent_value (optional : bool) (structure : Structure)
  (scalarValueType : string) (allowDuplicates : bool) (refTarget : value)
  (subjDescription : string) (v : value) (st : State)
  (pd : PropertyDescriptor unit) :
  In scalarValueType ["string"; "number"; "boolean"; "object"] ->
  isNullish v = true ->
  Context.currentPropDesc (ctxOf st) = Some pd ->
  exists entries funcs,
    createValidators standardDefs subjDescription
      (defaultValidators optional structure scalarValueType allowDuplicates refTarget)
      DefAbsent DefAbsent = inr (Some entries)
    /\ assoc "*" entries = Some (Resolved funcs)
    /\ (let result := runChain PropertyChain (map bound funcs) v st in
        fst result = v
        /\ ctxOf (snd result)
           = if optional then ctxOf st
             else Context.addError (ctxOf st) "{missing}" None)
    /\ match assoc "element:*" entries with
       | Some (Resolved elementFuncs) =>
           let result := runChain ElementChain (map bound elementFuncs) v st in
           fst result = v
           /\ ctxOf (snd result)
              = if String.eqb scalarValueType "object"
                then Context.addError (ctxOf st) "{missing}" None
                else ctxOf st
       | _ => structure = ScalarProp
       end.
Proof.
  intros Hty Hv Hpd.
  cbn [In] in Hty.
  destruct Hty as [<-|[<-|[<-|[<-|[]]]]];
    destruct optional, structure, allowDuplicates;
    (eexists; eexists; split; [reflexivity|]; split; [reflexivity|]);
    destruct v; try discriminate Hv;
    cbn; unfold Standard.isEmpty; cbn; rewrite ?Hpd; cbn;
    repeat split; reflexivity.
Qed.

End DefaultChainsFacts.

Section DefaultChainsExamples.

Import RecordNormalizer.

Lemma default_chain_on_absent_value_witness :
  let st := descendSt "timeTo" (VObject 1)
              (mkState Examples.calendarStore
                 (initialContext Examples.library Examples.calendarType []
                    (activeSets None)) []) in
  exists entries funcs,
    Extension.createValidators (DefaultChains.standardDefs (H := Examples.hostOps))
      "property tags"
      (Defaults.defaultValidators false ArrayProp "string" false VUndefined)
      Extension.DefAbsent Extension.DefAbsent = inr (Some entries)
    /\ assoc "*" entries = Some (Extension.Resolved funcs)
    /\ (let result := runChain PropertyChain (map DefaultChains.bound funcs) VNull st in
        fst result = VNull
        /\ ctxOf (snd result) = Context.addError (ctxOf st) "{missing}" None)
    /\ match assoc "element:*" entries with
       | Some (Extension.Resolved elementFuncs) =>
           let result :=
             runChain ElementChain (map DefaultChains.bound elementFuncs) VNull st in
           fst result = VNull /\ ctxOf (snd result) = ctxOf st
       | _ => ArrayProp = ScalarProp
       end.
Proof.
  intros st.
  exact (default_chain_on_absent_value (H := Examples.hostOps) false ArrayProp "string"
           false VUndefined "property tags" VNull st
           (forgetProperty Examples.timeToProp) (or_introl eq_refl) eq_refl eq_refl).
Defined.

End DefaultChainsExamples.
